(** * Separable filtering image rescaler (resampler.cpp): a shallow embedding

    The development follows the source file top to bottom: machine integers
    and [posmod], the arithmetic of [Resample_Real], the filter kernels and
    the filter table, [reflect] and [make_clist], the scan-line pool and the
    streaming engine ([put_line], [get_line], [restart], the constructor).
    The theorems come after all definitions. *)

From Stdlib Require Import ZArith List Bool Lia String Ring.
From Stdlib Require Import QArith Qcanon Qround.
From Stdlib Require Import Floats.SpecFloat.
From stdpp Require Import base option list.

Local Open Scope Z_scope.

(** ** Machine integers

    [int] is a 32-bit two's complement integer.  Signed overflow is undefined
    in C++; the model writes out the wrap-around that the usual targets
    perform, so that every [int] expression of the source has a value. *)

Module Int.

Definition min_int : Z := - 2 ^ 31.
Definition max_int : Z := 2 ^ 31 - 1.

Definition in_range (z : Z) : Prop := min_int <= z <= max_int.

Definition wrap (z : Z) : Z := (z + 2 ^ 31) mod 2 ^ 32 - 2 ^ 31.

Definition neg (a : Z) : Z := wrap (- a).
Definition add (a b : Z) : Z := wrap (a + b).
Definition sub (a b : Z) : Z := wrap (a - b).
Definition mul (a b : Z) : Z := wrap (a * b).
(* C++ division and remainder truncate toward zero. *)
Definition div (a b : Z) : Z := wrap (Z.quot a b).
Definition rem (a b : Z) : Z := Z.rem a b.

(* Conversion to [unsigned short]. *)
Definition to_ushort (z : Z) : Z := z mod 2 ^ 16.

End Int.

(* (x mod y) with special handling for negative x values. *)
Definition posmod (x y : Z) : Z :=
  if x >=? 0 then Int.rem x y
  else
    let m := Int.rem (Int.neg x) y in
    let m := if negb (m =? 0) then Int.sub y m else m in
    m.

(** ** The arithmetic of [Resample_Real]

    [Resample_Real], [Sample] (the same type) and the literal conversion [RR]
    are declared in resampler.h.  The operations the source applies to them
    are collected in a class, so that the same definitions run on IEEE
    floating point numbers and on exact rationals. *)

Class Real_Ops (R : Type) : Type := {
  RR : Q -> R;                      (* RR(value): a literal as Resample_Real *)
  of_int : Z -> R;                  (* (Resample_Real)i *)
  r_add : R -> R -> R;
  r_sub : R -> R -> R;
  r_mul : R -> R -> R;
  r_div : R -> R -> R;
  r_neg : R -> R;
  r_ltb : R -> R -> bool;           (* a < b *)
  r_leb : R -> R -> bool;           (* a <= b *)
  r_eqb : R -> R -> bool;           (* a == b *)
  r_floor : R -> R;                 (* std::floor *)
  r_ceil : R -> R;                  (* std::ceil *)
  cast_to_int : R -> Z;             (* (int)i, truncation *)
  cast_to_int_range : forall x, Int.in_range (cast_to_int x)
}.

(* The functions of <cmath> used by the windowed kernels. *)
Class Libm (R : Type) : Type := {
  r_sin : R -> R;
  r_cos : R -> R;
  r_exp : R -> R;
  r_log : R -> R;
  r_sqrt : R -> R;
  r_fabs : R -> R
}.

Declare Scope real_scope.
Delimit Scope real_scope with real.
Infix "+" := r_add : real_scope.
Infix "-" := r_sub : real_scope.
Infix "*" := r_mul : real_scope.
Infix "/" := r_div : real_scope.
Notation "- x" := (r_neg x) : real_scope.
Infix "<?" := r_ltb : real_scope.
Infix "<=?" := r_leb : real_scope.
Infix "=?" := r_eqb : real_scope.

(* a > b and a != b, as the source writes them *)
Definition r_gtb `{Real_Ops R} (a b : R) : bool := r_ltb b a.
Definition r_neb `{Real_Ops R} (a b : R) : bool := negb (r_eqb a b).

Inductive Boundary_Op : Type :=
  | BOUNDARY_WRAP
  | BOUNDARY_REFLECT
  | BOUNDARY_CLAMP.

Inductive Status : Type :=
  | STATUS_OKAY
  | STATUS_OUT_OF_MEMORY
  | STATUS_BAD_FILTER_NAME
  | STATUS_SCAN_BUFFER_FULL.

Section Kernels.

Context {R : Type} `{Real_Ops R}.

Local Open Scope real_scope.

Definition BOX_FILTER_SUPPORT : R := RR 0.5.

Definition box_filter (t : R) : R :=
  if (RR (-0.5) <=? t) && (t <? RR 0.5) then RR 1.0 else RR 0.0.

Definition TENT_FILTER_SUPPORT : R := RR 1.0.

Definition tent_filter (t : R) : R :=
  let t := if t <? RR 0.0 then - t else t in
  if t <? RR 1.0 then RR 1.0 - t else RR 0.0.

Definition BELL_SUPPORT : R := RR 1.5.

Definition bell_filter (t : R) : R :=
  let t := if t <? RR 0.0 then - t else t in
  if t <? RR 0.5 then RR 0.75 - (t * t)
  else if t <? RR 1.5 then
    let t := t - RR 1.5 in
    RR 0.5 * (t * t)
  else RR 0.0.

Definition B_SPLINE_SUPPORT : R := RR 2.0.

Definition B_spline_filter (t : R) : R :=
  let t := if t <? RR 0.0 then - t else t in
  if t <? RR 1.0 then
    let tt := t * t in
    ((RR 0.5 * tt * t) - tt + RR (2 # 3))
  else if t <? RR 2.0 then
    let t := RR 2.0 - t in
    RR (1 # 6) * (t * t * t)
  else RR 0.0.

(* Dodgson, N., "Quadratic Interpolation for Image Resampling" *)
Definition QUADRATIC_SUPPORT : R := RR 1.5.

Definition quadratic (t R0 : R) : R :=
  let t := if t <? RR 0.0 then - t else t in
  if t <? QUADRATIC_SUPPORT then
    let tt := t * t in
    if t <=? RR 0.5 then (RR (-2.0) * R0) * tt + RR 0.5 * (R0 + RR 1.0)
    else (R0 * tt) + (RR (-2.0) * R0 - RR 0.5) * t + RR (3 # 4) * (R0 + RR 1.0)
  else RR 0.0.

Definition quadratic_interp_filter (t : R) : R := quadratic t (RR 1.0).
Definition quadratic_approx_filter (t : R) : R := quadratic t (RR 0.5).
Definition quadratic_mix_filter (t : R) : R := quadratic t (RR 0.8).

(* Mitchell, D. and A. Netravali, "Reconstruction Filters in Computer
   Graphics."  Note that tt is computed before t is made positive. *)
Definition mitchell (t B C : R) : R :=
  let tt := t * t in
  let t := if t <? RR 0.0 then - t else t in
  if t <? RR 1.0 then
    let t := ((RR 12.0 - RR 9.0 * B - RR 6.0 * C) * (t * tt))
             + ((RR (-18.0) + RR 12.0 * B + RR 6.0 * C) * tt)
             + (RR 6.0 - RR 2.0 * B) in
    t / RR 6.0
  else if t <? RR 2.0 then
    let t := ((RR (-1.0) * B - RR 6.0 * C) * (t * tt))
             + ((RR 6.0 * B + RR 30.0 * C) * tt)
             + ((RR (-12.0) * B - RR 48.0 * C) * t)
             + (RR 8.0 * B + RR 24.0 * C) in
    t / RR 6.0
  else RR 0.0.

Definition MITCHELL_SUPPORT : R := RR 2.0.
Definition mitchell_filter (t : R) : R := mitchell t (RR (1 # 3)) (RR (1 # 3)).

Definition CATMULL_ROM_SUPPORT : R := RR 2.0.
Definition catmull_rom_filter (t : R) : R := mitchell t (RR 0.0) (RR 0.5).

Context `{Libm R}.

(* #define M_PI 3.14159265358979323846, a double: the rational below is the
   value of that double, so that double expressions over it stay exact. *)
Definition M_PI : Q := 7074237752028440 # 2251799813685248.

Definition sinc (x : R) : R :=
  let x := x * RR M_PI in
  if (x <? RR 0.01) && (r_gtb x (RR (-0.01))) then
    RR 1.0 + x * x * (RR (- (1 # 6)) + x * x * RR (1 # 120))
  else r_sin x / x.

Definition clean (t : R) : R :=
  let EPSILON := RR 0.0000125 in
  if r_fabs t <? EPSILON then RR 0.0 else t.

Definition blackman_exact_window (x : R) : R :=
  RR 0.42659071 + RR 0.49656062 * r_cos (RR M_PI * x)
  + RR 0.07684867 * r_cos (RR (2 * M_PI) * x).

Definition BLACKMAN_SUPPORT : R := RR 3.0.

Definition blackman_filter (t : R) : R :=
  let t := if t <? RR 0.0 then - t else t in
  if t <? RR 3.0 then clean (sinc t * blackman_exact_window (t / RR 3.0))
  else RR 0.0.

Definition GAUSSIAN_SUPPORT : R := RR 1.25.

Definition gaussian_filter (t : R) : R :=
  let t := if t <? of_int 0 then - t else t in
  if t <? GAUSSIAN_SUPPORT then
    clean (r_exp (RR (-2.0) * t * t) * r_sqrt (RR (2 / M_PI))
           * blackman_exact_window (t / GAUSSIAN_SUPPORT))
  else RR 0.0.

(* Windowed sinc *)
Definition lanczos (N t : R) : R :=
  let t := if t <? RR 0.0 then - t else t in
  if t <? N then clean (sinc t * sinc (t / N)) else RR 0.0.

Definition LANCZOS3_SUPPORT : R := RR 3.0.
Definition lanczos3_filter (t : R) : R := lanczos (RR 3.0) t.
Definition LANCZOS4_SUPPORT : R := RR 4.0.
Definition lanczos4_filter (t : R) : R := lanczos (RR 4.0) t.
Definition LANCZOS6_SUPPORT : R := RR 6.0.
Definition lanczos6_filter (t : R) : R := lanczos (RR 6.0) t.
Definition LANCZOS12_SUPPORT : R := RR 12.0.
Definition lanczos12_filter (t : R) : R := lanczos (RR 12.0) t.

(* The while loop of bessel0 has no iteration bound in the source; the model
   runs it for at most [fuel] rounds and then returns the sum so far. *)
Fixpoint bessel0_loop (fuel : nat) (xh sum pow : R) (k : Z) (ds : R) : R :=
  match fuel with
  | O => sum
  | S fuel =>
      if r_gtb ds (sum * RR 1e-16) then
        let k := Int.add k 1 in
        let pow := pow * (xh / of_int k) in
        let ds := pow * pow in
        let sum := sum + ds in
        bessel0_loop fuel xh sum pow k ds
      else sum
  end.

Definition bessel0_fuel : nat := 4096.

Definition bessel0 (x : R) : R :=
  let xh := RR 0.5 * x in
  bessel0_loop bessel0_fuel xh (RR 1.0) (RR 1.0) 0 (RR 1.0).

Definition kaiser (alpha half_width x : R) : R :=
  let ratio := x / half_width in
  bessel0 (alpha * r_sqrt (of_int 1 - ratio * ratio)) / bessel0 alpha.

Definition KAISER_SUPPORT : R := RR 3.

Definition kaiser_filter (t : R) : R :=
  let t := if t <? RR 0.0 then - t else t in
  if t <? KAISER_SUPPORT then
    let att := RR 40.0 in
    let alpha :=
      r_exp (r_log (RR 0.58417 * (att - RR 20.96)) * RR 0.4)
      + RR 0.07886 * (att - RR 20.96) in
    clean (sinc t * kaiser alpha KAISER_SUPPORT t)
  else RR 0.0.

(* g_filters[] is a list of all the available filter functions. *)
Record Filter_Entry : Type := mkFilter {
  name : string;
  func : R -> R;
  support : R
}.

Definition g_filters : list Filter_Entry :=
  [ mkFilter "box" box_filter BOX_FILTER_SUPPORT;
    mkFilter "tent" tent_filter TENT_FILTER_SUPPORT;
    mkFilter "bell" bell_filter BELL_SUPPORT;
    mkFilter "b-spline" B_spline_filter B_SPLINE_SUPPORT;
    mkFilter "mitchell" mitchell_filter MITCHELL_SUPPORT;
    mkFilter "lanczos3" lanczos3_filter LANCZOS3_SUPPORT;
    mkFilter "blackman" blackman_filter BLACKMAN_SUPPORT;
    mkFilter "lanczos4" lanczos4_filter LANCZOS4_SUPPORT;
    mkFilter "lanczos6" lanczos6_filter LANCZOS6_SUPPORT;
    mkFilter "lanczos12" lanczos12_filter LANCZOS12_SUPPORT;
    mkFilter "kaiser" kaiser_filter KAISER_SUPPORT;
    mkFilter "gaussian" gaussian_filter GAUSSIAN_SUPPORT;
    mkFilter "catmullrom" catmull_rom_filter CATMULL_ROM_SUPPORT;
    mkFilter "quadratic_interp" quadratic_interp_filter QUADRATIC_SUPPORT;
    mkFilter "quadratic_approx" quadratic_approx_filter QUADRATIC_SUPPORT;
    mkFilter "quadratic_mix" quadratic_mix_filter QUADRATIC_SUPPORT ].

Definition NUM_FILTERS : Z := Z.of_nat (length g_filters).

(* The lookup loop of the constructor: the first entry whose name compares
   equal under strcmp. *)
Definition find_filter (Pfilter_name : string) : option Filter_Entry :=
  List.find (fun f => String.eqb Pfilter_name (name f)) g_filters.

End Kernels.

Arguments Filter_Entry R : clear implicits.

(** ** Boundary resolution *)

(* Ensure that the contributing source sample is within bounds.  If not,
   reflect, clamp, or wrap. *)
Definition reflect (j src_x : Z) (boundary_op : Boundary_Op) : Z :=
  if j <? 0 then
    match boundary_op with
    | BOUNDARY_REFLECT =>
        let n := Int.neg j in
        if n >=? src_x then Int.sub src_x 1 else n
    | BOUNDARY_WRAP => posmod j src_x
    | BOUNDARY_CLAMP => 0
    end
  else if j >=? src_x then
    match boundary_op with
    | BOUNDARY_REFLECT =>
        let n := Int.add (Int.sub src_x j) (Int.sub src_x 1) in
        if n <? 0 then 0 else n
    | BOUNDARY_WRAP => posmod j src_x
    | BOUNDARY_CLAMP => Int.sub src_x 1
    end
  else j.

(** ** Contributor lists *)

Record Contrib (R : Type) : Type := mkContrib {
  weight : R;
  pixel : Z          (* unsigned short *)
}.
Arguments mkContrib {R}.
Arguments weight {R}.
Arguments pixel {R}.

(* A Contrib_List is the pair of a count n and a pointer p to n entries:
   the list of those entries. *)
Abbreviation Contrib_List R := (list (Contrib R)) (only parsing).

Record Contrib_Bounds (R : Type) : Type := mkBounds {
  center : R;  (* the center of the range in DISCRETE coordinates *)
  left : Z;
  right : Z
}.
Arguments mkBounds {R}.
Arguments center {R}.
Arguments left {R}.
Arguments right {R}.

Section Make_clist.

Context {R : Type} `{Real_Ops R}.

Local Open Scope real_scope.

Variables (src_x dst_x : Z) (boundary_op : Boundary_Op).
Variables (Pfilter : R -> R) (filter_support filter_scale src_ofs : R).

Definition oo_filter_scale : R := RR 1.0 / filter_scale.
Definition NUDGE : R := RR 0.5.
Definition xscale : R := of_int dst_x / of_int src_x.

(* The two branches of make_clist (xscale < 1: minification, otherwise
   magnification) differ in the half width and in the kernel argument. *)
Definition minify : bool := xscale <? RR 1.0.

Definition half_width : R :=
  if minify then (filter_support / xscale) * filter_scale
  else filter_support * filter_scale.

Definition kernel_arg (center : R) (j : Z) : R :=
  if minify then (center - of_int j) * xscale * oo_filter_scale
  else (center - of_int j) * oo_filter_scale.

(* First loop: the range of source samples for destination sample i. *)
Definition contrib_bounds (i : Z) : Contrib_Bounds R :=
  let center := (of_int i + NUDGE) / xscale in
  let center := center - NUDGE in
  let center := center + src_ofs in
  mkBounds center
    (cast_to_int (r_floor (center - half_width)))
    (cast_to_int (r_ceil (center + half_width))).

Definition count_bounds (n : Z) (b : Contrib_Bounds R) : Z :=
  Int.add n (Int.add (Int.sub (right b) (left b)) 1).

(* State of the second inner loop: Pcontrib[i] (n is the length of the
   entries), total_weight, max_w and max_k. *)
Record Fill : Type := mkFill {
  entries : Contrib_List R;
  total_weight : R;
  max_w : R;
  max_k : Z
}.

Definition raw_weight_sum (center : R) (js : list Z) : R :=
  fold_left (fun tw j => tw + Pfilter (kernel_arg center j)) js (of_int 0).

Definition fill_step (center norm : R) (st : Fill) (j : Z) : Fill :=
  let weight := Pfilter (kernel_arg center j) * norm in
  if weight =? RR 0.0 then st
  else
    let n := reflect j src_x boundary_op in
    let k := Z.of_nat (length (entries st)) in
    let entries' := entries st ++ [mkContrib weight (Int.to_ushort n)] in
    let total := total_weight st + weight in
    if r_gtb weight (max_w st) then mkFill entries' total weight k
    else mkFill entries' total (max_w st) (max_k st).

Definition add_weight (d : R) (c : Contrib R) : Contrib R :=
  mkContrib (weight c + d) (pixel c).

(* Second loop body: the contributor list of one destination sample, or
   None where the source returns NULL. *)
Definition make_contrib (b : Contrib_Bounds R) : option (Contrib_List R) :=
  let js := seqZ (left b) (right b - left b + 1) in
  let norm := RR 1.0 / raw_weight_sum (center b) js in
  let st := fold_left (fill_step (center b) norm) js
              (mkFill [] (of_int 0) (RR (-100000000000000000000)) (-1)) in
  if ((max_k st =? -1) || (Z.of_nat (length (entries st)) =? 0))%Z then None
  else if r_neb (total_weight st) (RR 1.0) then
    Some (alter (add_weight (RR 1.0 - total_weight st))
                (Z.to_nat (max_k st)) (entries st))
  else Some (entries st).

(* The weight that the second loop computes for source sample j. *)
Definition contrib_weight (b : Contrib_Bounds R) (j : Z) : R :=
  let js := seqZ (left b) (right b - left b + 1) in
  Pfilter (kernel_arg (center b) j) * (RR 1.0 / raw_weight_sum (center b) js).

(* [heap_ok] tells whether the calls of calloc succeed. *)
Definition make_clist (heap_ok : bool) : option (list (Contrib_List R)) :=
  if negb heap_ok then None
  else
    let bounds := map contrib_bounds (seqZ 0 dst_x) in
    let n := fold_left count_bounds bounds 0%Z in
    if (n =? 0)%Z then None
    else mapM make_contrib bounds.

End Make_clist.

(* The sum of the weights of a contributor list, added up from the first
   entry to the last as total_weight is. *)
Definition sum_weights `{Real_Ops R} (l : Contrib_List R) : R :=
  fold_left (fun t c => r_add t (weight c)) l (of_int 0).

(* A stored contributor of a list whose footprint is left..right: its
   source index is reflect(j, src_x, op) for a source sample j of the
   footprint, and that value lies in [0, src_x). *)
Definition resolved {R : Type} (src_x : Z) (op : Boundary_Op) (left right : Z)
  (c : Contrib R) : Prop :=
  exists j, left <= j <= right
    /\ 0 <= reflect j src_x op < src_x
    /\ pixel c = reflect j src_x op.

(** The laws of exact arithmetic: the operations form a ring with zero
    [of_int 0] and one [RR 1.0], [==] is equality and [<] is irreflexive. *)
Class Exact_Real (R : Type) `{Real_Ops R} : Prop := {
  exact_ring :
    ring_theory (of_int 0) (RR 1.0) r_add r_mul r_sub r_neg (@eq R);
  exact_eqb : forall a b : R, r_eqb a b = true <-> a = b;
  exact_ltb_irrefl : forall a : R, r_ltb a a = false;
  exact_zero : RR 0.0 = of_int 0
}.

(** ** The streaming engine

    [MAX_SCAN_BUF_SIZE] and [RESAMPLER_DEFAULT_FILTER] are constants of
    resampler.h; they are parameters here.  A pointer is an [option]: [None]
    is NULL.  An array is the list of its elements.  A function of the engine
    returns [None] where the source fails an assertion or reads or writes
    outside an array or through a null pointer. *)

Section Engine.

Context {R : Type} `{Real_Ops R} `{Libm R}.

Variable MAX_SCAN_BUF_SIZE : Z.
Variable RESAMPLER_DEFAULT_FILTER : string.

Local Open Scope real_scope.

(* scan_buf_y[i] is the source line held by slot i, or -1; scan_buf_l[i] is
   the buffer of slot i.  Both arrays have MAX_SCAN_BUF_SIZE elements, and
   the loops over 0 <= i < MAX_SCAN_BUF_SIZE are traversals of the lists. *)
Record Scan_Buf : Type := mkScan_Buf {
  scan_buf_y : list Z;
  scan_buf_l : list (option (list R))
}.

Record Resampler : Type := mkResampler {
  m_resample_src_x : Z;
  m_resample_src_y : Z;
  m_resample_dst_x : Z;
  m_resample_dst_y : Z;
  m_boundary_op : Boundary_Op;
  m_lo : R;
  m_hi : R;
  m_delay_x_resample : bool;
  m_intermediate_x : Z;
  m_Pdst_buf : option (list R);
  m_Ptmp_buf : option (list R);
  m_clist_x_forced : bool;
  m_Pclist_x : option (list (Contrib_List R));
  m_clist_y_forced : bool;
  m_Pclist_y : option (list (Contrib_List R));
  m_Psrc_y_count : option (list Z);
  m_Psrc_y_flag : option (list bool);
  m_Pscan_buf : option Scan_Buf;
  m_cur_src_y : Z;
  m_cur_dst_y : Z;
  m_status : Status
}.

(* Assignments to single members. *)
Definition set_delay_x_resample (v : bool) (e : Resampler) : Resampler :=
  mkResampler (m_resample_src_x e) (m_resample_src_y e) (m_resample_dst_x e)
    (m_resample_dst_y e) (m_boundary_op e) (m_lo e) (m_hi e) v
    (m_intermediate_x e) (m_Pdst_buf e) (m_Ptmp_buf e) (m_clist_x_forced e)
    (m_Pclist_x e) (m_clist_y_forced e) (m_Pclist_y e) (m_Psrc_y_count e)
    (m_Psrc_y_flag e) (m_Pscan_buf e) (m_cur_src_y e) (m_cur_dst_y e)
    (m_status e).

Definition set_intermediate_x (v : Z) (e : Resampler) : Resampler :=
  mkResampler (m_resample_src_x e) (m_resample_src_y e) (m_resample_dst_x e)
    (m_resample_dst_y e) (m_boundary_op e) (m_lo e) (m_hi e)
    (m_delay_x_resample e) v (m_Pdst_buf e) (m_Ptmp_buf e)
    (m_clist_x_forced e) (m_Pclist_x e) (m_clist_y_forced e) (m_Pclist_y e)
    (m_Psrc_y_count e) (m_Psrc_y_flag e) (m_Pscan_buf e) (m_cur_src_y e)
    (m_cur_dst_y e) (m_status e).

Definition set_Pdst_buf (v : option (list R)) (e : Resampler) : Resampler :=
  mkResampler (m_resample_src_x e) (m_resample_src_y e) (m_resample_dst_x e)
    (m_resample_dst_y e) (m_boundary_op e) (m_lo e) (m_hi e)
    (m_delay_x_resample e) (m_intermediate_x e) v (m_Ptmp_buf e)
    (m_clist_x_forced e) (m_Pclist_x e) (m_clist_y_forced e) (m_Pclist_y e)
    (m_Psrc_y_count e) (m_Psrc_y_flag e) (m_Pscan_buf e) (m_cur_src_y e)
    (m_cur_dst_y e) (m_status e).

Definition set_Ptmp_buf (v : option (list R)) (e : Resampler) : Resampler :=
  mkResampler (m_resample_src_x e) (m_resample_src_y e) (m_resample_dst_x e)
    (m_resample_dst_y e) (m_boundary_op e) (m_lo e) (m_hi e)
    (m_delay_x_resample e) (m_intermediate_x e) (m_Pdst_buf e) v
    (m_clist_x_forced e) (m_Pclist_x e) (m_clist_y_forced e) (m_Pclist_y e)
    (m_Psrc_y_count e) (m_Psrc_y_flag e) (m_Pscan_buf e) (m_cur_src_y e)
    (m_cur_dst_y e) (m_status e).

Definition set_clist_x_forced (v : bool) (e : Resampler) : Resampler :=
  mkResampler (m_resample_src_x e) (m_resample_src_y e) (m_resample_dst_x e)
    (m_resample_dst_y e) (m_boundary_op e) (m_lo e) (m_hi e)
    (m_delay_x_resample e) (m_intermediate_x e) (m_Pdst_buf e) (m_Ptmp_buf e)
    v (m_Pclist_x e) (m_clist_y_forced e) (m_Pclist_y e) (m_Psrc_y_count e)
    (m_Psrc_y_flag e) (m_Pscan_buf e) (m_cur_src_y e) (m_cur_dst_y e)
    (m_status e).

Definition set_Pclist_x (v : option (list (Contrib_List R))) (e : Resampler) : Resampler :=
  mkResampler (m_resample_src_x e) (m_resample_src_y e) (m_resample_dst_x e)
    (m_resample_dst_y e) (m_boundary_op e) (m_lo e) (m_hi e)
    (m_delay_x_resample e) (m_intermediate_x e) (m_Pdst_buf e) (m_Ptmp_buf e)
    (m_clist_x_forced e) v (m_clist_y_forced e) (m_Pclist_y e)
    (m_Psrc_y_count e) (m_Psrc_y_flag e) (m_Pscan_buf e) (m_cur_src_y e)
    (m_cur_dst_y e) (m_status e).

Definition set_clist_y_forced (v : bool) (e : Resampler) : Resampler :=
  mkResampler (m_resample_src_x e) (m_resample_src_y e) (m_resample_dst_x e)
    (m_resample_dst_y e) (m_boundary_op e) (m_lo e) (m_hi e)
    (m_delay_x_resample e) (m_intermediate_x e) (m_Pdst_buf e) (m_Ptmp_buf e)
    (m_clist_x_forced e) (m_Pclist_x e) v (m_Pclist_y e) (m_Psrc_y_count e)
    (m_Psrc_y_flag e) (m_Pscan_buf e) (m_cur_src_y e) (m_cur_dst_y e)
    (m_status e).

Definition set_Pclist_y (v : option (list (Contrib_List R))) (e : Resampler) : Resampler :=
  mkResampler (m_resample_src_x e) (m_resample_src_y e) (m_resample_dst_x e)
    (m_resample_dst_y e) (m_boundary_op e) (m_lo e) (m_hi e)
    (m_delay_x_resample e) (m_intermediate_x e) (m_Pdst_buf e) (m_Ptmp_buf e)
    (m_clist_x_forced e) (m_Pclist_x e) (m_clist_y_forced e) v
    (m_Psrc_y_count e) (m_Psrc_y_flag e) (m_Pscan_buf e) (m_cur_src_y e)
    (m_cur_dst_y e) (m_status e).

Definition set_Psrc_y_count (v : option (list Z)) (e : Resampler) : Resampler :=
  mkResampler (m_resample_src_x e) (m_resample_src_y e) (m_resample_dst_x e)
    (m_resample_dst_y e) (m_boundary_op e) (m_lo e) (m_hi e)
    (m_delay_x_resample e) (m_intermediate_x e) (m_Pdst_buf e) (m_Ptmp_buf e)
    (m_clist_x_forced e) (m_Pclist_x e) (m_clist_y_forced e) (m_Pclist_y e) v
    (m_Psrc_y_flag e) (m_Pscan_buf e) (m_cur_src_y e) (m_cur_dst_y e)
    (m_status e).

Definition set_Psrc_y_flag (v : option (list bool)) (e : Resampler) : Resampler :=
  mkResampler (m_resample_src_x e) (m_resample_src_y e) (m_resample_dst_x e)
    (m_resample_dst_y e) (m_boundary_op e) (m_lo e) (m_hi e)
    (m_delay_x_resample e) (m_intermediate_x e) (m_Pdst_buf e) (m_Ptmp_buf e)
    (m_clist_x_forced e) (m_Pclist_x e) (m_clist_y_forced e) (m_Pclist_y e)
    (m_Psrc_y_count e) v (m_Pscan_buf e) (m_cur_src_y e) (m_cur_dst_y e)
    (m_status e).

Definition set_Pscan_buf (v : option Scan_Buf) (e : Resampler) : Resampler :=
  mkResampler (m_resample_src_x e) (m_resample_src_y e) (m_resample_dst_x e)
    (m_resample_dst_y e) (m_boundary_op e) (m_lo e) (m_hi e)
    (m_delay_x_resample e) (m_intermediate_x e) (m_Pdst_buf e) (m_Ptmp_buf e)
    (m_clist_x_forced e) (m_Pclist_x e) (m_clist_y_forced e) (m_Pclist_y e)
    (m_Psrc_y_count e) (m_Psrc_y_flag e) v (m_cur_src_y e) (m_cur_dst_y e)
    (m_status e).

Definition set_cur_src_y (v : Z) (e : Resampler) : Resampler :=
  mkResampler (m_resample_src_x e) (m_resample_src_y e) (m_resample_dst_x e)
    (m_resample_dst_y e) (m_boundary_op e) (m_lo e) (m_hi e)
    (m_delay_x_resample e) (m_intermediate_x e) (m_Pdst_buf e) (m_Ptmp_buf e)
    (m_clist_x_forced e) (m_Pclist_x e) (m_clist_y_forced e) (m_Pclist_y e)
    (m_Psrc_y_count e) (m_Psrc_y_flag e) (m_Pscan_buf e) v (m_cur_dst_y e)
    (m_status e).

Definition set_cur_dst_y (v : Z) (e : Resampler) : Resampler :=
  mkResampler (m_resample_src_x e) (m_resample_src_y e) (m_resample_dst_x e)
    (m_resample_dst_y e) (m_boundary_op e) (m_lo e) (m_hi e)
    (m_delay_x_resample e) (m_intermediate_x e) (m_Pdst_buf e) (m_Ptmp_buf e)
    (m_clist_x_forced e) (m_Pclist_x e) (m_clist_y_forced e) (m_Pclist_y e)
    (m_Psrc_y_count e) (m_Psrc_y_flag e) (m_Pscan_buf e) (m_cur_src_y e) v
    (m_status e).

Definition set_status (v : Status) (e : Resampler) : Resampler :=
  mkResampler (m_resample_src_x e) (m_resample_src_y e) (m_resample_dst_x e)
    (m_resample_dst_y e) (m_boundary_op e) (m_lo e) (m_hi e)
    (m_delay_x_resample e) (m_intermediate_x e) (m_Pdst_buf e) (m_Ptmp_buf e)
    (m_clist_x_forced e) (m_Pclist_x e) (m_clist_y_forced e) (m_Pclist_y e)
    (m_Psrc_y_count e) (m_Psrc_y_flag e) (m_Pscan_buf e) (m_cur_src_y e)
    (m_cur_dst_y e) v.

(* static inline int resampler_range_check(int v, int h) *)
Definition resampler_range_check (v h : Z) : option Z :=
  if ((0 <=? v) && (v <? h))%Z then Some v else None.

(* a[i] *)
Definition index {A : Type} (a : list A) (i : Z) : option A :=
  if (i <? 0)%Z then None else a !! Z.to_nat i.

(* a[i] = x, for an index inside the array *)
Definition assign {A : Type} (a : list A) (i : Z) (x : A) : list A :=
  <[Z.to_nat i := x]> a.

(* The first n elements of an array that has at least n elements. *)
Definition prefix {A : Type} (n : Z) (a : list A) : option (list A) :=
  if (n <=? Z.of_nat (length a))%Z then Some (take (Z.to_nat n) a) else None.

(* Writing the elements v to the start of the buffer a. *)
Definition write_buf {A : Type} (a v : list A) : option (list A) :=
  if (length v <=? length a)%nat then Some (v ++ drop (length v) a) else None.

(* The first index whose element satisfies f. *)
Fixpoint find_index {A : Type} (f : A -> bool) (a : list A) : option nat :=
  match a with
  | [] => None
  | x :: a => if f x then Some O else S <$> find_index f a
  end.

(** Modelled from the spec: count_ops of resampler.h, "x_ops = sum of the
    sizes of clist_x[i]".  The sum is an int. *)
Definition count_ops (Pclist : list (Contrib_List R)) (k : Z) : option Z :=
  l ← prefix k Pclist;
  Some (fold_left (fun t c => Int.add t (Z.of_nat (length c))) l 0%Z).

(** Modelled from the spec: clamp_sample of resampler.h, "clamp every
    destination sample into [lo, hi]". *)
Definition clamp_sample (e : Resampler) (f : R) : R :=
  if f <? m_lo e then m_lo e else if r_gtb f (m_hi e) then m_hi e else f.

(* One destination sample of resample_x: the inner loop over a list. *)
Definition weighted_sum (Psrc : list R) (l : Contrib_List R) : option R :=
  fold_left
    (fun total p => t ← total; s ← index Psrc (pixel p); Some (t + s * weight p))
    l (Some (of_int 0)).

(* resample_x(Pdst, Psrc): the samples written to Pdst. *)
Definition resample_x (e : Resampler) (Psrc : list R) : option (list R) :=
  Pclist ← m_Pclist_x e;
  lists ← prefix (m_resample_dst_x e) Pclist;
  mapM (weighted_sum Psrc) lists.

Definition scale_y_mov (Ptmp Psrc : list R) (weight : R) (dst_x : Z)
  : option (list R) :=
  src ← prefix dst_x Psrc;
  write_buf Ptmp (map (fun s => s * weight) src).

Definition scale_y_add (Ptmp Psrc : list R) (weight : R) (dst_x : Z)
  : option (list R) :=
  tmp ← prefix dst_x Ptmp;
  src ← prefix dst_x Psrc;
  write_buf Ptmp (zip_with (fun t s => t + s * weight) tmp src).

Definition clamp (e : Resampler) (Pdst : list R) (n : Z) : option (list R) :=
  d ← prefix n Pdst;
  write_buf Pdst (map (clamp_sample e) d).

(* One round of the loop of resample_y over the contributors.  The state
   is the contents of the buffer Ptmp and the engine. *)
Definition resample_y_step (first : bool) (st : list R * Resampler)
  (p : Contrib R) : option (list R * Resampler) :=
  let '(Ptmp, e) := st in
  (* locate the contributor's location in the scan buffer *)
  scan ← m_Pscan_buf e;
  j ← find_index (fun y => (y =? pixel p)%Z) (scan_buf_y scan);
  Psrc ← mjoin (scan_buf_l scan !! j);
  tmp ← (if first
         then scale_y_mov Ptmp Psrc (weight p) (m_intermediate_x e)
         else scale_y_add Ptmp Psrc (weight p) (m_intermediate_x e));
  count ← m_Psrc_y_count e;
  v ← resampler_range_check (pixel p) (m_resample_src_y e);
  c ← index count v;
  let c := Int.sub c 1 in
  let e := set_Psrc_y_count (Some (assign count v c)) e in
  if (c =? 0)%Z then
    flag ← m_Psrc_y_flag e;
    Some (tmp,
          set_Psrc_y_flag (Some (assign flag v false))
            (set_Pscan_buf
               (Some (mkScan_Buf (<[j := (-1)%Z]> (scan_buf_y scan))
                                 (scan_buf_l scan))) e))
  else Some (tmp, e).

Fixpoint resample_y_loop (first : bool) (st : list R * Resampler)
  (l : Contrib_List R) : option (list R * Resampler) :=
  match l with
  | [] => Some st
  | p :: l =>
      st ← resample_y_step first st p;
      resample_y_loop false st l
  end.

(* The end of resample_y: the destination line is generated from the
   contents tmp of Ptmp (Ptmp is m_Ptmp_buf if X resampling was delayed
   until after Y resampling, and Pdst itself otherwise), then clamped. *)
Definition generate_line (e : Resampler) (Pdst tmp : list R)
  : option (list R * Resampler) :=
  if m_delay_x_resample e
  then r ← resample_x e tmp;
       d ← write_buf Pdst r;
       Some (d, set_Ptmp_buf (Some tmp) e)
  else Some (tmp, e).

Definition clamp_line (e : Resampler) (Pdst : list R) : option (list R) :=
  if m_lo e <? m_hi e then clamp e Pdst (m_resample_dst_x e) else Some Pdst.

Definition resample_y (e : Resampler) : option Resampler :=
  lists ← m_Pclist_y e;
  Pclist ← index lists (m_cur_dst_y e);
  Pdst ← m_Pdst_buf e;
  Ptmp ← (if m_delay_x_resample e then m_Ptmp_buf e else Some Pdst);
  '(tmp, e) ← resample_y_loop true (Ptmp, e) Pclist;
  (* Now generate the destination line *)
  '(Pdst, e) ← generate_line e Pdst tmp;
  Pdst ← clamp_line e Pdst;
  Some (set_Pdst_buf (Some Pdst) e).

(* The first free slot of the scan buffer. *)
Definition find_free (scan : Scan_Buf) : option nat :=
  find_index (fun y => (y =? -1)%Z) (scan_buf_y scan).

(* put_line(Psrc).  [malloc_ok] tells whether the call of malloc, if the
   chosen slot needs one, succeeds. *)
Definition put_line (Psrc : list R) (malloc_ok : bool) (e : Resampler)
  : option (bool * Resampler) :=
  if (m_cur_src_y e >=? m_resample_src_y e)%Z then Some (false, e)
  else
    count ← m_Psrc_y_count e;
    v ← resampler_range_check (m_cur_src_y e) (m_resample_src_y e);
    c ← index count v;
    (* Does this source line contribute to any destination line? *)
    if (c =? 0)%Z then Some (true, set_cur_src_y (m_cur_src_y e + 1)%Z e)
    else
      scan ← m_Pscan_buf e;
      (* Find an empty slot in the scanline buffer. *)
      match find_free scan with
      | None => Some (false, set_status STATUS_SCAN_BUFFER_FULL e)
      | Some i =>
          flag ← m_Psrc_y_flag e;
          let flag := assign flag v true in
          let tags := <[i := m_cur_src_y e]> (scan_buf_y scan) in
          let e := set_Psrc_y_flag (Some flag) e in
          (* Does this slot have any memory allocated to it? *)
          slot ← scan_buf_l scan !! i;
          match slot, malloc_ok with
          | None, false =>
              Some (false,
                    set_status STATUS_OUT_OF_MEMORY
                      (set_Pscan_buf (Some (mkScan_Buf tags (scan_buf_l scan)))
                         e))
          | _, _ =>
              let buf :=
                match slot with
                | Some b => b
                | None => replicate (Z.to_nat (m_intermediate_x e)) (of_int 0)
                end in
              line ← (if m_delay_x_resample e
                      then prefix (m_intermediate_x e) Psrc
                      else resample_x e Psrc);
              buf ← write_buf buf line;
              Some (true,
                    set_cur_src_y (m_cur_src_y e + 1)%Z
                      (set_Pscan_buf
                         (Some (mkScan_Buf tags
                                  (<[i := Some buf]> (scan_buf_l scan))))
                         e))
          end
      end.

(* The check of get_line that all the required contributors are present. *)
Fixpoint all_present (e : Resampler) (l : Contrib_List R) : option bool :=
  match l with
  | [] => Some true
  | p :: l =>
      flag ← m_Psrc_y_flag e;
      v ← resampler_range_check (pixel p) (m_resample_src_y e);
      f ← index flag v;
      if f : bool then all_present e l else Some false
  end.

(* get_line(): the result is the destination line, or None for NULL. *)
Definition get_line (e : Resampler) : option (option (list R) * Resampler) :=
  if (m_cur_dst_y e =? m_resample_dst_y e)%Z then Some (None, e)
  else
    lists ← m_Pclist_y e;
    Pclist ← index lists (m_cur_dst_y e);
    ready ← all_present e Pclist;
    if ready : bool then
      e ← resample_y e;
      Some (m_Pdst_buf e, set_cur_dst_y (m_cur_dst_y e + 1)%Z e)
    else Some (None, e).

(* Count how many times each source line contributes to a destination
   line. *)
Definition count_contrib (src_y : Z) (count : option (list Z)) (p : Contrib R)
  : option (list Z) :=
  cnt ← count;
  v ← resampler_range_check (pixel p) src_y;
  c ← index cnt v;
  Some (assign cnt v (Int.add c 1)).

Definition count_contribs (src_y dst_y : Z) (lists : list (Contrib_List R))
  (count : list Z) : option (list Z) :=
  ls ← prefix dst_y lists;
  fold_left (fun cnt l => fold_left (count_contrib src_y) l cnt) ls (Some count).

Definition restart (e : Resampler) : option Resampler :=
  match m_status e with
  | STATUS_OKAY =>
      count ← m_Psrc_y_count e;
      flag ← m_Psrc_y_flag e;
      _ ← prefix (m_resample_src_y e) count;
      _ ← prefix (m_resample_src_y e) flag;
      let n := Z.to_nat (m_resample_src_y e) in
      let count := replicate n 0%Z ++ drop n count in
      let flag := replicate n false ++ drop n flag in
      lists ← m_Pclist_y e;
      count ← count_contribs (m_resample_src_y e) (m_resample_dst_y e) lists count;
      scan ← m_Pscan_buf e;
      let scan := mkScan_Buf (replicate (length (scan_buf_y scan)) (-1)%Z)
                             (replicate (length (scan_buf_l scan)) None) in
      Some (set_cur_src_y 0%Z
              (set_cur_dst_y 0%Z
                 (set_Psrc_y_count (Some count)
                    (set_Psrc_y_flag (Some flag)
                       (set_Pscan_buf (Some scan) e)))))
  | _ => Some e
  end.

(* The memory that the constructor meets: which of its allocations
   succeed, and the contents of the members m_cur_src_y and m_cur_dst_y of
   the object before the constructor assigns them. *)
Record Heap : Type := mkHeap {
  alloc_dst_buf : bool;
  alloc_clist_x : bool;
  alloc_clist_y : bool;
  alloc_src_y_count : bool;
  alloc_src_y_flag : bool;
  alloc_scan_buf : bool;
  alloc_tmp_buf : bool;
  mem_cur_src_y : Z;
  mem_cur_dst_y : Z
}.

(* The comparison of the number of multiplies of the two orders, in int
   arithmetic. *)
Definition delay_x (x_ops y_ops src_x src_y dst_x dst_y : Z) : bool :=
  (* Hack 10/2000: Weight Y axis ops a little more than X axis ops. *)
  let xy_ops :=
    Int.add (Int.mul x_ops src_y)
            (Int.div (Int.mul (Int.mul 4 y_ops) dst_x) 3) in
  let yx_ops :=
    Int.add (Int.div (Int.mul (Int.mul 4 y_ops) src_x) 3)
            (Int.mul x_ops dst_y) in
  ((xy_ops >? yx_ops) || ((xy_ops =? yx_ops) && (src_x <? dst_x)))%Z.

(* The order of the two passes: m_delay_x_resample and m_intermediate_x. *)
Definition choose_order (x_ops y_ops : Z) (e : Resampler) : Resampler :=
  if delay_x x_ops y_ops (m_resample_src_x e) (m_resample_src_y e)
       (m_resample_dst_x e) (m_resample_dst_y e)
  then set_delay_x_resample true
         (set_intermediate_x (m_resample_src_x e) e)
  else set_delay_x_resample false
         (set_intermediate_x (m_resample_dst_x e) e).

(* The constructor.  It assigns m_cur_src_y and m_cur_dst_y only after the
   scan buffer was allocated: on every earlier return they hold what the
   memory of the object held, [mem_cur_src_y] and [mem_cur_dst_y]. *)
Definition Resampler_new (src_x src_y dst_x dst_y : Z)
  (boundary_op : Boundary_Op) (sample_low sample_high : R)
  (Pfilter_name : option string)
  (Pclist_x Pclist_y : option (list (Contrib_List R)))
  (filter_x_scale filter_y_scale src_x_ofs src_y_ofs : R)
  (heap : Heap) : option Resampler :=
  if negb ((0 <? src_x) && (0 <? src_y) && (0 <? dst_x) && (0 <? dst_y))%Z
  then None
  else
    let e := mkResampler src_x src_y dst_x dst_y boundary_op
               sample_low sample_high false 0%Z None None false None false None
               None None None (mem_cur_src_y heap) (mem_cur_dst_y heap)
               STATUS_OKAY in
    if negb (alloc_dst_buf heap) then Some (set_status STATUS_OUT_OF_MEMORY e)
    else
    let e := set_Pdst_buf (Some (replicate (Z.to_nat dst_x) (of_int 0))) e in
    (* Find the specified filter. *)
    let Pfilter_name := default RESAMPLER_DEFAULT_FILTER Pfilter_name in
    match find_filter Pfilter_name with
    | None => Some (set_status STATUS_BAD_FILTER_NAME e)
    | Some filter =>
    (* Create contributor lists, unless the user supplied custom lists. *)
    let clist_x :=
      match Pclist_x with
      | None => (make_clist src_x dst_x boundary_op (func filter)
                   (support filter) filter_x_scale src_x_ofs
                   (alloc_clist_x heap), false)
      | Some l => (Some l, true)
      end in
    match clist_x.1 with
    | None => Some (set_status STATUS_OUT_OF_MEMORY e)
    | Some lists_x =>
    let e := set_clist_x_forced clist_x.2 (set_Pclist_x (Some lists_x) e) in
    let clist_y :=
      match Pclist_y with
      | None => (make_clist src_y dst_y boundary_op (func filter)
                   (support filter) filter_y_scale src_y_ofs
                   (alloc_clist_y heap), false)
      | Some l => (Some l, true)
      end in
    match clist_y.1 with
    | None => Some (set_status STATUS_OUT_OF_MEMORY e)
    | Some lists_y =>
    let e := set_clist_y_forced clist_y.2 (set_Pclist_y (Some lists_y) e) in
    if negb (alloc_src_y_count heap)
    then Some (set_status STATUS_OUT_OF_MEMORY e)
    else
    let e := set_Psrc_y_count (Some (replicate (Z.to_nat src_y) 0%Z)) e in
    if negb (alloc_src_y_flag heap)
    then Some (set_status STATUS_OUT_OF_MEMORY e)
    else
    let e := set_Psrc_y_flag (Some (replicate (Z.to_nat src_y) false)) e in
    count ← count_contribs src_y dst_y lists_y (replicate (Z.to_nat src_y) 0%Z);
    let e := set_Psrc_y_count (Some count) e in
    if negb (alloc_scan_buf heap)
    then Some (set_status STATUS_OUT_OF_MEMORY e)
    else
    let n := Z.to_nat MAX_SCAN_BUF_SIZE in
    let e := set_Pscan_buf
               (Some (mkScan_Buf (replicate n (-1)%Z) (replicate n None))) e in
    let e := set_cur_src_y 0%Z (set_cur_dst_y 0%Z e) in
    (* Determine which axis to resample first by comparing the number of
       multiplies required for each possibility. *)
    x_ops ← count_ops lists_x dst_x;
    y_ops ← count_ops lists_y dst_y;
    let e := choose_order x_ops y_ops e in
    if m_delay_x_resample e then
      if negb (alloc_tmp_buf heap)
      then Some (set_status STATUS_OUT_OF_MEMORY e)
      else Some (set_Ptmp_buf
                   (Some (replicate (Z.to_nat (m_intermediate_x e)) (of_int 0)))
                   e)
    else Some e
    end end end.

(* get_clists: the two contributor list pointers *)
Definition get_clists (e : Resampler)
  : option (list (Contrib_List R)) * option (list (Contrib_List R)) :=
  (m_Pclist_x e, m_Pclist_y e).

Definition get_filter_num : Z := NUM_FILTERS.

Definition get_filter_name (filter_num : Z) : option string :=
  if ((filter_num <? 0) || (filter_num >=? NUM_FILTERS))%Z then None
  else name <$> (g_filters !! Z.to_nat filter_num).

(** *** Sequences of calls *)

Inductive Call : Type :=
  | Put (Psrc : list R) (malloc_ok : bool)
  | Get
  | Restart.

(* One call; the second component is the value the call returns, for
   get_line. *)
Definition call (c : Call) (e : Resampler) : option Resampler :=
  match c with
  | Put Psrc malloc_ok => snd <$> put_line Psrc malloc_ok e
  | Get => snd <$> get_line e
  | Restart => restart e
  end.

Fixpoint run (cs : list Call) (e : Resampler) : option Resampler :=
  match cs with
  | [] => Some e
  | c :: cs => e ← call c e; run cs e
  end.

End Engine.

Arguments Scan_Buf R : clear implicits.
Arguments Resampler R : clear implicits.
Arguments Call R : clear implicits.

(** ** IEEE 754 binary floating point as [Resample_Real]

    The operations are those of the standard library's [SpecFloat]
    (round to nearest, ties to even), for a format of precision [prec] and
    exponent bound [emax]: binary32 is (24, 128), binary64 is (53, 1024). *)

Module IEEE.

Section Format.

Variables prec emax : Z.

Definition of_Z (z : Z) : spec_float := binary_normalize prec emax z 0 false.

(* The rational n/d rounded to nearest: the quotient is computed with at
   least prec + 2 significant bits and a sticky bit for the remainder. *)
Definition round_Q (prec emax : Z) (q : Q) : spec_float :=
  match Qnum q with
  | Z0 => S754_zero false
  | n =>
      let a := Z.abs n in
      let d := Zpos (Qden q) in
      let k := Z.max 0 (prec + 3 + Z.log2 d - Z.log2 a) in
      let m := (a * 2 ^ k) / d in
      let sticky := if (a * 2 ^ k) mod d =? 0 then 0 else 1 in
      let m' := 2 * m + sticky in
      binary_normalize prec emax (if n <? 0 then - m' else m') (- k - 1) false
  end.

(* Conversion between formats, as in the cast of a double to float. *)
Definition convert (x : spec_float) : spec_float :=
  match x with
  | S754_finite s m e =>
      binary_normalize prec emax (if s then Zneg m else Zpos m) e s
  | _ => x
  end.

(* RR(value): the literal is a double, converted to Resample_Real. *)
Definition lit (q : Q) : spec_float := convert (round_Q 53 1024 q).

(* The integer part toward minus infinity of a finite number. *)
Definition floorZ (s : bool) (m : positive) (e : Z) : Z :=
  let z := if s then Zneg m else Zpos m in
  if 0 <=? e then z * 2 ^ e else z / 2 ^ (- e).

Definition floor (x : spec_float) : spec_float :=
  match x with
  | S754_finite s m e => binary_normalize prec emax (floorZ s m e) 0 s
  | _ => x
  end.

Definition ceil (x : spec_float) : spec_float := SFopp (floor (SFopp x)).

(* (int)x truncates toward zero.  The conversion of a value outside the
   range of int (or of a NaN) is undefined; the model returns INT_MIN there,
   which is what the x86 conversion instructions produce. *)
Definition to_int (x : spec_float) : Z :=
  match x with
  | S754_zero _ => 0
  | S754_finite s m e =>
      let z := if 0 <=? e then Zpos m * 2 ^ e else Zpos m / 2 ^ (- e) in
      let z := if s then - z else z in
      if (Int.min_int <=? z) && (z <=? Int.max_int) then z else Int.min_int
  | _ => Int.min_int
  end.

Definition to_int_range (x : spec_float) : Int.in_range (to_int x).
Proof.
  assert (Hmin : Int.in_range Int.min_int) by (cbv; split; congruence).
  assert (H0 : Int.in_range 0) by (cbv; split; congruence).
  destruct x as [s| | |s m e]; cbn [to_int]; auto.
  match goal with |- context [if ?c then _ else _] => destruct c eqn:Hc end; auto.
  apply andb_true_iff in Hc as [H1 H2].
  apply Z.leb_le in H1. apply Z.leb_le in H2. split; auto.
Qed.

Definition ops : Real_Ops spec_float :=
  {| RR := lit;
     of_int := of_Z;
     r_add := SFadd prec emax;
     r_sub := SFsub prec emax;
     r_mul := SFmul prec emax;
     r_div := SFdiv prec emax;
     r_neg := SFopp;
     r_ltb := SFltb;
     r_leb := SFleb;
     r_eqb := SFeqb;
     r_floor := floor;
     r_ceil := ceil;
     cast_to_int := to_int;
     cast_to_int_range := to_int_range |}.

(* sqrt and fabs are those of the format.  sin, cos, exp and log are not
   part of the model: they return NaN, and no kernel that calls them is
   evaluated on this instance. *)
Definition libm : Libm spec_float :=
  {| r_sin := fun _ => S754_nan;
     r_cos := fun _ => S754_nan;
     r_exp := fun _ => S754_nan;
     r_log := fun _ => S754_nan;
     r_sqrt := SFsqrt prec emax;
     r_fabs := SFabs |}.

End Format.

(* The sum of the values of the weights of a list, as a rational. *)
Definition sum_Q (l : Contrib_List spec_float) : Q :=
  fold_right
    (fun c q =>
       match weight c with
       | S754_finite s m e =>
           let z := if s then Zneg m else Zpos m in
           Qplus (if 0 <=? e then inject_Z (z * 2 ^ e)
                  else Qmake z (Z.to_pos (2 ^ (- e)))) q
       | _ => q
       end) 0%Q l.

Definition binary32 : Real_Ops spec_float := ops 24 128.
Definition binary64 : Real_Ops spec_float := ops 53 1024.

End IEEE.

(** ** Exact arithmetic: the rationals in lowest terms as [Resample_Real] *)

Module Rational.

Definition ltb (a b : Qc) : bool :=
  match (a ?= b)%Qc with Lt => true | _ => false end.

Definition leb (a b : Qc) : bool :=
  match (a ?= b)%Qc with Gt => false | _ => true end.

Definition eqb (a b : Qc) : bool :=
  match (a ?= b)%Qc with Eq => true | _ => false end.

(* (int)x, with the same convention outside the range of int as for the
   floating point numbers. *)
Definition to_int (x : Qc) : Z :=
  let z := Z.quot (Qnum x) (Zpos (Qden x)) in
  if (Int.min_int <=? z) && (z <=? Int.max_int) then z else Int.min_int.

Definition to_int_range (x : Qc) : Int.in_range (to_int x).
Proof.
  assert (Hmin : Int.in_range Int.min_int) by (cbv; split; congruence).
  unfold to_int.
  match goal with |- context [if ?c then _ else _] => destruct c eqn:Hc end; auto.
  apply andb_true_iff in Hc as [H1 H2].
  apply Z.leb_le in H1. apply Z.leb_le in H2. split; auto.
Qed.

#[global] Instance ops : Real_Ops Qc :=
  {| RR := Q2Qc;
     of_int := fun z => Q2Qc (inject_Z z);
     r_add := Qcplus;
     r_sub := Qcminus;
     r_mul := Qcmult;
     r_div := Qcdiv;
     r_neg := Qcopp;
     r_ltb := ltb;
     r_leb := leb;
     r_eqb := eqb;
     r_floor := fun x => Q2Qc (inject_Z (Qfloor x));
     r_ceil := fun x => Q2Qc (inject_Z (Qceiling x));
     cast_to_int := to_int;
     cast_to_int_range := to_int_range |}.

(* The functions of <cmath> have no rational counterpart: they return 0
   (fabs apart), and no kernel that calls them is evaluated on this
   instance. *)
#[global] Instance libm : Libm Qc :=
  {| r_sin := fun _ => Q2Qc 0;
     r_cos := fun _ => Q2Qc 0;
     r_exp := fun _ => Q2Qc 0;
     r_log := fun _ => Q2Qc 0;
     r_sqrt := fun _ => Q2Qc 0;
     r_fabs := fun x => if ltb x (Q2Qc 0) then Qcopp x else x |}.

End Rational.

(** ** Example engines

    Engines on binary32 with 1024 scan buffer slots (the reference value
    of MAX_SCAN_BUF_SIZE) and "lanczos4" as the default filter. *)

Module Examples.

Definition put_line32 := @put_line spec_float IEEE.binary32.
Definition get_line32 := @get_line spec_float IEEE.binary32.
Definition run32 := @run spec_float IEEE.binary32.

Definition new32 :=
  @Resampler_new spec_float IEEE.binary32 (IEEE.libm 24 128) 1024 "lanczos4".

Definition lit (q : Q) : spec_float := @RR _ IEEE.binary32 q.

Definition heap_ok : Heap := mkHeap true true true true true true true 0 0.

(* 2 x 2 to 2 x 2 with the box kernel, clamping disabled. *)
Definition fresh_2x2 : option (Resampler spec_float) :=
  new32 2 2 2 2 BOUNDARY_CLAMP (lit 0) (lit 0) (Some "box"%string) None None
    (lit 1) (lit 1) (lit 0) (lit 0) heap_ok.

(* 1 x 2 to 1 x 1 with caller-supplied lists: the destination line is
   source line 1, and source line 0 contributes to nothing. *)
Definition second_line_only : option (Resampler spec_float) :=
  new32 1 2 1 1 BOUNDARY_CLAMP (lit 0) (lit 0) None
    (Some [[mkContrib (lit 1) 0]]) (Some [[mkContrib (lit 1) 1]])
    (lit 1) (lit 1) (lit 0) (lit 0) heap_ok.

(* 4096 x 4096 to 8192 x 8192 with caller-supplied lists of 8 contributors
   for every destination sample, as many as a kernel of support 4 such as
   lanczos4 has when magnifying. *)
Definition eight_taps : list (list (Contrib spec_float)) :=
  replicate (Z.to_nat 8192) (replicate 8 (mkContrib (lit 0.125) 0)).

Definition large_8_taps : option (Resampler spec_float) :=
  new32 4096 4096 8192 8192 BOUNDARY_CLAMP (lit 0) (lit 0) None
    (Some eight_taps) (Some eight_taps)
    (lit 1) (lit 1) (lit 0) (lit 0) heap_ok.

(* 1 x 1025 to 1 x 1025 with caller-supplied lists: destination line i is
   source line i. *)
Definition identity_1025 : option (Resampler spec_float) :=
  new32 1 1025 1 1025 BOUNDARY_CLAMP (lit 0) (lit 0) None
    (Some [[mkContrib (lit 1) 0]])
    (Some (map (fun i => [mkContrib (lit 1) i]) (seqZ 0 1025)))
    (lit 1) (lit 1) (lit 0) (lit 0) heap_ok.

End Examples.

(** ** Predicates of the statements and of the proofs *)

Section Predicates.

Context {R : Type} `{Real_Ops R}.

Implicit Types (e : Resampler R).

(* The invariant of the filling loop. *)
Definition fill_ok (P : Contrib R -> Prop) (st : Fill) : Prop :=
  total_weight st = sum_weights (entries st)
  /\ (max_k st = -1 \/ 0 <= max_k st < Z.of_nat (length (entries st)))
  /\ Forall P (entries st).

(* The members that no call changes after the constructor. *)
Definition plan e :=
  (m_resample_src_x e, m_resample_src_y e, m_resample_dst_x e,
   m_resample_dst_y e, m_boundary_op e, m_lo e, m_hi e,
   m_delay_x_resample e, m_intermediate_x e, m_clist_x_forced e,
   m_Pclist_x e, m_clist_y_forced e, m_Pclist_y e).

(* A step of the engine that keeps the plan, the status and the cursors. *)
Definition frame e e' : Prop :=
  plan e' = plan e /\ m_status e' = m_status e
  /\ m_cur_src_y e' = m_cur_src_y e /\ m_cur_dst_y e' = m_cur_dst_y e.

(* The two estimates of the number of multiplies and the choice of the
   order as the specification writes them, over the integers. *)
Definition xy_ops_spec (x_ops y_ops src_y dst_x : Z) : Z :=
  (x_ops * src_y + (4 * y_ops * dst_x) / 3)%Z.

Definition yx_ops_spec (x_ops y_ops src_x dst_y : Z) : Z :=
  ((4 * y_ops * src_x) / 3 + x_ops * dst_y)%Z.

Definition delay_x_spec (x_ops y_ops src_x src_y dst_x dst_y : Z) : Prop :=
  (xy_ops_spec x_ops y_ops src_y dst_x > yx_ops_spec x_ops y_ops src_x dst_y
   \/ (xy_ops_spec x_ops y_ops src_y dst_x = yx_ops_spec x_ops y_ops src_x dst_y
       /\ src_x < dst_x))%Z.

(* The total number of entries of the first k lists, over the integers. *)
Definition total_entries {A : Type} (lists : list (list A)) (k : Z) : Z :=
  Z.of_nat (length (concat (take (Z.to_nat k) lists))).

(* What a contributor list pointer of the engine is: the caller's list, or
   the result of make_clist for the filter that was looked up. *)
Definition clist_origin `{Libm R} (RESAMPLER_DEFAULT_FILTER : string)
  (src dst : Z) (op : Boundary_Op)
  (Pfilter_name : option string) (Pclist : option (list (Contrib_List R)))
  (scale ofs : R) (lists : list (Contrib_List R)) : Prop :=
  Pclist = Some lists
  \/ exists filter heap_ok,
       find_filter (default RESAMPLER_DEFAULT_FILTER Pfilter_name) = Some filter
       /\ make_clist src dst op (func filter) (support filter) scale ofs heap_ok
          = Some lists.

(* The number of entries of a list, and of lists, that refer to source
   line s. *)
Fixpoint occ (s : Z) (l : Contrib_List R) : Z :=
  match l with
  | [] => 0
  | p :: l => (if pixel p =? s then 1 else 0) + occ s l
  end.

Fixpoint occs (s : Z) (lists : list (Contrib_List R)) : Z :=
  match lists with
  | [] => 0
  | l :: lists => occ s l + occs s lists
  end.

(* Every entry of the lists refers to a source sample in [0, src). *)
Definition pixels_below (src : Z) (lists : list (Contrib_List R)) : Prop :=
  Forall (Forall (fun p => 0 <= pixel p < src)) lists.

(* The contributor lists of an engine are well formed: there is one list
   for each destination sample, every source index is in range, and the Y
   axis has at most INT_MAX entries. *)
Definition lists_ok e : Prop :=
  exists lists_x lists_y,
    m_Pclist_x e = Some lists_x /\ m_Pclist_y e = Some lists_y
    /\ Z.of_nat (length lists_x) = m_resample_dst_x e
    /\ Z.of_nat (length lists_y) = m_resample_dst_y e
    /\ pixels_below (m_resample_src_x e) lists_x
    /\ pixels_below (m_resample_src_y e) lists_y
    /\ Z.of_nat (length (concat lists_y)) <= Int.max_int.

(* The state of the reference counts, the present flags and the scan
   buffer, where source line s is still needed [need s] times. *)
Record pool_ok (src_y intermediate_x cur_src_y : Z) (need : Z -> Z)
  (count : list Z) (flag : list bool) (scan : Scan_Buf R) : Prop := {
  pool_count_length : Z.of_nat (length count) = src_y;
  pool_flag_length : Z.of_nat (length flag) = src_y;
  pool_scan_length : length (scan_buf_y scan) = length (scan_buf_l scan);
  pool_count : forall s, 0 <= s < src_y -> index count s = Some (need s);
  pool_need : forall s, 0 <= s < src_y -> 0 <= need s <= Int.max_int;
  pool_tag : forall i t,
    scan_buf_y scan !! i = Some t -> t <> -1 ->
    0 <= t < cur_src_y /\ t < src_y /\ index flag t = Some true
    /\ 0 < need t /\ exists b, scan_buf_l scan !! i = Some (Some b);
  pool_buf : forall i b,
    scan_buf_l scan !! i = Some (Some b) ->
    Z.of_nat (length b) = intermediate_x;
  pool_distinct : forall i j t,
    scan_buf_y scan !! i = Some t -> scan_buf_y scan !! j = Some t ->
    t <> -1 -> i = j;
  pool_present : forall s,
    index flag s = Some true -> exists i, scan_buf_y scan !! i = Some s
}.

Definition pool_ok_at e (need : Z -> Z) : Prop :=
  exists count flag scan,
    m_Psrc_y_count e = Some count /\ m_Psrc_y_flag e = Some flag
    /\ m_Pscan_buf e = Some scan
    /\ pool_ok (m_resample_src_y e) (m_intermediate_x e) (m_cur_src_y e)
         need count flag scan.

(* The invariant of the engine between calls. *)
Definition wf e : Prop :=
  lists_ok e
  /\ (0 < m_resample_src_x e /\ 0 < m_resample_src_y e
      /\ 0 < m_resample_dst_x e /\ 0 < m_resample_dst_y e)
  /\ m_intermediate_x e
     = (if m_delay_x_resample e then m_resample_src_x e
        else m_resample_dst_x e)
  /\ (exists Pdst, m_Pdst_buf e = Some Pdst
        /\ Z.of_nat (length Pdst) = m_resample_dst_x e)
  /\ (m_delay_x_resample e = true ->
      exists Ptmp, m_Ptmp_buf e = Some Ptmp
        /\ Z.of_nat (length Ptmp) = m_intermediate_x e)
  /\ (0 <= m_cur_src_y e <= m_resample_src_y e
      /\ 0 <= m_cur_dst_y e <= m_resample_dst_y e)
  /\ exists lists_y,
       m_Pclist_y e = Some lists_y
       /\ pool_ok_at e
            (fun s => occs s (drop (Z.to_nat (m_cur_dst_y e)) lists_y)).

(* No put_line of the calls [cs] meets a failed allocation. *)
Definition allocations_succeed (cs : list (Call R)) : bool :=
  forallb (fun c => match c with Put _ ok => ok | _ => true end) cs.

(* The test of [lists_ok]. *)
Definition pixels_belowb (src : Z) (lists : list (Contrib_List R)) : bool :=
  forallb (forallb (fun p => (0 <=? pixel p) && (pixel p <? src))) lists.

Definition lists_okb e : bool :=
  match m_Pclist_x e, m_Pclist_y e with
  | Some lists_x, Some lists_y =>
      (Z.of_nat (length lists_x) =? m_resample_dst_x e)
      && (Z.of_nat (length lists_y) =? m_resample_dst_y e)
      && pixels_belowb (m_resample_src_x e) lists_x
      && pixels_belowb (m_resample_src_y e) lists_y
      && (Z.of_nat (length (concat lists_y)) <=? Int.max_int)
  | _, _ => false
  end.

(* Every contributor list has weights that add up to 1.0. *)
Definition unit_sums (lists : list (Contrib_List R)) : Prop :=
  Forall (fun l => sum_weights l = RR 1.0) lists.

(* Every occupied slot of the scan buffer holds a line whose samples all
   equal c. *)
Definition const_pool (c : R) e : Prop :=
  forall scan i t,
    m_Pscan_buf e = Some scan ->
    scan_buf_y scan !! i = Some t -> t <> -1 ->
    scan_buf_l scan !! i
    = Some (Some (replicate (Z.to_nat (m_intermediate_x e)) c)).

(* Clamping is disabled, or c lies in [lo, hi]. *)
Definition clamp_free (c : R) e : Prop :=
  r_ltb (m_lo e) (m_hi e) = false
  \/ (r_ltb c (m_lo e) = false /\ r_ltb (m_hi e) c = false).

(* The invariant of an engine that is fed lines of the constant c. *)
Definition const_engine (c : R) e : Prop :=
  wf e
  /\ (exists lists_x lists_y,
        m_Pclist_x e = Some lists_x /\ m_Pclist_y e = Some lists_y
        /\ unit_sums lists_x /\ unit_sums lists_y)
  /\ const_pool c e /\ clamp_free c e.

(* Every line that the calls [cs] put is src_x samples equal to c. *)
Definition const_rows (c : R) (src_x : Z) (cs : list (Call R)) : Prop :=
  Forall (fun call =>
            match call with
            | Put Psrc _ => Psrc = replicate (Z.to_nat src_x) c
            | _ => True
            end) cs.

(* Every line that the calls [cs] put has at least src_x samples. *)
Definition rows_fit (src_x : Z) (cs : list (Call R)) : Prop :=
  Forall (fun call =>
            match call with
            | Put Psrc _ => src_x <= Z.of_nat (length Psrc)
            | _ => True
            end) cs.

(* The numbers of tags and of slots of the scan buffer. *)
Definition scan_sizes e : option (nat * nat) :=
  (fun scan => (length (scan_buf_y scan), length (scan_buf_l scan)))
    <$> m_Pscan_buf e.

(* Every slot that has a buffer in e has a buffer of the same size in e'. *)
Definition slots_kept e e' : Prop :=
  forall scan i b,
    m_Pscan_buf e = Some scan ->
    scan_buf_l scan !! i = Some (Some b) ->
    exists scan' b',
      m_Pscan_buf e' = Some scan'
      /\ scan_buf_l scan' !! i = Some (Some b')
      /\ length b' = length b.

(* The calls [cs] do not restart the engine. *)
Definition no_restart (cs : list (Call R)) : bool :=
  forallb (fun c => match c with Restart => false | _ => true end) cs.

(* The calls [cs] do not call get_line. *)
Definition no_get (cs : list (Call R)) : bool :=
  forallb (fun c => match c with Get => false | _ => true end) cs.

(** *** The two passes, computed directly from the whole image

    The reference for the streaming engine: destination line d as a
    function of the source image [img] (line s of the image is [img s]),
    with the additions and multiplications in the order of resample_x,
    scale_y_mov and scale_y_add, and with no scan buffer. *)

(* Psrc[i] *)
Definition sample (Psrc : list R) (i : Z) : R :=
  default (of_int 0) (index Psrc i).

(* One destination sample of the X pass. *)
Definition direct_dot (Psrc : list R) (l : Contrib_List R) : R :=
  fold_left (fun total p => (total + sample Psrc (pixel p) * weight p)%real)
    l (of_int 0).

(* The X pass over one line. *)
Definition direct_x (lists_x : list (Contrib_List R)) (Psrc : list R)
  : list R :=
  map (direct_dot Psrc) lists_x.

(* The intermediate line of a source line: the line itself if X
   resampling is delayed, its X pass otherwise. *)
Definition direct_stored e (Psrc : list R) : list R :=
  if m_delay_x_resample e then take (Z.to_nat (m_intermediate_x e)) Psrc
  else direct_x (default [] (m_Pclist_x e)) Psrc.

(* The Y pass over the intermediate lines of the contributors. *)
Definition direct_y e (img : Z -> list R) (l : Contrib_List R) : list R :=
  match l with
  | [] => []
  | p :: l' =>
      fold_left
        (fun acc q =>
           zip_with (fun t s => (t + s * weight q)%real) acc
             (direct_stored e (img (pixel q))))
        l'
        (map (fun s => (s * weight p)%real)
           (direct_stored e (img (pixel p))))
  end.

(* Destination line d. *)
Definition direct_line e (img : Z -> list R) (d : Z) : list R :=
  let l := default [] (lists ← m_Pclist_y e; index lists d) in
  let tmp := direct_y e img l in
  let out := if m_delay_x_resample e
             then direct_x (default [] (m_Pclist_x e)) tmp else tmp in
  if (m_lo e <? m_hi e)%real then map (clamp_sample e) out else out.

(* Every put_line of the calls [cs], run from e, passes the line of the
   image at the source cursor. *)
Fixpoint fed (img : Z -> list R) (cs : list (Call R)) e : Prop :=
  match cs with
  | [] => True
  | c :: cs =>
      match c with
      | Put Psrc _ => Psrc = img (m_cur_src_y e)
      | _ => True
      end
      /\ match call c e with
         | Some e1 => fed img cs e1
         | None => True
         end
  end.

(* Every occupied slot of the scan buffer holds the intermediate line of
   the source line of its tag. *)
Definition pool_holds (img : Z -> list R) e : Prop :=
  forall scan i t,
    m_Pscan_buf e = Some scan ->
    scan_buf_y scan !! i = Some t -> t <> -1 ->
    scan_buf_l scan !! i = Some (Some (direct_stored e (img t))).

(* Every line buffer of the scan buffer has intermediate_x samples. *)
Definition bufs_sized e : Prop :=
  forall scan i b,
    m_Pscan_buf e = Some scan ->
    scan_buf_l scan !! i = Some (Some b) ->
    length b = Z.to_nat (m_intermediate_x e).

(* The invariant of an engine that is fed the image. *)
Definition image_engine (img : Z -> list R) e : Prop :=
  wf e /\ pool_holds img e
  /\ exists lists_y,
       m_Pclist_y e = Some lists_y /\ Forall (fun l => l <> []) lists_y.

(* Every source line that was put and is still needed by a destination
   line is flagged as present. *)
Definition flags_set e : Prop :=
  forall lists_y flag s,
    m_Pclist_y e = Some lists_y -> m_Psrc_y_flag e = Some flag ->
    0 <= s < m_cur_src_y e ->
    0 < occs s (drop (Z.to_nat (m_cur_dst_y e)) lists_y) ->
    index flag s = Some true.

(** *** The destination line as the kernels are specified

    resample_y as section 4.5 of the specification words it: tmp[k] is
    slot[k] * weight for the first contributor and is added to for the
    others, in list order, where slot is the line held for the
    contributor's source line; then resample_x if X resampling was delayed;
    then the clamp if lo < hi. *)




(* Every occupied slot of the scan buffer holds the line [stored t] of its
   tag t, of intermediate_x samples. *)
Definition slots_hold (stored : Z -> list R) e : Prop :=
  forall scan i t,
    m_Pscan_buf e = Some scan ->
    scan_buf_y scan !! i = Some t -> t <> -1 ->
    scan_buf_l scan !! i = Some (Some (stored t))
    /\ length (stored t) = Z.to_nat (m_intermediate_x e).

End Predicates.

(** * Properties *)

(* Members of an engine that was built by assignments. *)
Ltac members :=
  lazy beta iota delta
    [set_delay_x_resample set_intermediate_x set_Pdst_buf set_Ptmp_buf
     set_clist_x_forced set_Pclist_x set_clist_y_forced set_Pclist_y
     set_Psrc_y_count set_Psrc_y_flag set_Pscan_buf set_cur_src_y
     set_cur_dst_y set_status
     m_resample_src_x m_resample_src_y m_resample_dst_x m_resample_dst_y
     m_boundary_op m_lo m_hi m_delay_x_resample m_intermediate_x m_Pdst_buf
     m_Ptmp_buf m_clist_x_forced m_Pclist_x m_clist_y_forced m_Pclist_y
     m_Psrc_y_count m_Psrc_y_flag m_Pscan_buf m_cur_src_y m_cur_dst_y
     m_status] in *.

Ltac bind_inv H :=
  repeat match type of H with
         | (mbind _ ?m) = Some _ =>
             let x := fresh "x" in
             destruct m as [x |] eqn:?; cbn [mbind option_bind] in H;
             [| discriminate]
         | (match ?m with _ => _ end) = Some _ =>
             destruct m eqn:?; try discriminate
         end.

(** ** Machine integers and boundary resolution *)

Lemma pow2_31 : 2 ^ 31 = 2147483648.
Proof. reflexivity. Qed.

Lemma pow2_32 : 2 ^ 32 = 4294967296.
Proof. reflexivity. Qed.

Lemma pow2_16 : 2 ^ 16 = 65536.
Proof. reflexivity. Qed.

Ltac int_unfold :=
  unfold Int.in_range, Int.min_int, Int.max_int, Int.neg, Int.add, Int.sub,
    Int.mul, Int.div, Int.rem, Int.wrap, Int.to_ushort in *;
  rewrite ?pow2_31, ?pow2_32, ?pow2_16 in *.

Lemma wrap_id (z : Z) : Int.in_range z -> Int.wrap z = z.
Proof. int_unfold. intros Hz. rewrite Z.mod_small by lia. lia. Qed.

Lemma wrap_range (z : Z) : Int.in_range (Int.wrap z).
Proof.
  int_unfold.
  pose proof (Z.mod_pos_bound (z + 2147483648) 4294967296 ltac:(lia)). lia.
Qed.

Lemma to_ushort_range (z : Z) : 0 <= Int.to_ushort z < 65536.
Proof. int_unfold. apply Z.mod_pos_bound. lia. Qed.

Lemma to_ushort_le (z : Z) : 0 <= z -> Int.to_ushort z <= z.
Proof. int_unfold. intros Hz. apply Z.mod_le; lia. Qed.

Lemma to_ushort_small (z : Z) : 0 <= z < 65536 -> Int.to_ushort z = z.
Proof. int_unfold. intros Hz. apply Z.mod_small. lia. Qed.

Lemma posmod_range (x y : Z) :
  Int.in_range x -> x <> Int.min_int -> 1 <= y -> Int.in_range y ->
  0 <= posmod x y < y.
Proof.
  intros Hx Hmin Hy Hyr. unfold posmod.
  destruct (x >=? 0) eqn:Hsign.
  - apply Z.geb_le in Hsign. unfold Int.rem. apply Z.rem_bound_pos; lia.
  - assert (Hneg : x < 0) by (destruct (Z.geb_spec x 0); [discriminate | lia]).
    assert (Hn : Int.neg x = - x).
    { unfold Int.neg. apply wrap_id. revert Hx Hmin. int_unfold. lia. }
    rewrite Hn. unfold Int.rem.
    pose proof (Z.rem_bound_pos (- x) y ltac:(lia) ltac:(lia)) as Hm.
    destruct (Z.rem (- x) y =? 0) eqn:Hz; cbn [negb].
    + lia.
    + apply Z.eqb_neq in Hz. unfold Int.sub. rewrite wrap_id.
      * lia.
      * revert Hyr. int_unfold. lia.
Qed.

Lemma reflect_range (j src_x : Z) (op : Boundary_Op) :
  Int.in_range j -> j <> Int.min_int -> 1 <= src_x -> Int.in_range src_x ->
  0 <= reflect j src_x op < src_x.
Proof.
  intros Hj Hmin Hs Hsr. unfold reflect.
  destruct (j <? 0) eqn:Hneg.
  - apply Z.ltb_lt in Hneg. destruct op.
    + apply posmod_range; auto.
    + assert (Hn : Int.neg j = - j).
      { unfold Int.neg. apply wrap_id. revert Hj Hmin. int_unfold. lia. }
      rewrite Hn.
      assert (Hs1 : Int.sub src_x 1 = src_x - 1).
      { unfold Int.sub. apply wrap_id. revert Hsr. int_unfold. lia. }
      destruct (Z.geb_spec (- j) src_x); lia.
    + lia.
  - apply Z.ltb_ge in Hneg.
    destruct (Z.geb_spec j src_x) as [Hge | Hlt]; [| lia].
    assert (Hs1 : Int.sub src_x 1 = src_x - 1).
    { unfold Int.sub. apply wrap_id. revert Hsr. int_unfold. lia. }
    destruct op.
    + apply posmod_range; auto.
    + assert (Hn : Int.add (Int.sub src_x j) (Int.sub src_x 1)
                   = (src_x - j) + (src_x - 1)).
      { rewrite Hs1. unfold Int.add, Int.sub.
        rewrite (wrap_id (src_x - j)) by (revert Hj Hsr; int_unfold; lia).
        apply wrap_id. revert Hj Hsr. int_unfold. lia. }
      rewrite Hn. destruct (Z.ltb_spec (src_x - j + (src_x - 1)) 0); lia.
    + lia.
Qed.

(** ** The contributor lists of make_clist *)

Section Make_clist_facts.

Context {R : Type} `{Real_Ops R}.

Variables (src_x dst_x : Z) (boundary_op : Boundary_Op).
Variables (Pfilter : R -> R) (filter_support filter_scale src_ofs : R).

Local Abbreviation fill_step' :=
  (fill_step src_x dst_x boundary_op Pfilter filter_scale).
Local Abbreviation make_contrib' :=
  (make_contrib src_x dst_x boundary_op Pfilter filter_scale).
Local Abbreviation make_clist' :=
  (make_clist src_x dst_x boundary_op Pfilter filter_support filter_scale
     src_ofs).

Lemma sum_weights_snoc (l : Contrib_List R) (c : Contrib R) :
  sum_weights (l ++ [c]) = r_add (sum_weights l) (weight c).
Proof. unfold sum_weights. rewrite fold_left_app. reflexivity. Qed.

(* What one round of the filling loop does: the sample is skipped, or one
   entry is appended. *)
Lemma fill_step_cases (center norm : R) (st : Fill) (j : Z) :
  fill_step' center norm st j = st \/
  exists w k' mw,
    fill_step' center norm st j
    = mkFill (entries st
                ++ [mkContrib w (Int.to_ushort (reflect j src_x boundary_op))])
             (r_add (total_weight st) w) mw k'
    /\ (k' = max_k st \/ k' = Z.of_nat (length (entries st))).
Proof.
  unfold fill_step.
  destruct (r_eqb _ _); [left; reflexivity | right].
  destruct (r_gtb _ _); eauto 10.
Qed.


Lemma fill_loop_ok (P : Contrib R -> Prop) (center norm : R) (js : list Z) :
  forall st,
    fill_ok P st ->
    Forall (fun j => forall w,
              P (mkContrib w (Int.to_ushort (reflect j src_x boundary_op)))) js ->
    fill_ok P (fold_left (fill_step' center norm) js st).
Proof.
  induction js as [| j js IH]; intros st Hst Hjs; [exact Hst |].
  apply Forall_cons in Hjs as [Hj Hjs]. cbn [fold_left].
  apply IH; [| exact Hjs].
  destruct (fill_step_cases center norm st j) as [-> | (w & k' & mw & -> & Hk)];
    [exact Hst |].
  destruct Hst as (Htot & Hmax & Hall). unfold fill_ok.
  cbn [entries total_weight max_k]. repeat split.
  - rewrite sum_weights_snoc, Htot. reflexivity.
  - rewrite length_app. cbn [length]. destruct Hk as [-> | ->]; lia.
  - apply Forall_app. split; [exact Hall | apply Forall_singleton, Hj].
Qed.

Lemma make_contrib_ok (P : Contrib R -> Prop) (b : Contrib_Bounds R)
  (l : Contrib_List R) :
  (forall c d, P c -> P (add_weight d c)) ->
  (forall j w, left b <= j <= right b ->
     P (mkContrib w (Int.to_ushort (reflect j src_x boundary_op)))) ->
  make_contrib' b = Some l ->
  Forall P l /\ l <> [].
Proof.
  intros Hadd HP. unfold make_contrib.
  set (js := seqZ (left b) (right b - left b + 1)).
  set (norm := r_div _ _).
  set (st := fold_left _ js _).
  assert (Hok : fill_ok P st).
  { apply fill_loop_ok.
    - unfold fill_ok. cbn. auto.
    - apply Forall_forall. intros j Hj w. apply HP.
      apply elem_of_seqZ in Hj. lia. }
  destruct Hok as (_ & Hmax & Hall).
  destruct (max_k st =? -1) eqn:Hk; [discriminate |].
  destruct (Z.of_nat (length (entries st)) =? 0) eqn:Hn; [discriminate |].
  apply Z.eqb_neq in Hn. cbn [orb].
  assert (Hne : entries st <> []) by (intros E; rewrite E in Hn; cbn in Hn; lia).
  destruct (r_neb _ _); intros [= <-].
  - split.
    + apply Forall_alter; [exact Hall |]. intros c _ Hc. apply Hadd, Hc.
    + intros E. apply (f_equal length) in E. rewrite length_alter in E.
      destruct (entries st); [congruence | discriminate].
  - split; assumption.
Qed.

Lemma make_clist_ok (P : Contrib R -> Prop) (heap_ok : bool)
  (lists : list (Contrib_List R)) :
  (forall c d, P c -> P (add_weight d c)) ->
  (forall i j w,
     0 <= i < dst_x ->
     let b := contrib_bounds src_x dst_x filter_support filter_scale src_ofs i in
     left b <= j <= right b ->
     P (mkContrib w (Int.to_ushort (reflect j src_x boundary_op)))) ->
  make_clist' heap_ok = Some lists ->
  Z.of_nat (length lists) = Z.max 0 dst_x
  /\ Forall (fun l => Forall P l /\ l <> []) lists.
Proof.
  intros Hadd HP. unfold make_clist.
  destruct heap_ok; [cbn [negb] | discriminate].
  destruct (_ =? 0)%Z; [discriminate |].
  intros Hm. apply mapM_Some in Hm.
  split.
  - apply Forall2_length in Hm. rewrite <- Hm, length_map, length_seqZ. lia.
  - apply Forall2_fmap_l in Hm.
    eapply Forall2_Forall_r; [exact Hm |].
    apply Forall_forall. intros i Hi l Hl.
    apply elem_of_seqZ in Hi.
    eapply make_contrib_ok; [exact Hadd | | exact Hl].
    intros j w Hj. apply (HP i j w); [lia | exact Hj].
Qed.

End Make_clist_facts.

(* The lists of a non-null result are the results of the loop body for the
   destination samples 0, 1, ..., dst_x - 1, in this order. *)
Lemma make_clist_lookup {R : Type} `{Real_Ops R} (src_x dst_x : Z)
  (op : Boundary_Op) (Pfilter : R -> R) (support scale ofs : R)
  (heap_ok : bool) (lists : list (Contrib_List R)) (i : Z) :
  make_clist src_x dst_x op Pfilter support scale ofs heap_ok = Some lists ->
  0 <= i < dst_x ->
  exists l,
    lists !! Z.to_nat i = Some l
    /\ make_contrib src_x dst_x op Pfilter scale
         (contrib_bounds src_x dst_x support scale ofs i) = Some l.
Proof.
  unfold make_clist. destruct heap_ok; [cbn [negb] | discriminate].
  destruct (_ =? 0)%Z; [discriminate |].
  intros Hm Hi. apply mapM_Some in Hm.
  assert (Hb : map (contrib_bounds src_x dst_x support scale ofs) (seqZ 0 dst_x)
               !! Z.to_nat i
               = Some (contrib_bounds src_x dst_x support scale ofs i)).
  { change (map ?f ?l) with (f <$> l). rewrite list_lookup_fmap.
    rewrite lookup_seqZ_lt by lia. cbn. f_equal. f_equal. lia. }
  destruct (Forall2_lookup_l _ _ _ _ _ Hm Hb) as (l & Hl & Hc).
  exists l. split; assumption.
Qed.

(** C2 (amended): every source index stored by make_clist lies in
    [0, src_len), for every boundary operation and every filter: it is the
    conversion to unsigned short of reflect(j, src_len, op) for a source
    sample j of the footprint of its list, and reflect(j, src_len, op) lies
    in [0, src_len).  The stored index equals reflect(j, src_len, op) when
    src_len <= 65536.  No footprint may start at INT_MIN, where -j
    overflows. *)
Theorem make_clist_source_index_range {R : Type} `{Real_Ops R}
  (src_x dst_x : Z) (op : Boundary_Op) (Pfilter : R -> R)
  (support scale ofs : R) (heap_ok : bool) (lists : list (Contrib_List R)) :
  1 <= src_x -> Int.in_range src_x ->
  (forall i, 0 <= i < dst_x ->
     Int.min_int < left (contrib_bounds src_x dst_x support scale ofs i)) ->
  make_clist src_x dst_x op Pfilter support scale ofs heap_ok = Some lists ->
  forall i, 0 <= i < dst_x ->
    exists l,
      lists !! Z.to_nat i = Some l
      /\ Forall (fun c =>
           0 <= pixel c < src_x
           /\ exists j,
                left (contrib_bounds src_x dst_x support scale ofs i) <= j
                  <= right (contrib_bounds src_x dst_x support scale ofs i)
                /\ 0 <= reflect j src_x op < src_x
                /\ pixel c = Int.to_ushort (reflect j src_x op)) l
      /\ (src_x <= 65536 ->
          Forall (resolved src_x op
                    (left (contrib_bounds src_x dst_x support scale ofs i))
                    (right (contrib_bounds src_x dst_x support scale ofs i)))
                 l).
Proof.
  intros Hs Hsr Hleft Hm i Hi.
  destruct (make_clist_lookup _ _ _ _ _ _ _ _ _ i Hm Hi) as (l & Hl & Hc).
  exists l. split; [exact Hl |].
  set (b := contrib_bounds src_x dst_x support scale ofs i) in *.
  assert (Hall : Forall (fun c =>
           0 <= pixel c < src_x
           /\ exists j, left b <= j <= right b
                /\ 0 <= reflect j src_x op < src_x
                /\ pixel c = Int.to_ushort (reflect j src_x op)) l).
  { eapply make_contrib_ok in Hc as [Hc _]; [exact Hc | |].
    - intros c d Hc'. exact Hc'.
    - intros j w Hj. cbn [pixel].
      pose proof (cast_to_int_range
                    (r_ceil (r_add (center b)
                                   (half_width src_x dst_x support scale)))) as Hr.
      change (cast_to_int _) with (right b) in Hr.
      pose proof (Hleft i Hi) as Hlb. fold b in Hlb.
      assert (Hjr : Int.in_range j) by (revert Hr; unfold Int.in_range; lia).
      assert (Hjm : j <> Int.min_int) by lia.
      pose proof (reflect_range j src_x op Hjr Hjm Hs Hsr) as Hrf.
      pose proof (to_ushort_le (reflect j src_x op) ltac:(lia)) as Hle.
      pose proof (to_ushort_range (reflect j src_x op)) as Hu.
      split; [lia |]. exists j. auto. }
  split; [exact Hall |].
  intros Hsmall. eapply Forall_impl; [exact Hall |].
  intros c (_ & j & Hj & Hr & Hp). exists j.
  split; [exact Hj |]. split; [exact Hr |].
  rewrite Hp. apply to_ushort_small. lia.
Qed.

(* The theorem at a concrete input: 4 source samples, 2 destination
   samples, the box kernel on binary32, destination sample 1. *)
Lemma make_clist_source_index_range_witness :
  exists lists l,
    @make_clist _ IEEE.binary32 4 2 BOUNDARY_REFLECT
      (@box_filter _ IEEE.binary32) (@BOX_FILTER_SUPPORT _ IEEE.binary32)
      (@RR _ IEEE.binary32 1.0) (@RR _ IEEE.binary32 0.0) true = Some lists
    /\ lists !! 1%nat = Some l
    /\ Forall (fun c => 0 <= pixel c < 4) l
    /\ Forall (resolved 4 BOUNDARY_REFLECT 1 4) l.
Proof.
  pose (b := @contrib_bounds _ IEEE.binary32 4 2
               (@BOX_FILTER_SUPPORT _ IEEE.binary32)
               (@RR _ IEEE.binary32 1.0) (@RR _ IEEE.binary32 0.0)).
  assert (Hleft : forall i, 0 <= i < 2 -> Int.min_int < left (b i)).
  { intros i Hi. assert (Hc : i = 0 \/ i = 1) by lia.
    destruct Hc as [-> | ->]; vm_compute; reflexivity. }
  assert (Hl1 : left (b 1) = 1) by (vm_compute; reflexivity).
  assert (Hr1 : right (b 1) = 4) by (vm_compute; reflexivity).
  assert (Hr : Int.in_range 4) by (vm_compute; split; congruence).
  pose (lists := default [] (@make_clist _ IEEE.binary32 4 2 BOUNDARY_REFLECT
      (@box_filter _ IEEE.binary32) (@BOX_FILTER_SUPPORT _ IEEE.binary32)
      (@RR _ IEEE.binary32 1.0) (@RR _ IEEE.binary32 0.0) true)).
  assert (Hm : @make_clist _ IEEE.binary32 4 2 BOUNDARY_REFLECT
      (@box_filter _ IEEE.binary32) (@BOX_FILTER_SUPPORT _ IEEE.binary32)
      (@RR _ IEEE.binary32 1.0) (@RR _ IEEE.binary32 0.0) true = Some lists) by (vm_compute; reflexivity).
  pose proof (@make_clist_source_index_range _ IEEE.binary32 4 2 BOUNDARY_REFLECT
              (@box_filter _ IEEE.binary32) (@BOX_FILTER_SUPPORT _ IEEE.binary32)
              (@RR _ IEEE.binary32 1.0) (@RR _ IEEE.binary32 0.0) true lists
              ltac:(lia) Hr Hleft Hm 1 ltac:(lia)) as HH.
  destruct HH
    as (l & Hl & Hall & Hres).
  exists lists, l. split; [exact Hm |]. split; [exact Hl |]. split.
  - eapply Forall_impl; [exact Hall |]. intros c [Hc _]. exact Hc.
  - fold (b 1) in Hres. rewrite Hl1, Hr1 in Hres. apply Hres. lia.
Defined.

(** C2 (as stated, refuted): with 65537 source and destination samples and
    the tent kernel on binary32, the footprint of destination sample 65536
    is 65535..65537 and its list is the single contributor of weight 1 with
    stored source index 0, which is reflect(j, 65537, clamp) for no j of the
    footprint: source sample 65536 was stored as (unsigned short)65536. *)
Lemma source_index_truncated :
  let b := @contrib_bounds _ IEEE.binary32 65537 65537
             (@TENT_FILTER_SUPPORT _ IEEE.binary32)
             (@RR _ IEEE.binary32 1.0) (@RR _ IEEE.binary32 0.0) 65536 in
  exists l,
    @make_contrib _ IEEE.binary32 65537 65537 BOUNDARY_CLAMP
      (@tent_filter _ IEEE.binary32) (@RR _ IEEE.binary32 1.0) b = Some l
    /\ ~ Forall (resolved 65537 BOUNDARY_CLAMP (left b) (right b)) l.
Proof.
  intros b.
  assert (Hlb : left b = 65535) by (vm_compute; reflexivity).
  assert (Hrb : right b = 65537) by (vm_compute; reflexivity).
  eexists. split; [vm_compute; reflexivity |].
  intros Hall. apply Forall_cons in Hall as [(j & Hj & _ & Hp) _].
  rewrite Hlb, Hrb in Hj. cbn [pixel] in Hp.
  assert (Hc : j = 65535 \/ j = 65536 \/ j = 65537) by lia.
  destruct Hc as [-> | [-> | ->]]; vm_compute in Hp; discriminate.
Qed.

(* A property of every list of the loop body holds of every list of a
   non-null result. *)
Lemma make_clist_Forall {R : Type} `{Real_Ops R} (src_x dst_x : Z)
  (op : Boundary_Op) (Pfilter : R -> R) (support scale ofs : R)
  (heap_ok : bool) (lists : list (Contrib_List R))
  (Q : Contrib_List R -> Prop) :
  (forall b l, make_contrib src_x dst_x op Pfilter scale b = Some l -> Q l) ->
  make_clist src_x dst_x op Pfilter support scale ofs heap_ok = Some lists ->
  Forall Q lists.
Proof.
  intros HQ. unfold make_clist.
  destruct heap_ok; [cbn [negb] | discriminate].
  destruct (_ =? 0)%Z; [discriminate |].
  intros Hm. apply mapM_Some in Hm.
  eapply Forall2_Forall_r; [exact Hm |].
  apply Forall_forall. intros b _ l Hl. eapply HQ, Hl.
Qed.

(** ** Exact arithmetic *)

Section Exact_facts.

Context {R : Type} `{Exact_Real R}.

Add Ring exact_ring_inst : (@exact_ring R _ _).

Local Open Scope real_scope.

Lemma sum_weights_from (l : Contrib_List R) (a : R) :
  fold_left (fun t c => t + weight c) l a = a + sum_weights l.
Proof.
  unfold sum_weights. revert a.
  induction l as [| c l IH]; intros a; cbn [fold_left].
  - ring.
  - rewrite (IH (a + weight c)), (IH (of_int 0 + weight c)). ring.
Qed.

Lemma sum_weights_cons (c : Contrib R) (l : Contrib_List R) :
  sum_weights (c :: l) = weight c + sum_weights l.
Proof.
  unfold sum_weights at 1. cbn [fold_left].
  rewrite sum_weights_from. ring.
Qed.

Lemma sum_weights_nil : sum_weights (@nil (Contrib R)) = of_int 0.
Proof. reflexivity. Qed.

(* Adding d to the weight of one entry adds d to the sum. *)
Lemma sum_weights_alter (l : Contrib_List R) (k : nat) (d : R) :
  (k < length l)%nat ->
  sum_weights (alter (add_weight d) k l) = sum_weights l + d.
Proof.
  revert k. induction l as [| c l IH]; intros k Hk; cbn in Hk; [lia |].
  destruct k as [| k]; cbn [alter list_alter].
  - rewrite !sum_weights_cons. cbn [add_weight weight]. ring.
  - change (list_alter ?f k l) with (alter f k l).
    rewrite !sum_weights_cons, IH by lia. ring.
Qed.

Lemma make_contrib_sum (src_x dst_x : Z) (op : Boundary_Op) (Pfilter : R -> R)
  (scale : R) (b : Contrib_Bounds R) (l : Contrib_List R) :
  make_contrib src_x dst_x op Pfilter scale b = Some l ->
  sum_weights l = RR 1.0.
Proof.
  unfold make_contrib.
  set (js := seqZ (left b) (right b - left b + 1)).
  set (norm := r_div _ _).
  set (st := fold_left _ js _).
  assert (Hok : fill_ok (fun _ => True) st).
  { apply fill_loop_ok.
    - unfold fill_ok. cbn. auto.
    - apply Forall_forall. auto. }
  destruct Hok as (Htot & Hmax & _).
  destruct (max_k st =? -1)%Z eqn:Hk; [discriminate |].
  apply Z.eqb_neq in Hk.
  destruct (Z.of_nat (length (entries st)) =? 0)%Z; [discriminate |].
  cbn [orb]. unfold r_neb.
  destruct (total_weight st =? RR 1.0) eqn:Heq; cbn [negb]; intros [= <-].
  - apply exact_eqb in Heq. congruence.
  - rewrite sum_weights_alter by lia. rewrite <- Htot. ring.
Qed.

(** C1 (amended): under exact arithmetic, the sum of the weights of each
    destination index's contributor entries equals exactly 1.0 in every
    contributor list generated by make_clist, for any sizes, boundary op,
    filter, filter scale and source offset: the residual 1.0 - sum is added
    to the maximum-weight surviving entry. *)
Theorem make_clist_unit_sum (src_x dst_x : Z) (op : Boundary_Op)
  (Pfilter : R -> R) (support scale ofs : R) (heap_ok : bool)
  (lists : list (Contrib_List R)) :
  make_clist src_x dst_x op Pfilter support scale ofs heap_ok = Some lists ->
  Forall (fun l => sum_weights l = RR 1.0) lists.
Proof.
  apply make_clist_Forall. intros b l. apply make_contrib_sum.
Qed.

End Exact_facts.

(* The rationals satisfy the laws of exact arithmetic. *)
Lemma Qc_compare_refl (a : Qc) : (a ?= a)%Qc = Eq.
Proof. apply Qceq_alt. reflexivity. Qed.

#[global] Instance Rational_exact : Exact_Real Qc.
Proof.
  split.
  - assert (H1 : RR 1.0 = 1%Qc) by (apply Qc_is_canon; reflexivity).
    rewrite H1. exact Qcrt.
  - intros a b. cbn. unfold Rational.eqb.
    destruct (a ?= b)%Qc eqn:E.
    + apply Qceq_alt in E. tauto.
    + split; [discriminate |]. intros ->. rewrite Qc_compare_refl in E.
      discriminate.
    + split; [discriminate |]. intros ->. rewrite Qc_compare_refl in E.
      discriminate.
  - intros a. cbn. unfold Rational.ltb. rewrite Qc_compare_refl. reflexivity.
  - apply Qc_is_canon. reflexivity.
Qed.

(* The theorem at a concrete input: 7 source samples, 3 destination
   samples, the tent kernel on the rationals. *)
Lemma make_clist_unit_sum_witness :
  exists lists,
    make_clist 7 3 BOUNDARY_CLAMP (@tent_filter Qc _) TENT_FILTER_SUPPORT
      (RR 1.0) (RR 0.0) true = Some lists
    /\ Forall (fun l => sum_weights l = RR 1.0) lists.
Proof.
  pose (lists := default [] (make_clist 7 3 BOUNDARY_CLAMP (@tent_filter Qc _)
                               TENT_FILTER_SUPPORT (RR 1.0) (RR 0.0) true)).
  assert (Hm : make_clist 7 3 BOUNDARY_CLAMP (@tent_filter Qc _)
                 TENT_FILTER_SUPPORT (RR 1.0) (RR 0.0) true = Some lists)
    by (vm_compute; reflexivity).
  exists lists. split; [exact Hm |].
  exact (make_clist_unit_sum 7 3 BOUNDARY_CLAMP tent_filter TENT_FILTER_SUPPORT
           (RR 1.0) (RR 0.0) true lists Hm).
Defined.

(** C1 (as stated, refuted): in IEEE arithmetic the sum is not exactly 1.0.
    With 7 source samples, 3 destination samples, the tent kernel, clamp,
    filter scale 1 and offset 0, the list of destination sample 1 on
    binary32 and the list of destination sample 2 on binary64 have a sum of
    weights different from 1.0, both when the weights are added in the
    format from the first to the last and when their values are added as
    rationals. *)
Lemma unit_sum_fails_in_floating_point :
  (exists lists l,
     @make_clist _ IEEE.binary32 7 3 BOUNDARY_CLAMP
       (@tent_filter _ IEEE.binary32) (@TENT_FILTER_SUPPORT _ IEEE.binary32)
       (@RR _ IEEE.binary32 1.0) (@RR _ IEEE.binary32 0.0) true = Some lists
     /\ lists !! 1%nat = Some l
     /\ @r_eqb _ IEEE.binary32 (@sum_weights _ IEEE.binary32 l)
          (@RR _ IEEE.binary32 1.0) = false
     /\ Qeq_bool (IEEE.sum_Q l) 1 = false)
  /\ (exists lists l,
     @make_clist _ IEEE.binary64 7 3 BOUNDARY_CLAMP
       (@tent_filter _ IEEE.binary64) (@TENT_FILTER_SUPPORT _ IEEE.binary64)
       (@RR _ IEEE.binary64 1.0) (@RR _ IEEE.binary64 0.0) true = Some lists
     /\ lists !! 2%nat = Some l
     /\ @r_eqb _ IEEE.binary64 (@sum_weights _ IEEE.binary64 l)
          (@RR _ IEEE.binary64 1.0) = false
     /\ Qeq_bool (IEEE.sum_Q l) 1 = false).
Proof.
  split.
  - eexists. eexists. split; [vm_compute; reflexivity |].
    split; [reflexivity |]. split; vm_compute; reflexivity.
  - eexists. eexists. split; [vm_compute; reflexivity |].
    split; [reflexivity |]. split; vm_compute; reflexivity.
Qed.

(** ** The box kernel *)

Lemma Rational_ltb_lt (a b : Qc) : Rational.ltb a b = true <-> (a < b)%Qc.
Proof.
  unfold Rational.ltb, Qclt, Qccompare. rewrite Qlt_alt.
  destruct (a ?= b)%Q; split; congruence.
Qed.

Lemma Rational_leb_le (a b : Qc) : Rational.leb a b = true <-> (a <= b)%Qc.
Proof.
  unfold Rational.leb, Qcle, Qccompare. rewrite Qle_alt.
  destruct (a ?= b)%Q; split; congruence.
Qed.

Lemma SFcompare_refl (x : spec_float) :
  SFcompare x x = Some Eq \/ SFcompare x x = None.
Proof.
  destruct x as [[|] | [|] | | [|] m e]; cbn; auto.
  - rewrite Z.compare_refl, Pos.compare_cont_refl. auto.
  - rewrite Z.compare_refl, Pos.compare_refl. auto.
Qed.

Lemma SFltb_irrefl (x : spec_float) : SFltb x x = false.
Proof.
  unfold SFltb. destruct (SFcompare_refl x) as [-> | ->]; reflexivity.
Qed.

(* The box kernel at 0.5 is 0, wherever < is irreflexive. *)
Lemma box_filter_half {R : Type} `{Real_Ops R} :
  (forall x : R, r_ltb x x = false) -> box_filter (RR 0.5) = RR 0.0.
Proof.
  intros Hirr. unfold box_filter. rewrite Hirr, andb_false_r. reflexivity.
Qed.

(** C7 (amended): the box filter evaluator returns 1 exactly when
    -0.5 <= t < 0.5 and 0 otherwise.  The contributor-list builder preserves
    the half-open interval in the kernel argument: where the argument that
    make_clist passes to the kernel for destination i and source j, which is
    (center(i) - j) * xscale / filter_scale when minifying and
    (center(i) - j) / filter_scale otherwise, equals 0.5 exactly, source j
    is skipped (it contributes weight 0), provided 0 * norm == 0; on the
    rationals, center(i) - j == 0.5 gives such an argument when
    dst_len >= src_len and filter_scale is 1. *)
Theorem box_filter_half_open :
  (forall t : Qc,
     ((RR (-0.5) <= t)%Qc /\ (t < RR 0.5)%Qc -> box_filter t = RR 1.0)
     /\ (~ ((RR (-0.5) <= t)%Qc /\ (t < RR 0.5)%Qc) -> box_filter t = RR 0.0))
  /\ (forall (R : Type) (ops : Real_Ops R) (src_x dst_x : Z)
        (op : Boundary_Op) (filter_scale : R) (b : Contrib_Bounds R)
        (st : Fill) (j : Z),
        (forall x : R, r_ltb x x = false) ->
        let norm :=
          r_div (RR 1.0)
            (raw_weight_sum src_x dst_x box_filter filter_scale (center b)
               (seqZ (left b) (right b - left b + 1))) in
        r_eqb (r_mul (RR 0.0) norm) (RR 0.0) = true ->
        kernel_arg src_x dst_x filter_scale (center b) j = RR 0.5 ->
        r_eqb (contrib_weight src_x dst_x box_filter filter_scale b j) (RR 0.0)
        = true
        /\ fill_step src_x dst_x op box_filter filter_scale (center b) norm st j
           = st)
  /\ (forall (src_x dst_x : Z) (center : Qc) (j : Z),
        @minify Qc _ src_x dst_x = false ->
        r_sub center (of_int j) = RR 0.5 ->
        kernel_arg src_x dst_x (RR 1.0) center j = RR 0.5).
Proof.
  split; [| split].
  - intros t. unfold box_filter. cbn [r_leb r_ltb Rational.ops].
    destruct (Rational.leb (RR (-0.5)) t) eqn:Hle;
      destruct (Rational.ltb t (RR 0.5)) eqn:Hlt; cbn [andb].
    + split; [reflexivity |]. intros Hn. exfalso. apply Hn.
      split; [apply Rational_leb_le, Hle | apply Rational_ltb_lt, Hlt].
    + split; [| reflexivity]. intros [_ Ht].
      apply Rational_ltb_lt in Ht. congruence.
    + split; [| reflexivity]. intros [Ht _].
      apply Rational_leb_le in Ht. congruence.
    + split; [| reflexivity]. intros [Ht _].
      apply Rational_leb_le in Ht. congruence.
  - intros R ops src_x dst_x op filter_scale b st j Hirr norm Hzero Harg.
    assert (Hw : contrib_weight src_x dst_x box_filter filter_scale b j
                 = r_mul (RR 0.0) norm).
    { unfold contrib_weight. rewrite Harg, (box_filter_half Hirr).
      reflexivity. }
    split; [rewrite Hw; exact Hzero |].
    unfold fill_step. rewrite Harg, (box_filter_half Hirr), Hzero.
    reflexivity.
  - intros src_x dst_x center j Hmin Hc.
    unfold kernel_arg. rewrite Hmin, Hc. unfold oo_filter_scale.
    apply Qc_is_canon. reflexivity.
Qed.

(* The theorem at a concrete input on binary32: 2 source samples, 3
   destination samples; the center of destination sample 1 is 0.5, and
   source sample 0 is skipped. *)
Lemma box_filter_half_open_witness :
  let b := @contrib_bounds _ IEEE.binary32 2 3
             (@BOX_FILTER_SUPPORT _ IEEE.binary32)
             (@RR _ IEEE.binary32 1.0) (@RR _ IEEE.binary32 0.0) 1 in
  let st := mkFill [] (@of_int _ IEEE.binary32 0)
              (@RR _ IEEE.binary32 (-100000000000000000000)) (-1) in
  @r_eqb _ IEEE.binary32
    (@contrib_weight _ IEEE.binary32 2 3 (@box_filter _ IEEE.binary32)
       (@RR _ IEEE.binary32 1.0) b 0) (@RR _ IEEE.binary32 0.0) = true
  /\ @fill_step _ IEEE.binary32 2 3 BOUNDARY_CLAMP
       (@box_filter _ IEEE.binary32) (@RR _ IEEE.binary32 1.0) (center b)
       (@r_div _ IEEE.binary32 (@RR _ IEEE.binary32 1.0)
          (@raw_weight_sum _ IEEE.binary32 2 3 (@box_filter _ IEEE.binary32)
             (@RR _ IEEE.binary32 1.0) (center b)
             (seqZ (left b) (right b - left b + 1)))) st 0 = st.
Proof.
  intros b st.
  exact (proj1 (proj2 box_filter_half_open) spec_float IEEE.binary32 2 3
           BOUNDARY_CLAMP (@RR _ IEEE.binary32 1.0) b st 0 SFltb_irrefl
           ltac:(vm_compute; reflexivity) ltac:(vm_compute; reflexivity)).
Defined.

(** C7 (as stated, refuted): with 4 source samples, 2 destination samples
    and the box kernel on binary32, center(0) - 0 == 0.5 exactly, and source
    sample 0 contributes the weight 0.5 to destination sample 0: the kernel
    argument is 0.5 * xscale = 0.25. *)
Lemma box_half_contributes_when_minifying :
  let b := @contrib_bounds _ IEEE.binary32 4 2
             (@BOX_FILTER_SUPPORT _ IEEE.binary32)
             (@RR _ IEEE.binary32 1.0) (@RR _ IEEE.binary32 0.0) 0 in
  @r_eqb _ IEEE.binary32
    (@r_sub _ IEEE.binary32 (center b) (@of_int _ IEEE.binary32 0))
    (@RR _ IEEE.binary32 0.5) = true
  /\ @contrib_weight _ IEEE.binary32 4 2 (@box_filter _ IEEE.binary32)
       (@RR _ IEEE.binary32 1.0) b 0 = @RR _ IEEE.binary32 0.5
  /\ @make_clist _ IEEE.binary32 4 2 BOUNDARY_CLAMP
       (@box_filter _ IEEE.binary32) (@BOX_FILTER_SUPPORT _ IEEE.binary32)
       (@RR _ IEEE.binary32 1.0) (@RR _ IEEE.binary32 0.0) true
     = Some [[mkContrib (@RR _ IEEE.binary32 0.5) 0;
              mkContrib (@RR _ IEEE.binary32 0.5) 1];
             [mkContrib (@RR _ IEEE.binary32 0.5) 2;
              mkContrib (@RR _ IEEE.binary32 0.5) 3]].
Proof.
  intros b. split; [| split]; vm_compute; reflexivity.
Qed.

(** ** The streaming engine: single calls *)

Section Engine_facts.

Context {R : Type} `{Real_Ops R}.

Implicit Types (e : Resampler R) (Psrc : list R).

Lemma find_index_Some {A : Type} (f : A -> bool) (a : list A) (i : nat) :
  find_index f a = Some i ->
  exists x, a !! i = Some x /\ f x = true
    /\ forall k y, (k < i)%nat -> a !! k = Some y -> f y = false.
Proof.
  revert i. induction a as [| x a IH]; intros i; cbn [find_index];
    [discriminate |].
  destruct (f x) eqn:Hx.
  - intros [= <-]. exists x. repeat split; auto. intros k y Hk. lia.
  - destruct (find_index f a) as [i' |] eqn:Hi; [| discriminate].
    intros [= <-]. destruct (IH i' eq_refl) as (z & Hz & Hfz & Hmin).
    exists z. repeat split; auto.
    intros [| k] y Hk; cbn; [intros [= <-]; exact Hx |].
    apply Hmin. lia.
Qed.

Lemma find_index_None {A : Type} (f : A -> bool) (a : list A) :
  find_index f a = None -> forall k y, a !! k = Some y -> f y = false.
Proof.
  induction a as [| x a IH]; cbn [find_index]; [intros _ k y; discriminate |].
  destruct (f x) eqn:Hx; [discriminate |].
  destruct (find_index f a) eqn:Hi; [discriminate |].
  intros _ [| k] y; cbn; [intros [= <-]; exact Hx | apply IH; reflexivity].
Qed.

Lemma find_index_lt {A : Type} (f : A -> bool) (a : list A) (i : nat) :
  find_index f a = Some i -> (i < length a)%nat.
Proof.
  intros Hi. destruct (find_index_Some f a i Hi) as (x & Hx & _).
  eapply lookup_lt_Some, Hx.
Qed.

Lemma index_Some {A : Type} (a : list A) (i : Z) (x : A) :
  index a i = Some x <-> 0 <= i /\ a !! Z.to_nat i = Some x.
Proof.
  unfold index. destruct (Z.ltb_spec i 0); split.
  - discriminate.
  - intros [Hi _]. lia.
  - auto.
  - intros [_ Hx]. exact Hx.
Qed.

Lemma range_check_Some (v h x : Z) :
  resampler_range_check v h = Some x <-> x = v /\ 0 <= v < h.
Proof.
  unfold resampler_range_check.
  destruct (Z.leb_spec 0 v), (Z.ltb_spec v h); cbn [andb]; split;
    try discriminate; try (intros [_ ?]; lia).
  - intros [= <-]. lia.
  - intros [-> _]. reflexivity.
Qed.

(** C9: when put_line is called with cur_src_y < src_y and
    refcount[cur_src_y] == 0, it returns success and advances cur_src_y by
    one, leaving every other member of the engine unchanged (no slot is
    acquired, no present flag is set), whatever the row and whatever the
    allocator would do: the row is never read. *)
Theorem put_line_dead_row e Psrc (malloc_ok : bool) (count : list Z) :
  m_cur_src_y e < m_resample_src_y e ->
  m_Psrc_y_count e = Some count ->
  index count (m_cur_src_y e) = Some 0 ->
  put_line Psrc malloc_ok e
  = Some (true, set_cur_src_y (m_cur_src_y e + 1) e)
  /\ (forall Psrc' malloc_ok',
        put_line Psrc' malloc_ok' e = put_line Psrc malloc_ok e)
  /\ let e' := set_cur_src_y (m_cur_src_y e + 1) e in
     m_cur_src_y e' = m_cur_src_y e + 1
     /\ m_cur_dst_y e' = m_cur_dst_y e
     /\ m_Psrc_y_count e' = m_Psrc_y_count e
     /\ m_Psrc_y_flag e' = m_Psrc_y_flag e
     /\ m_Pscan_buf e' = m_Pscan_buf e
     /\ m_Pdst_buf e' = m_Pdst_buf e
     /\ m_Ptmp_buf e' = m_Ptmp_buf e
     /\ m_status e' = m_status e.
Proof.
  intros Hcur Hcount Hzero.
  assert (Hput : forall Psrc' malloc_ok',
            put_line Psrc' malloc_ok' e
            = Some (true, set_cur_src_y (m_cur_src_y e + 1) e)).
  { intros Psrc' malloc_ok'. unfold put_line.
    destruct (Z.geb_spec (m_cur_src_y e) (m_resample_src_y e)); [lia |].
    rewrite Hcount. cbn [mbind option_bind].
    apply index_Some in Hzero as Hnn. destruct Hnn as [Hnn _].
    assert (Hrc : resampler_range_check (m_cur_src_y e) (m_resample_src_y e)
                  = Some (m_cur_src_y e)) by (apply range_check_Some; lia).
    rewrite Hrc. cbn [mbind option_bind]. rewrite Hzero.
    reflexivity. }
  split; [apply Hput |]. split; [intros; rewrite !Hput; reflexivity |].
  destruct e; cbn. repeat split; reflexivity.
Qed.

(** C10: if the per-slot buffer allocation inside put_line fails, the
    call returns failure and sets status to OutOfMemory, and the engine state
    is not rolled back: the chosen slot keeps tag cur_src_y with a null
    buffer pointer, present[cur_src_y] remains true, and cur_src_y is not
    advanced. *)
Theorem put_line_malloc_failure e Psrc (count : list Z) (flag : list bool)
  (scan : Scan_Buf R) (c : Z) (i : nat) :
  m_cur_src_y e < m_resample_src_y e ->
  m_Psrc_y_count e = Some count ->
  index count (m_cur_src_y e) = Some c -> c <> 0 ->
  m_Pscan_buf e = Some scan ->
  find_free scan = Some i ->
  scan_buf_l scan !! i = Some None ->
  m_Psrc_y_flag e = Some flag ->
  (Z.to_nat (m_cur_src_y e) < length flag)%nat ->
  exists e',
    put_line Psrc false e = Some (false, e')
    /\ m_status e' = STATUS_OUT_OF_MEMORY
    /\ m_cur_src_y e' = m_cur_src_y e
    /\ (exists scan' flag',
          m_Pscan_buf e' = Some scan'
          /\ scan_buf_y scan' !! i = Some (m_cur_src_y e)
          /\ scan_buf_l scan' !! i = Some None
          /\ m_Psrc_y_flag e' = Some flag'
          /\ index flag' (m_cur_src_y e) = Some true).
Proof.
  intros Hcur Hcount Hc Hnz Hscan Hfree Hnull Hflag Hlen.
  apply index_Some in Hc as Hnn. destruct Hnn as [Hnn _].
  assert (Hrc : resampler_range_check (m_cur_src_y e) (m_resample_src_y e)
                = Some (m_cur_src_y e)) by (apply range_check_Some; lia).
  eexists. split.
  - unfold put_line.
    destruct (Z.geb_spec (m_cur_src_y e) (m_resample_src_y e)); [lia |].
    rewrite Hcount. cbn [mbind option_bind].
    rewrite Hrc. cbn [mbind option_bind]. rewrite Hc. cbn [mbind option_bind].
    destruct (Z.eqb_spec c 0); [contradiction |].
    rewrite Hscan. cbn [mbind option_bind]. rewrite Hfree, Hflag.
    cbn [mbind option_bind]. rewrite Hnull. cbn [mbind option_bind].
    reflexivity.
  - destruct e; cbn in *. split; [reflexivity |]. split; [reflexivity |].
    eexists. eexists. split; [reflexivity |]. cbn.
    split; [apply list_lookup_insert_eq; eapply find_index_lt, Hfree |].
    split; [exact Hnull |]. split; [reflexivity |].
    apply index_Some. split; [lia |].
    unfold assign. apply list_lookup_insert_eq. exact Hlen.
Qed.


Lemma frame_refl e : frame e e.
Proof. repeat split. Qed.

Lemma frame_trans e1 e2 e3 : frame e1 e2 -> frame e2 e3 -> frame e1 e3.
Proof.
  unfold frame. intros (-> & -> & -> & ->) (-> & -> & -> & ->). auto.
Qed.

Lemma resample_y_step_frame (first : bool) (tmp tmp' : list R) e e'
  (p : Contrib R) :
  resample_y_step first (tmp, e) p = Some (tmp', e') ->
  frame e e' /\ m_Pdst_buf e' = m_Pdst_buf e /\ m_Ptmp_buf e' = m_Ptmp_buf e.
Proof.
  unfold resample_y_step. intros Hs.
  repeat match type of Hs with
         | (mbind _ ?m) = Some _ =>
             let x := fresh "x" in
             destruct m as [x |] eqn:?; cbn [mbind option_bind] in Hs;
             [| discriminate]
         end.
  destruct (Z.eqb _ 0) in Hs.
  - repeat match type of Hs with
           | (mbind _ ?m) = Some _ =>
               let x := fresh "x" in
               destruct m as [x |] eqn:?; cbn [mbind option_bind] in Hs;
               [| discriminate]
           end.
    injection Hs as <- <-. destruct e; repeat split.
  - injection Hs as <- <-. destruct e; repeat split.
Qed.

Lemma resample_y_loop_frame (l : Contrib_List R) :
  forall (first : bool) (tmp tmp' : list R) e e',
    resample_y_loop first (tmp, e) l = Some (tmp', e') ->
    frame e e' /\ m_Pdst_buf e' = m_Pdst_buf e /\ m_Ptmp_buf e' = m_Ptmp_buf e.
Proof.
  induction l as [| p l IH]; intros first tmp tmp' e e'; cbn [resample_y_loop].
  - intros [= <- <-]. split; [apply frame_refl | auto].
  - destruct (resample_y_step first (tmp, e) p) as [[tmp1 e1] |] eqn:Hs;
      cbn [mbind option_bind]; [| discriminate].
    intros Hl. apply resample_y_step_frame in Hs as (Hf1 & Hd1 & Ht1).
    apply IH in Hl as (Hf2 & Hd2 & Ht2).
    split; [eapply frame_trans; eassumption | split; congruence].
Qed.


Lemma resample_y_frame e e' : resample_y e = Some e' -> frame e e'.
Proof.
  unfold resample_y. intros Hs.
  destruct (m_Pclist_y e) as [lists |]; cbn [mbind option_bind] in Hs;
    [| discriminate].
  destruct (index lists (m_cur_dst_y e)) as [Pclist |];
    cbn [mbind option_bind] in Hs; [| discriminate].
  destruct (m_Pdst_buf e) as [Pdst |]; cbn [mbind option_bind] in Hs;
    [| discriminate].
  destruct (if m_delay_x_resample e then m_Ptmp_buf e else Some Pdst)
    as [Ptmp |]; cbn [mbind option_bind] in Hs; [| discriminate].
  destruct (resample_y_loop true (Ptmp, e) Pclist) as [[tmp e1] |] eqn:Hl;
    cbn [mbind option_bind] in Hs; [| discriminate].
  apply resample_y_loop_frame in Hl as (Hf & _ & _).
  eapply frame_trans; [exact Hf |].
  destruct (generate_line e1 Pdst tmp) as [[d e2] |] eqn:Hg;
    cbn [mbind option_bind] in Hs; [| discriminate].
  destruct (clamp_line e2 d) as [d' |]; cbn [mbind option_bind] in Hs;
    [| discriminate].
  injection Hs as <-.
  apply (frame_trans _ e2).
  - unfold generate_line in Hg. destruct (m_delay_x_resample e1).
    + bind_inv Hg. injection Hg as <- <-. destruct e1; repeat split.
    + injection Hg as <- <-. apply frame_refl.
  - destruct e2; repeat split.
Qed.

Lemma put_line_frame e e' Psrc (malloc_ok r : bool) :
  put_line Psrc malloc_ok e = Some (r, e') ->
  plan e' = plan e /\ m_cur_dst_y e' = m_cur_dst_y e
  /\ (m_status e' = m_status e
      \/ r = false /\ m_status e' = STATUS_SCAN_BUFFER_FULL
      \/ r = false /\ m_status e' = STATUS_OUT_OF_MEMORY).
Proof.
  unfold put_line. intros Hs.
  destruct (m_cur_src_y e >=? m_resample_src_y e).
  { injection Hs as <- <-. auto. }
  bind_inv Hs; injection Hs as <- <-; destruct e; cbn; auto 10.
Qed.

Lemma get_line_frame e e' (r : option (list R)) :
  get_line e = Some (r, e') ->
  plan e' = plan e /\ m_status e' = m_status e
  /\ m_cur_src_y e' = m_cur_src_y e.
Proof.
  unfold get_line. intros Hs.
  destruct (m_cur_dst_y e =? m_resample_dst_y e).
  { injection Hs as <- <-. auto. }
  destruct (m_Pclist_y e) as [lists |]; cbn [mbind option_bind] in Hs;
    [| discriminate].
  destruct (index lists (m_cur_dst_y e)) as [Pclist |];
    cbn [mbind option_bind] in Hs; [| discriminate].
  destruct (all_present e Pclist) as [[|] |]; cbn [mbind option_bind] in Hs;
    [| injection Hs as <- <-; auto | discriminate].
  destruct (resample_y e) as [e1 |] eqn:Hy; cbn [mbind option_bind] in Hs;
    [| discriminate].
  injection Hs as <- <-. apply resample_y_frame in Hy as (Hp & Hst & Hc & _).
  destruct e1; cbn in *. auto.
Qed.

Lemma restart_frame e e' :
  restart e = Some e' -> plan e' = plan e /\ m_status e' = m_status e.
Proof.
  unfold restart. intros Hs.
  destruct (m_status e) eqn:Hst;
    try (injection Hs as <-; rewrite Hst; auto; fail).
  bind_inv Hs. injection Hs as <-. destruct e; cbn in *. auto.
Qed.

(* No call sets the status back to STATUS_OKAY. *)
Lemma call_status (c : Call R) e e' :
  call c e = Some e' ->
  m_status e <> STATUS_OKAY -> m_status e' <> STATUS_OKAY.
Proof.
  destruct c as [Psrc malloc_ok | |]; cbn [call]; intros Hc Hne.
  - destruct (put_line Psrc malloc_ok e) as [[r e1] |] eqn:Hp; [| discriminate].
    injection Hc as <-.
    apply put_line_frame in Hp as (_ & _ & [Hs | [[_ Hs] | [_ Hs]]]);
      rewrite Hs; [exact Hne | discriminate | discriminate].
  - destruct (get_line e) as [[r e1] |] eqn:Hg; [| discriminate].
    injection Hc as <-. apply get_line_frame in Hg as (_ & Hs & _).
    rewrite Hs. exact Hne.
  - apply restart_frame in Hc as [_ Hs]. rewrite Hs. exact Hne.
Qed.

(** C3 (amended): error statuses are sticky in that no call clears them:
    once the status is OutOfMemory, BadFilterName or ScanBufferFull, it is
    never STATUS_OKAY again after any sequence of put_line, get_line and
    restart calls; a put_line that returns success and a get_line leave
    the status as it is.  (put_line and get_line do not test the status,
    and may succeed.) *)
Theorem status_sticky (cs : list (Call R)) e e' :
  m_status e <> STATUS_OKAY -> run cs e = Some e' ->
  m_status e' <> STATUS_OKAY.
Proof.
  revert e. induction cs as [| c cs IH]; intros e Hne; cbn [run].
  - intros [= <-]. exact Hne.
  - destruct (call c e) as [e1 |] eqn:Hc; cbn [mbind option_bind];
      [| discriminate].
    apply IH. eapply call_status; eassumption.
Qed.

End Engine_facts.

(* C9 at a concrete engine: source line 0 of [second_line_only] is dead. *)
Lemma put_line_dead_row_witness :
  exists e,
    Examples.second_line_only = Some e
    /\ Examples.put_line32 [Examples.lit 7] true e
       = Some (true, set_cur_src_y 1 e)
    /\ m_Pscan_buf (set_cur_src_y 1 e) = m_Pscan_buf e
    /\ m_Psrc_y_flag (set_cur_src_y 1 e) = m_Psrc_y_flag e.
Proof.
  eexists. split; [vm_compute; reflexivity |].
  match goal with
  | |- Examples.put_line32 ?row ?ok ?e = _ /\ _ =>
      destruct (@put_line_dead_row _ IEEE.binary32 e row ok [0; 1]
                  ltac:(vm_compute; reflexivity) ltac:(reflexivity)
                  ltac:(reflexivity))
        as (Hput & _ & _ & _ & _ & _ & Hscan & _)
  end.
  split; [exact Hput |]. split; reflexivity.
Defined.

(* C10 at a concrete engine: the first put_line of [fresh_2x2], with a
   failing allocation. *)
Lemma put_line_malloc_failure_witness :
  exists e e',
    Examples.fresh_2x2 = Some e
    /\ Examples.put_line32 [Examples.lit 1; Examples.lit 2] false e
       = Some (false, e')
    /\ m_status e' = STATUS_OUT_OF_MEMORY
    /\ m_cur_src_y e' = 0.
Proof.
  eexists.
  match goal with
  | |- exists e', ?new = Some ?e /\ _ =>
      assert (Hnew : new = Some e) by (vm_compute; reflexivity)
  end.
  match type of Hnew with
  | _ = Some ?e =>
      destruct (@put_line_malloc_failure _ IEEE.binary32 e
                  [Examples.lit 1; Examples.lit 2] [1; 1] [false; false]
                  (mkScan_Buf (replicate 1024 (-1)) (replicate 1024 None))
                  1 0%nat
                  ltac:(vm_compute; reflexivity) ltac:(reflexivity)
                  ltac:(reflexivity) ltac:(discriminate) ltac:(reflexivity)
                  ltac:(reflexivity) ltac:(reflexivity) ltac:(reflexivity)
                  ltac:(cbn; lia))
        as (e' & Hput & Hst & Hcur & _)
  end.
  exists e'. split; [exact Hnew |]. split; [exact Hput |].
  split; [exact Hst |]. exact Hcur.
Defined.

(* C3 (amended) at a concrete engine: after the failed allocation the
   status stays OutOfMemory through a put_line that succeeds. *)
Lemma status_sticky_witness :
  exists e e1 e2,
    Examples.fresh_2x2 = Some e
    /\ Examples.put_line32 [Examples.lit 1; Examples.lit 2] false e
       = Some (false, e1)
    /\ Examples.run32 [Put [Examples.lit 1; Examples.lit 2] true] e1 = Some e2
    /\ m_status e2 <> STATUS_OKAY.
Proof.
  do 3 eexists.
  split; [vm_compute; reflexivity |].
  split; [vm_compute; reflexivity |].
  match goal with
  | |- ?r = Some ?e2 /\ _ =>
      assert (Hrun : r = Some e2) by (vm_compute; reflexivity)
  end.
  split; [exact Hrun |].
  apply (@status_sticky _ IEEE.binary32 _ _ _) with (2 := Hrun).
  vm_compute. discriminate.
Defined.

(** C3 (as stated, refuted): calls made after an error status has been set
    can succeed.  After a put_line that fails with OutOfMemory, the next
    put_line returns success.  After 1024 lines have been put into
    [identity_1025] with no get_line, the next put_line fails with
    ScanBufferFull, and the get_line that follows returns a row. *)
Lemma calls_succeed_after_error :
  (exists e e1 e2,
     Examples.fresh_2x2 = Some e
     /\ Examples.put_line32 [Examples.lit 1; Examples.lit 2] false e
        = Some (false, e1)
     /\ m_status e1 = STATUS_OUT_OF_MEMORY
     /\ Examples.put_line32 [Examples.lit 1; Examples.lit 2] true e1
        = Some (true, e2))
  /\ (exists e e1 e2 e3 row,
        Examples.identity_1025 = Some e
        /\ Examples.run32 (replicate 1024 (Put [Examples.lit 1] true)) e
           = Some e1
        /\ Examples.put_line32 [Examples.lit 1] true e1 = Some (false, e2)
        /\ m_status e2 = STATUS_SCAN_BUFFER_FULL
        /\ Examples.get_line32 e2 = Some (Some row, e3)).
Proof.
  split.
  - do 3 eexists. repeat (split; [vm_compute; reflexivity |]).
    vm_compute; reflexivity.
  - do 5 eexists. repeat (split; [vm_compute; reflexivity |]).
    vm_compute; reflexivity.
Qed.

(** ** The constructor: the order of the two passes *)

(** C4 (the code at a failing input): for 4096 x 4096 to 8192 x 8192 with
    8 contributors per destination sample on both axes, x_ops = y_ops =
    65536, xy_ops = 984263338 and yx_ops = 894784853, so that the claim asks
    for delay_x_resample = true and intermediate_x = 4096; the constructor
    computes 4 * y_ops * dst_x in int, where it overflows, and sets
    delay_x_resample = false and intermediate_x = 8192. *)
Theorem axis_order_overflow :
  m_status <$> Examples.large_8_taps = Some STATUS_OKAY
  /\ @count_ops spec_float Examples.eight_taps 8192 = Some 65536
  /\ xy_ops_spec 65536 65536 4096 8192 = 984263338
  /\ yx_ops_spec 65536 65536 4096 8192 = 894784853
  /\ delay_x_spec 65536 65536 4096 4096 8192 8192
  /\ m_delay_x_resample <$> Examples.large_8_taps = Some false
  /\ m_intermediate_x <$> Examples.large_8_taps = Some 8192.
Proof.
  split; [vm_compute; reflexivity |].
  split; [vm_compute; reflexivity |].
  split; [vm_compute; reflexivity |].
  split; [vm_compute; reflexivity |].
  split; [left; vm_compute; reflexivity |].
  split; vm_compute; reflexivity.
Qed.

Lemma count_ops_fold {A : Type} (l : list (list A)) (t : Z) :
  0 <= t ->
  t + Z.of_nat (length (concat l)) <= Int.max_int ->
  fold_left (fun t c => Int.add t (Z.of_nat (length c))) l t
  = t + Z.of_nat (length (concat l)).
Proof.
  revert t. induction l as [| c l IH]; intros t Ht Hmax; cbn [fold_left concat].
  - cbn. lia.
  - cbn [concat] in Hmax. rewrite length_app in *.
    unfold Int.add at 2. rewrite wrap_id.
    + rewrite IH; lia.
    + revert Hmax. unfold Int.in_range, Int.min_int, Int.max_int.
      rewrite pow2_31. lia.
Qed.

(* Without overflow the comparison in int is the comparison of the
   specification. *)
Lemma delay_x_correct (x_ops y_ops src_x src_y dst_x dst_y : Z) :
  0 <= x_ops -> 0 <= y_ops ->
  0 < src_x -> 0 < src_y -> 0 < dst_x -> 0 < dst_y ->
  4 * y_ops * dst_x <= Int.max_int ->
  4 * y_ops * src_x <= Int.max_int ->
  xy_ops_spec x_ops y_ops src_y dst_x <= Int.max_int ->
  yx_ops_spec x_ops y_ops src_x dst_y <= Int.max_int ->
  delay_x x_ops y_ops src_x src_y dst_x dst_y = true
  <-> delay_x_spec x_ops y_ops src_x src_y dst_x dst_y.
Proof.
  intros Hx Hy Hsx Hsy Hdx Hdy H1 H2 H3 H4.
  unfold xy_ops_spec, yx_ops_spec, delay_x_spec, Int.max_int in *.
  rewrite pow2_31 in *.
  assert (Hw : forall z, 0 <= z <= 2147483647 -> Int.wrap z = z).
  { intros z Hz. apply wrap_id. unfold Int.in_range, Int.min_int, Int.max_int.
    rewrite pow2_31. lia. }
  pose proof (Z.div_pos (4 * y_ops * dst_x) 3 ltac:(nia) ltac:(lia)) as Hq1.
  pose proof (Z.div_pos (4 * y_ops * src_x) 3 ltac:(nia) ltac:(lia)) as Hq2.
  assert (Hm1 : 0 <= x_ops * src_y) by nia.
  assert (Hm2 : 0 <= x_ops * dst_y) by nia.
  assert (H4y : 0 <= 4 * y_ops <= 2147483647) by nia.
  unfold delay_x, Int.add, Int.mul, Int.div.
  rewrite (Hw (4 * y_ops)) by lia.
  rewrite (Hw (4 * y_ops * dst_x)) by nia.
  rewrite (Hw (4 * y_ops * src_x)) by nia.
  rewrite !Z.quot_div_nonneg by nia.
  rewrite (Hw (4 * y_ops * dst_x / 3)) by lia.
  rewrite (Hw (4 * y_ops * src_x / 3)) by lia.
  rewrite (Hw (x_ops * src_y)) by lia.
  rewrite (Hw (x_ops * dst_y)) by lia.
  rewrite (Hw (x_ops * src_y + _)) by lia.
  rewrite (Hw (_ + x_ops * dst_y)) by lia.
  rewrite orb_true_iff, andb_true_iff, Z.gtb_gt, Z.eqb_eq, Z.ltb_lt.
  unfold xy_ops_spec, yx_ops_spec. tauto.
Qed.

Section Constructor_facts.

Context {R : Type} `{Real_Ops R} `{Libm R}.

Variable MAX_SCAN_BUF_SIZE : Z.
Variable RESAMPLER_DEFAULT_FILTER : string.


(* A constructor call that ends with STATUS_OKAY. *)
Lemma Resampler_new_okay (src_x src_y dst_x dst_y : Z) (op : Boundary_Op)
  (lo hi : R) (Pfilter_name : option string)
  (Pclist_x Pclist_y : option (list (Contrib_List R)))
  (fxs fys ofx ofy : R) (heap : Heap) (e : Resampler R) :
  Resampler_new MAX_SCAN_BUF_SIZE RESAMPLER_DEFAULT_FILTER src_x src_y dst_x
    dst_y op lo hi Pfilter_name Pclist_x Pclist_y fxs fys ofx ofy heap
  = Some e ->
  m_status e = STATUS_OKAY ->
  exists lists_x lists_y count x_ops y_ops,
    (0 < src_x /\ 0 < src_y /\ 0 < dst_x /\ 0 < dst_y)
    /\ clist_origin RESAMPLER_DEFAULT_FILTER src_x dst_x op Pfilter_name
         Pclist_x fxs ofx lists_x
    /\ clist_origin RESAMPLER_DEFAULT_FILTER src_y dst_y op Pfilter_name
         Pclist_y fys ofy lists_y
    /\ count_contribs src_y dst_y lists_y (replicate (Z.to_nat src_y) 0)
       = Some count
    /\ count_ops lists_x dst_x = Some x_ops
    /\ count_ops lists_y dst_y = Some y_ops
    /\ e = mkResampler src_x src_y dst_x dst_y op lo hi
             (delay_x x_ops y_ops src_x src_y dst_x dst_y)
             (if delay_x x_ops y_ops src_x src_y dst_x dst_y
              then src_x else dst_x)
             (Some (replicate (Z.to_nat dst_x) (of_int 0)))
             (if delay_x x_ops y_ops src_x src_y dst_x dst_y
              then Some (replicate (Z.to_nat src_x) (of_int 0)) else None)
             (if Pclist_x is Some _ then true else false) (Some lists_x)
             (if Pclist_y is Some _ then true else false) (Some lists_y)
             (Some count) (Some (replicate (Z.to_nat src_y) false))
             (Some (mkScan_Buf
                      (replicate (Z.to_nat MAX_SCAN_BUF_SIZE) (-1))
                      (replicate (Z.to_nat MAX_SCAN_BUF_SIZE) None)))
             0 0 STATUS_OKAY.
Proof.
  unfold Resampler_new. intros Hn Hst.
  destruct (0 <? src_x)%Z eqn:Hsx; [| discriminate].
  destruct (0 <? src_y)%Z eqn:Hsy; [| discriminate].
  destruct (0 <? dst_x)%Z eqn:Hdx; [| discriminate].
  destruct (0 <? dst_y)%Z eqn:Hdy; [| discriminate].
  apply Z.ltb_lt in Hsx, Hsy, Hdx, Hdy. cbn [andb negb] in Hn.
  destruct (alloc_dst_buf heap); cbn [negb] in Hn;
    [| injection Hn as <-; members; discriminate Hst].
  destruct (find_filter _) as [filter |] eqn:Hfilter;
    [| injection Hn as <-; members; discriminate Hst].
  set (cx := match Pclist_x with Some l => _ | None => _ end) in Hn.
  assert (Hcx : cx.1 = None
                \/ exists lx, cx = (Some lx, if Pclist_x is Some _ then true else false)
                     /\ clist_origin RESAMPLER_DEFAULT_FILTER src_x dst_x op
                          Pfilter_name Pclist_x fxs ofx lx).
  { subst cx. destruct Pclist_x as [lx |].
    - right. exists lx. split; [reflexivity | left; reflexivity].
    - destruct (make_clist src_x dst_x op _ _ fxs ofx _) as [lx |] eqn:Hm.
      + right. exists lx. split; [reflexivity |]. right. eauto.
      + left. reflexivity. }
  clearbody cx.
  destruct Hcx as [Hcx | (lists_x & -> & Hox)];
    [rewrite Hcx in Hn; injection Hn as <-; members; discriminate Hst |].
  cbn [fst snd] in Hn.
  set (cy := match Pclist_y with Some l => _ | None => _ end) in Hn.
  assert (Hcy : cy.1 = None
                \/ exists ly, cy = (Some ly, if Pclist_y is Some _ then true else false)
                     /\ clist_origin RESAMPLER_DEFAULT_FILTER src_y dst_y op
                          Pfilter_name Pclist_y fys ofy ly).
  { subst cy. destruct Pclist_y as [ly |].
    - right. exists ly. split; [reflexivity | left; reflexivity].
    - destruct (make_clist src_y dst_y op _ _ fys ofy _) as [ly |] eqn:Hm.
      + right. exists ly. split; [reflexivity |]. right. eauto.
      + left. reflexivity. }
  clearbody cy.
  destruct Hcy as [Hcy | (lists_y & -> & Hoy)];
    [rewrite Hcy in Hn; injection Hn as <-; members; discriminate Hst |].
  cbn [fst snd] in Hn.
  destruct (alloc_src_y_count heap); cbn [negb] in Hn;
    [| injection Hn as <-; members; discriminate Hst].
  destruct (alloc_src_y_flag heap); cbn [negb] in Hn;
    [| injection Hn as <-; members; discriminate Hst].
  destruct (count_contribs src_y dst_y lists_y _) as [count |] eqn:Hcount;
    cbn [mbind option_bind] in Hn; [| discriminate].
  destruct (alloc_scan_buf heap); cbn [negb] in Hn;
    [| injection Hn as <-; members; discriminate Hst].
  destruct (count_ops lists_x dst_x) as [x_ops |] eqn:Hxo;
    cbn [mbind option_bind] in Hn; [| discriminate].
  destruct (count_ops lists_y dst_y) as [y_ops |] eqn:Hyo;
    cbn [mbind option_bind] in Hn; [| discriminate].
  exists lists_x, lists_y, count, x_ops, y_ops.
  do 6 (split; [auto |]).
  unfold choose_order in Hn. members.
  destruct (delay_x x_ops y_ops src_x src_y dst_x dst_y); members.
  - destruct (alloc_tmp_buf heap); cbn [negb] in Hn;
      injection Hn as <-; members; [reflexivity | discriminate Hst].
  - injection Hn as <-. reflexivity.
Qed.

Lemma count_ops_total (lists : list (Contrib_List R)) (k n : Z) :
  count_ops lists k = Some n ->
  total_entries lists k <= Int.max_int ->
  n = total_entries lists k.
Proof.
  unfold count_ops, prefix, total_entries.
  destruct (k <=? Z.of_nat (length lists))%Z; cbn [mbind option_bind];
    [| discriminate].
  intros [= <-] Hmax. rewrite count_ops_fold; lia.
Qed.

(* C4 where no int expression overflows: the constructor delays X
   resampling exactly when the specification says so. *)
Lemma axis_order_without_overflow (src_x src_y dst_x dst_y : Z)
  (op : Boundary_Op) (lo hi : R) (Pfilter_name : option string)
  (Pclist_x Pclist_y : option (list (Contrib_List R)))
  (fxs fys ofx ofy : R) (heap : Heap) (e : Resampler R) :
  Resampler_new MAX_SCAN_BUF_SIZE RESAMPLER_DEFAULT_FILTER src_x src_y dst_x
    dst_y op lo hi Pfilter_name Pclist_x Pclist_y fxs fys ofx ofy heap
  = Some e ->
  m_status e = STATUS_OKAY ->
  exists lists_x lists_y,
    m_Pclist_x e = Some lists_x /\ m_Pclist_y e = Some lists_y
    /\ let x_ops := total_entries lists_x dst_x in
       let y_ops := total_entries lists_y dst_y in
       (x_ops <= Int.max_int -> y_ops <= Int.max_int ->
        4 * y_ops * dst_x <= Int.max_int ->
        4 * y_ops * src_x <= Int.max_int ->
        xy_ops_spec x_ops y_ops src_y dst_x <= Int.max_int ->
        yx_ops_spec x_ops y_ops src_x dst_y <= Int.max_int ->
        (m_delay_x_resample e = true
         <-> delay_x_spec x_ops y_ops src_x src_y dst_x dst_y)
        /\ m_intermediate_x e
           = if m_delay_x_resample e then src_x else dst_x).
Proof.
  intros Hn Hst.
  destruct (Resampler_new_okay _ _ _ _ _ _ _ _ _ _ _ _ _ _ _ _ Hn Hst)
    as (lists_x & lists_y & count & x_ops & y_ops & Hpos & _ & _ & _
        & Hxo & Hyo & ->).
  exists lists_x, lists_y. members. split; [reflexivity |].
  split; [reflexivity |].
  intros x_ops' y_ops'. subst x_ops' y_ops'.
  intros Hx Hy H1 H2 H3 H4.
  apply count_ops_total in Hxo; [| exact Hx].
  apply count_ops_total in Hyo; [| exact Hy].
  subst x_ops y_ops. split; [| reflexivity].
  apply delay_x_correct; try tauto; unfold total_entries; lia.
Qed.

End Constructor_facts.

(** ** The engine invariant *)

Section Engine_safety.

Context {R : Type} `{Real_Ops R}.

Implicit Types (e : Resampler R) (Psrc Ptmp Pdst : list R).

Lemma prefix_Some {A : Type} (n : Z) (a : list A) :
  n <= Z.of_nat (length a) ->
  prefix n a = Some (take (Z.to_nat n) a).
Proof.
  intros Hn. unfold prefix. destruct (Z.leb_spec n (Z.of_nat (length a))); [reflexivity | lia].
Qed.

Lemma prefix_inv {A : Type} (n : Z) (a v : list A) :
  prefix n a = Some v ->
  v = take (Z.to_nat n) a /\ n <= Z.of_nat (length a).
Proof.
  unfold prefix. destruct (Z.leb_spec n (Z.of_nat (length a))); [| discriminate].
  intros [= <-]. auto.
Qed.

Lemma prefix_all {A : Type} (a : list A) :
  prefix (Z.of_nat (length a)) a = Some a.
Proof.
  rewrite prefix_Some by lia. rewrite Nat2Z.id, firstn_all. reflexivity.
Qed.

Lemma write_buf_Some {A : Type} (a v : list A) :
  (length v <= length a)%nat ->
  exists r, write_buf a v = Some r /\ length r = length a
            /\ take (length v) r = v.
Proof.
  intros Hl. unfold write_buf.
  destruct (Nat.leb_spec (length v) (length a)); [| lia].
  eexists. split; [reflexivity |]. split.
  - rewrite length_app, length_drop. lia.
  - rewrite take_app_length. reflexivity.
Qed.

Lemma write_buf_length {A : Type} (a v r : list A) :
  write_buf a v = Some r -> length r = length a.
Proof.
  unfold write_buf. destruct (Nat.leb_spec (length v) (length a)); [| discriminate].
  intros [= <-]. rewrite length_app, length_drop. lia.
Qed.

Lemma write_buf_exact {A : Type} (a v : list A) :
  length v = length a -> write_buf a v = Some v.
Proof.
  intros Hl. unfold write_buf. rewrite Hl, Nat.leb_refl.
  rewrite drop_all, app_nil_r. reflexivity.
Qed.

Lemma scale_y_mov_Some Ptmp Psrc (w : R) (n : Z) :
  0 <= n -> n <= Z.of_nat (length Psrc) -> n <= Z.of_nat (length Ptmp) ->
  exists tmp, scale_y_mov Ptmp Psrc w n = Some tmp
              /\ length tmp = length Ptmp.
Proof.
  intros Hn Hs Ht. unfold scale_y_mov. rewrite prefix_Some by lia.
  cbn [mbind option_bind].
  destruct (write_buf_Some Ptmp (map (fun s => r_mul s w) (take (Z.to_nat n) Psrc)))
    as (r & Hr & Hl & _).
  { rewrite length_map, length_take. lia. }
  exists r. auto.
Qed.

Lemma scale_y_add_Some Ptmp Psrc (w : R) (n : Z) :
  0 <= n -> n <= Z.of_nat (length Psrc) -> n <= Z.of_nat (length Ptmp) ->
  exists tmp, scale_y_add Ptmp Psrc w n = Some tmp
              /\ length tmp = length Ptmp.
Proof.
  intros Hn Hs Ht. unfold scale_y_add. rewrite !prefix_Some by lia.
  cbn [mbind option_bind].
  match goal with |- context [write_buf Ptmp ?v] =>
    destruct (write_buf_Some Ptmp v) as (r & Hr & Hl & _) end.
  { rewrite length_zip_with, !length_take. lia. }
  exists r. auto.
Qed.

Lemma weighted_sum_Some Psrc (l : Contrib_List R) :
  Forall (fun p => 0 <= pixel p < Z.of_nat (length Psrc)) l ->
  exists t, weighted_sum Psrc l = Some t.
Proof.
  unfold weighted_sum. generalize (of_int 0).
  induction l as [| p l IH]; intros t0 Hl; cbn [fold_left]; [eauto |].
  apply Forall_cons in Hl as [Hp Hl].
  cbn [mbind option_bind].
  destruct (lookup_lt_is_Some_2 Psrc (Z.to_nat (pixel p)) ltac:(lia)) as [s Hs].
  assert (Hi : index Psrc (pixel p) = Some s) by (apply index_Some; split; [lia | exact Hs]).
  rewrite Hi. cbn [mbind option_bind]. apply IH, Hl.
Qed.

Lemma resample_x_Some e Psrc (lists_x : list (Contrib_List R)) :
  m_Pclist_x e = Some lists_x ->
  Z.of_nat (length lists_x) = m_resample_dst_x e ->
  pixels_below (Z.of_nat (length Psrc)) lists_x ->
  exists r, resample_x e Psrc = Some r
            /\ Z.of_nat (length r) = m_resample_dst_x e.
Proof.
  intros Hx Hl Hp. unfold resample_x. rewrite Hx. cbn [mbind option_bind].
  rewrite <- Hl, prefix_all. cbn [mbind option_bind].
  assert (Hm : exists r, mapM (weighted_sum Psrc) lists_x = Some r).
  { apply (mapM_is_Some_2 (weighted_sum Psrc) lists_x).
    eapply Forall_impl; [exact Hp |]. intros l Hlp.
    exact (weighted_sum_Some Psrc l Hlp). }
  destruct Hm as [r Hr]. exists r. split; [exact Hr |].
  apply length_mapM in Hr. lia.
Qed.

Lemma clamp_Some e Pdst (n : Z) :
  0 <= n -> n <= Z.of_nat (length Pdst) ->
  exists r, clamp e Pdst n = Some r /\ length r = length Pdst.
Proof.
  intros Hn Hl. unfold clamp. rewrite prefix_Some by lia.
  cbn [mbind option_bind].
  match goal with |- context [write_buf Pdst ?v] =>
    destruct (write_buf_Some Pdst v) as (r & Hr & Hlr & _) end.
  { rewrite length_map, length_take. lia. }
  exists r. auto.
Qed.

End Engine_safety.

Section Pool_facts.

Context {R : Type}.

Implicit Types (scan : Scan_Buf R).

Lemma find_index_exists {A : Type} (f : A -> bool) (a : list A) (i : nat) (x : A) :
  a !! i = Some x -> f x = true -> exists j, find_index f a = Some j.
Proof.
  revert i. induction a as [| y a IH]; intros i; [discriminate |].
  cbn [find_index]. destruct (f y) eqn:Hy; [eauto |].
  destruct i as [| i]; cbn.
  - intros [= ->] Hx. congruence.
  - intros Hi Hx. destruct (IH i Hi Hx) as [j ->]. cbn. eauto.
Qed.

Lemma index_assign_eq {A : Type} (a : list A) (i : Z) (x : A) :
  0 <= i < Z.of_nat (length a) -> index (assign a i x) i = Some x.
Proof.
  intros Hi. apply index_Some. split; [lia |].
  unfold assign. apply list_lookup_insert_eq. lia.
Qed.

Lemma index_assign_ne {A : Type} (a : list A) (i j : Z) (x : A) :
  0 <= i -> 0 <= j -> i <> j -> index (assign a i x) j = index a j.
Proof.
  intros Hi Hj Hne. unfold index, assign.
  destruct (j <? 0); [reflexivity |].
  apply list_lookup_insert_ne. lia.
Qed.

Lemma length_assign {A : Type} (a : list A) (i : Z) (x : A) :
  length (assign a i x) = length a.
Proof. apply length_insert. Qed.

(* One use of source line v, held by slot j: the count goes down by one,
   and the slot is released when it reaches 0. *)
Lemma pool_release (src_y ix cur : Z) (need : Z -> Z) (count : list Z)
  (flag : list bool) scan (v : Z) (j : nat) :
  pool_ok src_y ix cur need count flag scan ->
  0 <= v < src_y -> scan_buf_y scan !! j = Some v -> 1 <= need v ->
  pool_ok src_y ix cur (fun s => need s - (if v =? s then 1 else 0))
    (assign count v (need v - 1))
    (if need v - 1 =? 0 then assign flag v false else flag)
    (if need v - 1 =? 0
     then mkScan_Buf (<[j := -1]> (scan_buf_y scan)) (scan_buf_l scan)
     else scan).
Proof.
  intros [Hcl Hfl Hsl Hcount Hneed Htag Hbuf Hdist Hpres] Hv Hj Hn.
  assert (Hcount' : forall s, 0 <= s < src_y ->
            index (assign count v (need v - 1)) s
            = Some (need s - (if v =? s then 1 else 0))).
  { intros s Hs. destruct (Z.eqb_spec v s) as [<- | Hne].
    - apply index_assign_eq. lia.
    - rewrite index_assign_ne by lia. rewrite Hcount by lia. f_equal. lia. }
  assert (Hneed' : forall s, 0 <= s < src_y ->
            0 <= need s - (if v =? s then 1 else 0) <= Int.max_int).
  { intros s Hs. pose proof (Hneed s Hs).
    destruct (Z.eqb_spec v s) as [<- | Hne]; lia. }
  destruct (Z.eqb_spec (need v - 1) 0) as [Hz | Hnz].
  - split; cbn [scan_buf_y scan_buf_l];
      rewrite ?length_assign, ?length_insert; auto.
    + intros i t Hi Ht.
      assert (Hij : i <> j).
      { intros ->. rewrite list_lookup_insert_eq in Hi
          by (eapply lookup_lt_Some, Hj). congruence. }
      rewrite list_lookup_insert_ne in Hi by auto.
      destruct (Htag i t Hi Ht) as (Hr & Hlt & Hf & Hnd & Hb).
      assert (Htv : t <> v).
      { intros ->. apply Hij. eapply Hdist; eauto. }
      split; [exact Hr |]. split; [exact Hlt |].
      split; [rewrite index_assign_ne by lia; exact Hf |].
      split; [| exact Hb].
      destruct (Z.eqb_spec v t); [congruence | lia].
    + intros i i' t Hi Hi' Ht.
      assert (Hij : i <> j).
      { intros ->. rewrite list_lookup_insert_eq in Hi
          by (eapply lookup_lt_Some, Hj). congruence. }
      assert (Hij' : i' <> j).
      { intros ->. rewrite list_lookup_insert_eq in Hi'
          by (eapply lookup_lt_Some, Hj). congruence. }
      rewrite list_lookup_insert_ne in Hi, Hi' by auto.
      eapply Hdist; eauto.
    + intros s Hs.
      assert (Hsv : s <> v).
      { intros ->. rewrite index_assign_eq in Hs by lia. discriminate. }
      apply index_Some in Hs as Hs0. destruct Hs0 as [Hs0 _].
      rewrite index_assign_ne in Hs by lia.
      destruct (Hpres s Hs) as [i Hi]. exists i.
      rewrite list_lookup_insert_ne; [exact Hi |].
      intros ->. congruence.
  - split; rewrite ?length_assign; auto.
    intros i t Hi Ht.
    destruct (Htag i t Hi Ht) as (Hr & Hlt & Hf & Hnd & Hb).
    split; [exact Hr |]. split; [exact Hlt |]. split; [exact Hf |].
    split; [| exact Hb].
    destruct (Z.eqb_spec v t) as [<- | Hne]; lia.
Qed.

End Pool_facts.

Section Resample_y_facts.

Context {R : Type} `{Real_Ops R}.

Implicit Types (e : Resampler R) (Psrc Ptmp Pdst : list R).

Lemma resample_y_step_ok (first : bool) Ptmp e (need : Z -> Z)
  (p : Contrib R) :
  pool_ok_at e need ->
  0 <= m_intermediate_x e <= Z.of_nat (length Ptmp) ->
  0 <= pixel p < m_resample_src_y e ->
  (exists flag, m_Psrc_y_flag e = Some flag
     /\ index flag (pixel p) = Some true) ->
  1 <= need (pixel p) ->
  exists tmp e',
    resample_y_step first (Ptmp, e) p = Some (tmp, e')
    /\ length tmp = length Ptmp
    /\ pool_ok_at e' (fun s => need s - (if pixel p =? s then 1 else 0))
    /\ (forall s flag flag',
          0 <= s -> need s - (if pixel p =? s then 1 else 0) <> 0 ->
          m_Psrc_y_flag e = Some flag -> m_Psrc_y_flag e' = Some flag' ->
          index flag' s = index flag s).
Proof.
  intros (count & flag & scan & Hc & Hf & Hs & Hpool) Hix Hp
    (flag0 & Hf0 & Hpres) Hneed.
  rewrite Hf in Hf0. injection Hf0 as <-.
  destruct (pool_present _ _ _ _ _ _ _ Hpool _ Hpres) as [i Hi].
  destruct (find_index_exists (fun y => y =? pixel p) _ i _ Hi
              (Z.eqb_refl _)) as [j Hj].
  destruct (find_index_Some _ _ _ Hj) as (t & Ht & Heq & _).
  apply Z.eqb_eq in Heq. subst t.
  destruct (pool_tag _ _ _ _ _ _ _ Hpool j (pixel p) Ht ltac:(lia))
    as (_ & _ & _ & _ & b & Hb).
  pose proof (pool_buf _ _ _ _ _ _ _ Hpool j b Hb) as Hlb.
  pose proof (pool_count _ _ _ _ _ _ _ Hpool (pixel p) Hp) as Hcnt.
  pose proof (pool_need _ _ _ _ _ _ _ Hpool (pixel p) Hp) as Hrange.
  assert (Hsub : Int.sub (need (pixel p)) 1 = need (pixel p) - 1).
  { unfold Int.sub. apply wrap_id. revert Hrange.
    unfold Int.in_range, Int.min_int, Int.max_int. rewrite pow2_31. lia. }
  assert (Htmp : exists tmp,
            (if first
             then scale_y_mov Ptmp b (weight p) (m_intermediate_x e)
             else scale_y_add Ptmp b (weight p) (m_intermediate_x e))
            = Some tmp /\ length tmp = length Ptmp).
  { destruct first; [apply scale_y_mov_Some | apply scale_y_add_Some]; lia. }
  destruct Htmp as (tmp & Htmp & Hlt).
  assert (Hrc : resampler_range_check (pixel p) (m_resample_src_y e)
                = Some (pixel p)) by (apply range_check_Some; auto).
  pose proof (pool_release _ _ _ _ _ _ _ (pixel p) j Hpool Hp Ht Hneed)
    as Hrel.
  exists tmp.
  unfold resample_y_step. rewrite Hs. cbn [mbind option_bind].
  rewrite Hj. cbn [mbind option_bind]. rewrite Hb. cbn [mjoin option_join mbind option_bind].
  rewrite Htmp. cbn [mbind option_bind]. rewrite Hc. cbn [mbind option_bind].
  rewrite Hrc. cbn [mbind option_bind]. rewrite Hcnt. cbn [mbind option_bind].
  rewrite Hsub.
  destruct (need (pixel p) - 1 =? 0) eqn:Hz.
  - assert (Hfe : m_Psrc_y_flag
                    (set_Psrc_y_count
                       (Some (assign count (pixel p) (need (pixel p) - 1))) e)
                  = Some flag) by (destruct e; exact Hf).
    rewrite Hfe. cbn [mbind option_bind].
    eexists. split; [reflexivity |]. split; [exact Hlt |]. split.
    + exists (assign count (pixel p) (need (pixel p) - 1)),
        (assign flag (pixel p) false),
        (mkScan_Buf (<[j := -1]> (scan_buf_y scan)) (scan_buf_l scan)).
      destruct e; cbn in *. auto.
    + intros s fl fl' Hs0 Hne Hfl Hfl'.
      rewrite Hf in Hfl. injection Hfl as <-.
      assert (Hfl2 : fl' = assign flag (pixel p) false)
        by (destruct e; cbn in Hfl'; congruence).
      subst fl'. apply index_assign_ne; [lia | lia |].
      intros Heq. rewrite Heq, Z.eqb_refl in Hne.
      apply Z.eqb_eq in Hz. subst s. lia.
  - eexists. split; [reflexivity |]. split; [exact Hlt |]. split.
    + exists (assign count (pixel p) (need (pixel p) - 1)), flag, scan.
      destruct e; cbn in *. auto.
    + intros s fl fl' Hs0 Hne Hfl Hfl'.
      assert (Hfl2 : fl' = fl) by (destruct e; cbn in *; congruence).
      subst fl'. reflexivity.
Qed.

End Resample_y_facts.

Section Resample_y_loop_facts.

Context {R : Type} `{Real_Ops R}.

Implicit Types (e : Resampler R) (Psrc Ptmp Pdst : list R).

Lemma plan_fields e e' :
  plan e' = plan e ->
  m_resample_src_x e' = m_resample_src_x e
  /\ m_resample_src_y e' = m_resample_src_y e
  /\ m_resample_dst_x e' = m_resample_dst_x e
  /\ m_resample_dst_y e' = m_resample_dst_y e
  /\ m_lo e' = m_lo e /\ m_hi e' = m_hi e
  /\ m_delay_x_resample e' = m_delay_x_resample e
  /\ m_intermediate_x e' = m_intermediate_x e
  /\ m_Pclist_x e' = m_Pclist_x e
  /\ m_Pclist_y e' = m_Pclist_y e.
Proof. unfold plan. intros [= -> -> -> -> _ -> -> -> -> _ -> _ ->]. tauto. Qed.

Lemma lists_ok_plan e e' : plan e' = plan e -> lists_ok e -> lists_ok e'.
Proof.
  intros Hp. apply plan_fields in Hp
    as (Hsx & Hsy & Hdx & Hdy & _ & _ & _ & _ & Hcx & Hcy).
  unfold lists_ok. rewrite Hsx, Hsy, Hdx, Hdy, Hcx, Hcy. auto.
Qed.

Lemma pool_ok_ext (src_y ix cur : Z) (need need' : Z -> Z) (count : list Z)
  (flag : list bool) (scan : Scan_Buf R) :
  (forall s, need s = need' s) ->
  pool_ok src_y ix cur need count flag scan ->
  pool_ok src_y ix cur need' count flag scan.
Proof.
  intros Hext [Hcl Hfl Hsl Hcount Hneed Htag Hbuf Hdist Hpres].
  split; auto.
  - intros s Hs. rewrite <- Hext. auto.
  - intros s Hs. rewrite <- Hext. auto.
  - intros i t Hi Ht. rewrite <- Hext. auto.
Qed.

Lemma pool_ok_at_ext e (need need' : Z -> Z) :
  (forall s, need s = need' s) -> pool_ok_at e need -> pool_ok_at e need'.
Proof.
  intros Hext (count & flag & scan & Hc & Hf & Hs & Hp).
  exists count, flag, scan. eauto using pool_ok_ext.
Qed.

Lemma occ_nonneg (s : Z) (l : Contrib_List R) : 0 <= occ s l.
Proof. induction l as [| p l IH]; cbn [occ]; [lia |]. destruct (pixel p =? s); lia. Qed.

Lemma occs_nonneg (s : Z) (lists : list (Contrib_List R)) : 0 <= occs s lists.
Proof.
  induction lists as [| l lists IH]; cbn [occs]; [lia |].
  pose proof (occ_nonneg s l). lia.
Qed.

Lemma occ_pos (l : Contrib_List R) :
  Forall (fun q => 1 <= occ (pixel q) l) l.
Proof.
  induction l as [| p l IH]; constructor.
  - cbn [occ]. rewrite Z.eqb_refl. pose proof (occ_nonneg (pixel p) l). lia.
  - eapply Forall_impl; [exact IH |]. intros q Hq. cbv beta in *.
    cbn [occ]. destruct (pixel p =? pixel q); lia.
Qed.

Lemma resample_y_loop_ok (l : Contrib_List R) :
  forall (first : bool) Ptmp e (need : Z -> Z),
    pool_ok_at e need ->
    0 <= m_intermediate_x e <= Z.of_nat (length Ptmp) ->
    Forall (fun p => 0 <= pixel p < m_resample_src_y e) l ->
    (exists flag, m_Psrc_y_flag e = Some flag
       /\ Forall (fun p => index flag (pixel p) = Some true) l) ->
    (forall s, occ s l <= need s) ->
    exists tmp e',
      resample_y_loop first (Ptmp, e) l = Some (tmp, e')
      /\ length tmp = length Ptmp
      /\ pool_ok_at e' (fun s => need s - occ s l).
Proof.
  induction l as [| p l IH]; intros first Ptmp e need Hpool Hix Hrange Hflag Hocc.
  - exists Ptmp, e. split; [reflexivity |]. split; [reflexivity |].
    eapply pool_ok_at_ext; [| exact Hpool]. intros s. cbn [occ]. lia.
  - apply Forall_cons in Hrange as [Hp Hrange].
    destruct Hflag as (flag & Hf & Hflag).
    apply Forall_cons in Hflag as [Hpf Hflag].
    assert (Hneed : 1 <= need (pixel p)).
    { specialize (Hocc (pixel p)). cbn [occ] in Hocc.
      rewrite Z.eqb_refl in Hocc. pose proof (occ_nonneg (pixel p) l). lia. }
    destruct (resample_y_step_ok first Ptmp e need p Hpool Hix Hp
                ltac:(eauto) Hneed)
      as (tmp1 & e1 & Hstep & Hl1 & Hpool1 & Hflags).
    pose proof (resample_y_step_frame _ _ _ _ _ _ Hstep) as ((Hplan & _) & _).
    apply plan_fields in Hplan
      as (_ & Hsy & _ & _ & _ & _ & _ & Hixe & _ & _).
    destruct Hpool1 as (count1 & flag1 & scan1 & Hc1 & Hf1 & Hs1 & Hp1).
    destruct (IH false tmp1 e1
                (fun s => need s - (if pixel p =? s then 1 else 0)))
      as (tmp & e' & Hloop & Hl & Hpool').
    + exists count1, flag1, scan1. auto.
    + rewrite Hixe, Hl1. exact Hix.
    + rewrite Hsy. exact Hrange.
    + exists flag1. split; [exact Hf1 |].
      pose proof (occ_pos l) as Hpos.
      apply Forall_forall. intros q Hq.
      rewrite Forall_forall in Hflag, Hpos, Hrange.
      rewrite (Hflags (pixel q) flag flag1); auto.
      * pose proof (Hrange q Hq). lia.
      * specialize (Hocc (pixel q)). cbn [occ] in Hocc.
        specialize (Hpos q Hq). destruct (pixel p =? pixel q); lia.
    + intros s. specialize (Hocc s). cbn [occ] in Hocc.
      destruct (pixel p =? s); lia.
    + exists tmp, e'. cbn [resample_y_loop]. rewrite Hstep.
      cbn [mbind option_bind]. split; [exact Hloop |].
      split; [congruence |].
      eapply pool_ok_at_ext; [| exact Hpool']. intros s. cbn [occ].
      destruct (pixel p =? s); lia.
Qed.

Lemma all_present_true e (l : Contrib_List R) (flag : list bool) :
  m_Psrc_y_flag e = Some flag ->
  all_present e l = Some true ->
  Forall (fun p => index flag (pixel p) = Some true) l.
Proof.
  intros Hf. induction l as [| p l IH]; cbn [all_present]; [constructor |].
  rewrite Hf. cbn [mbind option_bind].
  destruct (resampler_range_check _ _) as [v |] eqn:Hv;
    cbn [mbind option_bind]; [| discriminate].
  apply range_check_Some in Hv as [-> _].
  destruct (index flag (pixel p)) as [[|] |] eqn:Hi;
    cbn [mbind option_bind]; try discriminate.
  intros Hl. constructor; auto.
Qed.

(* Under the invariant, the check of get_line is defined. *)
Lemma all_present_defined e (l : Contrib_List R) (flag : list bool) :
  m_Psrc_y_flag e = Some flag ->
  Z.of_nat (length flag) = m_resample_src_y e ->
  Forall (fun p => 0 <= pixel p < m_resample_src_y e) l ->
  exists b, all_present e l = Some b.
Proof.
  intros Hf Hlen. induction l as [| p l IH]; intros Hl; cbn [all_present];
    [eauto |].
  apply Forall_cons in Hl as [Hp Hl].
  rewrite Hf. cbn [mbind option_bind].
  assert (Hrc : resampler_range_check (pixel p) (m_resample_src_y e)
                = Some (pixel p)) by (apply range_check_Some; auto).
  rewrite Hrc. cbn [mbind option_bind].
  destruct (lookup_lt_is_Some_2 flag (Z.to_nat (pixel p)) ltac:(lia))
    as [f Hfp].
  assert (Hi : index flag (pixel p) = Some f)
    by (apply index_Some; split; [lia | exact Hfp]).
  rewrite Hi. cbn [mbind option_bind]. destruct f; eauto.
Qed.

End Resample_y_loop_facts.

Section Get_line_facts.

Context {R : Type} `{Real_Ops R}.

Implicit Types (e : Resampler R) (Psrc Ptmp Pdst : list R).

Lemma occs_drop (s : Z) (lists : list (Contrib_List R)) (i : nat)
  (l : Contrib_List R) :
  lists !! i = Some l ->
  occs s (drop i lists) = occ s l + occs s (drop (S i) lists).
Proof. intros Hl. rewrite (drop_S _ _ _ Hl). reflexivity. Qed.

Lemma resample_y_ok e (lists_y : list (Contrib_List R))
  (l : Contrib_List R) (flag : list bool) :
  wf e ->
  m_Pclist_y e = Some lists_y ->
  index lists_y (m_cur_dst_y e) = Some l ->
  m_Psrc_y_flag e = Some flag ->
  Forall (fun p => index flag (pixel p) = Some true) l ->
  exists e' row,
    resample_y e = Some e'
    /\ m_Pdst_buf e' = Some row
    /\ Z.of_nat (length row) = m_resample_dst_x e
    /\ wf (set_cur_dst_y (m_cur_dst_y e + 1) e').
Proof.
  intros (Hlists & Hdims & Hix & (Pdst & HPdst & HlPdst) & Htmpbuf & Hcur
          & (ly & Hly & Hpool)) Hcy Hl Hflag Hpresent.
  rewrite Hcy in Hly. injection Hly as <-.
  destruct Hlists as (lx & ly & Hcx & Hcy' & Hlx & Hlylen & Hpx & Hpy & Htot).
  rewrite Hcy in Hcy'. injection Hcy' as <-.
  apply index_Some in Hl as [Hcur0 Hl].
  assert (Hlt : m_cur_dst_y e < m_resample_dst_y e).
  { apply lookup_lt_Some in Hl. lia. }
  assert (Hlr : Forall (fun p => 0 <= pixel p < m_resample_src_y e) l).
  { unfold pixels_below in Hpy. rewrite Forall_lookup in Hpy. eapply Hpy, Hl. }
  assert (HPtmp : exists Ptmp,
            (if m_delay_x_resample e then m_Ptmp_buf e else Some Pdst)
            = Some Ptmp
            /\ Z.of_nat (length Ptmp) = m_intermediate_x e).
  { destruct (m_delay_x_resample e) eqn:Hd.
    - destruct (Htmpbuf eq_refl) as (Ptmp & -> & Hlen). eauto.
    - exists Pdst. split; [reflexivity | lia]. }
  destruct HPtmp as (Ptmp & HPtmp & HlPtmp).
  assert (Hixpos : 0 < m_intermediate_x e)
    by (rewrite Hix; destruct (m_delay_x_resample e); lia).
  destruct (resample_y_loop_ok l true Ptmp e _ Hpool ltac:(lia) Hlr
              ltac:(eauto))
    as (tmp & e1 & Hloop & Hltmp & Hpool1).
  { intros s. rewrite (occs_drop s _ _ _ Hl).
    pose proof (occs_nonneg s (drop (S (Z.to_nat (m_cur_dst_y e))) lists_y)).
    lia. }
  pose proof (resample_y_loop_frame _ _ _ _ _ _ Hloop)
    as ((Hplan & Hst & Hcs & Hcd) & Hd1 & Ht1).
  pose proof (plan_fields _ _ Hplan)
    as (Hsx & Hsy & Hdx & Hdy & Hlo & Hhi & Hdel & Hixe & Hcx1 & Hcy1).
  (* the destination line *)
  assert (Hgen : exists d e2,
            generate_line e1 Pdst tmp = Some (d, e2)
            /\ Z.of_nat (length d) = m_resample_dst_x e
            /\ (e2 = e1 \/ m_delay_x_resample e = true
                           /\ e2 = set_Ptmp_buf (Some tmp) e1)).
  { unfold generate_line. rewrite Hdel.
    destruct (m_delay_x_resample e) eqn:Hd.
    - destruct (resample_x_Some e1 tmp lx) as (r & Hr & Hlr').
      + congruence.
      + congruence.
      + replace (Z.of_nat (length tmp)) with (m_resample_src_x e) by lia.
        exact Hpx.
      + rewrite Hr. cbn [mbind option_bind].
        rewrite write_buf_exact by lia. cbn [mbind option_bind].
        exists r, (set_Ptmp_buf (Some tmp) e1). split; [reflexivity |].
        split; [lia | auto].
    - exists tmp, e1. split; [reflexivity |]. split; [lia | auto]. }
  destruct Hgen as (d & e2 & Hgen & Hld & He2).
  assert (Hclamp : exists d', clamp_line e2 d = Some d'
            /\ Z.of_nat (length d') = m_resample_dst_x e).
  { unfold clamp_line. destruct (r_ltb _ _); [| eauto].
    assert (Hdx2 : m_resample_dst_x e2 = m_resample_dst_x e).
    { destruct He2 as [-> | [_ ->]]; [exact Hdx |].
      destruct e1; exact Hdx. }
    rewrite Hdx2.
    destruct (clamp_Some e2 d (m_resample_dst_x e)) as (d' & Hd' & Hld');
      [lia | lia |].
    exists d'. split; [exact Hd' | lia]. }
  destruct Hclamp as (d' & Hclamp & Hld').
  exists (set_Pdst_buf (Some d') e2), d'.
  split.
  { unfold resample_y. rewrite Hcy. cbn [mbind option_bind].
    assert (Hidx : index lists_y (m_cur_dst_y e) = Some l)
      by (apply index_Some; auto).
    rewrite Hidx. cbn [mbind option_bind]. rewrite HPdst.
    cbn [mbind option_bind]. rewrite HPtmp. cbn [mbind option_bind].
    rewrite Hloop. cbn [mbind option_bind]. rewrite Hgen.
    cbn [mbind option_bind]. rewrite Hclamp. reflexivity. }
  split; [destruct e2; reflexivity |]. split; [exact Hld' |].
  (* the invariant *)
  destruct Hpool1 as (count1 & flag1 & scan1 & Hc1 & Hf1 & Hs1 & Hp1).
  assert (Hneed : pool_ok (m_resample_src_y e) (m_intermediate_x e)
                    (m_cur_src_y e)
                    (fun s => occs s (drop (Z.to_nat (m_cur_dst_y e + 1)) lists_y))
                    count1 flag1 scan1).
  { rewrite <- Hsy, <- Hixe, <- Hcs.
    eapply pool_ok_ext; [| exact Hp1]. intros s. cbv beta.
    rewrite (occs_drop s _ _ _ Hl). rewrite Z2Nat.inj_add by lia.
    change (Z.to_nat 1) with 1%nat. rewrite Nat.add_1_r. lia. }
  clear Hp1 Hloop Hgen Hclamp Hpool.
  assert (He2' : exists t, e2 = set_Ptmp_buf t e1
                   /\ (m_delay_x_resample e = true ->
                       exists Ptmp', t = Some Ptmp'
                         /\ Z.of_nat (length Ptmp') = m_intermediate_x e)).
  { destruct He2 as [-> | [Hd ->]].
    - exists (m_Ptmp_buf e1). split; [destruct e1; reflexivity |].
      intros Hd. destruct (Htmpbuf Hd) as (P & HP & HlP).
      exists P. split; [congruence | exact HlP].
    - exists (Some tmp). split; [reflexivity |]. intros _.
      exists tmp. split; [reflexivity | lia]. }
  destruct He2' as (t & -> & Ht).
  clear He2.
  destruct e, e1. members. subst.
  unfold wf, lists_ok, pool_ok_at. members.
  split; [exists lx, lists_y; auto 10 |].
  split; [exact Hdims |]. split; [reflexivity |].
  split; [eauto |]. split; [exact Ht |]. split; [lia |].
  exists lists_y. split; [reflexivity |].
  exists count1, flag1, scan1. auto.
Qed.

End Get_line_facts.

Section Put_line_facts.

Context {R : Type} `{Real_Ops R}.

Implicit Types (e : Resampler R) (Psrc Ptmp Pdst : list R).

Lemma pool_ok_advance (src_y ix cur : Z) (need : Z -> Z) (count : list Z)
  (flag : list bool) (scan : Scan_Buf R) :
  pool_ok src_y ix cur need count flag scan ->
  pool_ok src_y ix (cur + 1) need count flag scan.
Proof.
  intros [Hcl Hfl Hsl Hcount Hneed Htag Hbuf Hdist Hpres]. split; auto.
  intros i t Hi Ht. destruct (Htag i t Hi Ht) as (Hr & Hrest).
  split; [lia | exact Hrest].
Qed.

(* Source line cur is put into the free slot i, whose buffer becomes b. *)
Lemma pool_acquire (src_y ix cur : Z) (need : Z -> Z) (count : list Z)
  (flag : list bool) (scan : Scan_Buf R) (i : nat) (b : list R) :
  pool_ok src_y ix cur need count flag scan ->
  0 <= cur < src_y -> need cur <> 0 ->
  scan_buf_y scan !! i = Some (-1) ->
  Z.of_nat (length b) = ix ->
  pool_ok src_y ix (cur + 1) need count (assign flag cur true)
    (mkScan_Buf (<[i := cur]> (scan_buf_y scan))
                (<[i := Some b]> (scan_buf_l scan))).
Proof.
  intros [Hcl Hfl Hsl Hcount Hneed Htag Hbuf Hdist Hpres] Hcur Hnz Hi Hb.
  assert (Hilt : (i < length (scan_buf_y scan))%nat)
    by (eapply lookup_lt_Some, Hi).
  split; cbn [scan_buf_y scan_buf_l];
    rewrite ?length_assign, ?length_insert; auto.
  - intros i' t Hi' Ht. destruct (decide (i' = i)) as [-> | Hne].
    + rewrite list_lookup_insert_eq in Hi' by exact Hilt.
      injection Hi' as <-.
      split; [lia |]. split; [lia |].
      split; [apply index_assign_eq; lia |].
      split; [pose proof (Hneed cur Hcur); lia |].
      exists b. apply list_lookup_insert_eq. lia.
    + rewrite list_lookup_insert_ne in Hi' by auto.
      destruct (Htag i' t Hi' Ht) as (Hr & Hlt & Hf & Hnd & Hbuf').
      split; [lia |]. split; [exact Hlt |].
      split; [rewrite index_assign_ne by lia; exact Hf |].
      split; [exact Hnd |].
      rewrite list_lookup_insert_ne by auto. exact Hbuf'.
  - intros i' b' Hi'. destruct (decide (i' = i)) as [-> | Hne].
    + rewrite list_lookup_insert_eq in Hi' by lia. congruence.
    + rewrite list_lookup_insert_ne in Hi' by auto. eauto.
  - intros i1 i2 t Hi1 Hi2 Ht.
    destruct (decide (i1 = i)) as [-> | Hne1];
      destruct (decide (i2 = i)) as [-> | Hne2]; auto.
    + rewrite list_lookup_insert_eq in Hi1 by exact Hilt.
      rewrite list_lookup_insert_ne in Hi2 by auto.
      injection Hi1 as <-. destruct (Htag i2 cur Hi2 Ht). lia.
    + rewrite list_lookup_insert_eq in Hi2 by exact Hilt.
      rewrite list_lookup_insert_ne in Hi1 by auto.
      injection Hi2 as <-. destruct (Htag i1 cur Hi1 Ht). lia.
    + rewrite list_lookup_insert_ne in Hi1, Hi2 by auto. eauto.
  - intros s Hs. destruct (Z.eq_dec s cur) as [-> | Hne].
    + exists i. apply list_lookup_insert_eq. exact Hilt.
    + apply index_Some in Hs as Hs0. destruct Hs0 as [Hs0 _].
      rewrite index_assign_ne in Hs by lia.
      destruct (Hpres s Hs) as [i0 Hi0]. exists i0.
      rewrite list_lookup_insert_ne; [exact Hi0 |].
      intros ->. rewrite Hi in Hi0. injection Hi0 as Heq. lia.
Qed.

Lemma wf_set_status e (st : Status) : wf e -> wf (set_status st e).
Proof. destruct e. unfold wf, lists_ok, pool_ok_at. members. auto. Qed.

(* Every outcome of put_line keeps the invariant, except the failure of the
   allocation of a slot buffer. *)
Lemma put_line_wf e e' Psrc (malloc_ok r : bool) :
  wf e ->
  put_line Psrc malloc_ok e = Some (r, e') ->
  wf e'
  \/ (r = false /\ malloc_ok = false
      /\ m_status e' = STATUS_OUT_OF_MEMORY).
Proof.
  intros Hwf. unfold put_line.
  destruct (Z.geb_spec (m_cur_src_y e) (m_resample_src_y e)) as [Hge | Hlt].
  { intros Hput; injection Hput as <- <-. auto. }
  destruct Hwf as (Hlists & Hdims & Hix & HPdst & Htmpbuf & Hcur
                   & (ly & Hly & (count & flag & scan & Hc & Hf & Hs & Hpool))).
  rewrite Hc. cbn [mbind option_bind].
  assert (Hrc : resampler_range_check (m_cur_src_y e) (m_resample_src_y e)
                = Some (m_cur_src_y e)) by (apply range_check_Some; lia).
  rewrite Hrc. cbn [mbind option_bind].
  rewrite (pool_count _ _ _ _ _ _ _ Hpool (m_cur_src_y e)) by lia.
  cbn [mbind option_bind].
  match goal with
  | |- context [?a =? 0] => destruct (Z.eqb_spec a 0) as [Hz | Hnz]
  end.
  { intros Hput; injection Hput as <- <-. left.
    apply pool_ok_advance in Hpool.
    destruct e. unfold wf, lists_ok, pool_ok_at in *. members.
    split; [exact Hlists |]. split; [exact Hdims |]. split; [exact Hix |].
    split; [exact HPdst |]. split; [exact Htmpbuf |]. split; [lia |].
    exists ly. split; [exact Hly |]. exists count, flag, scan. auto. }
  rewrite Hs. cbn [mbind option_bind].
  destruct (find_free scan) as [i |] eqn:Hfree.
  2: { intros Hput; injection Hput as <- <-. left. apply wf_set_status.
       unfold wf, pool_ok_at. eauto 15. }
  rewrite Hf. cbn [mbind option_bind].
  unfold find_free in Hfree.
  destruct (find_index_Some _ _ _ Hfree) as (t & Hi & Ht & _).
  apply Z.eqb_eq in Ht. subst t.
  assert (Hil : (i < length (scan_buf_l scan))%nat).
  { rewrite <- (pool_scan_length _ _ _ _ _ _ _ Hpool).
    eapply lookup_lt_Some, Hi. }
  destruct (lookup_lt_is_Some_2 _ _ Hil) as [slot Hslot].
  rewrite Hslot. cbn [mbind option_bind].
  assert (Hsucc : forall buf,
            Z.of_nat (length buf) = m_intermediate_x e ->
            (line ← (if m_delay_x_resample
                          (set_Psrc_y_flag
                             (Some (assign flag (m_cur_src_y e) true)) e)
                     then prefix
                            (m_intermediate_x
                               (set_Psrc_y_flag
                                  (Some (assign flag (m_cur_src_y e) true)) e))
                            Psrc
                     else resample_x
                            (set_Psrc_y_flag
                               (Some (assign flag (m_cur_src_y e) true)) e)
                            Psrc);
             buf ← write_buf buf line;
             Some (true,
                   set_cur_src_y
                     (m_cur_src_y
                        (set_Psrc_y_flag
                           (Some (assign flag (m_cur_src_y e) true)) e) + 1)
                     (set_Pscan_buf
                        (Some (mkScan_Buf
                                 (<[i := m_cur_src_y e]> (scan_buf_y scan))
                                 (<[i := Some buf]> (scan_buf_l scan))))
                        (set_Psrc_y_flag
                           (Some (assign flag (m_cur_src_y e) true)) e))))
            = Some (r, e') -> wf e').
  { intros buf Hlb Hput.
    match type of Hput with
    | mbind _ ?m = _ => destruct m as [line |]
    end; cbn [mbind option_bind] in Hput; [| discriminate].
    destruct (write_buf buf line) as [buf' |] eqn:Hw;
      cbn [mbind option_bind] in Hput; [| discriminate].
    injection Hput as <- <-.
    apply write_buf_length in Hw.
    pose proof (pool_acquire _ _ _ _ _ _ _ i buf' Hpool ltac:(lia) Hnz Hi
                  ltac:(lia)) as Hacq.
    destruct e. unfold wf, lists_ok, pool_ok_at in *. members.
    split; [exact Hlists |]. split; [exact Hdims |]. split; [exact Hix |].
    split; [exact HPdst |]. split; [exact Htmpbuf |]. split; [lia |].
    exists ly. split; [exact Hly |].
    eexists count, _, _. split; [exact Hc |]. split; [reflexivity |].
    split; [reflexivity |]. exact Hacq. }
  destruct slot as [b |].
  - intros Hput. left. apply (Hsucc b); [| exact Hput].
    eapply pool_buf; eauto.
  - destruct malloc_ok.
    + intros Hput. left.
      apply (Hsucc (replicate (Z.to_nat
                (m_intermediate_x
                   (set_Psrc_y_flag
                      (Some (assign flag (m_cur_src_y e) true)) e)))
                (of_int 0))); [| exact Hput].
      rewrite length_replicate.
      assert (Hixe : m_intermediate_x
                       (set_Psrc_y_flag
                          (Some (assign flag (m_cur_src_y e) true)) e)
                     = m_intermediate_x e) by (destruct e; reflexivity).
      rewrite Hixe. destruct (m_delay_x_resample e); lia.
    + intros Hput; injection Hput as <- <-. right. destruct e. auto.
Qed.

End Put_line_facts.

Section Count_facts.

Context {R : Type} `{Real_Ops R}.

Implicit Types (e : Resampler R).

Lemma occ_le_length (s : Z) (l : Contrib_List R) :
  occ s l <= Z.of_nat (length l).
Proof.
  induction l as [| p l IH]; cbn [occ length]; [lia |].
  destruct (pixel p =? s); lia.
Qed.

Lemma occs_le_length (s : Z) (lists : list (Contrib_List R)) :
  occs s lists <= Z.of_nat (length (concat lists)).
Proof.
  induction lists as [| l lists IH]; cbn [occs concat]; [cbn; lia |].
  rewrite length_app. pose proof (occ_le_length s l). lia.
Qed.

Lemma count_contrib_list (src_y : Z) (l : Contrib_List R) :
  forall (count : list Z) (base : Z -> Z),
    Z.of_nat (length count) = src_y ->
    (forall s, 0 <= s < src_y -> index count s = Some (base s)) ->
    Forall (fun p => 0 <= pixel p < src_y) l ->
    (forall s, 0 <= s < src_y ->
       0 <= base s /\ base s + occ s l <= Int.max_int) ->
    exists count',
      fold_left (count_contrib src_y) l (Some count) = Some count'
      /\ Z.of_nat (length count') = src_y
      /\ forall s, 0 <= s < src_y ->
           index count' s = Some (base s + occ s l).
Proof.
  induction l as [| p l IH]; intros count base Hlen Hcount Hl Hb.
  - exists count. split; [reflexivity |]. split; [exact Hlen |].
    intros s Hs. rewrite Hcount by exact Hs. cbn [occ]. f_equal. lia.
  - apply Forall_cons in Hl as [Hp Hl]. cbn [fold_left].
    assert (Hstep : count_contrib src_y (Some count) p
                    = Some (assign count (pixel p) (base (pixel p) + 1))).
    { unfold count_contrib. cbn [mbind option_bind].
      assert (Hrc : resampler_range_check (pixel p) src_y = Some (pixel p))
        by (apply range_check_Some; auto).
      rewrite Hrc. cbn [mbind option_bind]. rewrite Hcount by exact Hp.
      cbn [mbind option_bind]. unfold Int.add. rewrite wrap_id; [reflexivity |].
      destruct (Hb (pixel p) Hp) as [H0 Hmax]. cbn [occ] in Hmax.
      rewrite Z.eqb_refl in Hmax. pose proof (occ_nonneg (pixel p) l).
      revert Hmax. unfold Int.in_range, Int.min_int, Int.max_int.
      rewrite pow2_31. lia. }
    rewrite Hstep.
    destruct (IH (assign count (pixel p) (base (pixel p) + 1))
                (fun s => base s + (if pixel p =? s then 1 else 0)))
      as (count' & Hfold & Hlen' & Hcount').
    + rewrite length_assign. exact Hlen.
    + intros s Hs. destruct (Z.eqb_spec (pixel p) s) as [<- | Hne].
      * apply index_assign_eq. lia.
      * rewrite index_assign_ne by lia. rewrite Hcount by exact Hs.
        f_equal. lia.
    + exact Hl.
    + intros s Hs. destruct (Hb s Hs) as [H0 Hmax]. cbn [occ] in Hmax.
      destruct (pixel p =? s); lia.
    + exists count'. split; [exact Hfold |]. split; [exact Hlen' |].
      intros s Hs. rewrite Hcount' by exact Hs. cbn [occ]. f_equal.
      destruct (pixel p =? s); lia.
Qed.

Lemma count_contrib_lists (src_y : Z) (lists : list (Contrib_List R)) :
  forall (count : list Z) (base : Z -> Z),
    Z.of_nat (length count) = src_y ->
    (forall s, 0 <= s < src_y -> index count s = Some (base s)) ->
    pixels_below src_y lists ->
    (forall s, 0 <= s < src_y ->
       0 <= base s /\ base s + occs s lists <= Int.max_int) ->
    exists count',
      fold_left (fun cnt l => fold_left (count_contrib src_y) l cnt) lists
        (Some count) = Some count'
      /\ Z.of_nat (length count') = src_y
      /\ forall s, 0 <= s < src_y ->
           index count' s = Some (base s + occs s lists).
Proof.
  induction lists as [| l lists IH]; intros count base Hlen Hcount Hl Hb.
  - exists count. split; [reflexivity |]. split; [exact Hlen |].
    intros s Hs. rewrite Hcount by exact Hs. cbn [occs]. f_equal. lia.
  - apply Forall_cons in Hl as [Hp Hl]. cbn [fold_left].
    destruct (count_contrib_list src_y l count base Hlen Hcount Hp)
      as (count1 & Hfold1 & Hlen1 & Hcount1).
    { intros s Hs. destruct (Hb s Hs) as [H0 Hmax]. cbn [occs] in Hmax.
      pose proof (occs_nonneg s lists). lia. }
    rewrite Hfold1.
    destruct (IH count1 (fun s => base s + occ s l) Hlen1 Hcount1 Hl)
      as (count' & Hfold & Hlen' & Hcount').
    { intros s Hs. destruct (Hb s Hs) as [H0 Hmax]. cbn [occs] in Hmax.
      pose proof (occ_nonneg s l). lia. }
    exists count'. split; [exact Hfold |]. split; [exact Hlen' |].
    intros s Hs. rewrite Hcount' by exact Hs. cbn [occs]. f_equal. lia.
Qed.

(* The reference counts that the constructor and restart compute. *)
Lemma count_contribs_occs (src_y : Z) (lists : list (Contrib_List R)) :
  0 <= src_y ->
  pixels_below src_y lists ->
  Z.of_nat (length (concat lists)) <= Int.max_int ->
  exists count,
    count_contribs src_y (Z.of_nat (length lists)) lists
      (replicate (Z.to_nat src_y) 0) = Some count
    /\ Z.of_nat (length count) = src_y
    /\ forall s, 0 <= s < src_y -> index count s = Some (occs s lists).
Proof.
  intros Hsy Hp Htot. unfold count_contribs. rewrite prefix_all.
  cbn [mbind option_bind].
  destruct (count_contrib_lists src_y lists (replicate (Z.to_nat src_y) 0)
              (fun _ => 0)) as (count & Hfold & Hlen & Hcount).
  - rewrite length_replicate. lia.
  - intros s Hs. apply index_Some. split; [lia |].
    apply lookup_replicate_2. lia.
  - exact Hp.
  - intros s Hs. pose proof (occs_le_length s lists).
    pose proof (occs_nonneg s lists). lia.
  - exists count. split; [exact Hfold |]. split; [exact Hlen |].
    intros s Hs. rewrite Hcount by exact Hs. f_equal.
Qed.

(* A pool whose slots are all free. *)
Lemma pool_ok_fresh (src_y ix : Z) (need : Z -> Z) (count : list Z)
  (n : nat) :
  Z.of_nat (length count) = src_y -> 0 <= src_y ->
  (forall s, 0 <= s < src_y -> index count s = Some (need s)) ->
  (forall s, 0 <= s < src_y -> 0 <= need s <= Int.max_int) ->
  pool_ok src_y ix 0 need count (replicate (Z.to_nat src_y) false)
    (mkScan_Buf (replicate n (-1)) (replicate n (@None (list R)))).
Proof.
  intros Hlen Hsy Hcount Hneed. split; cbn [scan_buf_y scan_buf_l]; auto.
  - rewrite length_replicate. lia.
  - rewrite !length_replicate. reflexivity.
  - intros i t Hi Ht. apply lookup_replicate in Hi as [-> _]. congruence.
  - intros i b Hi. apply lookup_replicate in Hi as [Hi _]. discriminate.
  - intros i j t Hi _ Ht. apply lookup_replicate in Hi as [-> _]. congruence.
  - intros s Hs. apply index_Some in Hs as [_ Hs].
    apply lookup_replicate in Hs as [Hs _]. discriminate.
Qed.

End Count_facts.

Section Invariant.

Context {R : Type} `{Real_Ops R}.

Implicit Types (e : Resampler R).

Lemma all_present_false e (l : Contrib_List R) (flag : list bool) :
  m_Psrc_y_flag e = Some flag ->
  Exists (fun p => index flag (pixel p) = Some false) l ->
  all_present e l <> Some true.
Proof.
  intros Hf Hex Hall. apply (all_present_true e l flag Hf) in Hall.
  apply Exists_exists in Hex as (p & Hp & Hpf).
  rewrite Forall_forall in Hall. specialize (Hall p Hp). congruence.
Qed.

Lemma all_present_ready e (l : Contrib_List R) (flag : list bool) :
  m_Psrc_y_flag e = Some flag ->
  Z.of_nat (length flag) = m_resample_src_y e ->
  Forall (fun p => 0 <= pixel p < m_resample_src_y e) l ->
  ~ Exists (fun p => index flag (pixel p) = Some false) l ->
  all_present e l = Some true.
Proof.
  intros Hf Hlen. induction l as [| p l IH]; intros Hl Hnex;
    cbn [all_present]; [reflexivity |].
  apply Forall_cons in Hl as [Hp Hl].
  rewrite Hf. cbn [mbind option_bind].
  assert (Hrc : resampler_range_check (pixel p) (m_resample_src_y e)
                = Some (pixel p)) by (apply range_check_Some; auto).
  rewrite Hrc. cbn [mbind option_bind].
  destruct (lookup_lt_is_Some_2 flag (Z.to_nat (pixel p)) ltac:(lia))
    as [f Hfp].
  assert (Hi : index flag (pixel p) = Some f)
    by (apply index_Some; split; [lia | exact Hfp]).
  rewrite Hi. cbn [mbind option_bind]. destruct f.
  - apply IH; [exact Hl |]. intros Hex. apply Hnex. right. exact Hex.
  - exfalso. apply Hnex. left. exact Hi.
Qed.

(* The three cases of get_line, for an engine that satisfies the
   invariant. *)
Lemma get_line_wf_cases e :
  wf e ->
  (m_cur_dst_y e = m_resample_dst_y e -> get_line e = Some (None, e))
  /\ (m_cur_dst_y e <> m_resample_dst_y e ->
      exists lists_y l flag,
        m_Pclist_y e = Some lists_y
        /\ index lists_y (m_cur_dst_y e) = Some l
        /\ m_Psrc_y_flag e = Some flag
        /\ (Exists (fun p => index flag (pixel p) = Some false) l ->
            get_line e = Some (None, e))
        /\ (~ Exists (fun p => index flag (pixel p) = Some false) l ->
            exists row e1,
              resample_y e = Some e1
              /\ m_Pdst_buf e1 = Some row
              /\ get_line e
                 = Some (Some row, set_cur_dst_y (m_cur_dst_y e + 1) e1)
              /\ Z.of_nat (length row) = m_resample_dst_x e
              /\ wf (set_cur_dst_y (m_cur_dst_y e + 1) e1))).
Proof.
  intros Hwf. split.
  - intros Heq. unfold get_line. rewrite Heq, Z.eqb_refl. reflexivity.
  - intros Hne.
    pose proof Hwf as (Hlists & Hdims & Hix & HPdst & Htmpbuf & Hcur
                       & (ly & Hly & (count & flag & scan & Hc & Hf & Hs
                                      & Hpool))).
    destruct Hlists as (lx & ly' & Hcx & Hcy & Hlx & Hlylen & Hpx & Hpy & Htot).
    rewrite Hly in Hcy. injection Hcy as <-.
    destruct (lookup_lt_is_Some_2 ly (Z.to_nat (m_cur_dst_y e)) ltac:(lia))
      as [l Hl].
    assert (Hidx : index ly (m_cur_dst_y e) = Some l)
      by (apply index_Some; split; [lia | exact Hl]).
    assert (Hlr : Forall (fun p => 0 <= pixel p < m_resample_src_y e) l).
    { unfold pixels_below in Hpy. rewrite Forall_lookup in Hpy.
      eapply Hpy, Hl. }
    pose proof (pool_flag_length _ _ _ _ _ _ _ Hpool) as Hflen.
    exists ly, l, flag. do 3 (split; [assumption |]).
    assert (Hunfold : get_line e
              = (ready ← all_present e l;
                 if ready : bool
                 then e0 ← resample_y e;
                      Some (m_Pdst_buf e0,
                            set_cur_dst_y (m_cur_dst_y e0 + 1) e0)
                 else Some (None, e))).
    { unfold get_line. destruct (Z.eqb_spec (m_cur_dst_y e) (m_resample_dst_y e));
        [contradiction |].
      rewrite Hly. cbn [mbind option_bind]. rewrite Hidx. reflexivity. }
    rewrite Hunfold. split.
    + intros Hex.
      destruct (all_present_defined e l flag Hf Hflen Hlr) as [[|] Hb].
      * exfalso. eapply all_present_false; eauto.
      * rewrite Hb. reflexivity.
    + intros Hnex.
      rewrite (all_present_ready e l flag Hf Hflen Hlr Hnex).
      cbn [mbind option_bind].
      pose proof (all_present_true e l flag Hf
                    (all_present_ready e l flag Hf Hflen Hlr Hnex)) as Hall.
      destruct (resample_y_ok e ly l flag Hwf Hly Hidx Hf Hall)
        as (e1 & row & Hy & Hrow & Hlrow & Hwf1).
      pose proof (resample_y_frame _ _ Hy) as (Hplan & Hst & Hcs & Hcd).
      rewrite Hy. cbn [mbind option_bind]. rewrite Hrow, Hcd.
      exists row, e1. split; [reflexivity |]. split; [exact Hrow |].
      split; [reflexivity |]. split; [exact Hlrow |]. exact Hwf1.
Qed.

Lemma get_line_wf e e' (r : option (list R)) :
  wf e -> get_line e = Some (r, e') -> wf e'.
Proof.
  intros Hwf Hg. destruct (get_line_wf_cases e Hwf) as [Hend Hrun].
  destruct (Z.eq_dec (m_cur_dst_y e) (m_resample_dst_y e)) as [Heq | Hne].
  - rewrite (Hend Heq) in Hg. injection Hg as <- <-. exact Hwf.
  - destruct (Hrun Hne) as (ly & l & flag & _ & _ & _ & Hwait & Hready).
    assert (Hdec : forall p : Contrib R,
               Decision (index flag (pixel p) = Some false)).
    { intros p. destruct (index flag (pixel p)) as [[|] |];
        [right | left | right]; congruence. }
    destruct (@Exists_dec _ (fun p => index flag (pixel p) = Some false)
                Hdec l) as [Hex | Hnex].
    + rewrite (Hwait Hex) in Hg. injection Hg as <- <-. exact Hwf.
    + destruct (Hready Hnex) as (row & e1 & _ & _ & Hg1 & _ & Hwf1).
      rewrite Hg1 in Hg. injection Hg as <- <-. exact Hwf1.
Qed.

Lemma restart_wf e e' : wf e -> restart e = Some e' -> wf e'.
Proof.
  intros Hwf. unfold restart.
  destruct (m_status e) eqn:Hst; try (intros [= <-]; exact Hwf).
  destruct Hwf as (Hlists & Hdims & Hix & HPdst & Htmpbuf & Hcur
                   & (ly & Hly & (count & flag & scan & Hc & Hf & Hs & Hpool))).
  pose proof (pool_count_length _ _ _ _ _ _ _ Hpool) as Hclen.
  pose proof (pool_flag_length _ _ _ _ _ _ _ Hpool) as Hflen.
  pose proof Hlists as (lx & ly' & Hcx & Hcy & Hlx & Hlylen & Hpx & Hpy & Htot).
  rewrite Hly in Hcy. injection Hcy as <-.
  rewrite Hc, Hf. cbn [mbind option_bind].
  rewrite !prefix_Some by lia. cbn [mbind option_bind].
  rewrite Hly. cbn [mbind option_bind].
  rewrite (drop_ge count) by lia. rewrite app_nil_r.
  rewrite (drop_ge flag) by lia. rewrite app_nil_r.
  destruct (count_contribs_occs (m_resample_src_y e) ly ltac:(lia) Hpy Htot)
    as (count' & Hcc & Hlen' & Hcount').
  rewrite Hlylen in Hcc. rewrite Hcc. cbn [mbind option_bind].
  rewrite Hs. cbn [mbind option_bind]. intros [= <-].
  pose proof (pool_ok_fresh (R:=R) (m_resample_src_y e) (m_intermediate_x e)
                (fun s => occs s ly) count' (length (scan_buf_y scan))
                Hlen' ltac:(lia) Hcount') as Hfresh.
  rewrite <- (pool_scan_length _ _ _ _ _ _ _ Hpool).
  destruct e. unfold wf, lists_ok, pool_ok_at in *. members.
  split; [exact Hlists |]. split; [exact Hdims |]. split; [exact Hix |].
  split; [exact HPdst |]. split; [exact Htmpbuf |]. split; [lia |].
  exists ly. split; [exact Hly |].
  eexists _, _, _. split; [reflexivity |]. split; [reflexivity |].
  split; [reflexivity |]. apply Hfresh.
  intros s Hs'. pose proof (occs_le_length s ly).
  pose proof (occs_nonneg s ly). lia.
Qed.

(* Every call keeps the invariant, except a put_line whose allocation
   fails. *)
Lemma call_wf (c : Call R) e e' :
  wf e -> call c e = Some e' ->
  wf e'
  \/ (exists Psrc, c = Put Psrc false)
     /\ m_status e' = STATUS_OUT_OF_MEMORY.
Proof.
  intros Hwf. destruct c as [Psrc malloc_ok | |]; cbn [call].
  - destruct (put_line Psrc malloc_ok e) as [[r e1] |] eqn:Hp;
      [| discriminate].
    intros [= <-].
    destruct (put_line_wf _ _ _ _ _ Hwf Hp) as [Hwf1 | (_ & -> & Hst)];
      [left; exact Hwf1 | right; eauto].
  - destruct (get_line e) as [[r e1] |] eqn:Hg; [| discriminate].
    intros [= <-]. left. eapply get_line_wf; eauto.
  - intros Hr. left. eapply restart_wf; eauto.
Qed.

Lemma run_status (cs : list (Call R)) :
  forall e e',
    m_status e <> STATUS_OKAY -> run cs e = Some e' ->
    m_status e' <> STATUS_OKAY.
Proof.
  induction cs as [| c cs IH]; intros e e' Hne; cbn [run].
  - intros [= <-]. exact Hne.
  - destruct (call c e) as [e1 |] eqn:Hc; cbn [mbind option_bind];
      [| discriminate].
    apply IH. eapply call_status; eassumption.
Qed.

(* The invariant holds as long as the status is STATUS_OKAY. *)
Lemma run_wf (cs : list (Call R)) :
  forall e e',
    wf e -> run cs e = Some e' -> m_status e' = STATUS_OKAY -> wf e'.
Proof.
  induction cs as [| c cs IH]; intros e e' Hwf; cbn [run].
  - intros [= <-] _. exact Hwf.
  - destruct (call c e) as [e1 |] eqn:Hc; cbn [mbind option_bind];
      [| discriminate].
    intros Hrun Hst.
    destruct (call_wf c e e1 Hwf Hc) as [Hwf1 | [_ Hoom]].
    + eapply IH; eauto.
    + exfalso. eapply (run_status cs e1 e'); eauto.
      rewrite Hoom. discriminate.
Qed.

(* The invariant holds as long as no allocation fails. *)
Lemma run_wf_alloc (cs : list (Call R)) :
  forall e e',
    wf e -> run cs e = Some e' -> allocations_succeed cs = true -> wf e'.
Proof.
  induction cs as [| c cs IH]; intros e e' Hwf; cbn [run].
  - intros [= <-] _. exact Hwf.
  - destruct (call c e) as [e1 |] eqn:Hc; cbn [mbind option_bind];
      [| discriminate].
    intros Hrun Hall. cbn [allocations_succeed forallb] in Hall.
    apply andb_true_iff in Hall as [Hc' Hall].
    destruct (call_wf c e e1 Hwf Hc) as [Hwf1 | [[Psrc ->] _]].
    + eapply IH; eauto.
    + discriminate.
Qed.

End Invariant.

Section Constructor_invariant.

Context {R : Type} `{Real_Ops R} `{Libm R}.

Variable MAX_SCAN_BUF_SIZE : Z.
Variable RESAMPLER_DEFAULT_FILTER : string.

(* A constructed engine with well formed lists satisfies the invariant. *)
Lemma Resampler_new_wf (src_x src_y dst_x dst_y : Z) (op : Boundary_Op)
  (lo hi : R) (Pfilter_name : option string)
  (Pclist_x Pclist_y : option (list (Contrib_List R)))
  (fxs fys ofx ofy : R) (heap : Heap) (e : Resampler R) :
  Resampler_new MAX_SCAN_BUF_SIZE RESAMPLER_DEFAULT_FILTER src_x src_y dst_x
    dst_y op lo hi Pfilter_name Pclist_x Pclist_y fxs fys ofx ofy heap
  = Some e ->
  m_status e = STATUS_OKAY -> lists_ok e -> wf e.
Proof.
  intros Hn Hst Hlists.
  destruct (Resampler_new_okay _ _ _ _ _ _ _ _ _ _ _ _ _ _ _ _ _ _ Hn Hst)
    as (lists_x & lists_y & count & x_ops & y_ops & Hpos & _ & _ & Hcount
        & _ & _ & He).
  pose proof Hlists as (lx & ly & Hcx & Hcy & Hlx & Hly & Hpx & Hpy & Htot).
  subst e. members.
  injection Hcx as <-. injection Hcy as <-.
  destruct (count_contribs_occs src_y lists_y ltac:(lia) Hpy Htot)
    as (count' & Hcc & Hlen' & Hcount').
  rewrite Hly in Hcc. rewrite Hcc in Hcount. injection Hcount as <-.
  pose proof (pool_ok_fresh (R:=R) src_y
                (if delay_x x_ops y_ops src_x src_y dst_x dst_y
                 then src_x else dst_x)
                (fun s => occs s lists_y) count'
                (Z.to_nat MAX_SCAN_BUF_SIZE) Hlen' ltac:(lia) Hcount')
    as Hfresh.
  unfold wf, pool_ok_at. members.
  split; [exact Hlists |]. split; [exact Hpos |]. split; [reflexivity |].
  split.
  { eexists. split; [reflexivity |]. rewrite length_replicate. lia. }
  split.
  { intros Hd. rewrite Hd. eexists. split; [reflexivity |].
    rewrite length_replicate. lia. }
  split; [lia |].
  exists lists_y. split; [reflexivity |].
  eexists _, _, _. split; [reflexivity |]. split; [reflexivity |].
  split; [reflexivity |]. apply Hfresh.
  intros s Hs'. pose proof (occs_le_length s lists_y).
  pose proof (occs_nonneg s lists_y). lia.
Qed.

End Constructor_invariant.

(** ** Progress *)

Section Progress.

Context {R : Type} `{Real_Ops R}.

Implicit Types (e : Resampler R).

Lemma pixels_below_mono (a b : Z) (lists : list (Contrib_List R)) :
  a <= b -> pixels_below a lists -> pixels_below b lists.
Proof.
  intros Hab Hp. unfold pixels_below in *.
  eapply Forall_impl; [exact Hp |]. intros l Hl.
  eapply Forall_impl; [exact Hl |]. intros p. cbv beta. lia.
Qed.

(* put_line is defined on an engine that satisfies the invariant, for a
   line of at least src_x samples. *)
Lemma put_line_defined e Psrc (malloc_ok : bool) :
  wf e -> m_resample_src_x e <= Z.of_nat (length Psrc) ->
  exists r e', put_line Psrc malloc_ok e = Some (r, e').
Proof.
  intros Hwf Hfit. unfold put_line.
  destruct (Z.geb_spec (m_cur_src_y e) (m_resample_src_y e)) as [Hge | Hlt];
    [eauto |].
  destruct Hwf as (Hlists & Hdims & Hix & HPdst & Htmpbuf & Hcur
                   & (ly & Hly & (count & flag & scan & Hc & Hf & Hs & Hpool))).
  destruct Hlists as (lx & ly' & Hcx & _ & Hlx & _ & Hpx & _).
  rewrite Hc. cbn [mbind option_bind].
  assert (Hrc : resampler_range_check (m_cur_src_y e) (m_resample_src_y e)
                = Some (m_cur_src_y e)) by (apply range_check_Some; lia).
  rewrite Hrc. cbn [mbind option_bind].
  rewrite (pool_count _ _ _ _ _ _ _ Hpool (m_cur_src_y e)) by lia.
  cbn [mbind option_bind].
  match goal with
  | |- context [?a =? 0] => destruct (Z.eqb_spec a 0) as [Hz | Hnz]
  end; [eauto |].
  rewrite Hs. cbn [mbind option_bind].
  destruct (find_free scan) as [i |] eqn:Hfree; [| eauto].
  rewrite Hf. cbn [mbind option_bind].
  unfold find_free in Hfree.
  destruct (find_index_Some _ _ _ Hfree) as (t & Hi & _).
  assert (Hil : (i < length (scan_buf_l scan))%nat).
  { rewrite <- (pool_scan_length _ _ _ _ _ _ _ Hpool).
    eapply lookup_lt_Some, Hi. }
  destruct (lookup_lt_is_Some_2 _ _ Hil) as [slot Hslot].
  rewrite Hslot. cbn [mbind option_bind].
  set (e1 := set_Psrc_y_flag _ e).
  assert (He1 : m_delay_x_resample e1 = m_delay_x_resample e
                /\ m_intermediate_x e1 = m_intermediate_x e
                /\ m_Pclist_x e1 = m_Pclist_x e
                /\ m_resample_dst_x e1 = m_resample_dst_x e)
    by (destruct e; cbn; auto).
  destruct He1 as (Hd1 & Hix1 & Hcx1 & Hdx1).
  assert (Hline : exists line,
    (if m_delay_x_resample e1
     then prefix (m_intermediate_x e1) Psrc
     else resample_x e1 Psrc) = Some line
    /\ Z.of_nat (length line) = m_intermediate_x e).
  { rewrite Hd1, Hix1, Hix. destruct (m_delay_x_resample e).
    - rewrite prefix_Some by lia. eexists. split; [reflexivity |].
      rewrite length_take. lia.
    - destruct (resample_x_Some e1 Psrc lx) as (r & Hr & Hlr).
      + congruence.
      + congruence.
      + eapply pixels_below_mono; [exact Hfit | exact Hpx].
      + exists r. split; [exact Hr | lia]. }
  destruct Hline as (line & Hline & Hll).
  assert (Hsucc : forall buf,
            Z.of_nat (length buf) = m_intermediate_x e ->
            exists r e',
              (line ← (if m_delay_x_resample e1
                       then prefix (m_intermediate_x e1) Psrc
                       else resample_x e1 Psrc);
               buf ← write_buf buf line;
               Some (true,
                     set_cur_src_y (m_cur_src_y e1 + 1)
                       (set_Pscan_buf
                          (Some (mkScan_Buf
                                   (<[i := m_cur_src_y e]> (scan_buf_y scan))
                                   (<[i := Some buf]> (scan_buf_l scan))))
                          e1)))
              = Some (r, e')).
  { intros buf Hlb. rewrite Hline. cbn [mbind option_bind].
    rewrite write_buf_exact by lia. cbn [mbind option_bind]. eauto. }
  destruct slot as [b |].
  - apply (Hsucc b). eapply pool_buf; eauto.
  - destruct malloc_ok; [| eauto].
    apply Hsucc. rewrite length_replicate, Hix1.
    rewrite Hix. destruct (m_delay_x_resample e); lia.
Qed.

Lemma get_line_defined e : wf e -> exists r e', get_line e = Some (r, e').
Proof.
  intros Hwf. destruct (get_line_wf_cases e Hwf) as [Hend Hmore].
  destruct (Z.eq_dec (m_cur_dst_y e) (m_resample_dst_y e)) as [Heq | Hne].
  - rewrite (Hend Heq). eauto.
  - destruct (Hmore Hne) as (ly & l & flag & _ & _ & _ & Hwait & Hready).
    assert (Hdec : forall p : Contrib R,
               Decision (index flag (pixel p) = Some false)).
    { intros p. destruct (index flag (pixel p)) as [[|] |];
        [right | left | right]; congruence. }
    destruct (@Exists_dec _ (fun p => index flag (pixel p) = Some false)
                Hdec l) as [Hex | Hnex].
    + rewrite (Hwait Hex). eauto.
    + destruct (Hready Hnex) as (row & e1 & _ & _ & Hg & _). rewrite Hg. eauto.
Qed.

Lemma restart_defined e : wf e -> exists e', restart e = Some e'.
Proof.
  intros Hwf. unfold restart.
  destruct (m_status e) eqn:Hst; eauto.
  destruct Hwf as (Hlists & Hdims & Hix & HPdst & Htmpbuf & Hcur
                   & (ly & Hly & (count & flag & scan & Hc & Hf & Hs & Hpool))).
  pose proof (pool_count_length _ _ _ _ _ _ _ Hpool) as Hclen.
  pose proof (pool_flag_length _ _ _ _ _ _ _ Hpool) as Hflen.
  destruct Hlists as (lx & ly' & Hcx & Hcy & Hlx & Hlylen & Hpx & Hpy & Htot).
  rewrite Hly in Hcy. injection Hcy as <-.
  rewrite Hc, Hf. cbn [mbind option_bind].
  rewrite !prefix_Some by lia. cbn [mbind option_bind].
  rewrite Hly. cbn [mbind option_bind].
  rewrite (drop_ge count) by lia. rewrite app_nil_r.
  destruct (count_contribs_occs (m_resample_src_y e) ly ltac:(lia) Hpy Htot)
    as (count' & Hcc & _).
  rewrite Hlylen in Hcc. rewrite Hcc. cbn [mbind option_bind].
  rewrite Hs. cbn [mbind option_bind]. eauto.
Qed.

(* Progress: on a constructed engine, calls whose lines have at least
   src_x samples and whose allocations succeed never meet an assertion, a
   null pointer or an index out of range. *)
Lemma run_defined (cs : list (Call R)) :
  forall e,
    wf e -> rows_fit (m_resample_src_x e) cs ->
    allocations_succeed cs = true ->
    exists e', run cs e = Some e'.
Proof.
  induction cs as [| c cs IH]; intros e Hwf Hfit Halloc; cbn [run]; [eauto |].
  apply Forall_cons in Hfit as [Hc Hfit].
  cbn [allocations_succeed forallb] in Halloc.
  apply andb_true_iff in Halloc as [Ha Halloc].
  assert (Hcall : exists e1, call c e = Some e1).
  { destruct c as [Psrc malloc_ok | |]; cbn [call].
    - destruct (put_line_defined e Psrc malloc_ok Hwf Hc) as (r & e1 & ->).
      eauto.
    - destruct (get_line_defined e Hwf) as (r & e1 & ->). eauto.
    - apply restart_defined, Hwf. }
  destruct Hcall as [e1 Hcall]. rewrite Hcall. cbn [mbind option_bind].
  destruct (call_wf c e e1 Hwf Hcall) as [Hwf1 | [[Psrc ->] _]];
    [| discriminate].
  apply IH; [exact Hwf1 | | exact Halloc].
  assert (Hsx : m_resample_src_x e1 = m_resample_src_x e).
  { destruct c as [Psrc malloc_ok | |]; cbn [call] in Hcall.
    - destruct (put_line Psrc malloc_ok e) as [[r e2] |] eqn:Hp;
        [| discriminate].
      injection Hcall as <-. apply put_line_frame in Hp as [Hplan _].
      apply plan_fields in Hplan. tauto.
    - destruct (get_line e) as [[r e2] |] eqn:Hg; [| discriminate].
      injection Hcall as <-. apply get_line_frame in Hg as [Hplan _].
      apply plan_fields in Hplan. tauto.
    - apply restart_frame in Hcall as [Hplan _].
      apply plan_fields in Hplan. tauto. }
  rewrite Hsx. exact Hfit.
Qed.

End Progress.

(** ** The protocol of put_line and get_line *)

Lemma pixels_belowb_ok {R : Type} (src : Z) (lists : list (Contrib_List R)) :
  pixels_belowb src lists = true -> pixels_below src lists.
Proof.
  unfold pixels_belowb, pixels_below.
  induction lists as [| l lists IH]; cbn [forallb]; [constructor |].
  rewrite andb_true_iff. intros [Hl Hrest].
  constructor; [| apply IH, Hrest]. clear IH Hrest.
  induction l as [| p l IH]; cbn [forallb] in *; [constructor |].
  apply andb_true_iff in Hl as [Hp Hl].
  constructor; [lia | apply IH, Hl].
Qed.

Lemma lists_okb_ok {R : Type} (e : Resampler R) :
  lists_okb e = true -> lists_ok e.
Proof.
  unfold lists_okb, lists_ok.
  destruct (m_Pclist_x e) as [lx |]; [| discriminate].
  destruct (m_Pclist_y e) as [ly |]; [| discriminate].
  rewrite !andb_true_iff. intros [[[[Hx Hy] Hpx] Hpy] Htot].
  exists lx, ly. split; [reflexivity |]. split; [reflexivity |].
  split; [lia |]. split; [lia |].
  split; [apply pixels_belowb_ok, Hpx |].
  split; [apply pixels_belowb_ok, Hpy |]. lia.
Qed.

Section Row_facts.

Context {R : Type} `{Real_Ops R}.

Implicit Types (e : Resampler R) (stored : Z -> list R).

Lemma weighted_fold_None (Psrc : list R) (l : Contrib_List R) :
  fold_left
    (fun total p =>
       t ← total; s ← index Psrc (pixel p); Some (r_add t (r_mul s (weight p))))
    l None = None.
Proof. induction l as [| p l IH]; [reflexivity | exact IH]. Qed.

Lemma weighted_fold_direct (Psrc : list R) (l : Contrib_List R) :
  forall a r,
    fold_left
      (fun total p =>
         t ← total; s ← index Psrc (pixel p);
         Some (r_add t (r_mul s (weight p))))
      l (Some a) = Some r ->
    r = fold_left
          (fun total p => r_add total (r_mul (sample Psrc (pixel p)) (weight p)))
          l a.
Proof.
  induction l as [| p l IH]; intros a r; cbn [fold_left].
  - intros [= <-]. reflexivity.
  - cbn [mbind option_bind]. unfold sample.
    destruct (index Psrc (pixel p)) as [s |]; cbn [mbind option_bind default].
    + apply IH.
    + rewrite weighted_fold_None. discriminate.
Qed.

Lemma weighted_sum_direct (Psrc : list R) (l : Contrib_List R) (r : R) :
  weighted_sum Psrc l = Some r -> r = direct_dot Psrc l.
Proof. apply weighted_fold_direct. Qed.

Lemma mapM_direct (Psrc : list R) (lists : list (Contrib_List R)) :
  forall r,
    mapM (weighted_sum Psrc) lists = Some r -> r = direct_x lists Psrc.
Proof.
  induction lists as [| l lists IH]; intros r; cbn [mapM].
  - intros [= <-]. reflexivity.
  - destruct (weighted_sum Psrc l) as [y |] eqn:Hy; cbn [mbind option_bind];
      [| discriminate].
    destruct (mapM (weighted_sum Psrc) lists) as [k |];
      cbn [mbind option_bind]; [| discriminate].
    intros [= <-]. unfold direct_x. cbn [map].
    rewrite (weighted_sum_direct _ _ _ Hy), (IH k eq_refl). reflexivity.
Qed.

(* resample_x computes the X pass. *)
Lemma resample_x_direct e (Psrc r : list R) (lx : list (Contrib_List R)) :
  m_Pclist_x e = Some lx ->
  Z.of_nat (length lx) = m_resample_dst_x e ->
  resample_x e Psrc = Some r ->
  r = direct_x lx Psrc /\ length r = length lx.
Proof.
  intros Hx Hlen. unfold resample_x. rewrite Hx. cbn [mbind option_bind].
  rewrite <- Hlen, prefix_all. cbn [mbind option_bind]. intros Hm.
  apply mapM_direct in Hm. subst r. split; [reflexivity |].
  unfold direct_x. apply length_map.
Qed.

Lemma scale_y_mov_direct (Ptmp L tmp : list R) (w : R) (n : Z) :
  0 <= n -> length Ptmp = Z.to_nat n -> length L = Z.to_nat n ->
  scale_y_mov Ptmp L w n = Some tmp ->
  tmp = map (fun s => r_mul s w) L.
Proof.
  intros Hn Hp Hl. unfold scale_y_mov.
  rewrite prefix_Some by lia. cbn [mbind option_bind].
  rewrite take_ge by lia.
  rewrite write_buf_exact by (rewrite length_map; lia).
  intros [= <-]. reflexivity.
Qed.

Lemma scale_y_add_direct (Ptmp L tmp : list R) (w : R) (n : Z) :
  0 <= n -> length Ptmp = Z.to_nat n -> length L = Z.to_nat n ->
  scale_y_add Ptmp L w n = Some tmp ->
  tmp = zip_with (fun t s => r_add t (r_mul s w)) Ptmp L.
Proof.
  intros Hn Hp Hl. unfold scale_y_add.
  rewrite !prefix_Some by lia. cbn [mbind option_bind].
  rewrite !take_ge by lia.
  rewrite write_buf_exact by (rewrite length_zip_with; lia).
  intros [= <-]. reflexivity.
Qed.

Lemma clamp_sample_plan e e' (f : R) :
  plan e' = plan e -> clamp_sample e' f = clamp_sample e f.
Proof.
  intros Hplan. apply plan_fields in Hplan
    as (_ & _ & _ & _ & Hlo & Hhi & _).
  unfold clamp_sample. rewrite Hlo, Hhi. reflexivity.
Qed.

Lemma slots_hold_ext stored e e' :
  m_Pscan_buf e' = m_Pscan_buf e ->
  m_intermediate_x e' = m_intermediate_x e ->
  slots_hold stored e -> slots_hold stored e'.
Proof.
  intros Hs Hix Hold scan i t Hscan Hi Ht. rewrite Hix.
  apply (Hold scan i t); congruence.
Qed.






End Row_facts.

Section Protocol.

Context {R : Type} `{Real_Ops R} `{Libm R}.

Variable MAX_SCAN_BUF_SIZE : Z.
Variable RESAMPLER_DEFAULT_FILTER : string.

Variables (src_x src_y dst_x dst_y : Z) (op : Boundary_Op) (lo hi : R).
Variables (Pfilter_name : option string).
Variables (Pclist_x Pclist_y : option (list (Contrib_List R))).
Variables (fxs fys ofx ofy : R) (heap : Heap).

(* The engine e0 is what the constructor returns, with status
   STATUS_OKAY and well formed contributor lists. *)
Variable e0 : Resampler R.
Hypothesis Hnew :
  Resampler_new MAX_SCAN_BUF_SIZE RESAMPLER_DEFAULT_FILTER src_x src_y dst_x
    dst_y op lo hi Pfilter_name Pclist_x Pclist_y fxs fys ofx ofy heap
  = Some e0.
Hypothesis Hokay : m_status e0 = STATUS_OKAY.
Hypothesis Hlists : lists_ok e0.


(** C5: after a construction and any sequence of put_line, get_line and
    restart calls that raised no error status, once the destination lines
    have all been pulled (cur_dst_y = dst_y, where get_line reports
    end-of-stream) every reference count refcount[s], 0 <= s < src_y, is 0
    and every tag of the scan buffer is -1. *)
Theorem refcounts_conserved (cs : list (Call R)) (e : Resampler R) :
  run cs e0 = Some e -> m_status e = STATUS_OKAY ->
  m_cur_dst_y e = m_resample_dst_y e ->
  get_line e = Some (None, e)
  /\ exists count scan,
       m_Psrc_y_count e = Some count
       /\ Z.of_nat (length count) = m_resample_src_y e
       /\ (forall s, 0 <= s < m_resample_src_y e -> index count s = Some 0)
       /\ m_Pscan_buf e = Some scan
       /\ Forall (fun t => t = -1) (scan_buf_y scan).
Proof.
  intros Hrun Hst Hend.
  assert (Hwf : wf e).
  { eapply run_wf; [| exact Hrun | exact Hst].
    eapply Resampler_new_wf; eauto. }
  split; [apply (get_line_wf_cases e Hwf), Hend |].
  destruct Hwf as (Hl & _ & _ & _ & _ & _
                   & (ly & Hly & (count & flag & scan & Hc & Hf & Hs & Hpool))).
  destruct Hl as (lx & ly' & _ & Hly' & _ & Hlen & _).
  rewrite Hly in Hly'. injection Hly' as <-.
  assert (Hneed : forall s,
             occs s (drop (Z.to_nat (m_cur_dst_y e)) ly) = 0).
  { intros s. rewrite drop_ge by lia. reflexivity. }
  exists count, scan. split; [exact Hc |].
  split; [exact (pool_count_length _ _ _ _ _ _ _ Hpool) |].
  split.
  { intros s Hs'. rewrite (pool_count _ _ _ _ _ _ _ Hpool s Hs').
    rewrite Hneed. reflexivity. }
  split; [exact Hs |].
  apply Forall_lookup. intros i t Hi.
  destruct (Z.eq_dec t (-1)) as [Ht | Ht]; [exact Ht |].
  destruct (pool_tag _ _ _ _ _ _ _ Hpool i t Hi Ht) as (_ & _ & _ & Hpos & _).
  rewrite Hneed in Hpos. lia.
Qed.

End Protocol.



(* C5 at a concrete engine: [fresh_2x2] after both lines were put and
   pulled. *)
Lemma refcounts_conserved_witness :
  exists e0 e count scan,
    Examples.fresh_2x2 = Some e0
    /\ Examples.run32 [Put [Examples.lit 1; Examples.lit 2] true; Get;
                       Put [Examples.lit 3; Examples.lit 4] true; Get] e0
       = Some e
    /\ m_cur_dst_y e = 2
    /\ m_Psrc_y_count e = Some count
    /\ (forall s, 0 <= s < 2 -> index count s = Some 0)
    /\ m_Pscan_buf e = Some scan
    /\ Forall (fun t => t = -1) (scan_buf_y scan).
Proof.
  match eval vm_compute in Examples.fresh_2x2 with
  | Some ?v => pose (e0 := v)
  end.
  assert (He0 : Examples.fresh_2x2 = Some e0) by (vm_compute; reflexivity).
  pose (cs := [Put [Examples.lit 1; Examples.lit 2] true; @Get spec_float;
               Put [Examples.lit 3; Examples.lit 4] true; Get]).
  match eval vm_compute in (Examples.run32 cs e0) with
  | Some ?v => pose (e := v)
  end.
  assert (Hrun : Examples.run32 cs e0 = Some e) by (vm_compute; reflexivity).
  assert (Hst0 : m_status e0 = STATUS_OKAY) by reflexivity.
  assert (Hl0 : lists_ok e0) by (apply lists_okb_ok; vm_compute; reflexivity).
  assert (Hst : m_status e = STATUS_OKAY) by reflexivity.
  assert (Hend : m_cur_dst_y e = m_resample_dst_y e) by reflexivity.
  assert (Hnew : @Resampler_new _ IEEE.binary32 (IEEE.libm 24 128) 1024
                   "lanczos4" 2 2 2 2 BOUNDARY_CLAMP (Examples.lit 0)
                   (Examples.lit 0) (Some "box"%string) None None
                   (Examples.lit 1) (Examples.lit 1) (Examples.lit 0)
                   (Examples.lit 0) Examples.heap_ok = Some e0)
    by (vm_compute; reflexivity).
  assert (Hrun' : @run _ IEEE.binary32 cs e0 = Some e)
    by (vm_compute; reflexivity).
  pose proof (@refcounts_conserved _ IEEE.binary32 (IEEE.libm 24 128) 1024
              "lanczos4" 2 2 2 2 BOUNDARY_CLAMP (Examples.lit 0)
              (Examples.lit 0) (Some "box"%string) None None
              (Examples.lit 1) (Examples.lit 1) (Examples.lit 0)
              (Examples.lit 0) Examples.heap_ok e0 Hnew Hst0 Hl0
              cs e Hrun' Hst Hend) as Hres.
  destruct Hres as (_ & count & scan & Hc & _ & Hzero & Hs & Htags).
  exists e0, e, count, scan.
  split; [exact He0 |]. split; [exact Hrun |]. split; [reflexivity |].
  split; [exact Hc |]. split; [exact Hzero |]. split; [exact Hs | exact Htags].
Defined.

(** ** A constant image *)

Section Constant_facts.

Context {R : Type} `{Exact_Real R}.

Add Ring exact_ring_const : (@exact_ring R _ _).

Local Open Scope real_scope.

Implicit Types (e : Resampler R) (c : R).

(* If 0 = 1 then all samples are equal. *)
Lemma trivial_ring (x y : R) : of_int 0 = RR 1.0 -> x = y.
Proof.
  intros H01.
  assert (Hz : forall z : R, z = of_int 0).
  { intros z. transitivity (z * RR 1.0); [ring |]. rewrite <- H01. ring. }
  rewrite (Hz x), (Hz y). reflexivity.
Qed.

Lemma replicate_trivial (l : list R) c :
  of_int 0 = RR 1.0 -> l = replicate (length l) c.
Proof.
  intros H01. induction l as [| x l IH]; cbn [length replicate]; [reflexivity |].
  rewrite <- IH. f_equal. apply trivial_ring, H01.
Qed.

Lemma index_replicate (n : nat) c (i : Z) :
  (0 <= i < Z.of_nat n)%Z -> index (replicate n c) i = Some c.
Proof.
  intros Hi. apply index_Some. split; [lia |].
  apply lookup_replicate. split; [reflexivity | lia].
Qed.

Lemma weighted_sum_from (n : nat) c (l : Contrib_List R) (a : R) :
  Forall (fun p => (0 <= pixel p < Z.of_nat n)%Z) l ->
  fold_left
    (fun total p =>
       t ← total; s ← index (replicate n c) (pixel p); Some (t + s * weight p))
    l (Some a)
  = Some (a + c * sum_weights l).
Proof.
  revert a. induction l as [| p l IH]; intros a Hl; cbn [fold_left].
  - f_equal. rewrite sum_weights_nil. ring.
  - apply Forall_cons in Hl as [Hp Hl].
    cbn [mbind option_bind]. rewrite index_replicate by exact Hp.
    cbn [mbind option_bind]. rewrite IH by exact Hl.
    f_equal. rewrite sum_weights_cons. ring.
Qed.

Lemma weighted_sum_const (n : nat) c (l : Contrib_List R) :
  Forall (fun p => (0 <= pixel p < Z.of_nat n)%Z) l ->
  sum_weights l = RR 1.0 ->
  weighted_sum (replicate n c) l = Some c.
Proof.
  intros Hl Hsum. unfold weighted_sum. rewrite weighted_sum_from by exact Hl.
  f_equal. rewrite Hsum. ring.
Qed.

Lemma mapM_const (n : nat) c (lists : list (Contrib_List R)) :
  pixels_below (Z.of_nat n) lists -> unit_sums lists ->
  mapM (weighted_sum (replicate n c)) lists
  = Some (replicate (length lists) c).
Proof.
  unfold pixels_below, unit_sums.
  induction lists as [| l lists IH]; intros Hp Hu; [reflexivity |].
  apply Forall_cons in Hp as [Hl Hp]. apply Forall_cons in Hu as [Hs Hu].
  cbn [mapM]. rewrite (weighted_sum_const n c l Hl Hs).
  cbn [mbind option_bind]. rewrite (IH Hp Hu). reflexivity.
Qed.

(* resample_x of a constant line is the constant line. *)
Lemma resample_x_const e c (n : nat) (lists : list (Contrib_List R)) :
  m_Pclist_x e = Some lists ->
  Z.of_nat (length lists) = m_resample_dst_x e ->
  pixels_below (Z.of_nat n) lists -> unit_sums lists ->
  resample_x e (replicate n c)
  = Some (replicate (Z.to_nat (m_resample_dst_x e)) c).
Proof.
  intros Hx Hlen Hp Hu. unfold resample_x. rewrite Hx.
  cbn [mbind option_bind]. rewrite <- Hlen, prefix_all.
  cbn [mbind option_bind]. rewrite Nat2Z.id. apply mapM_const; assumption.
Qed.

Lemma scale_y_mov_const (Ptmp : list R) c (w : R) (n : nat) (tmp : list R) :
  length Ptmp = n ->
  scale_y_mov Ptmp (replicate n c) w (Z.of_nat n) = Some tmp ->
  tmp = replicate n (c * w).
Proof.
  intros Hlen. unfold scale_y_mov.
  rewrite prefix_Some by (rewrite length_replicate; lia).
  cbn [mbind option_bind]. rewrite Nat2Z.id, take_replicate, Nat.min_id.
  rewrite <- (fmap_replicate (fun s => s * w) n c).
  rewrite write_buf_exact by (rewrite length_fmap, length_replicate; lia).
  intros [= <-]. reflexivity.
Qed.

Lemma scale_y_add_const c (a w : R) (n : nat) (tmp : list R) :
  scale_y_add (replicate n a) (replicate n c) w (Z.of_nat n) = Some tmp ->
  tmp = replicate n (a + c * w).
Proof.
  unfold scale_y_add.
  rewrite !prefix_Some by (rewrite length_replicate; lia).
  cbn [mbind option_bind]. rewrite Nat2Z.id, !take_replicate, Nat.min_id.
  assert (Hz : zip_with (fun t s => t + s * w) (replicate n a) (replicate n c)
               = replicate n (a + c * w)).
  { clear. induction n as [| n IH]; cbn; [reflexivity | rewrite IH; reflexivity]. }
  rewrite Hz, write_buf_exact by (rewrite !length_replicate; reflexivity).
  intros [= <-]. reflexivity.
Qed.

End Constant_facts.

Section Constant_engine.

Context {R : Type} `{Exact_Real R}.

Add Ring exact_ring_engine : (@exact_ring R _ _).

Local Open Scope real_scope.

Implicit Types (e : Resampler R) (c : R).

(* One contributor of resample_y on a pool of constant lines. *)
Lemma resample_y_step_const (first : bool) (tmp tmp' : list R) e e'
  (p : Contrib R) c :
  const_pool c e -> (0 <= m_intermediate_x e)%Z ->
  resample_y_step first (tmp, e) p = Some (tmp', e') ->
  const_pool c e'
  /\ (first = true -> length tmp = Z.to_nat (m_intermediate_x e) ->
      tmp' = replicate (Z.to_nat (m_intermediate_x e)) (c * weight p))
  /\ (forall a, first = false ->
        tmp = replicate (Z.to_nat (m_intermediate_x e)) a ->
        tmp' = replicate (Z.to_nat (m_intermediate_x e)) (a + c * weight p)).
Proof.
  intros Hpool Hix. unfold resample_y_step.
  destruct (m_Pscan_buf e) as [scan |] eqn:Hscan; cbn [mbind option_bind];
    [| discriminate].
  destruct (find_index _ (scan_buf_y scan)) as [j |] eqn:Hj;
    cbn [mbind option_bind]; [| discriminate].
  destruct (mjoin (scan_buf_l scan !! j)) as [Psrc |] eqn:Hsrc;
    cbn [mbind option_bind]; [| discriminate].
  match goal with
  | |- (mbind _ ?m) = _ -> _ => destruct m as [t |] eqn:Ht
  end; cbn [mbind option_bind]; [| discriminate].
  destruct (m_Psrc_y_count e) as [count |] eqn:Hcount;
    cbn [mbind option_bind]; [| discriminate].
  destruct (resampler_range_check _ _) as [v |] eqn:Hv;
    cbn [mbind option_bind]; [| discriminate].
  apply range_check_Some in Hv as [-> Hv].
  destruct (index count (pixel p)) as [n |] eqn:Hn;
    cbn [mbind option_bind]; [| discriminate].
  destruct (find_index_Some _ _ _ Hj) as (y & Hy & Hyp & _).
  apply Z.eqb_eq in Hyp. subst y.
  assert (Hbuf : Psrc = replicate (Z.to_nat (m_intermediate_x e)) c).
  { rewrite (Hpool scan j (pixel p) Hscan Hy ltac:(lia)) in Hsrc.
    cbn in Hsrc. congruence. }
  subst Psrc.
  assert (Htmp :
    (first = true -> length tmp = Z.to_nat (m_intermediate_x e) ->
     t = replicate (Z.to_nat (m_intermediate_x e)) (c * weight p))
    /\ (forall a, first = false ->
          tmp = replicate (Z.to_nat (m_intermediate_x e)) a ->
          t = replicate (Z.to_nat (m_intermediate_x e)) (a + c * weight p))).
  { remember (Z.to_nat (m_intermediate_x e)) as k eqn:Hk.
    assert (Hixk : m_intermediate_x e = Z.of_nat k) by lia.
    rewrite Hixk in Ht. split.
    - intros -> Hlen. eapply scale_y_mov_const; [exact Hlen | exact Ht].
    - intros a -> ->. eapply scale_y_add_const. exact Ht. }
  destruct (Z.eqb_spec (Int.sub n 1) 0) as [Hz | Hnz].
  - destruct (m_Psrc_y_flag _) as [flag |] eqn:Hflag;
      cbn [mbind option_bind]; [| discriminate].
    intros [= <- <-]. split; [| exact Htmp].
    intros scan' i t' Hscan' Hi Ht'.
    destruct e; members. injection Hscan' as <-.
    cbn [scan_buf_y scan_buf_l] in *.
    destruct (Nat.eq_dec i j) as [-> | Hij].
    + rewrite list_lookup_insert_eq in Hi by (eapply lookup_lt_Some, Hy).
      congruence.
    + rewrite list_lookup_insert_ne in Hi by congruence.
      exact (Hpool scan i t' Hscan Hi Ht').
  - intros [= <- <-]. split; [| exact Htmp].
    intros scan' i t' Hscan' Hi Ht'.
    destruct e; members. eapply (Hpool _ i t' Hscan' Hi Ht').
Qed.

(* The contributors after the first one. *)
Lemma resample_y_loop_const (l : Contrib_List R) c :
  forall (tmp' : list R) e e' (a : R),
    const_pool c e -> (0 <= m_intermediate_x e)%Z ->
    resample_y_loop false (replicate (Z.to_nat (m_intermediate_x e)) a, e) l
    = Some (tmp', e') ->
    const_pool c e'
    /\ tmp' = replicate (Z.to_nat (m_intermediate_x e))
                (a + c * sum_weights l).
Proof.
  induction l as [| p l IH]; intros tmp' e e' a Hpool Hix;
    cbn [resample_y_loop].
  - intros [= <- <-]. split; [exact Hpool |].
    f_equal. rewrite sum_weights_nil. ring.
  - destruct (resample_y_step false _ p) as [[tmp1 e1] |] eqn:Hs;
      cbn [mbind option_bind]; [| discriminate].
    destruct (resample_y_step_const _ _ _ _ _ _ c Hpool Hix Hs)
      as (Hpool1 & _ & Hadd).
    apply resample_y_step_frame in Hs as [[Hplan _] _].
    apply plan_fields in Hplan as (_ & _ & _ & _ & _ & _ & _ & Hix1 & _).
    rewrite (Hadd a eq_refl eq_refl), <- Hix1. intros Hloop.
    apply IH in Hloop as [Hpool' ->]; [| exact Hpool1 | lia].
    split; [exact Hpool' |]. f_equal. rewrite sum_weights_cons. ring.
Qed.

(* All the contributors of a destination line. *)
Lemma resample_y_lines_const (l : Contrib_List R) c (Ptmp tmp' : list R) e e' :
  const_pool c e -> (0 <= m_intermediate_x e)%Z ->
  length Ptmp = Z.to_nat (m_intermediate_x e) ->
  sum_weights l = RR 1.0 ->
  resample_y_loop true (Ptmp, e) l = Some (tmp', e') ->
  const_pool c e'
  /\ tmp' = replicate (Z.to_nat (m_intermediate_x e)) c.
Proof.
  intros Hpool Hix Hlen Hsum. destruct l as [| p l]; cbn [resample_y_loop].
  - intros [= <- <-]. split; [exact Hpool |].
    rewrite <- Hlen. apply replicate_trivial.
    rewrite <- Hsum. reflexivity.
  - destruct (resample_y_step true _ p) as [[tmp1 e1] |] eqn:Hs;
      cbn [mbind option_bind]; [| discriminate].
    destruct (resample_y_step_const _ _ _ _ _ _ c Hpool Hix Hs)
      as (Hpool1 & Hmov & _).
    apply resample_y_step_frame in Hs as [[Hplan _] _].
    apply plan_fields in Hplan as (_ & _ & _ & _ & _ & _ & _ & Hix1 & _).
    rewrite (Hmov eq_refl Hlen), <- Hix1. intros Hloop.
    apply (resample_y_loop_const l c) in Hloop as [Hpool' ->];
      [| exact Hpool1 | lia].
    split; [exact Hpool' |]. f_equal.
    rewrite sum_weights_cons in Hsum.
    transitivity (c * (weight p + sum_weights l)); [ring |].
    rewrite Hsum. ring.
Qed.


Lemma clamp_sample_free e c :
  clamp_free c e -> r_ltb (m_lo e) (m_hi e) = true -> clamp_sample e c = c.
Proof.
  intros [Hoff | [Hlo Hhi]] Hon; [congruence |].
  unfold clamp_sample, r_gtb. rewrite Hlo, Hhi. reflexivity.
Qed.

Lemma const_pool_ext c e e' :
  m_Pscan_buf e' = m_Pscan_buf e ->
  m_intermediate_x e' = m_intermediate_x e ->
  const_pool c e -> const_pool c e'.
Proof.
  unfold const_pool. intros Hs Hix Hpool scan i t Hscan.
  rewrite Hix. apply Hpool. congruence.
Qed.

Lemma const_pool_free c e (scan : Scan_Buf R) :
  m_Pscan_buf e = Some scan ->
  Forall (fun t => t = (-1)%Z) (scan_buf_y scan) ->
  const_pool c e.
Proof.
  intros Hs Hall scan' i t Hs' Hi Ht. rewrite Hs in Hs'. injection Hs' as <-.
  rewrite Forall_lookup in Hall. specialize (Hall i t Hi). contradiction.
Qed.

(* resample_y on a pool of constant lines writes the constant line. *)
Lemma resample_y_const e e' c (lists_x lists_y : list (Contrib_List R)) :
  wf e -> const_pool c e -> clamp_free c e ->
  m_Pclist_x e = Some lists_x -> m_Pclist_y e = Some lists_y ->
  unit_sums lists_x -> unit_sums lists_y ->
  resample_y e = Some e' ->
  m_Pdst_buf e' = Some (replicate (Z.to_nat (m_resample_dst_x e)) c)
  /\ const_pool c e'.
Proof.
  intros (Hlists & Hdims & Hix & (Pdst & HPdst & HlPdst) & Htmpbuf & Hcur & _)
    Hpool Hclamp Hcx Hcy Hux Huy.
  destruct Hlists as (lx & ly & Hcx' & Hcy' & Hlx & Hly & Hpx & Hpy & _).
  rewrite Hcx in Hcx'. injection Hcx' as <-.
  rewrite Hcy in Hcy'. injection Hcy' as <-.
  unfold resample_y. rewrite Hcy. cbn [mbind option_bind].
  destruct (index lists_y (m_cur_dst_y e)) as [l |] eqn:Hl;
    cbn [mbind option_bind]; [| discriminate].
  assert (Hsum : sum_weights l = RR 1.0).
  { apply index_Some in Hl as [_ Hl]. unfold unit_sums in Huy.
    rewrite Forall_lookup in Huy. eapply Huy, Hl. }
  rewrite HPdst. cbn [mbind option_bind].
  assert (Hixpos : (0 <= m_intermediate_x e)%Z)
    by (rewrite Hix; destruct (m_delay_x_resample e); lia).
  assert (HPtmp : exists Ptmp,
             (if m_delay_x_resample e then m_Ptmp_buf e else Some Pdst)
             = Some Ptmp
             /\ length Ptmp = Z.to_nat (m_intermediate_x e)).
  { destruct (m_delay_x_resample e) eqn:Hd.
    - destruct (Htmpbuf eq_refl) as (Ptmp & HPtmp & HlPtmp).
      exists Ptmp. split; [exact HPtmp | lia].
    - exists Pdst. split; [reflexivity | lia]. }
  destruct HPtmp as (Ptmp & -> & HlPtmp). cbn [mbind option_bind].
  destruct (resample_y_loop true (Ptmp, e) l) as [[tmp e1] |] eqn:Hloop;
    cbn [mbind option_bind]; [| discriminate].
  destruct (resample_y_lines_const l c Ptmp tmp e e1 Hpool Hixpos HlPtmp Hsum
              Hloop) as [Hpool1 ->].
  apply resample_y_loop_frame in Hloop as [[Hplan _] _].
  apply plan_fields in Hplan
    as (Hsx1 & _ & Hdx1 & _ & Hlo1 & Hhi1 & Hd1 & Hix1 & Hcx1 & _).
  assert (Hgen : exists e2,
             generate_line e1 Pdst
               (replicate (Z.to_nat (m_intermediate_x e)) c)
             = Some (replicate (Z.to_nat (m_resample_dst_x e)) c, e2)
             /\ const_pool c e2
             /\ m_lo e2 = m_lo e /\ m_hi e2 = m_hi e
             /\ m_resample_dst_x e2 = m_resample_dst_x e).
  { unfold generate_line. rewrite Hd1.
    destruct (m_delay_x_resample e) eqn:Hd.
    - rewrite Hix.
      rewrite (resample_x_const e1 c (Z.to_nat (m_resample_src_x e)) lists_x)
        by (rewrite ?Z2Nat.id by lia; congruence).
      cbn [mbind option_bind]. rewrite Hdx1.
      rewrite write_buf_exact by (rewrite length_replicate; lia).
      cbn [mbind option_bind]. eexists. split; [reflexivity |].
      split; [| destruct e1; members; auto].
      eapply const_pool_ext; [| | exact Hpool1]; destruct e1; reflexivity.
    - rewrite Hix. exists e1. split; [reflexivity |]. auto. }
  destruct Hgen as (e2 & -> & Hpool2 & Hlo2 & Hhi2 & Hdx2).
  cbn [mbind option_bind].
  assert (Hcl : clamp_line e2 (replicate (Z.to_nat (m_resample_dst_x e)) c)
                = Some (replicate (Z.to_nat (m_resample_dst_x e)) c)).
  { unfold clamp_line. rewrite Hlo2, Hhi2.
    destruct (r_ltb (m_lo e) (m_hi e)) eqn:Hon; [| reflexivity].
    unfold clamp. rewrite Hdx2.
    rewrite prefix_Some by (rewrite length_replicate; lia).
    cbn [mbind option_bind]. rewrite take_replicate, Nat.min_id.
    rewrite fmap_replicate, write_buf_exact
      by (rewrite !length_replicate; reflexivity).
    assert (Hcs : clamp_sample e2 c = c).
    { apply clamp_sample_free; [| congruence].
      unfold clamp_free. rewrite Hlo2, Hhi2. exact Hclamp. }
    rewrite Hcs. reflexivity. }
  rewrite Hcl. cbn [mbind option_bind]. intros [= <-].
  split; [destruct e2; reflexivity |].
  eapply const_pool_ext; [| | exact Hpool2]; destruct e2; reflexivity.
Qed.

End Constant_engine.

Section Constant_protocol.

Context {R : Type} `{Exact_Real R}.

Implicit Types (e : Resampler R) (c : R).

(* put_line of a constant line keeps the pool constant. *)
Lemma put_line_const e e' c (r : bool) (lists_x : list (Contrib_List R)) :
  wf e -> const_pool c e ->
  m_Pclist_x e = Some lists_x -> unit_sums lists_x ->
  put_line (replicate (Z.to_nat (m_resample_src_x e)) c) true e
  = Some (r, e') ->
  const_pool c e'.
Proof.
  intros Hwf Hconst Hcx Hux. unfold put_line.
  destruct (Z.geb_spec (m_cur_src_y e) (m_resample_src_y e)) as [Hge | Hlt].
  { intros Hput; injection Hput as <- <-. exact Hconst. }
  destruct Hwf as (Hlists & Hdims & Hix & HPdst & Htmpbuf & Hcur
                   & (ly & Hly & (count & flag & scan & Hc & Hf & Hs & Hpool))).
  destruct Hlists as (lx & ly' & Hcx' & _ & Hlx & _ & Hpx & _).
  rewrite Hcx in Hcx'. injection Hcx' as <-.
  rewrite Hc. cbn [mbind option_bind].
  destruct (resampler_range_check _ _) as [v |]; cbn [mbind option_bind];
    [| discriminate].
  destruct (index count v) as [n |]; cbn [mbind option_bind];
    [| discriminate].
  destruct (n =? 0)%Z.
  { intros Hput; injection Hput as <- <-.
    eapply const_pool_ext; [| | exact Hconst]; destruct e; reflexivity. }
  rewrite Hs. cbn [mbind option_bind].
  destruct (find_free scan) as [i |] eqn:Hfree.
  2: { intros Hput; injection Hput as <- <-.
       eapply const_pool_ext; [| | exact Hconst]; destruct e; reflexivity. }
  rewrite Hf. cbn [mbind option_bind].
  unfold find_free in Hfree.
  destruct (find_index_Some _ _ _ Hfree) as (t & Hi & Ht & _).
  destruct (scan_buf_l scan !! i) as [slot |] eqn:Hslot;
    cbn [mbind option_bind]; [| discriminate].
  set (e1 := set_Psrc_y_flag _ e).
  assert (He1 : m_delay_x_resample e1 = m_delay_x_resample e
                /\ m_intermediate_x e1 = m_intermediate_x e
                /\ m_Pclist_x e1 = m_Pclist_x e
                /\ m_resample_dst_x e1 = m_resample_dst_x e
                /\ m_cur_src_y e1 = m_cur_src_y e)
    by (destruct e; cbn; auto).
  destruct He1 as (Hd1 & Hix1 & Hcx1 & Hdx1 & Hcur1).
  assert (Hline :
    (if m_delay_x_resample e1
     then prefix (m_intermediate_x e1)
            (replicate (Z.to_nat (m_resample_src_x e)) c)
     else resample_x e1 (replicate (Z.to_nat (m_resample_src_x e)) c))
    = Some (replicate (Z.to_nat (m_intermediate_x e)) c)).
  { rewrite Hd1, Hix1, Hix. destruct (m_delay_x_resample e).
    - rewrite prefix_Some by (rewrite length_replicate; lia).
      rewrite take_replicate, Nat.min_id. reflexivity.
    - rewrite (resample_x_const e1 c (Z.to_nat (m_resample_src_x e)) lists_x)
        by (rewrite ?Z2Nat.id by lia; congruence).
      rewrite Hdx1. reflexivity. }
  assert (Hsucc : forall buf,
            Z.of_nat (length buf) = m_intermediate_x e ->
            (line ← (if m_delay_x_resample e1
                     then prefix (m_intermediate_x e1)
                            (replicate (Z.to_nat (m_resample_src_x e)) c)
                     else resample_x e1
                            (replicate (Z.to_nat (m_resample_src_x e)) c));
             buf ← write_buf buf line;
             Some (true,
                   set_cur_src_y (m_cur_src_y e1 + 1)
                     (set_Pscan_buf
                        (Some (mkScan_Buf
                                 (<[i := m_cur_src_y e]> (scan_buf_y scan))
                                 (<[i := Some buf]> (scan_buf_l scan))))
                        e1)))
            = Some (r, e') -> const_pool c e').
  { intros buf Hlb. rewrite Hline. cbn [mbind option_bind].
    rewrite write_buf_exact by (rewrite length_replicate; lia).
    cbn [mbind option_bind]. intros Hput; injection Hput as <- <-.
    intros scan' k t' Hscan' Hk Ht'.
    clear Hline. subst e1. destruct e. members.
    injection Hscan' as <-. cbn [scan_buf_y scan_buf_l] in *.
    destruct (Nat.eq_dec k i) as [-> | Hki].
    - apply list_lookup_insert_eq. eapply lookup_lt_Some, Hslot.
    - rewrite list_lookup_insert_ne in Hk by congruence.
      rewrite list_lookup_insert_ne by congruence.
      exact (Hconst scan k t' Hs Hk Ht'). }
  destruct slot as [b |].
  - apply (Hsucc b). eapply pool_buf; eauto.
  - apply Hsucc. rewrite length_replicate, Hix1.
    rewrite Hix. destruct (m_delay_x_resample e); lia.
Qed.

(* restart empties the pool. *)
Lemma restart_const e e' c :
  const_pool c e -> restart e = Some e' -> const_pool c e'.
Proof.
  intros Hconst. unfold restart.
  destruct (m_status e); try (intros [= <-]; exact Hconst).
  intros Hr. bind_inv Hr. injection Hr as <-.
  eapply const_pool_free.
  - destruct e; reflexivity.
  - cbn [scan_buf_y]. apply Forall_forall. intros t Ht.
    apply elem_of_replicate in Ht as [-> _]. reflexivity.
Qed.

Lemma const_engine_plan c e e' :
  plan e' = plan e -> wf e' -> const_pool c e' ->
  const_engine c e -> const_engine c e'.
Proof.
  intros Hplan Hwf Hpool (_ & (lx & ly & Hcx & Hcy & Hux & Huy) & _ & Hclamp).
  apply plan_fields in Hplan
    as (_ & _ & _ & _ & Hlo & Hhi & _ & _ & Hcx' & Hcy').
  split; [exact Hwf |]. split.
  { exists lx, ly. rewrite Hcx', Hcy'. auto. }
  split; [exact Hpool |]. unfold clamp_free. rewrite Hlo, Hhi. exact Hclamp.
Qed.

(* Every line that get_line returns is the constant line. *)
Lemma get_line_const e e' c (r : option (list R)) :
  const_engine c e -> get_line e = Some (r, e') ->
  const_engine c e'
  /\ forall row, r = Some row ->
       row = replicate (Z.to_nat (m_resample_dst_x e)) c.
Proof.
  intros Hce Hg.
  pose proof Hce as (Hwf & (lx & ly & Hcx & Hcy & Hux & Huy) & Hpool & Hclamp).
  pose proof (get_line_wf _ _ _ Hwf Hg) as Hwf'.
  pose proof (get_line_frame _ _ _ Hg) as (Hplan & _ & _).
  unfold get_line in Hg.
  destruct (m_cur_dst_y e =? m_resample_dst_y e)%Z.
  { injection Hg as <- <-. split; [exact Hce | discriminate]. }
  rewrite Hcy in Hg. cbn [mbind option_bind] in Hg.
  destruct (index ly (m_cur_dst_y e)) as [l |]; cbn [mbind option_bind] in Hg;
    [| discriminate].
  destruct (all_present e l) as [[|] |]; cbn [mbind option_bind] in Hg;
    [| | discriminate].
  2: { injection Hg as <- <-. split; [exact Hce | discriminate]. }
  destruct (resample_y e) as [e1 |] eqn:Hy; cbn [mbind option_bind] in Hg;
    [| discriminate].
  destruct (resample_y_const e e1 c lx ly Hwf Hpool Hclamp Hcx Hcy Hux Huy Hy)
    as [Hrow Hpool1].
  injection Hg as <- <-. split.
  - apply (const_engine_plan c e); [exact Hplan | exact Hwf' | | exact Hce].
    eapply const_pool_ext; [| | exact Hpool1]; destruct e1; reflexivity.
  - intros row Hr. congruence.
Qed.

(* A call that puts a constant line, with an allocation that succeeds,
   keeps the invariant. *)
Lemma call_const (call0 : Call R) e e' c :
  const_engine c e ->
  const_rows c (m_resample_src_x e) [call0] ->
  allocations_succeed [call0] = true ->
  call call0 e = Some e' ->
  const_engine c e'.
Proof.
  intros Hce Hrows Halloc Hcall.
  pose proof Hce as (Hwf & (lx & ly & Hcx & Hcy & Hux & Huy) & Hpool & Hclamp).
  destruct (call_wf call0 e e' Hwf Hcall) as [Hwf' | [[Psrc ->] _]];
    [| discriminate].
  destruct call0 as [Psrc malloc_ok | |]; cbn [call] in Hcall.
  - destruct (put_line Psrc malloc_ok e) as [[r e1] |] eqn:Hp;
      [| discriminate].
    injection Hcall as <-.
    cbn in Halloc. rewrite andb_true_r in Halloc. subst malloc_ok.
    apply Forall_cons in Hrows as [-> _].
    apply (const_engine_plan c e); [| exact Hwf' | | exact Hce].
    + apply put_line_frame in Hp. tauto.
    + exact (put_line_const e e1 c r lx Hwf Hpool Hcx Hux Hp).
  - destruct (get_line e) as [[r e1] |] eqn:Hg; [| discriminate].
    injection Hcall as <-. eapply get_line_const; eauto.
  - apply (const_engine_plan c e); [| exact Hwf' | | exact Hce].
    + apply restart_frame in Hcall. tauto.
    + eapply restart_const; eauto.
Qed.

Lemma call_src_x (call0 : Call R) e e' :
  call call0 e = Some e' -> m_resample_src_x e' = m_resample_src_x e.
Proof.
  destruct call0 as [Psrc malloc_ok | |]; cbn [call]; intros Hc.
  - destruct (put_line Psrc malloc_ok e) as [[r e1] |] eqn:Hp;
      [| discriminate].
    injection Hc as <-. apply put_line_frame in Hp as [Hplan _].
    apply plan_fields in Hplan. tauto.
  - destruct (get_line e) as [[r e1] |] eqn:Hg; [| discriminate].
    injection Hc as <-. apply get_line_frame in Hg as [Hplan _].
    apply plan_fields in Hplan. tauto.
  - apply restart_frame in Hc as [Hplan _]. apply plan_fields in Hplan. tauto.
Qed.

Lemma run_const (cs : list (Call R)) c :
  forall e e',
    const_engine c e ->
    const_rows c (m_resample_src_x e) cs ->
    allocations_succeed cs = true ->
    run cs e = Some e' ->
    const_engine c e' /\ m_resample_dst_x e' = m_resample_dst_x e.
Proof.
  induction cs as [| call0 cs IH]; intros e e' Hce Hrows Halloc; cbn [run].
  - intros [= <-]. auto.
  - destruct (call call0 e) as [e1 |] eqn:Hc; cbn [mbind option_bind];
      [| discriminate].
    apply Forall_cons in Hrows as [Hrow Hrows].
    cbn [allocations_succeed forallb] in Halloc.
    apply andb_true_iff in Halloc as [Ha Halloc].
    assert (Hce1 : const_engine c e1).
    { apply (call_const call0 e e1 c Hce); [| | exact Hc].
      - constructor; [exact Hrow | constructor].
      - cbn. rewrite Ha. reflexivity. }
    intros Hrun.
    assert (Hdx : m_resample_dst_x e1 = m_resample_dst_x e).
    { destruct call0 as [Psrc malloc_ok | |]; cbn [call] in Hc.
      - destruct (put_line Psrc malloc_ok e) as [[r e2] |] eqn:Hp;
          [| discriminate].
        injection Hc as <-. apply put_line_frame in Hp as [Hplan _].
        apply plan_fields in Hplan. tauto.
      - destruct (get_line e) as [[r e2] |] eqn:Hg; [| discriminate].
        injection Hc as <-. apply get_line_frame in Hg as [Hplan _].
        apply plan_fields in Hplan. tauto.
      - apply restart_frame in Hc as [Hplan _].
        apply plan_fields in Hplan. tauto. }
    rewrite <- Hdx. apply IH; [exact Hce1 | | exact Halloc | exact Hrun].
    rewrite (call_src_x _ _ _ Hc). exact Hrows.
Qed.

End Constant_protocol.

Section Constant_image.

Context {R : Type} `{Exact_Real R} `{Libm R}.

Variable MAX_SCAN_BUF_SIZE : Z.
Variable RESAMPLER_DEFAULT_FILTER : string.

Variables (src_x src_y dst_x dst_y : Z) (op : Boundary_Op) (lo hi : R).
Variables (Pfilter_name : option string).
Variables (Pclist_x Pclist_y : option (list (Contrib_List R))).
Variables (fxs fys ofx ofy : R) (heap : Heap).

(* The engine e0 is what the constructor returns, with status
   STATUS_OKAY and well formed contributor lists. *)
Variable e0 : Resampler R.
Hypothesis Hnew :
  Resampler_new MAX_SCAN_BUF_SIZE RESAMPLER_DEFAULT_FILTER src_x src_y dst_x
    dst_y op lo hi Pfilter_name Pclist_x Pclist_y fxs fys ofx ofy heap
  = Some e0.
Hypothesis Hokay : m_status e0 = STATUS_OKAY.
Hypothesis Hlists : lists_ok e0.

(* Lists that the caller supplies have weights that add up to 1.0, as the
   lists that make_clist generates have. *)
Hypothesis Hsupplied_x : forall lists, Pclist_x = Some lists -> unit_sums lists.
Hypothesis Hsupplied_y : forall lists, Pclist_y = Some lists -> unit_sums lists.

(* The constant of the image: clamping is disabled, or c is in [lo, hi]. *)
Variable c : R.
Hypothesis Hclamp :
  r_ltb lo hi = false \/ (r_ltb c lo = false /\ r_ltb hi c = false).

Lemma clist_origin_unit_sums (src dst : Z)
  (Pclist : option (list (Contrib_List R))) (scale ofs : R)
  (lists : list (Contrib_List R)) :
  (forall supplied, Pclist = Some supplied -> unit_sums supplied) ->
  clist_origin RESAMPLER_DEFAULT_FILTER src dst op Pfilter_name Pclist scale
    ofs lists ->
  unit_sums lists.
Proof.
  intros Hsup [Hgiven | (filter & heap_ok & _ & Hmake)].
  - apply Hsup, Hgiven.
  - eapply make_clist_Forall; [| exact Hmake].
    intros b l. apply make_contrib_sum.
Qed.

Lemma Resampler_new_const : const_engine c e0.
Proof.
  pose proof (Resampler_new_wf _ _ _ _ _ _ _ _ _ _ _ _ _ _ _ _ _ _ Hnew Hokay
                Hlists) as Hwf.
  destruct (Resampler_new_okay _ _ _ _ _ _ _ _ _ _ _ _ _ _ _ _ _ _ Hnew Hokay)
    as (lists_x & lists_y & count & x_ops & y_ops & _ & Hox & Hoy & _ & _ & _
        & He).
  split; [exact Hwf |].
  apply clist_origin_unit_sums in Hox; [| exact Hsupplied_x].
  apply clist_origin_unit_sums in Hoy; [| exact Hsupplied_y].
  rewrite He. split.
  { exists lists_x, lists_y. auto. }
  split.
  - eapply const_pool_free; [reflexivity |]. cbn [scan_buf_y].
    apply Forall_forall. intros t Ht.
    apply elem_of_replicate in Ht as [-> _]. reflexivity.
  - exact Hclamp.
Qed.

(** C6: under exact arithmetic, an engine of any dimensions, boundary op
    and filter that is fed lines whose samples all equal c returns, from
    every get_line that returns a line, the line of dst_x samples equal to
    c, when clamping is disabled or c lies in [lo, hi].  The contributor
    lists are the lists that make_clist generates, or lists of the caller
    whose weights add up to 1.0. *)
Theorem constant_image (cs : list (Call R)) (e e' : Resampler R)
  (row : list R) :
  run cs e0 = Some e -> const_rows c src_x cs ->
  allocations_succeed cs = true ->
  get_line e = Some (Some row, e') ->
  row = replicate (Z.to_nat dst_x) c.
Proof.
  intros Hrun Hrows Halloc Hget.
  destruct (Resampler_new_okay _ _ _ _ _ _ _ _ _ _ _ _ _ _ _ _ _ _ Hnew Hokay)
    as (lists_x & lists_y & count & x_ops & y_ops & _ & _ & _ & _ & _ & _
        & He).
  assert (Hsx : m_resample_src_x e0 = src_x) by (rewrite He; reflexivity).
  assert (Hdx : m_resample_dst_x e0 = dst_x) by (rewrite He; reflexivity).
  destruct (run_const cs c e0 e Resampler_new_const
              ltac:(rewrite Hsx; exact Hrows) Halloc Hrun) as [Hce Hdx'].
  destruct (get_line_const e e' c (Some row) Hce Hget) as [_ Hrow].
  rewrite (Hrow row eq_refl). congruence.
Qed.

End Constant_image.

(* C6 at a concrete engine on the rationals: 2 x 2 to 3 x 3 with the tent
   kernel and the constant 5. *)
Lemma constant_image_witness :
  exists e0 e e' row,
    @Resampler_new Qc Rational.ops Rational.libm 1024 "lanczos4" 2 2 3 3
      BOUNDARY_CLAMP (RR 0.0) (RR 0.0) (Some "tent"%string) None None
      (RR 1.0) (RR 1.0) (RR 0.0) (RR 0.0) Examples.heap_ok = Some e0
    /\ run [Put [RR 5; RR 5] true; Put [RR 5; RR 5] true] e0 = Some e
    /\ get_line e = Some (Some row, e')
    /\ row = [RR 5; RR 5; RR 5].
Proof.
  match eval vm_compute in
    (@Resampler_new Qc Rational.ops Rational.libm 1024 "lanczos4" 2 2 3 3
       BOUNDARY_CLAMP (RR 0.0) (RR 0.0) (Some "tent"%string) None None
       (RR 1.0) (RR 1.0) (RR 0.0) (RR 0.0) Examples.heap_ok) with
  | Some ?v => pose (e0 := v)
  end.
  assert (Hnew : @Resampler_new Qc Rational.ops Rational.libm 1024 "lanczos4"
                   2 2 3 3 BOUNDARY_CLAMP (RR 0.0) (RR 0.0)
                   (Some "tent"%string) None None (RR 1.0) (RR 1.0) (RR 0.0)
                   (RR 0.0) Examples.heap_ok = Some e0)
    by (vm_compute; reflexivity).
  pose (cs := [Put [@RR Qc _ 5; RR 5] true; Put [@RR Qc _ 5; RR 5] true]).
  match eval vm_compute in (run cs e0) with
  | Some ?v => pose (e := v)
  end.
  assert (Hrun : run cs e0 = Some e) by (vm_compute; reflexivity).
  match eval vm_compute in (get_line e) with
  | Some (Some ?r, ?v) => pose (row := r); pose (e' := v)
  end.
  assert (Hget : get_line e = Some (Some row, e')) by (vm_compute; reflexivity).
  assert (Hst0 : m_status e0 = STATUS_OKAY) by reflexivity.
  assert (Hl0 : lists_ok e0) by (apply lists_okb_ok; vm_compute; reflexivity).
  assert (Hrows : const_rows (@RR Qc _ 5) 2 cs) by (repeat constructor).
  pose proof (@constant_image Qc Rational.ops Rational_exact Rational.libm
                1024 "lanczos4" 2 2 3 3 BOUNDARY_CLAMP (RR 0.0) (RR 0.0)
                (Some "tent"%string) None None (RR 1.0) (RR 1.0) (RR 0.0)
                (RR 0.0) Examples.heap_ok e0 Hnew Hst0 Hl0
                ltac:(discriminate) ltac:(discriminate) (RR 5)
                ltac:(left; vm_compute; reflexivity)
                cs e e' row Hrun Hrows ltac:(reflexivity) Hget) as Hrow.
  exists e0, e, e', row.
  split; [exact Hnew |]. split; [exact Hrun |]. split; [exact Hget |].
  exact Hrow.
Defined.

(** * Further properties of the code *)

Lemma posmod_mod (x y : Z) :
  Int.in_range x -> x <> Int.min_int -> 1 <= y -> Int.in_range y ->
  posmod x y = x mod y.
Proof.
  intros Hx Hmin Hy Hyr. unfold posmod.
  destruct (Z.geb_spec x 0) as [Hpos | Hneg].
  - unfold Int.rem. apply Z.rem_mod_nonneg; lia.
  - assert (Hn : Int.neg x = - x).
    { unfold Int.neg. apply wrap_id. revert Hx Hmin. int_unfold. lia. }
    rewrite Hn. unfold Int.rem.
    rewrite Z.rem_mod_nonneg by lia.
    pose proof (Z.mod_pos_bound (- x) y ltac:(lia)) as Hm.
    destruct (Z.eqb_spec ((- x) mod y) 0) as [Hz | Hnz]; cbn [negb].
    + rewrite Hz. symmetry. apply Z.mod_divide; [lia |].
      apply Z.mod_divide in Hz; [| lia].
      destruct Hz as [k Hk]. exists (- k). lia.
    + unfold Int.sub. rewrite wrap_id by (revert Hyr; int_unfold; lia).
      rewrite <- (Z.opp_involutive x) at 2.
      rewrite (Z.mod_opp_l_nz (- x) y) by lia. reflexivity.
Qed.

(** X1: posmod is the mathematical modulus: for a positive modulus y and
    any int x other than INT_MIN, posmod(x, y) is x mod y, the
    representative in [0, y), also for negative x. *)
Theorem posmod_is_mod (x y : Z) :
  Int.in_range x -> x <> Int.min_int -> 1 <= y -> Int.in_range y ->
  posmod x y = x mod y /\ 0 <= posmod x y < y.
Proof.
  intros Hx Hmin Hy Hyr. rewrite posmod_mod by assumption.
  split; [reflexivity | apply Z.mod_pos_bound; lia].
Qed.

Lemma posmod_is_mod_witness : posmod (-7) 3 = (-7) mod 3 /\ posmod (-7) 3 = 2.
Proof.
  split; [| reflexivity].
  apply (posmod_is_mod (-7) 3); unfold Int.in_range, Int.min_int, Int.max_int;
    lia.
Defined.

(** X2: boundary resolution is a projection onto [0, src_x): reflect leaves
    an index that is already in range as it is, for each of the three
    boundary ops, so resolving an index twice gives the same result as
    resolving it once. *)
Theorem reflect_idempotent (j src_x : Z) (op : Boundary_Op) :
  Int.in_range j -> j <> Int.min_int -> 1 <= src_x -> Int.in_range src_x ->
  (0 <= j < src_x -> reflect j src_x op = j)
  /\ reflect (reflect j src_x op) src_x op = reflect j src_x op.
Proof.
  intros Hj Hmin Hs Hsr.
  assert (Hid : forall k, 0 <= k < src_x -> reflect k src_x op = k).
  { intros k Hk. unfold reflect.
    destruct (Z.ltb_spec k 0); [lia |].
    destruct (Z.geb_spec k src_x); [lia | reflexivity]. }
  split; [apply Hid |]. apply Hid, reflect_range; assumption.
Qed.

Lemma reflect_idempotent_witness :
  reflect (reflect (-3) 5 BOUNDARY_REFLECT) 5 BOUNDARY_REFLECT
  = reflect (-3) 5 BOUNDARY_REFLECT.
Proof.
  apply (reflect_idempotent (-3) 5 BOUNDARY_REFLECT);
    unfold Int.in_range, Int.min_int, Int.max_int; lia.
Defined.

(** X3: the closed form of boundary resolution.  BOUNDARY_WRAP gives
    j mod src_x.  BOUNDARY_CLAMP gives the nearest index of [0, src_x - 1].
    BOUNDARY_REFLECT mirrors a negative index about sample 0 without
    repeating it (-1 gives 1) and an index past the end about the edge
    after the last sample, repeating it (src_x gives src_x - 1); both are
    then clamped into the range. *)
Theorem reflect_closed_form (j src_x : Z) :
  Int.in_range j -> j <> Int.min_int -> 1 <= src_x -> Int.in_range src_x ->
  reflect j src_x BOUNDARY_WRAP = j mod src_x
  /\ reflect j src_x BOUNDARY_CLAMP = Z.max 0 (Z.min j (src_x - 1))
  /\ (j < 0 -> reflect j src_x BOUNDARY_REFLECT = Z.min (- j) (src_x - 1))
  /\ (src_x <= j ->
      reflect j src_x BOUNDARY_REFLECT = Z.max 0 (2 * src_x - 1 - j)).
Proof.
  intros Hj Hmin Hs Hsr.
  assert (Hs1 : Int.sub src_x 1 = src_x - 1).
  { unfold Int.sub. apply wrap_id. revert Hsr. int_unfold. lia. }
  unfold reflect. rewrite Hs1. repeat split.
  - destruct (Z.ltb_spec j 0); [apply posmod_mod; assumption |].
    destruct (Z.geb_spec j src_x); [apply posmod_mod; assumption |].
    symmetry. apply Z.mod_small. lia.
  - destruct (Z.ltb_spec j 0); [lia |].
    destruct (Z.geb_spec j src_x); lia.
  - intros Hneg. destruct (Z.ltb_spec j 0); [| lia].
    assert (Hn : Int.neg j = - j).
    { unfold Int.neg. apply wrap_id. revert Hj Hmin. int_unfold. lia. }
    rewrite Hn. destruct (Z.geb_spec (- j) src_x); lia.
  - intros Hge. destruct (Z.ltb_spec j 0); [lia |].
    destruct (Z.geb_spec j src_x); [| lia].
    assert (Hn : Int.add (Int.sub src_x j) (src_x - 1)
                 = (src_x - j) + (src_x - 1)).
    { unfold Int.add, Int.sub.
      rewrite (wrap_id (src_x - j)) by (revert Hj Hsr; int_unfold; lia).
      apply wrap_id. revert Hj Hsr. int_unfold. lia. }
    rewrite Hn. destruct (Z.ltb_spec (src_x - j + (src_x - 1)) 0); lia.
Qed.

Lemma reflect_closed_form_witness :
  reflect (-1) 4 BOUNDARY_WRAP = 3
  /\ reflect (-1) 4 BOUNDARY_CLAMP = 0
  /\ reflect (-1) 4 BOUNDARY_REFLECT = 1.
Proof.
  destruct (reflect_closed_form (-1) 4) as (Hw & Hc & Hr & _);
    try (unfold Int.in_range, Int.min_int, Int.max_int; lia).
  split; [rewrite Hw; reflexivity |].
  split; [rewrite Hc; reflexivity |].
  rewrite Hr by lia. reflexivity.
Defined.

Section Filter_table.

Context {R : Type} `{Real_Ops R} `{Libm R}.

(** X4: the enumeration of the filters and the lookup of the constructor
    agree.  For every filter_num in [0, get_filter_num()), get_filter_name
    returns the name of entry filter_num of g_filters, and the lookup of
    that name finds this very entry (the 16 names are distinct); for any
    other filter_num, get_filter_name returns NULL. *)
Theorem filter_name_round_trip (filter_num : Z) :
  (0 <= filter_num < get_filter_num ->
   exists f : Filter_Entry R,
     g_filters !! Z.to_nat filter_num = Some f
     /\ get_filter_name (R := R) filter_num = Some (name f)
     /\ find_filter (name f) = Some f)
  /\ (filter_num < 0 \/ get_filter_num <= filter_num ->
      get_filter_name (R := R) filter_num = None).
Proof.
  assert (HN : @NUM_FILTERS R _ _ = 16) by reflexivity.
  unfold get_filter_num, get_filter_name. rewrite HN. split.
  - intros Hn.
    assert (Hcases : In (Z.to_nat filter_num) (seq 0 16))
      by (apply in_seq; lia).
    destruct (Z.ltb_spec filter_num 0); [lia |].
    destruct (Z.geb_spec filter_num 16); [lia |]. cbn [orb].
    cbn [seq In] in Hcases.
    repeat (destruct Hcases as [<- | Hcases];
            [eexists; split; [reflexivity |]; split; reflexivity |]).
    contradiction.
  - intros [Hlo | Hhi].
    + destruct (Z.ltb_spec filter_num 0); [reflexivity | lia].
    + destruct (Z.geb_spec filter_num 16); [| lia].
      rewrite orb_true_r. reflexivity.
Qed.

End Filter_table.

Lemma filter_name_round_trip_witness :
  exists f : Filter_Entry spec_float,
    @get_filter_name _ IEEE.binary32 (IEEE.libm 24 128) 7 = Some (name f)
    /\ name f = "lanczos4"%string
    /\ @find_filter _ IEEE.binary32 (IEEE.libm 24 128) (name f) = Some f.
Proof.
  destruct (@filter_name_round_trip _ IEEE.binary32 (IEEE.libm 24 128) 7)
    as [Hin _].
  assert (Hr : 0 <= 7 < @get_filter_num _ IEEE.binary32 (IEEE.libm 24 128))
    by (unfold get_filter_num, NUM_FILTERS; cbn; lia).
  destruct (Hin Hr) as (f & Hf & Hname & Hfind).
  exists f. split; [exact Hname |]. split; [| exact Hfind].
  cbn in Hf. injection Hf as <-. reflexivity.
Defined.

Section Make_clist_shape.

Context {R : Type} `{Real_Ops R}.

Variables (src_x dst_x : Z) (boundary_op : Boundary_Op).
Variables (Pfilter : R -> R) (filter_support filter_scale src_ofs : R).

Lemma fill_step_length (center norm : R) (st : Fill) (j : Z) :
  (length (entries (fill_step src_x dst_x boundary_op Pfilter filter_scale
                      center norm st j))
   <= S (length (entries st)))%nat.
Proof.
  destruct (fill_step_cases src_x dst_x boundary_op Pfilter filter_scale
              center norm st j) as [-> | (w & k' & mw & -> & _)].
  - lia.
  - cbn [entries]. rewrite length_app. cbn [length]. lia.
Qed.

Lemma fill_loop_length (center norm : R) (js : list Z) :
  forall st,
    (length (entries (fold_left (fill_step src_x dst_x boundary_op Pfilter
                                   filter_scale center norm) js st))
     <= length (entries st) + length js)%nat.
Proof.
  induction js as [| j js IH]; intros st; cbn [fold_left length]; [lia |].
  specialize (IH (fill_step src_x dst_x boundary_op Pfilter filter_scale
                    center norm st j)).
  pose proof (fill_step_length center norm st j). lia.
Qed.

Lemma make_contrib_length (b : Contrib_Bounds R) (l : Contrib_List R) :
  make_contrib src_x dst_x boundary_op Pfilter filter_scale b = Some l ->
  (1 <= length l)%nat /\ Z.of_nat (length l) <= right b - left b + 1.
Proof.
  intros Hm.
  assert (Hne : l <> []).
  { eapply (make_contrib_ok src_x dst_x boundary_op Pfilter filter_scale
              (fun _ => True)); eauto. }
  split; [destruct l; [congruence | cbn; lia] |].
  revert Hm. unfold make_contrib.
  set (js := seqZ (left b) (right b - left b + 1)).
  set (norm := r_div _ _).
  pose proof (fill_loop_length (center b) norm js
                (mkFill [] (of_int 0) (RR (-100000000000000000000)) (-1)))
    as Hlen.
  set (st := fold_left _ js _) in *. cbn [entries length] in Hlen.
  assert (Hjs : Z.of_nat (length js) = Z.max 0 (right b - left b + 1))
    by (subst js; rewrite length_seqZ; lia).
  destruct (_ || _)%bool eqn:Hnone; [discriminate |].
  apply orb_false_iff in Hnone as [_ Hn]. apply Z.eqb_neq in Hn.
  assert (Hl : Z.of_nat (length (entries st)) <= right b - left b + 1) by lia.
  destruct (r_neb _ _); intros [= <-]; [rewrite length_alter |]; exact Hl.
Qed.

(** X5: the shape of a contributor list table that make_clist returns:
    there is one list for each of the dst_x destination samples, and the
    list of destination sample i has at least one entry and at most
    right - left + 1 entries, the size of its footprint, which is the room
    that the pool of contributors reserves for it. *)
Theorem make_clist_shape (heap_ok : bool) (lists : list (Contrib_List R)) :
  0 <= dst_x ->
  make_clist src_x dst_x boundary_op Pfilter filter_support filter_scale
    src_ofs heap_ok = Some lists ->
  Z.of_nat (length lists) = dst_x
  /\ forall i, 0 <= i < dst_x ->
       exists l,
         lists !! Z.to_nat i = Some l
         /\ (1 <= length l)%nat
         /\ Z.of_nat (length l)
            <= right (contrib_bounds src_x dst_x filter_support filter_scale
                        src_ofs i)
               - left (contrib_bounds src_x dst_x filter_support filter_scale
                         src_ofs i) + 1.
Proof.
  intros Hdst Hm. split.
  - assert (Hlen : Z.of_nat (length lists) = Z.max 0 dst_x).
    { eapply (make_clist_ok src_x dst_x boundary_op Pfilter filter_support
                filter_scale src_ofs (fun _ => True) heap_ok lists);
        [auto | intros; exact I | exact Hm]. }
    lia.
  - intros i Hi.
    destruct (make_clist_lookup src_x dst_x boundary_op Pfilter filter_support
                filter_scale src_ofs heap_ok lists i Hm Hi) as (l & Hl & Hc).
    exists l. split; [exact Hl |]. apply make_contrib_length, Hc.
Qed.

End Make_clist_shape.

Lemma make_clist_shape_witness :
  exists lists,
    make_clist 7 3 BOUNDARY_CLAMP (@tent_filter Qc _) TENT_FILTER_SUPPORT
      (RR 1.0) (RR 0.0) true = Some lists
    /\ Z.of_nat (length lists) = 3.
Proof.
  pose (lists := default [] (make_clist 7 3 BOUNDARY_CLAMP (@tent_filter Qc _)
                               TENT_FILTER_SUPPORT (RR 1.0) (RR 0.0) true)).
  assert (Hm : make_clist 7 3 BOUNDARY_CLAMP (@tent_filter Qc _)
                 TENT_FILTER_SUPPORT (RR 1.0) (RR 0.0) true = Some lists)
    by (vm_compute; reflexivity).
  exists lists. split; [exact Hm |].
  exact (proj1 (make_clist_shape 7 3 BOUNDARY_CLAMP tent_filter
                  TENT_FILTER_SUPPORT (RR 1.0) (RR 0.0) true lists
                  ltac:(lia) Hm)).
Defined.

Section Constructor_outcomes.

Context {R : Type} `{Real_Ops R} `{Libm R}.

Variable MAX_SCAN_BUF_SIZE : Z.
Variable RESAMPLER_DEFAULT_FILTER : string.

Variables (src_x src_y dst_x dst_y : Z) (op : Boundary_Op) (lo hi : R).
Variables (Pfilter_name : option string).
Variables (Pclist_x Pclist_y : option (list (Contrib_List R))).
Variables (fxs fys ofx ofy : R) (heap : Heap).

Variable e : Resampler R.
Hypothesis Hnew :
  Resampler_new MAX_SCAN_BUF_SIZE RESAMPLER_DEFAULT_FILTER src_x src_y dst_x
    dst_y op lo hi Pfilter_name Pclist_x Pclist_y fxs fys ofx ofy heap
  = Some e.

(* What the constructor leaves behind, by the place where it returns. *)
Lemma Resampler_new_outcome :
  (0 < src_x /\ 0 < src_y /\ 0 < dst_x /\ 0 < dst_y)
  /\ m_resample_src_y e = src_y /\ m_resample_dst_y e = dst_y
  /\ ((alloc_dst_buf heap = false /\ m_status e = STATUS_OUT_OF_MEMORY)
      \/ (alloc_dst_buf heap = true
          /\ find_filter (default RESAMPLER_DEFAULT_FILTER Pfilter_name) = None
          /\ m_status e = STATUS_BAD_FILTER_NAME
          /\ m_Pclist_x e = None /\ m_Pclist_y e = None
          /\ m_Psrc_y_count e = None /\ m_Psrc_y_flag e = None
          /\ m_Pscan_buf e = None
          /\ m_cur_src_y e = mem_cur_src_y heap
          /\ m_cur_dst_y e = mem_cur_dst_y heap)
      \/ exists filter,
           alloc_dst_buf heap = true
           /\ find_filter (default RESAMPLER_DEFAULT_FILTER Pfilter_name)
              = Some filter
           /\ let make_x :=
                match Pclist_x with
                | Some l => Some l
                | None => make_clist src_x dst_x op (func filter)
                            (support filter) fxs ofx (alloc_clist_x heap)
                end in
              let make_y :=
                match Pclist_y with
                | Some l => Some l
                | None => make_clist src_y dst_y op (func filter)
                            (support filter) fys ofy (alloc_clist_y heap)
                end in
              (make_x = None /\ m_status e = STATUS_OUT_OF_MEMORY
               /\ m_Pclist_x e = None)
              \/ (make_x <> None /\ make_y = None
                  /\ m_status e = STATUS_OUT_OF_MEMORY
                  /\ m_Pclist_x e = make_x /\ m_Pclist_y e = None)
              \/ (make_x <> None /\ make_y <> None
                  /\ m_Pclist_x e = make_x /\ m_Pclist_y e = make_y
                  /\ m_clist_x_forced e = (if Pclist_x is Some _ then true
                                           else false)
                  /\ m_clist_y_forced e = (if Pclist_y is Some _ then true
                                           else false)
                  /\ (m_status e = STATUS_OKAY
                      \/ (m_status e = STATUS_OUT_OF_MEMORY
                          /\ (alloc_src_y_count heap = false
                              \/ alloc_src_y_flag heap = false
                              \/ alloc_scan_buf heap = false
                              \/ alloc_tmp_buf heap = false))))).
Proof.
  pose proof Hnew as Hn. unfold Resampler_new in Hn.
  destruct (0 <? src_x)%Z eqn:Hsx; [| discriminate].
  destruct (0 <? src_y)%Z eqn:Hsy; [| discriminate].
  destruct (0 <? dst_x)%Z eqn:Hdx; [| discriminate].
  destruct (0 <? dst_y)%Z eqn:Hdy; [| discriminate].
  apply Z.ltb_lt in Hsx, Hsy, Hdx, Hdy. cbn [andb negb] in Hn.
  split; [auto |].
  remember (alloc_dst_buf heap) as a0 eqn:E0 in Hn.
  remember (alloc_src_y_count heap) as a1 eqn:E1 in Hn.
  remember (alloc_src_y_flag heap) as a2 eqn:E2 in Hn.
  remember (alloc_scan_buf heap) as a3 eqn:E3 in Hn.
  remember (alloc_tmp_buf heap) as a4 eqn:E4 in Hn.
  symmetry in E0, E1, E2, E3, E4.
  destruct a0; cbn [negb] in Hn; [| injection Hn as <-; members; auto 10].
  destruct (find_filter _) as [filter |] eqn:Hfilter;
    [| injection Hn as <-; members; do 2 (split; [reflexivity |]);
       right; left; auto 12].
  assert (Hthird : forall P Q S : Prop, S -> P \/ Q \/ S) by tauto.
  set (cx := match Pclist_x with Some l => _ | None => _ end) in Hn.
  set (cy := match Pclist_y with Some l => _ | None => _ end) in Hn.
  split; [| split].
  3: { apply Hthird. exists filter. split; [exact E0 |].
       split; [reflexivity |]. cbv zeta.
       set (make_x := match Pclist_x with Some l => _ | None => _ end).
       set (make_y := match Pclist_y with Some l => _ | None => _ end).
       assert (Hcx : cx = (make_x, if Pclist_x is Some _ then true else false))
         by (subst cx make_x; destruct Pclist_x; reflexivity).
       assert (Hcy : cy = (make_y, if Pclist_y is Some _ then true else false))
         by (subst cy make_y; destruct Pclist_y; reflexivity).
       rewrite Hcx in Hn. rewrite Hcy in Hn. clear Hcx Hcy.
       cbn [fst snd] in Hn. clearbody make_x make_y. clear cx cy.
       destruct make_x as [lists_x |];
         [| injection Hn as <-; members; left; auto].
       destruct make_y as [lists_y |];
         [| injection Hn as <-; members; right; left;
            split; [discriminate | auto 10]].
       right. right. split; [discriminate |]. split; [discriminate |].
       destruct a1; cbn [negb] in Hn;
         [| injection Hn as <-; members; auto 10].
       destruct a2; cbn [negb] in Hn;
         [| injection Hn as <-; members; auto 10].
       destruct (count_contribs src_y dst_y lists_y _) as [count |];
         cbn [mbind option_bind] in Hn; [| discriminate].
       destruct a3; cbn [negb] in Hn;
         [| injection Hn as <-; members; auto 10].
       destruct (count_ops lists_x dst_x) as [x_ops |];
         cbn [mbind option_bind] in Hn; [| discriminate].
       destruct (count_ops lists_y dst_y) as [y_ops |];
         cbn [mbind option_bind] in Hn; [| discriminate].
       unfold choose_order in Hn. members.
       destruct (delay_x x_ops y_ops src_x src_y dst_x dst_y); members.
       - destruct a4; cbn [negb] in Hn; injection Hn as <-; members; auto 10.
       - injection Hn as <-. members. auto 10. }
  all: clear Hthird.
  all: destruct cx as [[lists_x |] fx]; cbn [fst snd] in Hn;
    [| injection Hn as <-; reflexivity].
  all: destruct cy as [[lists_y |] fy]; cbn [fst snd] in Hn;
    [| injection Hn as <-; reflexivity].
  all: destruct a1; cbn [negb] in Hn; [| injection Hn as <-; reflexivity].
  all: destruct a2; cbn [negb] in Hn; [| injection Hn as <-; reflexivity].
  all: destruct (count_contribs src_y dst_y lists_y _) as [count |];
    cbn [mbind option_bind] in Hn; [| discriminate].
  all: destruct a3; cbn [negb] in Hn; [| injection Hn as <-; reflexivity].
  all: destruct (count_ops lists_x dst_x) as [x_ops |];
    cbn [mbind option_bind] in Hn; [| discriminate].
  all: destruct (count_ops lists_y dst_y) as [y_ops |];
    cbn [mbind option_bind] in Hn; [| discriminate].
  all: unfold choose_order in Hn; members.
  all: destruct (delay_x x_ops y_ops src_x src_y dst_x dst_y); members.
  all: try (destruct a4; cbn [negb] in Hn).
  all: injection Hn as <-; reflexivity.
Qed.

(** X6: an unknown filter name.  The constructor ends with
    STATUS_BAD_FILTER_NAME exactly when the destination buffer was allocated
    and the name (the default name for a null pointer) is not in g_filters.
    It has then built no contributor list and no reference counts, and it
    has not assigned m_cur_src_y and m_cur_dst_y, which hold what the memory
    of the object held.  On such an engine put_line returns false and
    changes nothing if that m_cur_src_y is at least src_y, and reads
    through the null m_Psrc_y_count otherwise; get_line returns NULL and
    changes nothing if that m_cur_dst_y equals dst_y, and reads through the
    null m_Pclist_y otherwise; restart returns at once. *)
Theorem constructor_bad_filter_name :
  (m_status e = STATUS_BAD_FILTER_NAME
   <-> alloc_dst_buf heap = true
       /\ find_filter (default RESAMPLER_DEFAULT_FILTER Pfilter_name) = None)
  /\ (m_status e = STATUS_BAD_FILTER_NAME ->
      m_Pclist_x e = None /\ m_Pclist_y e = None /\ m_Psrc_y_count e = None
      /\ m_cur_src_y e = mem_cur_src_y heap
      /\ m_cur_dst_y e = mem_cur_dst_y heap
      /\ (forall Psrc malloc_ok,
            put_line Psrc malloc_ok e
            = if mem_cur_src_y heap >=? src_y then Some (false, e) else None)
      /\ get_line e
         = (if mem_cur_dst_y heap =? dst_y then Some (None, e) else None)
      /\ restart e = Some e).
Proof.
  destruct Resampler_new_outcome
    as (Hdims & Hsy & Hdy
        & [[Ha Hst] | [(Ha & Hf & Hst & Hx & Hy & Hc & _ & _ & Hcs & Hcd)
                       | (filter & Ha & Hf & Hrest)]]).
  - split; [split; [congruence | intros [? _]; congruence] | congruence].
  - split; [tauto |]. intros _.
    split; [exact Hx |]. split; [exact Hy |]. split; [exact Hc |].
    split; [exact Hcs |]. split; [exact Hcd |].
    split; [| split].
    + intros Psrc malloc_ok. unfold put_line. rewrite Hcs, Hsy.
      destruct (mem_cur_src_y heap >=? src_y); [reflexivity |].
      rewrite Hc. reflexivity.
    + unfold get_line. rewrite Hcd, Hdy.
      destruct (mem_cur_dst_y heap =? dst_y); [reflexivity |].
      rewrite Hy. reflexivity.
    + unfold restart. rewrite Hst. reflexivity.
  - assert (Hne : m_status e <> STATUS_BAD_FILTER_NAME).
    { cbv zeta in Hrest.
      destruct Hrest as [(_ & Hst & _) | [(_ & _ & Hst & _)
                         | (_ & _ & _ & _ & _ & _ & [Hst | [Hst _]])]];
        congruence. }
    split; [split; [contradiction | intros [_ ?]; congruence] | contradiction].
Qed.

(** X7: the contributor lists of a constructed engine (status
    STATUS_OKAY).  A list that the caller supplied is the list that
    get_clists hands back, and it is marked as forced; for an axis without
    a supplied list, get_clists hands back the result of make_clist for the
    filter that was looked up, not marked as forced. *)
Theorem constructor_lists :
  m_status e = STATUS_OKAY ->
  exists filter,
    find_filter (default RESAMPLER_DEFAULT_FILTER Pfilter_name) = Some filter
    /\ (get_clists e).1
       = match Pclist_x with
         | Some l => Some l
         | None => make_clist src_x dst_x op (func filter) (support filter)
                     fxs ofx (alloc_clist_x heap)
         end
    /\ (get_clists e).2
       = match Pclist_y with
         | Some l => Some l
         | None => make_clist src_y dst_y op (func filter) (support filter)
                     fys ofy (alloc_clist_y heap)
         end
    /\ (get_clists e).1 <> None /\ (get_clists e).2 <> None
    /\ m_clist_x_forced e = (if Pclist_x is Some _ then true else false)
    /\ m_clist_y_forced e = (if Pclist_y is Some _ then true else false).
Proof.
  intros Hok.
  destruct Resampler_new_outcome
    as (_ & _ & _
        & [[_ Hst] | [(_ & _ & Hst & _) | (filter & _ & Hf & Hrest)]]);
    try congruence.
  exists filter. split; [exact Hf |]. cbv zeta in Hrest.
  destruct Hrest as [(_ & Hst & _) | [(_ & _ & Hst & _)
                     | (Hnx & Hny & Hx & Hy & Hfx & Hfy & _)]];
    try congruence.
  unfold get_clists. cbn [fst snd]. rewrite Hx, Hy. auto 10.
Qed.

(** X8: the statuses of the constructor.  It never ends with
    STATUS_SCAN_BUFFER_FULL.  When the destination buffer, the reference
    counts, the flags, the scan buffer and the temporary buffer can all be
    allocated, it ends with STATUS_OUT_OF_MEMORY exactly when the filter is
    found and make_clist returns NULL for an axis without a supplied list:
    that is also the status when make_clist gives up because a destination
    sample has no contributor, with no allocation failing. *)
Theorem constructor_statuses :
  m_status e <> STATUS_SCAN_BUFFER_FULL
  /\ (alloc_dst_buf heap = true -> alloc_src_y_count heap = true ->
      alloc_src_y_flag heap = true -> alloc_scan_buf heap = true ->
      alloc_tmp_buf heap = true ->
      (m_status e = STATUS_OUT_OF_MEMORY
       <-> exists filter,
             find_filter (default RESAMPLER_DEFAULT_FILTER Pfilter_name)
             = Some filter
             /\ ((Pclist_x = None
                  /\ make_clist src_x dst_x op (func filter) (support filter)
                       fxs ofx (alloc_clist_x heap) = None)
                 \/ (Pclist_y = None
                     /\ make_clist src_y dst_y op (func filter)
                          (support filter) fys ofy (alloc_clist_y heap)
                        = None)))).
Proof.
  destruct Resampler_new_outcome
    as (_ & _ & _
        & [[Ha Hst] | [(Ha & Hf & Hst & _) | (filter & Ha & Hf & Hrest)]]).
  - split; [congruence |]. intros Ha'. congruence.
  - split; [congruence |]. intros _ _ _ _ _. split; [congruence |].
    intros (filter & Hf' & _). congruence.
  - cbv zeta in Hrest.
    destruct Hrest as [(Hmx & Hst & _) | [(Hnx & Hmy & Hst & _)
                       | (Hnx & Hny & _ & _ & _ & _ & Hst)]].
    + split; [congruence |]. intros _ _ _ _ _. split; [| intros _; exact Hst].
      intros _. exists filter. split; [exact Hf |]. left.
      destruct Pclist_x; [discriminate | auto].
    + split; [congruence |]. intros _ _ _ _ _. split; [| intros _; exact Hst].
      intros _. exists filter. split; [exact Hf |]. right.
      destruct Pclist_y; [discriminate | auto].
    + split; [destruct Hst as [Hst | [Hst _]]; congruence |].
      intros _ H1 H2 H3 H4. split.
      * intros Hoom. destruct Hst as [Hst | [_ Hfail]]; [congruence |].
        destruct Hfail as [? | [? | [? | ?]]]; congruence.
      * intros (filter' & Hf' & Hnull). rewrite Hf in Hf'.
        injection Hf' as <-.
        destruct Hnull as [[Hp Hm] | [Hp Hm]]; rewrite Hp in *; contradiction.
Qed.

(** X9: the order of the two passes where the counts fit in an int.  For a
    constructed engine (status STATUS_OKAY) whose operation counts x_ops
    and y_ops, products 4 * y_ops * dst_x and 4 * y_ops * src_x and sums
    xy_ops and yx_ops are all at most INT_MAX, X resampling is delayed
    exactly when xy_ops > yx_ops, or xy_ops = yx_ops and src_x < dst_x, and
    intermediate_x is src_x when it is delayed and dst_x otherwise. *)
Theorem axis_order_in_range :
  m_status e = STATUS_OKAY ->
  exists lists_x lists_y,
    m_Pclist_x e = Some lists_x /\ m_Pclist_y e = Some lists_y
    /\ let x_ops := total_entries lists_x dst_x in
       let y_ops := total_entries lists_y dst_y in
       (x_ops <= Int.max_int -> y_ops <= Int.max_int ->
        4 * y_ops * dst_x <= Int.max_int ->
        4 * y_ops * src_x <= Int.max_int ->
        xy_ops_spec x_ops y_ops src_y dst_x <= Int.max_int ->
        yx_ops_spec x_ops y_ops src_x dst_y <= Int.max_int ->
        (m_delay_x_resample e = true
         <-> delay_x_spec x_ops y_ops src_x src_y dst_x dst_y)
        /\ m_intermediate_x e
           = if m_delay_x_resample e then src_x else dst_x).
Proof.
  intros Hok.
  exact (axis_order_without_overflow _ _ _ _ _ _ _ _ _ _ _ _ _ _ _ _ _ _
           Hnew Hok).
Qed.

End Constructor_outcomes.

(* X6 at a concrete input: the name "nosuch", in memory that held 7 at
   m_cur_src_y and 0 at m_cur_dst_y. *)
Lemma constructor_bad_filter_name_witness :
  let heap := mkHeap true true true true true true true 7 0 in
  exists e,
    Examples.new32 2 2 2 2 BOUNDARY_CLAMP (Examples.lit 0) (Examples.lit 0)
      (Some "nosuch"%string) None None (Examples.lit 1) (Examples.lit 1)
      (Examples.lit 0) (Examples.lit 0) heap = Some e
    /\ m_status e = STATUS_BAD_FILTER_NAME
    /\ Examples.put_line32 [Examples.lit 1; Examples.lit 2] true e
       = Some (false, e)
    /\ Examples.get_line32 e = None.
Proof.
  intros heap.
  match eval vm_compute in
    (Examples.new32 2 2 2 2 BOUNDARY_CLAMP (Examples.lit 0) (Examples.lit 0)
       (Some "nosuch"%string) None None (Examples.lit 1) (Examples.lit 1)
       (Examples.lit 0) (Examples.lit 0) heap) with
  | Some ?v => pose (e := v)
  end.
  assert (Hnew : @Resampler_new _ IEEE.binary32 (IEEE.libm 24 128) 1024
                   "lanczos4" 2 2 2 2 BOUNDARY_CLAMP (Examples.lit 0)
                   (Examples.lit 0) (Some "nosuch"%string) None None
                   (Examples.lit 1) (Examples.lit 1) (Examples.lit 0)
                   (Examples.lit 0) heap = Some e)
    by (vm_compute; reflexivity).
  pose proof (constructor_bad_filter_name _ _ _ _ _ _ _ _ _ _ _ _ _ _ _ _ _ _
                Hnew) as [Hiff Huse].
  assert (Hst : m_status e = STATUS_BAD_FILTER_NAME).
  { apply Hiff. split; [reflexivity | vm_compute; reflexivity]. }
  destruct (Huse Hst) as (_ & _ & _ & _ & _ & Hput & Hget & _).
  exists e. split; [exact Hnew |]. split; [exact Hst |].
  split; [apply Hput | exact Hget].
Defined.

(* X7 at a concrete input: the lists of [second_line_only]. *)
Lemma constructor_lists_witness :
  exists e,
    Examples.second_line_only = Some e
    /\ get_clists e = (Some [[mkContrib (Examples.lit 1) 0]],
                       Some [[mkContrib (Examples.lit 1) 1]])
    /\ m_clist_x_forced e = true /\ m_clist_y_forced e = true.
Proof.
  match eval vm_compute in Examples.second_line_only with
  | Some ?v => pose (e := v)
  end.
  assert (He : Examples.second_line_only = Some e) by (vm_compute; reflexivity).
  assert (Hnew : @Resampler_new _ IEEE.binary32 (IEEE.libm 24 128) 1024
                   "lanczos4" 1 2 1 1 BOUNDARY_CLAMP (Examples.lit 0)
                   (Examples.lit 0) None
                   (Some [[mkContrib (Examples.lit 1) 0]])
                   (Some [[mkContrib (Examples.lit 1) 1]])
                   (Examples.lit 1) (Examples.lit 1) (Examples.lit 0)
                   (Examples.lit 0) Examples.heap_ok = Some e)
    by (vm_compute; reflexivity).
  pose proof (constructor_lists _ _ _ _ _ _ _ _ _ _ _ _ _ _ _ _ _ _ Hnew
                eq_refl) as (filter & _ & Hx & Hy & _ & _ & Hfx & Hfy).
  exists e. split; [exact He |].
  split; [rewrite (surjective_pairing (get_clists e)), Hx, Hy; reflexivity |].
  split; [exact Hfx | exact Hfy].
Defined.

(* X8 at a concrete input: 2 x 2 to 4 x 4 with the tent kernel and filter
   scale 0.25.  Every allocation succeeds, no source sample is within
   reach of destination sample 0, and the status is
   STATUS_OUT_OF_MEMORY. *)
Lemma constructor_statuses_witness :
  exists e,
    Examples.new32 2 2 4 4 BOUNDARY_CLAMP (Examples.lit 0) (Examples.lit 0)
      (Some "tent"%string) None None (Examples.lit 0.25) (Examples.lit 0.25)
      (Examples.lit 0) (Examples.lit 0) Examples.heap_ok = Some e
    /\ m_status e = STATUS_OUT_OF_MEMORY.
Proof.
  match eval vm_compute in
    (Examples.new32 2 2 4 4 BOUNDARY_CLAMP (Examples.lit 0) (Examples.lit 0)
       (Some "tent"%string) None None (Examples.lit 0.25) (Examples.lit 0.25)
       (Examples.lit 0) (Examples.lit 0) Examples.heap_ok) with
  | Some ?v => pose (e := v)
  end.
  assert (Hnew : @Resampler_new _ IEEE.binary32 (IEEE.libm 24 128) 1024
                   "lanczos4" 2 2 4 4 BOUNDARY_CLAMP (Examples.lit 0)
                   (Examples.lit 0) (Some "tent"%string) None None
                   (Examples.lit 0.25) (Examples.lit 0.25) (Examples.lit 0)
                   (Examples.lit 0) Examples.heap_ok = Some e)
    by (vm_compute; reflexivity).
  pose proof (constructor_statuses _ _ _ _ _ _ _ _ _ _ _ _ _ _ _ _ _ _ Hnew)
    as [_ Hiff].
  exists e. split; [exact Hnew |].
  apply (Hiff eq_refl eq_refl eq_refl eq_refl eq_refl).
  exists (mkFilter "tent" (@tent_filter _ IEEE.binary32)
            (@TENT_FILTER_SUPPORT _ IEEE.binary32)).
  split; [reflexivity |].
  left. split; [reflexivity | vm_compute; reflexivity].
Defined.

(* X9 at a concrete input: [fresh_2x2], where xy_ops = yx_ops = 9 and
   src_x = dst_x, so X resampling is not delayed. *)
Lemma axis_order_in_range_witness :
  exists e,
    Examples.fresh_2x2 = Some e
    /\ m_delay_x_resample e = false
    /\ ~ delay_x_spec 2 2 2 2 2 2
    /\ m_intermediate_x e = 2.
Proof.
  match eval vm_compute in Examples.fresh_2x2 with
  | Some ?v => pose (e := v)
  end.
  assert (He : Examples.fresh_2x2 = Some e) by (vm_compute; reflexivity).
  assert (Hnew : @Resampler_new _ IEEE.binary32 (IEEE.libm 24 128) 1024
                   "lanczos4" 2 2 2 2 BOUNDARY_CLAMP (Examples.lit 0)
                   (Examples.lit 0) (Some "box"%string) None None
                   (Examples.lit 1) (Examples.lit 1) (Examples.lit 0)
                   (Examples.lit 0) Examples.heap_ok = Some e)
    by (vm_compute; reflexivity).
  pose proof (axis_order_in_range _ _ _ _ _ _ _ _ _ _ _ _ _ _ _ _ _ _ Hnew
                eq_refl) as (lx & ly & Hx & Hy & Horder).
  vm_compute in Hx. injection Hx as <-.
  vm_compute in Hy. injection Hy as <-.
  cbv zeta in Horder.
  assert (Ht : forall A (l : list (list A)),
             length l = 2%nat -> length (concat l) = 2%nat ->
             total_entries l 2 = 2).
  { intros A l Hl Hc. unfold total_entries.
    rewrite take_ge by (rewrite Hl; cbn; lia). rewrite Hc. reflexivity. }
  rewrite !Ht in Horder by reflexivity.
  destruct Horder as [Hiff Hix]; [cbv; discriminate ..|].
  exists e. split; [exact He |]. split; [reflexivity |].
  split; [| exact Hix].
  intros Hspec. apply Hiff in Hspec. discriminate Hspec.
Defined.

Section Slots.

Context {R : Type} `{Real_Ops R}.

Implicit Types (e : Resampler R).

Lemma slots_kept_refl e : slots_kept e e.
Proof. intros scan i b Hs Hb. eauto. Qed.

Lemma slots_kept_trans e1 e2 e3 :
  slots_kept e1 e2 -> slots_kept e2 e3 -> slots_kept e1 e3.
Proof.
  intros H12 H23 scan i b Hs Hb.
  destruct (H12 scan i b Hs Hb) as (scan2 & b2 & Hs2 & Hb2 & Hl2).
  destruct (H23 scan2 i b2 Hs2 Hb2) as (scan3 & b3 & Hs3 & Hb3 & Hl3).
  exists scan3, b3. split; [exact Hs3 |]. split; [exact Hb3 | congruence].
Qed.

(* A step that leaves the scan buffer pointer and its slots as they are. *)
Lemma slots_kept_same e e' :
  scan_buf_l <$> m_Pscan_buf e' = scan_buf_l <$> m_Pscan_buf e ->
  slots_kept e e'.
Proof.
  intros Hsame scan i b Hs Hb. rewrite Hs in Hsame.
  destruct (m_Pscan_buf e') as [scan' |]; [| discriminate].
  injection Hsame as Hsame. exists scan', b. rewrite Hsame. auto.
Qed.

Lemma resample_y_step_scan (first : bool) (tmp tmp' : list R) e e'
  (p : Contrib R) :
  resample_y_step first (tmp, e) p = Some (tmp', e') ->
  scan_buf_l <$> m_Pscan_buf e' = scan_buf_l <$> m_Pscan_buf e
  /\ scan_sizes e' = scan_sizes e.
Proof.
  unfold resample_y_step, scan_sizes. intros Hs.
  destruct (m_Pscan_buf e) as [scan |] eqn:Hscan; cbn [mbind option_bind] in Hs;
    [| discriminate].
  bind_inv Hs; injection Hs as <- <-; destruct e; members;
    rewrite ?Hscan; cbn; rewrite ?length_insert; auto.
Qed.

Lemma resample_y_loop_scan (l : Contrib_List R) :
  forall (first : bool) (tmp tmp' : list R) e e',
    resample_y_loop first (tmp, e) l = Some (tmp', e') ->
    scan_buf_l <$> m_Pscan_buf e' = scan_buf_l <$> m_Pscan_buf e
    /\ scan_sizes e' = scan_sizes e.
Proof.
  induction l as [| p l IH]; intros first tmp tmp' e e'; cbn [resample_y_loop].
  - intros [= <- <-]. auto.
  - destruct (resample_y_step first (tmp, e) p) as [[tmp1 e1] |] eqn:Hs;
      cbn [mbind option_bind]; [| discriminate].
    intros Hl. apply resample_y_step_scan in Hs as [Hb Hn].
    apply IH in Hl as [Hb' Hn']. split; congruence.
Qed.

Lemma resample_y_scan e e' :
  resample_y e = Some e' ->
  scan_buf_l <$> m_Pscan_buf e' = scan_buf_l <$> m_Pscan_buf e
  /\ scan_sizes e' = scan_sizes e.
Proof.
  unfold resample_y. intros Hs.
  destruct (m_Pclist_y e) as [lists |]; cbn [mbind option_bind] in Hs;
    [| discriminate].
  destruct (index lists (m_cur_dst_y e)) as [l |];
    cbn [mbind option_bind] in Hs; [| discriminate].
  destruct (m_Pdst_buf e) as [Pdst |]; cbn [mbind option_bind] in Hs;
    [| discriminate].
  match type of Hs with
  | mbind _ ?m = _ => destruct m as [Ptmp |]
  end; cbn [mbind option_bind] in Hs; [| discriminate].
  destruct (resample_y_loop true (Ptmp, e) l) as [[tmp e1] |] eqn:Hloop;
    cbn [mbind option_bind] in Hs; [| discriminate].
  apply resample_y_loop_scan in Hloop as [Hb Hn].
  assert (Hgen : forall d e2,
             generate_line e1 Pdst tmp = Some (d, e2) ->
             m_Pscan_buf e2 = m_Pscan_buf e1).
  { unfold generate_line. intros d e2 Hg.
    destruct (m_delay_x_resample e1).
    - bind_inv Hg. injection Hg as <- <-. destruct e1; reflexivity.
    - injection Hg as <- <-. reflexivity. }
  destruct (generate_line e1 Pdst tmp) as [[d e2] |];
    cbn [mbind option_bind] in Hs; [| discriminate].
  specialize (Hgen d e2 eq_refl). rename Hgen into Hg.
  destruct (clamp_line e2 d) as [d' |]; cbn [mbind option_bind] in Hs;
    [| discriminate].
  injection Hs as <-.
  assert (Hlast : m_Pscan_buf (set_Pdst_buf (Some d') e2) = m_Pscan_buf e1)
    by (rewrite <- Hg; destruct e2; reflexivity).
  unfold scan_sizes in *. rewrite Hlast. auto.
Qed.

Lemma get_line_scan e e' (r : option (list R)) :
  get_line e = Some (r, e') ->
  scan_buf_l <$> m_Pscan_buf e' = scan_buf_l <$> m_Pscan_buf e
  /\ scan_sizes e' = scan_sizes e.
Proof.
  unfold get_line. intros Hs.
  destruct (m_cur_dst_y e =? m_resample_dst_y e).
  { injection Hs as <- <-. auto. }
  bind_inv Hs; injection Hs as <- <-; [| auto].
  match goal with
  | Hy : resample_y e = Some ?e1 |- _ =>
      apply resample_y_scan in Hy as [Hb Hn];
      assert (Hlast : m_Pscan_buf (set_cur_dst_y (m_cur_dst_y e1 + 1) e1)
                      = m_Pscan_buf e1) by (destruct e1; reflexivity)
  end.
  unfold scan_sizes in *. rewrite Hlast. auto.
Qed.

Lemma put_line_scan e e' Psrc (malloc_ok r : bool) :
  put_line Psrc malloc_ok e = Some (r, e') ->
  slots_kept e e' /\ scan_sizes e' = scan_sizes e.
Proof.
  unfold put_line. intros Hs.
  destruct (m_cur_src_y e >=? m_resample_src_y e).
  { injection Hs as <- <-. split; [apply slots_kept_refl | reflexivity]. }
  destruct (m_Psrc_y_count e) as [count |]; cbn [mbind option_bind] in Hs;
    [| discriminate].
  destruct (resampler_range_check _ _) as [v |]; cbn [mbind option_bind] in Hs;
    [| discriminate].
  destruct (index count v) as [n |]; cbn [mbind option_bind] in Hs;
    [| discriminate].
  assert (Hsame : forall e1,
             m_Pscan_buf e1 = m_Pscan_buf e ->
             slots_kept e e1 /\ scan_sizes e1 = scan_sizes e).
  { intros e1 He1. split; [apply slots_kept_same; congruence |].
    unfold scan_sizes. congruence. }
  destruct (n =? 0)%Z.
  { injection Hs as <- <-. apply Hsame. destruct e; reflexivity. }
  destruct (m_Pscan_buf e) as [scan |] eqn:Hscan;
    cbn [mbind option_bind] in Hs; [| discriminate].
  destruct (find_free scan) as [i |] eqn:Hfree.
  2: { injection Hs as <- <-. apply Hsame. destruct e; exact Hscan. }
  destruct (m_Psrc_y_flag e) as [flag |]; cbn [mbind option_bind] in Hs;
    [| discriminate].
  destruct (scan_buf_l scan !! i) as [slot |] eqn:Hslot;
    cbn [mbind option_bind] in Hs; [| discriminate].
  set (e1 := set_Psrc_y_flag _ e) in Hs.
  assert (Hsucc : forall buf,
            (forall b, slot = Some b -> length buf = length b) ->
            (line ← (if m_delay_x_resample e1
                     then prefix (m_intermediate_x e1) Psrc
                     else resample_x e1 Psrc);
             buf ← write_buf buf line;
             Some (true,
                   set_cur_src_y (m_cur_src_y e1 + 1)
                     (set_Pscan_buf
                        (Some (mkScan_Buf
                                 (<[i := m_cur_src_y e]> (scan_buf_y scan))
                                 (<[i := Some buf]> (scan_buf_l scan))))
                        e1)))
            = Some (r, e') ->
            slots_kept e e'
            /\ scan_sizes e' = Some (length (scan_buf_y scan),
                                     length (scan_buf_l scan))).
  { intros buf Hlb Hput.
    match type of Hput with
    | mbind _ ?m = _ => destruct m as [line |]
    end; cbn [mbind option_bind] in Hput; [| discriminate].
    destruct (write_buf buf line) as [buf' |] eqn:Hw;
      cbn [mbind option_bind] in Hput; [| discriminate].
    injection Hput as <- <-. apply write_buf_length in Hw.
    assert (Hnew : m_Pscan_buf
                     (set_cur_src_y (m_cur_src_y e1 + 1)
                        (set_Pscan_buf
                           (Some (mkScan_Buf
                                    (<[i := m_cur_src_y e]> (scan_buf_y scan))
                                    (<[i := Some buf']> (scan_buf_l scan))))
                           e1))
                   = Some (mkScan_Buf
                             (<[i := m_cur_src_y e]> (scan_buf_y scan))
                             (<[i := Some buf']> (scan_buf_l scan))))
      by (subst e1; destruct e; reflexivity).
    split.
    - intros scan0 k b Hs0 Hb. rewrite Hscan in Hs0. injection Hs0 as <-.
      destruct (Nat.eq_dec k i) as [-> | Hki].
      + eexists _, buf'. split; [exact Hnew |]. cbn [scan_buf_l].
        rewrite list_lookup_insert_eq by (eapply lookup_lt_Some, Hslot).
        split; [reflexivity |]. rewrite Hslot in Hb. injection Hb as Hb.
        rewrite Hw. apply Hlb, Hb.
      + eexists _, b. split; [exact Hnew |]. cbn [scan_buf_l].
        rewrite list_lookup_insert_ne by congruence. auto.
    - clear Hnew. unfold scan_sizes. subst e1. destruct e. cbn.
      rewrite !length_insert. reflexivity. }
  assert (Hsz : scan_sizes e = Some (length (scan_buf_y scan),
                                      length (scan_buf_l scan)))
    by (unfold scan_sizes; rewrite Hscan; reflexivity).
  rewrite Hsz.
  destruct slot as [b |].
  - apply (Hsucc b); [intros b' [= <-]; reflexivity | exact Hs].
  - destruct malloc_ok.
    + eapply Hsucc; [discriminate | exact Hs].
    + injection Hs as <- <-. split.
      * intros scan0 k b Hs0 Hb. rewrite Hscan in Hs0. injection Hs0 as <-.
        eexists _, b. split; [subst e1; destruct e; reflexivity |].
        cbn [scan_buf_l]. auto.
      * unfold scan_sizes. subst e1. destruct e. cbn.
        rewrite length_insert. reflexivity.
Qed.

Lemma restart_scan e e' : restart e = Some e' -> scan_sizes e' = scan_sizes e.
Proof.
  unfold restart, scan_sizes. intros Hr.
  destruct (m_status e); try (injection Hr as <-; reflexivity).
  bind_inv Hr. injection Hr as <-. destruct e; members.
  cbn. rewrite !length_replicate. reflexivity.
Qed.

Lemma call_scan (c : Call R) e e' :
  call c e = Some e' -> scan_sizes e' = scan_sizes e.
Proof.
  destruct c as [Psrc malloc_ok | |]; cbn [call]; intros Hc.
  - destruct (put_line Psrc malloc_ok e) as [[r e1] |] eqn:Hp; [| discriminate].
    injection Hc as <-. eapply put_line_scan, Hp.
  - destruct (get_line e) as [[r e1] |] eqn:Hg; [| discriminate].
    injection Hc as <-. eapply get_line_scan, Hg.
  - apply restart_scan, Hc.
Qed.

Lemma run_scan (cs : list (Call R)) :
  forall e e', run cs e = Some e' -> scan_sizes e' = scan_sizes e.
Proof.
  induction cs as [| c cs IH]; intros e e'; cbn [run].
  - intros [= <-]. reflexivity.
  - destruct (call c e) as [e1 |] eqn:Hc; cbn [mbind option_bind];
      [| discriminate].
    intros Hrun. rewrite (IH _ _ Hrun). eapply call_scan, Hc.
Qed.

(** X10: slot buffers are kept.  Along any sequence of put_line and
    get_line calls without a restart, a slot of the scan buffer that has a
    line buffer keeps a line buffer of the same size: get_line frees the
    tag of a slot, not its memory, and put_line allocates only for a slot
    that has none. *)
Theorem slot_buffers_persist (cs : list (Call R)) :
  forall e e',
    no_restart cs = true -> run cs e = Some e' -> slots_kept e e'.
Proof.
  induction cs as [| c cs IH]; intros e e' Hnr; cbn [run].
  - intros [= <-]. apply slots_kept_refl.
  - destruct (call c e) as [e1 |] eqn:Hc; cbn [mbind option_bind];
      [| discriminate].
    cbn [no_restart forallb] in Hnr. apply andb_true_iff in Hnr as [Hc0 Hnr].
    intros Hrun. apply slots_kept_trans with e1; [| apply IH; assumption].
    destruct c as [Psrc malloc_ok | |]; cbn [call] in Hc; [| | discriminate].
    + destruct (put_line Psrc malloc_ok e) as [[r e2] |] eqn:Hp;
        [| discriminate].
      injection Hc as <-. eapply put_line_scan, Hp.
    + destruct (get_line e) as [[r e2] |] eqn:Hg; [| discriminate].
      injection Hc as <-. apply slots_kept_same. eapply get_line_scan, Hg.
Qed.

End Slots.

Section Call_facts.

Context {R : Type} `{Real_Ops R}.

Implicit Types (e : Resampler R).

Lemma call_plan (c : Call R) e e' : call c e = Some e' -> plan e' = plan e.
Proof.
  destruct c as [Psrc malloc_ok | |]; cbn [call]; intros Hc.
  - destruct (put_line Psrc malloc_ok e) as [[r e1] |] eqn:Hp; [| discriminate].
    injection Hc as <-. apply put_line_frame in Hp. tauto.
  - destruct (get_line e) as [[r e1] |] eqn:Hg; [| discriminate].
    injection Hc as <-. apply get_line_frame in Hg. tauto.
  - apply restart_frame in Hc. tauto.
Qed.

Lemma run_plan (cs : list (Call R)) :
  forall e e', run cs e = Some e' -> plan e' = plan e.
Proof.
  induction cs as [| c cs IH]; intros e e'; cbn [run].
  - intros [= <-]. reflexivity.
  - destruct (call c e) as [e1 |] eqn:Hc; cbn [mbind option_bind];
      [| discriminate].
    intros Hrun. rewrite (IH _ _ Hrun). eapply call_plan, Hc.
Qed.

Lemma put_line_dst e e' Psrc (malloc_ok r : bool) :
  put_line Psrc malloc_ok e = Some (r, e') ->
  m_Pdst_buf e' = m_Pdst_buf e /\ m_Ptmp_buf e' = m_Ptmp_buf e.
Proof.
  unfold put_line. intros Hs.
  destruct (m_cur_src_y e >=? m_resample_src_y e).
  { injection Hs as <- <-. auto. }
  bind_inv Hs; injection Hs as <- <-; destruct e; cbn; auto.
Qed.

Lemma restart_dst e e' :
  restart e = Some e' ->
  m_Pdst_buf e' = m_Pdst_buf e /\ m_Ptmp_buf e' = m_Ptmp_buf e.
Proof.
  unfold restart. intros Hr.
  destruct (m_status e); try (injection Hr as <-; auto).
  bind_inv Hr. injection Hr as <-. destruct e; cbn; auto.
Qed.

Lemma get_line_row e e' (row : list R) :
  get_line e = Some (Some row, e') -> m_Pdst_buf e' = Some row.
Proof.
  unfold get_line. intros Hs.
  destruct (m_cur_dst_y e =? m_resample_dst_y e); [discriminate |].
  bind_inv Hs; try discriminate.
  injection Hs as Hrow <-. rewrite <- Hrow.
  match goal with
  | |- m_Pdst_buf (set_cur_dst_y _ ?e1) = _ => destruct e1; reflexivity
  end.
Qed.

(** X11: the line that get_line returns stays as it is until the next
    get_line.  get_line returns the destination buffer of the engine;
    put_line and restart do not write to it, so after any sequence of
    put_line and restart calls the buffer still holds the returned
    line. *)
Theorem returned_line_stable (cs : list (Call R)) e e1 e2 (row : list R) :
  get_line e = Some (Some row, e1) ->
  no_get cs = true -> run cs e1 = Some e2 ->
  m_Pdst_buf e2 = Some row.
Proof.
  intros Hg Hng Hrun. apply get_line_row in Hg. rewrite <- Hg. clear Hg e.
  revert e1 Hrun. induction cs as [| c cs IH]; intros e1; cbn [run].
  - intros [= <-]. reflexivity.
  - destruct (call c e1) as [e |] eqn:Hc; cbn [mbind option_bind];
      [| discriminate].
    cbn [no_get forallb] in Hng. apply andb_true_iff in Hng as [Hc0 Hng].
    intros Hrun. rewrite (IH Hng _ Hrun).
    destruct c as [Psrc malloc_ok | |]; cbn [call] in Hc; [| discriminate |].
    + destruct (put_line Psrc malloc_ok e1) as [[r e3] |] eqn:Hp;
        [| discriminate].
      injection Hc as <-. apply put_line_dst in Hp. tauto.
    + apply restart_dst in Hc. tauto.
Qed.

(** X12: a full scan buffer.  When the current source line is needed
    (its reference count is not 0) and no slot of the scan buffer is free,
    put_line returns false and sets the status to STATUS_SCAN_BUFFER_FULL;
    nothing else changes: the line is not stored, its present flag is not
    set and cur_src_y is not advanced, so the same line can be put again
    once get_line has freed a slot. *)
Theorem put_line_scan_buffer_full e Psrc (malloc_ok : bool)
  (count : list Z) (scan : Scan_Buf R) (c : Z) :
  0 <= m_cur_src_y e < m_resample_src_y e ->
  m_Psrc_y_count e = Some count ->
  index count (m_cur_src_y e) = Some c -> c <> 0 ->
  m_Pscan_buf e = Some scan ->
  Forall (fun t => t <> -1) (scan_buf_y scan) ->
  put_line Psrc malloc_ok e
  = Some (false, set_status STATUS_SCAN_BUFFER_FULL e).
Proof.
  intros Hcur Hcount Hc Hnz Hscan Hfull. unfold put_line.
  destruct (Z.geb_spec (m_cur_src_y e) (m_resample_src_y e)); [lia |].
  rewrite Hcount. cbn [mbind option_bind].
  assert (Hrc : resampler_range_check (m_cur_src_y e) (m_resample_src_y e)
                = Some (m_cur_src_y e)) by (apply range_check_Some; lia).
  rewrite Hrc. cbn [mbind option_bind]. rewrite Hc. cbn [mbind option_bind].
  destruct (Z.eqb_spec c 0); [contradiction |].
  rewrite Hscan. cbn [mbind option_bind].
  destruct (find_free scan) as [i |] eqn:Hfree; [| reflexivity].
  unfold find_free in Hfree.
  destruct (find_index_Some _ _ _ Hfree) as (t & Hi & Ht & _).
  apply Z.eqb_eq in Ht. subst t.
  rewrite Forall_lookup in Hfull. specialize (Hfull i (-1) Hi). contradiction.
Qed.

End Call_facts.

Section Reachable.

Context {R : Type} `{Real_Ops R} `{Libm R}.

Variable MAX_SCAN_BUF_SIZE : Z.
Variable RESAMPLER_DEFAULT_FILTER : string.

Variables (src_x src_y dst_x dst_y : Z) (op : Boundary_Op) (lo hi : R).
Variables (Pfilter_name : option string).
Variables (Pclist_x Pclist_y : option (list (Contrib_List R))).
Variables (fxs fys ofx ofy : R) (heap : Heap).

(* The engine e0 is what the constructor returns, with status
   STATUS_OKAY and well formed contributor lists. *)
Variable e0 : Resampler R.
Hypothesis Hnew :
  Resampler_new MAX_SCAN_BUF_SIZE RESAMPLER_DEFAULT_FILTER src_x src_y dst_x
    dst_y op lo hi Pfilter_name Pclist_x Pclist_y fxs fys ofx ofy heap
  = Some e0.
Hypothesis Hokay : m_status e0 = STATUS_OKAY.
Hypothesis Hlists : lists_ok e0.

Lemma reachable_wf (cs : list (Call R)) (e : Resampler R) :
  run cs e0 = Some e -> allocations_succeed cs = true -> wf e.
Proof.
  intros Hrun Halloc. eapply run_wf_alloc; [| exact Hrun | exact Halloc].
  eapply Resampler_new_wf; eauto.
Qed.

Lemma reachable_plan (cs : list (Call R)) (e : Resampler R) :
  run cs e0 = Some e ->
  m_resample_src_x e = src_x /\ m_resample_src_y e = src_y
  /\ m_resample_dst_x e = dst_x /\ m_resample_dst_y e = dst_y
  /\ m_Pclist_y e = m_Pclist_y e0.
Proof.
  intros Hrun. apply run_plan in Hrun. apply plan_fields in Hrun.
  destruct (Resampler_new_okay _ _ _ _ _ _ _ _ _ _ _ _ _ _ _ _ _ _ Hnew Hokay)
    as (lists_x & lists_y & count & x_ops & y_ops & _ & _ & _ & _ & _ & _
        & He).
  assert (Hd : m_resample_src_x e0 = src_x /\ m_resample_src_y e0 = src_y
               /\ m_resample_dst_x e0 = dst_x /\ m_resample_dst_y e0 = dst_y)
    by (rewrite He; auto).
  intuition congruence.
Qed.

(** X13: what a reference count is.  In every state that a constructed
    engine reaches through put_line, get_line and restart calls whose
    allocations succeed, the reference count of source line s is the
    number of contributor entries that refer to s in the lists of the
    destination lines not yet generated, cur_dst_y to dst_y - 1: the
    constructor and restart count all entries, and get_line takes one off
    for every entry it uses. *)
Theorem refcount_meaning (cs : list (Call R)) (e : Resampler R) :
  run cs e0 = Some e -> allocations_succeed cs = true ->
  exists lists_y count,
    m_Pclist_y e = Some lists_y /\ m_Psrc_y_count e = Some count
    /\ Z.of_nat (length count) = src_y
    /\ forall s, 0 <= s < src_y ->
         index count s
         = Some (occs s (drop (Z.to_nat (m_cur_dst_y e)) lists_y)).
Proof.
  intros Hrun Halloc.
  destruct (reachable_plan cs e Hrun) as (_ & Hsy & _).
  destruct (reachable_wf cs e Hrun Halloc)
    as (_ & _ & _ & _ & _ & _
        & (ly & Hly & (count & flag & scan & Hc & _ & _ & Hpool))).
  exists ly, count. split; [exact Hly |]. split; [exact Hc |].
  rewrite <- Hsy. split; [exact (pool_count_length _ _ _ _ _ _ _ Hpool) |].
  exact (pool_count _ _ _ _ _ _ _ Hpool).
Qed.

(** X14: the discipline of the scan buffer.  In every state that a
    constructed engine reaches through calls whose allocations succeed,
    the cursors are in range, and every slot with a tag t other than -1
    holds a source line that was put (t < cur_src_y), is flagged present
    and is still needed (its reference count is positive), in a line buffer
    of intermediate_x samples; no two slots hold the same line; and every
    line flagged present is in some slot. *)
Theorem scan_buffer_discipline (cs : list (Call R)) (e : Resampler R) :
  run cs e0 = Some e -> allocations_succeed cs = true ->
  (0 <= m_cur_src_y e <= src_y /\ 0 <= m_cur_dst_y e <= dst_y)
  /\ exists count flag scan,
       m_Psrc_y_count e = Some count /\ m_Psrc_y_flag e = Some flag
       /\ m_Pscan_buf e = Some scan
       /\ (forall i t,
             scan_buf_y scan !! i = Some t -> t <> -1 ->
             0 <= t < m_cur_src_y e
             /\ index flag t = Some true
             /\ (exists c, index count t = Some c /\ 0 < c)
             /\ exists b, scan_buf_l scan !! i = Some (Some b)
                          /\ Z.of_nat (length b) = m_intermediate_x e)
       /\ (forall i j t,
             scan_buf_y scan !! i = Some t -> scan_buf_y scan !! j = Some t ->
             t <> -1 -> i = j)
       /\ (forall s, index flag s = Some true ->
             exists i, scan_buf_y scan !! i = Some s).
Proof.
  intros Hrun Halloc.
  destruct (reachable_plan cs e Hrun) as (_ & Hsy & _ & Hdy & _).
  destruct (reachable_wf cs e Hrun Halloc)
    as (_ & _ & _ & _ & _ & Hcur
        & (ly & Hly & (count & flag & scan & Hc & Hf & Hs & Hpool))).
  split; [rewrite <- Hsy, <- Hdy; exact Hcur |].
  exists count, flag, scan. do 3 (split; [assumption |]).
  split; [| split].
  - intros i t Hi Ht.
    destruct (pool_tag _ _ _ _ _ _ _ Hpool i t Hi Ht)
      as (Hr & Hlt & Hfl & Hneed & (b & Hb)).
    split; [exact Hr |]. split; [exact Hfl |]. split.
    + eexists. split; [apply (pool_count _ _ _ _ _ _ _ Hpool); lia |].
      exact Hneed.
    + exists b. split; [exact Hb |].
      exact (pool_buf _ _ _ _ _ _ _ Hpool i b Hb).
  - exact (pool_distinct _ _ _ _ _ _ _ Hpool).
  - exact (pool_present _ _ _ _ _ _ _ Hpool).
Qed.

(** X15: no call sequence makes the engine fault.  On a constructed
    engine, any sequence of put_line, get_line and restart calls in which
    every put line has at least src_x samples and every allocation
    succeeds has a defined result: no assertion fails, no null pointer is
    read and no array is read or written out of range. *)
Theorem engine_never_faults (cs : list (Call R)) :
  rows_fit src_x cs -> allocations_succeed cs = true ->
  exists e, run cs e0 = Some e.
Proof.
  intros Hfit Halloc. apply run_defined; [| | exact Halloc].
  - eapply Resampler_new_wf; eauto.
  - destruct (reachable_plan [] e0 eq_refl) as (Hsx & _). rewrite Hsx.
    exact Hfit.
Qed.

(** X16: restart returns the engine to the state in which the constructor
    left it.  From every state that a constructed engine reaches with
    status STATUS_OKAY, restart gives the constructed engine again: the
    cursors are 0, the reference counts are the counts of all contributor
    entries, no line is present, every slot is free and has no line buffer;
    only the contents of the destination buffer and of the temporary
    buffer are those of the last get_line. *)
Theorem restart_restores (cs : list (Call R)) (e : Resampler R) :
  run cs e0 = Some e -> m_status e = STATUS_OKAY ->
  restart e
  = Some (set_Pdst_buf (m_Pdst_buf e) (set_Ptmp_buf (m_Ptmp_buf e) e0)).
Proof.
  intros Hrun Hst.
  assert (Hwf0 : wf e0) by (eapply Resampler_new_wf; eauto).
  pose proof (run_wf cs e0 e Hwf0 Hrun Hst) as Hwf.
  pose proof (run_plan cs e0 e Hrun) as Hplan.
  pose proof (run_scan cs e0 e Hrun) as Hsizes.
  destruct (Resampler_new_okay _ _ _ _ _ _ _ _ _ _ _ _ _ _ _ _ _ _ Hnew Hokay)
    as (lists_x & lists_y & count0 & x_ops & y_ops & Hpos & _ & _ & Hcount0
        & _ & _ & He0).
  destruct Hwf as (Hl & _ & _ & _ & _ & _
                   & (ly & Hly & (count & flag & scan & Hc & Hf & Hs & Hpool))).
  pose proof (pool_count_length _ _ _ _ _ _ _ Hpool) as Hclen.
  pose proof (pool_flag_length _ _ _ _ _ _ _ Hpool) as Hflen.
  clear Hpool Hl. unfold plan, scan_sizes in *.
  rewrite He0 in Hplan, Hsizes |- *. clear He0.
  unfold restart. destruct e. members.
  injection Hplan as -> -> -> -> -> -> -> -> -> -> -> -> ->. subst.
  cbn [fmap option_fmap option_map scan_buf_y scan_buf_l] in Hsizes.
  rewrite !length_replicate in Hsizes. injection Hsizes as Hny Hnl.
  cbn [mbind option_bind].
  rewrite !prefix_Some by lia. cbn [mbind option_bind].
  rewrite (drop_ge count) by lia. rewrite app_nil_r.
  rewrite (drop_ge flag) by lia. rewrite app_nil_r.
  rewrite Hcount0. cbn [mbind option_bind]. rewrite Hny, Hnl.
  reflexivity.
Qed.

End Reachable.

(* The engine [fresh_2x2], the equation of its construction and the facts
   about it that the theorems on reachable states ask for. *)
Ltac fresh_2x2_engine e0 Hnew Hst Hl :=
  match eval vm_compute in Examples.fresh_2x2 with
  | Some ?v => pose (e0 := v)
  end;
  assert (Hnew : @Resampler_new _ IEEE.binary32 (IEEE.libm 24 128) 1024
                   "lanczos4" 2 2 2 2 BOUNDARY_CLAMP (Examples.lit 0)
                   (Examples.lit 0) (Some "box"%string) None None
                   (Examples.lit 1) (Examples.lit 1) (Examples.lit 0)
                   (Examples.lit 0) Examples.heap_ok = Some e0)
    by (vm_compute; reflexivity);
  assert (Hst : m_status e0 = STATUS_OKAY) by reflexivity;
  assert (Hl : lists_ok e0) by (apply lists_okb_ok; vm_compute; reflexivity).

(* The state after the calls cs. *)
Ltac run_engine cs e0 e Hrun :=
  match eval vm_compute in (@run _ IEEE.binary32 cs e0) with
  | Some ?v => pose (e := v)
  end;
  assert (Hrun : @run _ IEEE.binary32 cs e0 = Some e)
    by (vm_compute; reflexivity).

(* X13 at a concrete engine: after the first line of [fresh_2x2] was put
   and pulled, line 0 is needed no more and line 1 once. *)
Lemma refcount_meaning_witness :
  exists e0 e count,
    Examples.fresh_2x2 = Some e0
    /\ Examples.run32 [Put [Examples.lit 1; Examples.lit 2] true; Get] e0
       = Some e
    /\ m_Psrc_y_count e = Some count
    /\ index count 0 = Some 0 /\ index count 1 = Some 1.
Proof.
  fresh_2x2_engine e0 Hnew Hst Hl.
  pose (cs := [Put [Examples.lit 1; Examples.lit 2] true; @Get spec_float]).
  run_engine cs e0 e Hrun.
  pose proof (refcount_meaning _ _ _ _ _ _ _ _ _ _ _ _ _ _ _ _ _ _ Hnew Hst Hl
                cs e Hrun eq_refl) as (ly & count & Hly & Hc & _ & Hcount).
  vm_compute in Hly. injection Hly as <-.
  exists e0, e, count.
  split; [vm_compute; reflexivity |]. split; [vm_compute; reflexivity |].
  split; [exact Hc |].
  split; [rewrite Hcount by lia | rewrite Hcount by lia]; reflexivity.
Defined.

(* X14 at a concrete engine: between the two lines of [fresh_2x2]. *)
Lemma scan_buffer_discipline_witness :
  exists e0 e,
    Examples.fresh_2x2 = Some e0
    /\ Examples.run32 [Put [Examples.lit 1; Examples.lit 2] true] e0 = Some e
    /\ 0 <= m_cur_src_y e <= 2 /\ 0 <= m_cur_dst_y e <= 2.
Proof.
  fresh_2x2_engine e0 Hnew Hst Hl.
  pose (cs := [Put [Examples.lit 1; Examples.lit 2] true]).
  run_engine cs e0 e Hrun.
  pose proof (scan_buffer_discipline _ _ _ _ _ _ _ _ _ _ _ _ _ _ _ _ _ _ Hnew
                Hst Hl cs e Hrun eq_refl) as [[Hs Hd] _].
  exists e0, e.
  split; [vm_compute; reflexivity |]. split; [vm_compute; reflexivity |].
  split; [exact Hs | exact Hd].
Defined.

(* X15 at a concrete engine: the two lines of [fresh_2x2], put and
   pulled. *)
Lemma engine_never_faults_witness :
  exists e0 e,
    Examples.fresh_2x2 = Some e0
    /\ @run _ IEEE.binary32
         [Put [Examples.lit 1; Examples.lit 2] true; Get;
          Put [Examples.lit 3; Examples.lit 4] true; Get; Restart] e0
       = Some e.
Proof.
  fresh_2x2_engine e0 Hnew Hst Hl.
  destruct (engine_never_faults _ _ _ _ _ _ _ _ _ _ _ _ _ _ _ _ _ _ Hnew Hst Hl
              [Put [Examples.lit 1; Examples.lit 2] true; Get;
               Put [Examples.lit 3; Examples.lit 4] true; Get; Restart])
    as [e He].
  - repeat constructor; cbn; lia.
  - reflexivity.
  - exists e0, e. split; [vm_compute; reflexivity | exact He].
Defined.

(* X16 at a concrete engine: restart after the first line of [fresh_2x2]
   was put and pulled. *)
Lemma restart_restores_witness :
  exists e0 e,
    Examples.fresh_2x2 = Some e0
    /\ Examples.run32 [Put [Examples.lit 1; Examples.lit 2] true; Get] e0
       = Some e
    /\ restart e
       = Some (set_Pdst_buf (m_Pdst_buf e) (set_Ptmp_buf (m_Ptmp_buf e) e0)).
Proof.
  fresh_2x2_engine e0 Hnew Hst Hl.
  pose (cs := [Put [Examples.lit 1; Examples.lit 2] true; @Get spec_float]).
  run_engine cs e0 e Hrun.
  pose proof (restart_restores _ _ _ _ _ _ _ _ _ _ _ _ _ _ _ _ _ _ Hnew Hst Hl
                cs e Hrun eq_refl) as Hr.
  exists e0, e.
  split; [vm_compute; reflexivity |]. split; [vm_compute; reflexivity |].
  exact Hr.
Defined.

(* X10 at a concrete engine: the slot that held line 0 of [fresh_2x2]
   keeps its buffer when get_line frees it. *)
Lemma slot_buffers_persist_witness :
  exists e0 e1 e2 scan b,
    Examples.fresh_2x2 = Some e0
    /\ Examples.run32 [Put [Examples.lit 1; Examples.lit 2] true] e0 = Some e1
    /\ Examples.run32 [Get] e1 = Some e2
    /\ m_Pscan_buf e2 = Some scan
    /\ scan_buf_y scan !! 0%nat = Some (-1)
    /\ scan_buf_l scan !! 0%nat = Some (Some b) /\ length b = 2%nat.
Proof.
  fresh_2x2_engine e0 Hnew Hst Hl.
  run_engine [Put [Examples.lit 1; Examples.lit 2] true] e0 e1 Hrun1.
  run_engine [@Get spec_float] e1 e2 Hrun2.
  pose proof (@slot_buffers_persist _ IEEE.binary32 [Get] e1 e2 eq_refl Hrun2)
    as Hkept.
  match eval vm_compute in (m_Pscan_buf e1) with
  | Some ?v => pose (scan1 := v)
  end.
  destruct (Hkept scan1 0%nat [Examples.lit 1; Examples.lit 2] eq_refl
              ltac:(vm_compute; reflexivity))
    as (scan & b & Hs & Hb & Hlen).
  exists e0, e1, e2, scan, b.
  split; [vm_compute; reflexivity |]. split; [vm_compute; reflexivity |].
  split; [vm_compute; reflexivity |]. split; [exact Hs |].
  split; [| split; [exact Hb | exact Hlen]].
  vm_compute in Hs. injection Hs as <-. reflexivity.
Defined.

(* X11 at a concrete engine: destination line 0 of [fresh_2x2] is still in
   the destination buffer after the second line was put. *)
Lemma returned_line_stable_witness :
  exists e0 e e1 e2 row,
    Examples.fresh_2x2 = Some e0
    /\ Examples.run32 [Put [Examples.lit 1; Examples.lit 2] true] e0 = Some e
    /\ Examples.get_line32 e = Some (Some row, e1)
    /\ Examples.run32 [Put [Examples.lit 3; Examples.lit 4] true] e1 = Some e2
    /\ m_Pdst_buf e2 = Some row.
Proof.
  fresh_2x2_engine e0 Hnew Hst Hl.
  run_engine [Put [Examples.lit 1; Examples.lit 2] true] e0 e Hrun.
  match eval vm_compute in (@get_line _ IEEE.binary32 e) with
  | Some (Some ?r, ?v) => pose (row := r); pose (e1 := v)
  end.
  assert (Hget : @get_line _ IEEE.binary32 e = Some (Some row, e1))
    by (vm_compute; reflexivity).
  run_engine [Put [Examples.lit 3; Examples.lit 4] true] e1 e2 Hrun2.
  pose proof (@returned_line_stable _ IEEE.binary32
                [Put [Examples.lit 3; Examples.lit 4] true] e e1 e2 row Hget
                eq_refl Hrun2) as Hrow.
  exists e0, e, e1, e2, row.
  split; [vm_compute; reflexivity |]. split; [vm_compute; reflexivity |].
  split; [vm_compute; reflexivity |]. split; [vm_compute; reflexivity |].
  exact Hrow.
Defined.

(* X12 at a concrete engine: a scan buffer of one slot, and a destination
   line that needs two source lines. *)
Lemma put_line_scan_buffer_full_witness :
  exists e0 e e',
    @Resampler_new _ IEEE.binary32 (IEEE.libm 24 128) 1 "lanczos4" 1 2 1 1
      BOUNDARY_CLAMP (Examples.lit 0) (Examples.lit 0) None
      (Some [[mkContrib (Examples.lit 1) 0]])
      (Some [[mkContrib (Examples.lit 0.5) 0; mkContrib (Examples.lit 0.5) 1]])
      (Examples.lit 1) (Examples.lit 1) (Examples.lit 0) (Examples.lit 0)
      Examples.heap_ok = Some e0
    /\ Examples.run32 [Put [Examples.lit 1] true] e0 = Some e
    /\ Examples.put_line32 [Examples.lit 2] true e = Some (false, e')
    /\ m_status e' = STATUS_SCAN_BUFFER_FULL
    /\ m_cur_src_y e' = 1.
Proof.
  match eval vm_compute in
    (@Resampler_new _ IEEE.binary32 (IEEE.libm 24 128) 1 "lanczos4" 1 2 1 1
       BOUNDARY_CLAMP (Examples.lit 0) (Examples.lit 0) None
       (Some [[mkContrib (Examples.lit 1) 0]])
       (Some [[mkContrib (Examples.lit 0.5) 0;
               mkContrib (Examples.lit 0.5) 1]])
       (Examples.lit 1) (Examples.lit 1) (Examples.lit 0) (Examples.lit 0)
       Examples.heap_ok) with
  | Some ?v => pose (e0 := v)
  end.
  run_engine [Put [Examples.lit 1] true] e0 e Hrun.
  match eval vm_compute in (m_Psrc_y_count e) with
  | Some ?v => pose (count := v)
  end.
  match eval vm_compute in (m_Pscan_buf e) with
  | Some ?v => pose (scan := v)
  end.
  pose proof (@put_line_scan_buffer_full _ IEEE.binary32 e [Examples.lit 2]
                true count scan 1 ltac:(cbn; lia) eq_refl eq_refl
                ltac:(discriminate) eq_refl
                ltac:(repeat constructor; discriminate)) as Hput.
  exists e0, e, (set_status STATUS_SCAN_BUFFER_FULL e).
  split; [vm_compute; reflexivity |]. split; [vm_compute; reflexivity |].
  split; [exact Hput |]. split; reflexivity.
Defined.

Section Direct.

Context {R : Type} `{Real_Ops R}.

Implicit Types (e : Resampler R) (img : Z -> list R).

Lemma direct_stored_plan e e' (Psrc : list R) :
  plan e' = plan e -> direct_stored e' Psrc = direct_stored e Psrc.
Proof.
  intros Hplan. apply plan_fields in Hplan
    as (_ & _ & _ & _ & _ & _ & Hd & Hix & Hcx & _).
  unfold direct_stored. rewrite Hd, Hix, Hcx. reflexivity.
Qed.

Lemma direct_y_plan e e' img (l : Contrib_List R) :
  plan e' = plan e -> direct_y e' img l = direct_y e img l.
Proof.
  intros Hplan. unfold direct_y. destruct l as [| p l]; [reflexivity |].
  rewrite (direct_stored_plan e e' _ Hplan).
  generalize (map (fun s => r_mul s (weight p))
                (direct_stored e (img (pixel p)))).
  induction l as [| q l IH]; intros acc; cbn [fold_left]; [reflexivity |].
  rewrite (direct_stored_plan e e' _ Hplan). apply IH.
Qed.

Lemma direct_line_plan e e' img (d : Z) :
  plan e' = plan e -> direct_line e' img d = direct_line e img d.
Proof.
  intros Hplan. pose proof (plan_fields _ _ Hplan)
    as (_ & _ & _ & _ & Hlo & Hhi & Hd & Hix & Hcx & Hcy).
  unfold direct_line. cbv zeta.
  rewrite Hlo, Hhi, Hd, Hcx, Hcy, (direct_y_plan e e' img _ Hplan).
  destruct (r_ltb (m_lo e) (m_hi e)); [| reflexivity].
  apply map_ext. intros f. apply clamp_sample_plan, Hplan.
Qed.

Lemma pool_holds_ext img e e' :
  m_Pscan_buf e' = m_Pscan_buf e -> plan e' = plan e ->
  pool_holds img e -> pool_holds img e'.
Proof.
  intros Hs Hplan Hpool scan i t Hscan Hi Ht.
  rewrite (direct_stored_plan e e' _ Hplan). apply (Hpool scan i t); congruence.
Qed.

Lemma bufs_sized_ext e e' :
  scan_buf_l <$> m_Pscan_buf e' = scan_buf_l <$> m_Pscan_buf e ->
  m_intermediate_x e' = m_intermediate_x e ->
  bufs_sized e -> bufs_sized e'.
Proof.
  intros Hs Hix Hb scan' i b Hscan' Hi. rewrite Hix.
  rewrite Hscan' in Hs.
  destruct (m_Pscan_buf e) as [scan |] eqn:Hscan; [| discriminate].
  injection Hs as Hs. apply (Hb scan i b Hscan). congruence.
Qed.

(* One contributor of resample_y, on a pool that holds the image. *)
Lemma resample_y_step_direct (first : bool) (tmp tmp' : list R) e e'
  (p : Contrib R) img :
  pool_holds img e -> bufs_sized e -> 0 <= m_intermediate_x e ->
  length tmp = Z.to_nat (m_intermediate_x e) ->
  resample_y_step first (tmp, e) p = Some (tmp', e') ->
  pool_holds img e'
  /\ length tmp' = Z.to_nat (m_intermediate_x e)
  /\ tmp' = if first
            then map (fun s => r_mul s (weight p))
                   (direct_stored e (img (pixel p)))
            else zip_with (fun t s => r_add t (r_mul s (weight p))) tmp
                   (direct_stored e (img (pixel p))).
Proof.
  intros Hpool Hsized Hix Hlen Hstep.
  pose proof (resample_y_step_frame _ _ _ _ _ _ Hstep) as [[Hplan _] _].
  revert Hstep. unfold resample_y_step.
  destruct (m_Pscan_buf e) as [scan |] eqn:Hscan; cbn [mbind option_bind];
    [| discriminate].
  destruct (find_index _ (scan_buf_y scan)) as [j |] eqn:Hj;
    cbn [mbind option_bind]; [| discriminate].
  destruct (mjoin (scan_buf_l scan !! j)) as [Psrc |] eqn:Hsrc;
    cbn [mbind option_bind]; [| discriminate].
  match goal with
  | |- (mbind _ ?m) = _ -> _ => destruct m as [t |] eqn:Ht
  end; cbn [mbind option_bind]; [| discriminate].
  destruct (m_Psrc_y_count e) as [count |] eqn:Hcount;
    cbn [mbind option_bind]; [| discriminate].
  destruct (resampler_range_check _ _) as [v |] eqn:Hv;
    cbn [mbind option_bind]; [| discriminate].
  apply range_check_Some in Hv as [-> Hv].
  destruct (index count (pixel p)) as [n |] eqn:Hn;
    cbn [mbind option_bind]; [| discriminate].
  destruct (find_index_Some _ _ _ Hj) as (y & Hy & Hyp & _).
  apply Z.eqb_eq in Hyp. subst y.
  pose proof (Hpool scan j (pixel p) Hscan Hy ltac:(lia)) as Hslot.
  assert (Hbuf : Psrc = direct_stored e (img (pixel p))).
  { rewrite Hslot in Hsrc. cbn in Hsrc. congruence. }
  pose proof (Hsized scan j _ Hscan Hslot) as HlL.
  subst Psrc. set (L := direct_stored e (img (pixel p))) in *.
  assert (Htmp : length t = Z.to_nat (m_intermediate_x e)
                 /\ t = if first
                        then map (fun s => r_mul s (weight p)) L
                        else zip_with (fun t s => r_add t (r_mul s (weight p)))
                               tmp L).
  { destruct first.
    - apply scale_y_mov_direct in Ht; [| assumption ..]. subst t.
      rewrite length_map. auto.
    - apply scale_y_add_direct in Ht; [| assumption ..]. subst t.
      rewrite length_zip_with. split; [lia | reflexivity]. }
  assert (Hkeep : forall e1,
             plan e1 = plan e ->
             (m_Pscan_buf e1 = Some scan
              \/ m_Pscan_buf e1
                 = Some (mkScan_Buf (<[j := -1]> (scan_buf_y scan))
                                    (scan_buf_l scan))) ->
             pool_holds img e1).
  { intros e1 Hp1 [Hs1 | Hs1] scan' i t' Hscan' Hi Ht';
      rewrite (direct_stored_plan e e1 _ Hp1);
      rewrite Hs1 in Hscan'; injection Hscan' as <-.
    - exact (Hpool scan i t' Hscan Hi Ht').
    - cbn [scan_buf_y scan_buf_l] in *.
      destruct (Nat.eq_dec i j) as [-> | Hij].
      + rewrite list_lookup_insert_eq in Hi by (eapply lookup_lt_Some, Hy).
        congruence.
      + rewrite list_lookup_insert_ne in Hi by congruence.
        exact (Hpool scan i t' Hscan Hi Ht'). }
  destruct (Z.eqb_spec (Int.sub n 1) 0) as [Hz | Hnz].
  - destruct (m_Psrc_y_flag _) as [flag |] eqn:Hflag;
      cbn [mbind option_bind]; [| discriminate].
    intros [= <- <-]. split; [| exact Htmp].
    apply Hkeep; [exact Hplan |]. right. destruct e; reflexivity.
  - intros [= <- <-]. split; [| exact Htmp].
    apply Hkeep; [exact Hplan |]. left. destruct e; exact Hscan.
Qed.

End Direct.

Section Direct_engine.

Context {R : Type} `{Real_Ops R}.

Implicit Types (e : Resampler R) (img : Z -> list R).

(* The contributors after the first one. *)
Lemma resample_y_loop_direct (l : Contrib_List R) img :
  forall (tmp tmp' : list R) e e',
    pool_holds img e -> bufs_sized e -> 0 <= m_intermediate_x e ->
    length tmp = Z.to_nat (m_intermediate_x e) ->
    resample_y_loop false (tmp, e) l = Some (tmp', e') ->
    pool_holds img e'
    /\ length tmp' = Z.to_nat (m_intermediate_x e)
    /\ tmp' = fold_left
                (fun acc q =>
                   zip_with (fun t s => r_add t (r_mul s (weight q))) acc
                     (direct_stored e (img (pixel q))))
                l tmp.
Proof.
  induction l as [| p l IH]; intros tmp tmp' e e' Hpool Hsized Hix Hlen;
    cbn [resample_y_loop fold_left].
  - intros [= <- <-]. auto.
  - destruct (resample_y_step false (tmp, e) p) as [[tmp1 e1] |] eqn:Hs;
      cbn [mbind option_bind]; [| discriminate].
    destruct (resample_y_step_direct _ _ _ _ _ _ img Hpool Hsized Hix Hlen Hs)
      as (Hpool1 & Hlen1 & ->).
    pose proof (resample_y_step_frame _ _ _ _ _ _ Hs) as [[Hplan _] _].
    pose proof (plan_fields _ _ Hplan)
      as (_ & _ & _ & _ & _ & _ & _ & Hix1 & _).
    apply resample_y_step_scan in Hs as [Hbufs _].
    intros Hloop.
    apply IH in Hloop as (Hpool' & Hlen' & ->);
      [| exact Hpool1 | eapply bufs_sized_ext; eauto | lia | lia].
    split; [exact Hpool' |]. split; [lia |].
    clear -Hplan. revert Hplan.
    generalize (zip_with (fun t s => r_add t (r_mul s (weight p))) tmp
                  (direct_stored e (img (pixel p)))).
    induction l as [| q l IHl]; intros acc Hplan; cbn [fold_left];
      [reflexivity |].
    rewrite (direct_stored_plan e e1 _ Hplan). apply IHl, Hplan.
Qed.

(* All the contributors of a destination line. *)
Lemma resample_y_lines_direct (l : Contrib_List R) img (Ptmp tmp' : list R)
  e e' :
  pool_holds img e -> bufs_sized e -> 0 <= m_intermediate_x e ->
  length Ptmp = Z.to_nat (m_intermediate_x e) -> l <> [] ->
  resample_y_loop true (Ptmp, e) l = Some (tmp', e') ->
  pool_holds img e'
  /\ length tmp' = Z.to_nat (m_intermediate_x e)
  /\ tmp' = direct_y e img l.
Proof.
  intros Hpool Hsized Hix Hlen Hne.
  destruct l as [| p l]; [contradiction |]. cbn [resample_y_loop direct_y].
  destruct (resample_y_step true (Ptmp, e) p) as [[tmp1 e1] |] eqn:Hs;
    cbn [mbind option_bind]; [| discriminate].
  destruct (resample_y_step_direct _ _ _ _ _ _ img Hpool Hsized Hix Hlen Hs)
    as (Hpool1 & Hlen1 & ->).
  pose proof (resample_y_step_frame _ _ _ _ _ _ Hs) as [[Hplan _] _].
  pose proof (plan_fields _ _ Hplan)
    as (_ & _ & _ & _ & _ & _ & _ & Hix1 & _).
  apply resample_y_step_scan in Hs as [Hbufs _].
  intros Hloop.
  apply resample_y_loop_direct with (img := img) in Hloop
    as (Hpool' & Hlen' & ->);
    [| exact Hpool1 | eapply bufs_sized_ext; eauto | lia | lia].
  split; [exact Hpool' |]. split; [lia |].
  clear -Hplan. revert Hplan.
  generalize (map (fun s => r_mul s (weight p))
                (direct_stored e (img (pixel p)))).
  induction l as [| q l IHl]; intros acc Hplan; cbn [fold_left];
    [reflexivity |].
  rewrite (direct_stored_plan e e1 _ Hplan). apply IHl, Hplan.
Qed.

Lemma wf_bufs_sized e : wf e -> bufs_sized e.
Proof.
  intros (_ & _ & _ & _ & _ & _
          & (ly & _ & (count & flag & scan & _ & _ & Hs & Hpool)))
    scan' i b Hs' Hb.
  rewrite Hs in Hs'. injection Hs' as <-.
  pose proof (pool_buf _ _ _ _ _ _ _ Hpool i b Hb). lia.
Qed.

(* resample_y writes the direct line to the destination buffer. *)
Lemma resample_y_direct e e' img (lists_y : list (Contrib_List R)) :
  wf e -> pool_holds img e ->
  m_Pclist_y e = Some lists_y -> Forall (fun l => l <> []) lists_y ->
  resample_y e = Some e' ->
  m_Pdst_buf e' = Some (direct_line e img (m_cur_dst_y e))
  /\ pool_holds img e'.
Proof.
  intros Hwf Hpool Hcy Hne.
  pose proof (wf_bufs_sized e Hwf) as Hsized.
  destruct Hwf as (Hlists & Hdims & Hix & (Pdst & HPdst & HlPdst) & Htmpbuf
                   & Hcur & _).
  destruct Hlists as (lx & ly & Hcx & Hcy' & Hlx & Hly & Hpx & Hpy & _).
  rewrite Hcy in Hcy'. injection Hcy' as <-.
  unfold resample_y, direct_line. cbv zeta. rewrite Hcy, Hcx.
  cbn [mbind option_bind default].
  destruct (index lists_y (m_cur_dst_y e)) as [l |] eqn:Hl;
    cbn [mbind option_bind default]; [| discriminate].
  assert (Hlne : l <> []).
  { apply index_Some in Hl as [_ Hl]. rewrite Forall_lookup in Hne.
    eapply Hne, Hl. }
  rewrite HPdst. cbn [mbind option_bind].
  assert (Hixpos : 0 <= m_intermediate_x e)
    by (rewrite Hix; destruct (m_delay_x_resample e); lia).
  assert (HPtmp : exists Ptmp,
             (if m_delay_x_resample e then m_Ptmp_buf e else Some Pdst)
             = Some Ptmp
             /\ length Ptmp = Z.to_nat (m_intermediate_x e)).
  { destruct (m_delay_x_resample e) eqn:Hd.
    - destruct (Htmpbuf eq_refl) as (Ptmp & HPtmp & HlPtmp).
      exists Ptmp. split; [exact HPtmp | lia].
    - exists Pdst. split; [reflexivity | lia]. }
  destruct HPtmp as (Ptmp & -> & HlPtmp). cbn [mbind option_bind].
  destruct (resample_y_loop true (Ptmp, e) l) as [[tmp e1] |] eqn:Hloop;
    cbn [mbind option_bind]; [| discriminate].
  destruct (resample_y_lines_direct l img Ptmp tmp e e1 Hpool Hsized Hixpos
              HlPtmp Hlne Hloop) as (Hpool1 & Hltmp & ->).
  apply resample_y_loop_frame in Hloop as [[Hplan _] _].
  pose proof (plan_fields _ _ Hplan)
    as (Hsx1 & _ & Hdx1 & _ & Hlo1 & Hhi1 & Hd1 & Hix1 & Hcx1 & _).
  set (tmp := direct_y e img l) in *.
  set (out := if m_delay_x_resample e then direct_x lx tmp else tmp).
  assert (Hgen : exists e2,
             generate_line e1 Pdst tmp = Some (out, e2)
             /\ pool_holds img e2 /\ plan e2 = plan e
             /\ Z.of_nat (length out) = m_resample_dst_x e).
  { unfold generate_line. subst out. rewrite Hd1.
    destruct (m_delay_x_resample e) eqn:Hd.
    - destruct (resample_x e1 tmp) as [r |] eqn:Hr.
      + destruct (resample_x_direct e1 tmp r lx) as [-> Hlr];
          [congruence | congruence | exact Hr |].
        cbn [mbind option_bind].
        rewrite write_buf_exact by lia. cbn [mbind option_bind].
        eexists. split; [reflexivity |]. split; [| split].
        * eapply pool_holds_ext; [| | exact Hpool1]; destruct e1; reflexivity.
        * rewrite <- Hplan. destruct e1; reflexivity.
        * lia.
      + (* resample_x on the accumulated line is defined *)
        exfalso.
        destruct (resample_x_Some e1 tmp lx) as (r & Hr' & _);
          [congruence | congruence | | congruence].
        rewrite Hltmp, Hix, Z2Nat.id by lia. exact Hpx.
    - exists e1. split; [reflexivity |]. split; [exact Hpool1 |].
      split; [exact Hplan |]. rewrite Hix in Hltmp. lia. }
  destruct Hgen as (e2 & Hgen & Hpool2 & Hplan2 & Hlout).
  intros Hy.
  assert (Hy' : (Pdst' ← clamp_line e2 out;
                 Some (set_Pdst_buf (Some Pdst') e2)) = Some e').
  { revert Hy. rewrite Hgen. cbn [mbind option_bind]. auto. }
  clear Hy. revert Hy'.
  pose proof (plan_fields _ _ Hplan2)
    as (_ & _ & Hdx2 & _ & Hlo2 & Hhi2 & _).
  unfold clamp_line. rewrite Hlo2, Hhi2.
  assert (Hfin : forall d,
             Some (set_Pdst_buf (Some d) e2) = Some e' ->
             m_Pdst_buf e' = Some d /\ pool_holds img e').
  { intros d [= <-]. split; [destruct e2; reflexivity |].
    eapply pool_holds_ext; [| | exact Hpool2]; destruct e2; reflexivity. }
  destruct (r_ltb (m_lo e) (m_hi e)); [| cbn [mbind option_bind]; apply Hfin].
  unfold clamp. rewrite Hdx2.
  rewrite prefix_Some by lia. cbn [mbind option_bind].
  rewrite take_ge by lia.
  rewrite write_buf_exact by (rewrite length_map; reflexivity).
  cbn [mbind option_bind]. intros Hy. apply Hfin in Hy as [Hrow Hp].
  split; [| exact Hp]. rewrite Hrow. f_equal.
  apply map_ext. intros f. apply clamp_sample_plan, Hplan2.
Qed.

End Direct_engine.

Section Direct_protocol.

Context {R : Type} `{Real_Ops R}.

Implicit Types (e : Resampler R) (img : Z -> list R).

Lemma pool_holds_free img e (scan : Scan_Buf R) :
  m_Pscan_buf e = Some scan ->
  Forall (fun t => t = -1) (scan_buf_y scan) ->
  pool_holds img e.
Proof.
  intros Hs Hall scan' i t Hs' Hi Ht. rewrite Hs in Hs'. injection Hs' as <-.
  rewrite Forall_lookup in Hall. specialize (Hall i t Hi). contradiction.
Qed.

(* put_line of the image line at the source cursor keeps the pool. *)
Lemma put_line_holds e e' img (r : bool) :
  wf e -> pool_holds img e ->
  put_line (img (m_cur_src_y e)) true e = Some (r, e') ->
  pool_holds img e'.
Proof.
  intros Hwf Hpool Hput.
  pose proof (put_line_frame _ _ _ _ _ Hput) as (Hplan & _).
  revert Hput. unfold put_line.
  destruct (Z.geb_spec (m_cur_src_y e) (m_resample_src_y e)) as [Hge | Hlt].
  { intros Hput; injection Hput as <- <-. exact Hpool. }
  destruct Hwf as (Hlists & Hdims & Hix & HPdst & Htmpbuf & Hcur
                   & (ly & Hly & (count & flag & scan & Hc & Hf & Hs & Hok))).
  destruct Hlists as (lx & ly' & Hcx & _ & Hlx & _ & Hpx & _).
  rewrite Hc. cbn [mbind option_bind].
  destruct (resampler_range_check _ _) as [v |]; cbn [mbind option_bind];
    [| discriminate].
  destruct (index count v) as [n |]; cbn [mbind option_bind];
    [| discriminate].
  destruct (n =? 0)%Z.
  { intros Hput; injection Hput as <- <-.
    eapply pool_holds_ext; [| exact Hplan | exact Hpool].
    destruct e; reflexivity. }
  rewrite Hs. cbn [mbind option_bind].
  destruct (find_free scan) as [i |] eqn:Hfree.
  2: { intros Hput; injection Hput as <- <-.
       eapply pool_holds_ext; [| exact Hplan | exact Hpool].
       destruct e; reflexivity. }
  rewrite Hf. cbn [mbind option_bind].
  unfold find_free in Hfree.
  destruct (find_index_Some _ _ _ Hfree) as (t & Hi & Ht & _).
  destruct (scan_buf_l scan !! i) as [slot |] eqn:Hslot;
    cbn [mbind option_bind]; [| discriminate].
  set (Psrc := img (m_cur_src_y e)) in *.
  set (e1 := set_Psrc_y_flag _ e).
  assert (He1 : m_delay_x_resample e1 = m_delay_x_resample e
                /\ m_intermediate_x e1 = m_intermediate_x e
                /\ m_Pclist_x e1 = m_Pclist_x e
                /\ m_resample_dst_x e1 = m_resample_dst_x e)
    by (destruct e; cbn; auto).
  destruct He1 as (Hd1 & Hix1 & Hcx1 & Hdx1).
  assert (Hline : forall line,
    (if m_delay_x_resample e1
     then prefix (m_intermediate_x e1) Psrc
     else resample_x e1 Psrc) = Some line ->
    line = direct_stored e Psrc
    /\ Z.of_nat (length line) = m_intermediate_x e).
  { intros line. unfold direct_stored. rewrite Hd1, Hix1, Hix, Hcx.
    cbn [default]. destruct (m_delay_x_resample e).
    - intros Hp. apply prefix_inv in Hp as [-> Hle].
      split; [reflexivity |]. rewrite length_take. lia.
    - intros Hr.
      destruct (resample_x_direct e1 Psrc line lx) as [-> Hll];
        [congruence | congruence | exact Hr |].
      split; [reflexivity | lia]. }
  assert (Hsucc : forall buf,
            Z.of_nat (length buf) = m_intermediate_x e ->
            (line ← (if m_delay_x_resample e1
                     then prefix (m_intermediate_x e1) Psrc
                     else resample_x e1 Psrc);
             buf ← write_buf buf line;
             Some (true,
                   set_cur_src_y (m_cur_src_y e1 + 1)
                     (set_Pscan_buf
                        (Some (mkScan_Buf
                                 (<[i := m_cur_src_y e]> (scan_buf_y scan))
                                 (<[i := Some buf]> (scan_buf_l scan))))
                        e1)))
            = Some (r, e') -> pool_holds img e').
  { intros buf Hlb.
    match goal with
    | |- mbind _ ?m = _ -> _ => destruct m as [line |]
    end; cbn [mbind option_bind]; [| discriminate].
    destruct (Hline line eq_refl) as [-> Hll].
    rewrite write_buf_exact by lia.
    cbn [mbind option_bind]. intros Hput; injection Hput as <- <-.
    intros scan' k t' Hscan' Hk Ht'.
    rewrite (direct_stored_plan e _ _ Hplan).
    assert (Hsc : scan' = mkScan_Buf
                            (<[i := m_cur_src_y e]> (scan_buf_y scan))
                            (<[i := Some (direct_stored e Psrc)]>
                               (scan_buf_l scan))).
    { clear -Hscan'. subst e1. destruct e. members. congruence. }
    subst scan'. cbn [scan_buf_y scan_buf_l] in *.
    destruct (Nat.eq_dec k i) as [-> | Hki].
    - rewrite list_lookup_insert_eq in Hk by (eapply lookup_lt_Some, Hi).
      injection Hk as <-.
      apply list_lookup_insert_eq. eapply lookup_lt_Some, Hslot.
    - rewrite list_lookup_insert_ne in Hk by congruence.
      rewrite list_lookup_insert_ne by congruence.
      exact (Hpool scan k t' Hs Hk Ht'). }
  destruct slot as [b |].
  - apply (Hsucc b). eapply pool_buf; eauto.
  - apply Hsucc. rewrite length_replicate, Hix1.
    rewrite Hix. destruct (m_delay_x_resample e); lia.
Qed.

(* restart empties the pool. *)
Lemma restart_holds e e' img :
  pool_holds img e -> restart e = Some e' -> pool_holds img e'.
Proof.
  intros Hpool. unfold restart.
  destruct (m_status e); try (intros [= <-]; exact Hpool).
  intros Hr. bind_inv Hr. injection Hr as <-.
  eapply pool_holds_free.
  - destruct e; reflexivity.
  - cbn [scan_buf_y]. apply Forall_forall. intros t Ht.
    apply elem_of_replicate in Ht as [-> _]. reflexivity.
Qed.

Lemma image_engine_plan img e e' :
  plan e' = plan e -> wf e' -> pool_holds img e' ->
  image_engine img e -> image_engine img e'.
Proof.
  intros Hplan Hwf Hpool (_ & _ & (ly & Hcy & Hne)).
  apply plan_fields in Hplan
    as (_ & _ & _ & _ & _ & _ & _ & _ & _ & Hcy').
  split; [exact Hwf |]. split; [exact Hpool |].
  exists ly. rewrite Hcy'. auto.
Qed.

(* Every line that get_line returns is the direct line. *)
Lemma get_line_direct e e' img (r : option (list R)) :
  image_engine img e -> get_line e = Some (r, e') ->
  image_engine img e'
  /\ forall row, r = Some row -> row = direct_line e img (m_cur_dst_y e).
Proof.
  intros Hie Hg.
  pose proof Hie as (Hwf & Hpool & (ly & Hcy & Hne)).
  pose proof (get_line_wf _ _ _ Hwf Hg) as Hwf'.
  pose proof (get_line_frame _ _ _ Hg) as (Hplan & _ & _).
  unfold get_line in Hg.
  destruct (m_cur_dst_y e =? m_resample_dst_y e)%Z.
  { injection Hg as <- <-. split; [exact Hie | discriminate]. }
  rewrite Hcy in Hg. cbn [mbind option_bind] in Hg.
  destruct (index ly (m_cur_dst_y e)) as [l |]; cbn [mbind option_bind] in Hg;
    [| discriminate].
  destruct (all_present e l) as [[|] |]; cbn [mbind option_bind] in Hg;
    [| | discriminate].
  2: { injection Hg as <- <-. split; [exact Hie | discriminate]. }
  destruct (resample_y e) as [e1 |] eqn:Hy; cbn [mbind option_bind] in Hg;
    [| discriminate].
  destruct (resample_y_direct e e1 img ly Hwf Hpool Hcy Hne Hy)
    as [Hrow Hpool1].
  pose proof (resample_y_frame _ _ Hy) as (Hplan1 & _).
  injection Hg as <- <-. split.
  - apply (image_engine_plan img e); [exact Hplan | exact Hwf' | | exact Hie].
    eapply pool_holds_ext; [| | exact Hpool1]; destruct e1; reflexivity.
  - intros row Hr. congruence.
Qed.

(* A call that puts the image line of the source cursor, with an
   allocation that succeeds, keeps the invariant. *)
Lemma call_direct (call0 : Call R) e e' img :
  image_engine img e ->
  fed img [call0] e ->
  allocations_succeed [call0] = true ->
  call call0 e = Some e' ->
  image_engine img e'.
Proof.
  intros Hie Hfed Halloc Hcall.
  pose proof Hie as (Hwf & Hpool & _).
  destruct (call_wf call0 e e' Hwf Hcall) as [Hwf' | [[Psrc ->] _]];
    [| discriminate].
  pose proof (call_plan _ _ _ Hcall) as Hplan.
  apply (image_engine_plan img e); [exact Hplan | exact Hwf' | | exact Hie].
  destruct call0 as [Psrc malloc_ok | |]; cbn [call] in Hcall.
  - destruct (put_line Psrc malloc_ok e) as [[r e1] |] eqn:Hp;
      [| discriminate].
    injection Hcall as <-.
    cbn in Halloc. rewrite andb_true_r in Halloc. subst malloc_ok.
    destruct Hfed as [-> _].
    exact (put_line_holds e e1 img r Hwf Hpool Hp).
  - destruct (get_line e) as [[r e1] |] eqn:Hg; [| discriminate].
    injection Hcall as <-. eapply get_line_direct; eauto.
  - eapply restart_holds; eauto.
Qed.

Lemma run_direct (cs : list (Call R)) img :
  forall e e',
    image_engine img e -> fed img cs e ->
    allocations_succeed cs = true ->
    run cs e = Some e' ->
    image_engine img e'.
Proof.
  induction cs as [| call0 cs IH]; intros e e' Hie Hfed Halloc; cbn [run].
  - intros [= <-]. exact Hie.
  - destruct (call call0 e) as [e1 |] eqn:Hc; cbn [mbind option_bind];
      [| discriminate].
    cbn [fed] in Hfed. rewrite Hc in Hfed. destruct Hfed as [Hrow Hfed].
    cbn [allocations_succeed forallb] in Halloc.
    apply andb_true_iff in Halloc as [Ha Halloc].
    apply IH; [| exact Hfed | exact Halloc].
    apply (call_direct call0 e e1 img Hie); [| | exact Hc].
    + cbn [fed]. rewrite Hc. auto.
    + cbn. rewrite Ha. reflexivity.
Qed.

End Direct_protocol.

Section Streaming.

Context {R : Type} `{Real_Ops R} `{Libm R}.

Variable MAX_SCAN_BUF_SIZE : Z.
Variable RESAMPLER_DEFAULT_FILTER : string.

Variables (src_x src_y dst_x dst_y : Z) (op : Boundary_Op) (lo hi : R).
Variables (Pfilter_name : option string).
Variables (Pclist_x Pclist_y : option (list (Contrib_List R))).
Variables (fxs fys ofx ofy : R) (heap : Heap).

(* The engine e0 is what the constructor returns, with status
   STATUS_OKAY and well formed contributor lists. *)
Variable e0 : Resampler R.
Hypothesis Hnew :
  Resampler_new MAX_SCAN_BUF_SIZE RESAMPLER_DEFAULT_FILTER src_x src_y dst_x
    dst_y op lo hi Pfilter_name Pclist_x Pclist_y fxs fys ofx ofy heap
  = Some e0.
Hypothesis Hokay : m_status e0 = STATUS_OKAY.
Hypothesis Hlists : lists_ok e0.

(* The source image. *)
Variable img : Z -> list R.

(* A Y list that the caller supplies is asked to have no empty list; the
   lists that make_clist generates have none. *)
Lemma Resampler_new_image :
  (forall lists, Pclist_y = Some lists -> Forall (fun l => l <> []) lists) ->
  image_engine img e0.
Proof.
  intros Hsupplied_y.
  pose proof (Resampler_new_wf _ _ _ _ _ _ _ _ _ _ _ _ _ _ _ _ _ _ Hnew Hokay
                Hlists) as Hwf.
  destruct (Resampler_new_okay _ _ _ _ _ _ _ _ _ _ _ _ _ _ _ _ _ _ Hnew Hokay)
    as (lists_x & lists_y & count & x_ops & y_ops & _ & _ & Hoy & _ & _ & _
        & He).
  split; [exact Hwf |]. rewrite He. split.
  - eapply pool_holds_free; [reflexivity |]. cbn [scan_buf_y].
    apply Forall_forall. intros t Ht.
    apply elem_of_replicate in Ht as [-> _]. reflexivity.
  - exists lists_y. split; [reflexivity |].
    destruct Hoy as [Hgiven | (filter & heap_ok & _ & Hmake)].
    + apply Hsupplied_y, Hgiven.
    + eapply Forall_impl.
      * eapply (make_clist_ok _ _ _ _ _ _ _ (fun _ => True));
          [auto | intros; exact I | exact Hmake].
      * intros l [_ Hl]. exact Hl.
Qed.

(** X17: the streaming engine computes the two passes.  Let the lines put
    into a constructed engine be the lines of an image, each at its turn
    (put_line is called with line cur_src_y of the image), with every
    allocation succeeding, and let no contributor list of the Y axis be
    empty: a Y list that the caller supplies has no empty list (the lists
    that make_clist generates never have one).  Then every line that
    get_line returns is destination line cur_dst_y as it is computed
    directly from the whole image: the Y pass over the intermediate lines
    of the contributors, with the X pass before it or after it by the order
    that the constructor chose, then the clamp.  The result does not depend
    on how the put_line and get_line calls interleave, on restarts, or on
    the slots of the scan buffer that held the lines.  (For an empty Y list
    the loop of resample_y writes nothing, and the line returned comes from
    what the buffers held before.) *)
Theorem streaming_is_direct (cs : list (Call R)) (e e' : Resampler R)
  (row : list R) :
  (forall lists, Pclist_y = Some lists -> Forall (fun l => l <> []) lists) ->
  run cs e0 = Some e -> fed img cs e0 ->
  allocations_succeed cs = true ->
  get_line e = Some (Some row, e') ->
  row = direct_line e0 img (m_cur_dst_y e).
Proof.
  intros Hsupplied_y Hrun Hfed Halloc Hget.
  pose proof (run_direct cs img e0 e (Resampler_new_image Hsupplied_y) Hfed
                Halloc Hrun) as Hie.
  destruct (get_line_direct e e' img (Some row) Hie Hget) as [_ Hrow].
  rewrite (Hrow row eq_refl).
  apply direct_line_plan. eapply run_plan, Hrun.
Qed.

End Streaming.

(* X17 at a concrete engine: 2 x 2 to 3 x 3 with the tent kernel on
   binary32; destination line 0 after both source lines were put. *)
Lemma streaming_is_direct_witness :
  let img := fun s : Z => if (s =? 0)%Z
                          then [Examples.lit 1; Examples.lit 2]
                          else [Examples.lit 3; Examples.lit 4] in
  exists e0 e e' row,
    Examples.new32 2 2 3 3 BOUNDARY_CLAMP (Examples.lit 0) (Examples.lit 0)
      (Some "tent"%string) None None (Examples.lit 1) (Examples.lit 1)
      (Examples.lit 0) (Examples.lit 0) Examples.heap_ok = Some e0
    /\ Examples.run32 [Put (img 0) true; Put (img 1) true] e0 = Some e
    /\ Examples.get_line32 e = Some (Some row, e')
    /\ row = @direct_line _ IEEE.binary32 e0 img 0.
Proof.
  intros img.
  match eval vm_compute in
    (Examples.new32 2 2 3 3 BOUNDARY_CLAMP (Examples.lit 0) (Examples.lit 0)
       (Some "tent"%string) None None (Examples.lit 1) (Examples.lit 1)
       (Examples.lit 0) (Examples.lit 0) Examples.heap_ok) with
  | Some ?v => pose (e0 := v)
  end.
  assert (Hnew : @Resampler_new _ IEEE.binary32 (IEEE.libm 24 128) 1024
                   "lanczos4" 2 2 3 3 BOUNDARY_CLAMP (Examples.lit 0)
                   (Examples.lit 0) (Some "tent"%string) None None
                   (Examples.lit 1) (Examples.lit 1) (Examples.lit 0)
                   (Examples.lit 0) Examples.heap_ok = Some e0)
    by (vm_compute; reflexivity).
  assert (Hst : m_status e0 = STATUS_OKAY) by reflexivity.
  assert (Hl : lists_ok e0) by (apply lists_okb_ok; vm_compute; reflexivity).
  pose (cs := [Put (img 0) true; Put (img 1) true]).
  match eval vm_compute in (@run _ IEEE.binary32 cs e0) with
  | Some ?v => pose (e := v)
  end.
  assert (Hrun : @run _ IEEE.binary32 cs e0 = Some e)
    by (vm_compute; reflexivity).
  match eval vm_compute in (@get_line _ IEEE.binary32 e) with
  | Some (Some ?r, ?v) => pose (row := r); pose (e' := v)
  end.
  assert (Hget : @get_line _ IEEE.binary32 e = Some (Some row, e'))
    by (vm_compute; reflexivity).
  assert (Hfed : @fed _ IEEE.binary32 img cs e0)
    by (vm_compute; repeat split).
  assert (Hsup : forall lists,
             @None (list (Contrib_List spec_float)) = Some lists ->
             Forall (fun l => l <> []) lists) by discriminate.
  pose proof (streaming_is_direct _ _ _ _ _ _ _ _ _ _ _ _ _ _ _ _ _ _ Hnew Hst
                Hl img cs e e' row Hsup Hrun Hfed eq_refl Hget)
    as Hrow.
  exists e0, e, e', row.
  split; [vm_compute; reflexivity |]. split; [vm_compute; reflexivity |].
  split; [vm_compute; reflexivity |]. exact Hrow.
Defined.

Section Float_order.

(* The comparison of two numbers of a format is a lexicographic order on
   sign, exponent and significand; these are the facts about it that the
   chained tests of the kernels use. *)
Ltac float_order :=
  repeat match goal with
         | |- context [Pos.compare_cont Eq ?a ?b] =>
             change (Pos.compare_cont Eq a b) with (a ?= b)%positive
         | H : context [Pos.compare_cont Eq ?a ?b] |- _ =>
             change (Pos.compare_cont Eq a b) with (a ?= b)%positive in H
         end;
  repeat match goal with
         | H : context [(?a ?= ?b)%positive] |- _ =>
             destruct (Pos.compare_spec a b); simpl in H; try discriminate
         | H : context [?a ?= ?b] |- _ =>
             destruct (Z.compare_spec a b); simpl in H; try discriminate
         end;
  repeat match goal with
         | |- context [(?a ?= ?b)%positive] =>
             destruct (Pos.compare_spec a b); simpl; try reflexivity
         | |- context [?a ?= ?b] =>
             destruct (Z.compare_spec a b); simpl; try reflexivity
         end;
  try lia.

Lemma SFltb_trans (x y z : spec_float) :
  SFltb x y = true -> SFltb y z = true -> SFltb x z = true.
Proof.
  unfold SFltb, SFcompare.
  destruct x as [[]|[]| |[] mx ex], y as [[]|[]| |[] my ey],
           z as [[]|[]| |[] mz ez]; simpl;
    try discriminate; try reflexivity; intros Hxy Hyz; float_order.
Qed.

Lemma SFleb_ltb_trans (x y z : spec_float) :
  SFleb x y = true -> SFltb y z = true -> SFltb x z = true.
Proof.
  unfold SFleb, SFltb, SFcompare.
  destruct x as [[]|[]| |[] mx ex], y as [[]|[]| |[] my ey],
           z as [[]|[]| |[] mz ez]; simpl;
    try discriminate; try reflexivity; intros Hxy Hyz; float_order.
Qed.

Lemma SFltb_asym (x y : spec_float) : SFltb x y = true -> SFltb y x = false.
Proof.
  unfold SFltb, SFcompare.
  destruct x as [[]|[]| |[] mx ex], y as [[]|[]| |[] my ey]; simpl;
    try discriminate; try reflexivity; intros Hxy; float_order.
Qed.

Lemma SFltb_not_leb (x y : spec_float) : SFltb x y = true -> SFleb y x = false.
Proof.
  unfold SFltb, SFleb, SFcompare.
  destruct x as [[]|[]| |[] mx ex], y as [[]|[]| |[] my ey]; simpl;
    try discriminate; try reflexivity; intros Hxy; float_order.
Qed.

Lemma SFltb_opp (x y : spec_float) :
  SFltb x (SFopp y) = true -> SFltb y (SFopp x) = true.
Proof.
  unfold SFltb, SFcompare, SFopp.
  destruct x as [[]|[]| |[] mx ex], y as [[]|[]| |[] my ey]; simpl;
    try discriminate; try reflexivity; intros Hxy; float_order.
Qed.

End Float_order.

Section Kernel_support.

(* The absolute value that the kernels take with a test against zero and a
   negation, outside (-S, S): it is above S, whichever branch was taken. *)
Lemma outside_abs (zero S t : spec_float) :
  SFltb zero S = true -> SFltb (SFopp S) zero = true ->
  SFltb S t = true \/ SFltb t (SFopp S) = true ->
  SFltb S (if SFltb t zero then SFopp t else t) = true.
Proof.
  intros Hpos Hneg [Hout | Hout].
  - rewrite (SFltb_asym zero t (SFltb_trans _ _ _ Hpos Hout)). exact Hout.
  - rewrite (SFltb_trans _ _ _ Hout Hneg). apply SFltb_opp, Hout.
Qed.

Lemma above_not_below (c S a : spec_float) :
  SFltb S a = true -> SFleb c S = true -> SFltb a c = false.
Proof.
  intros Ha Hc. apply SFltb_asym. exact (SFleb_ltb_trans _ _ _ Hc Ha).
Qed.

Variable O : Real_Ops spec_float.
Variable L : Libm spec_float.
Hypothesis Hformat : O = IEEE.binary32 \/ O = IEEE.binary64.

Ltac outside Hout S zero :=
  match goal with
  | |- context [if SFltb ?t zero then SFopp ?t else ?t] =>
      let Ha := fresh "Ha" in
      assert (Ha : SFltb S (if SFltb t zero then SFopp t else t) = true)
        by (apply outside_abs; [vm_compute; reflexivity ..| exact Hout]);
      repeat match goal with
             | |- context [SFltb (if SFltb t zero then SFopp t else t) ?c] =>
                 rewrite (above_not_below c S _ Ha) by (vm_compute; reflexivity)
             end
  end.

(** X18: no kernel reaches beyond its support.  On the single and on the
    double precision format, each of the sixteen entries of g_filters
    returns exactly RR(0.0) at every t above its support or below minus its
    support, infinities included, whatever sin, cos, exp, log, sqrt and
    fabs of the mathematical library return. *)
Theorem filters_vanish_outside_support (f : Filter_Entry spec_float)
    (t : spec_float) :
  In f (@g_filters _ O L) ->
  @r_ltb _ O (support f) t = true
    \/ @r_ltb _ O t (@r_neg _ O (support f)) = true ->
  func f t = @RR _ O 0.0.
Proof.
  intros Hf Hout.
  destruct Hformat as [-> | ->]; clear Hformat;
    change (@r_ltb _ IEEE.binary32) with SFltb in Hout;
    change (@r_neg _ IEEE.binary32) with SFopp in Hout;
    change (@r_ltb _ IEEE.binary64) with SFltb in Hout;
    change (@r_neg _ IEEE.binary64) with SFopp in Hout.
  all: unfold g_filters in Hf; simpl In in Hf.
  all: repeat (destruct Hf as [<- | Hf]); try contradiction.
  all: cbn [func support] in *.
  all: unfold box_filter, tent_filter, bell_filter, B_spline_filter,
         mitchell_filter, catmull_rom_filter, mitchell, lanczos3_filter,
         lanczos4_filter, lanczos6_filter, lanczos12_filter, lanczos,
         blackman_filter, kaiser_filter, gaussian_filter,
         quadratic_interp_filter, quadratic_approx_filter,
         quadratic_mix_filter, quadratic, BOX_FILTER_SUPPORT,
         TENT_FILTER_SUPPORT, BELL_SUPPORT, B_SPLINE_SUPPORT, MITCHELL_SUPPORT,
         CATMULL_ROM_SUPPORT, LANCZOS3_SUPPORT, LANCZOS4_SUPPORT,
         LANCZOS6_SUPPORT, LANCZOS12_SUPPORT, BLACKMAN_SUPPORT, KAISER_SUPPORT,
         GAUSSIAN_SUPPORT, QUADRATIC_SUPPORT in *.
  all: unfold IEEE.binary32, IEEE.binary64, IEEE.ops in *;
       cbn [r_ltb r_leb r_neg RR of_int] in *; cbv zeta.
  all: try (match type of Hout with
            | SFltb ?S _ = true \/ _ =>
                first [ outside Hout S (IEEE.lit 24 128 0.0)
                      | outside Hout S (IEEE.lit 53 1024 0.0)
                      | outside Hout S (IEEE.of_Z 24 128 0)
                      | outside Hout S (IEEE.of_Z 53 1024 0) ]
            end; reflexivity).
  all: destruct Hout as [Hout | Hout].
  all: try (rewrite (SFltb_asym _ _ Hout), andb_false_r; reflexivity).
  - replace (IEEE.lit 24 128 (-0.5)) with (SFopp (IEEE.lit 24 128 0.5))
      by (vm_compute; reflexivity).
    rewrite (SFltb_not_leb _ _ Hout). reflexivity.
  - replace (IEEE.lit 53 1024 (-0.5)) with (SFopp (IEEE.lit 53 1024 0.5))
      by (vm_compute; reflexivity).
    rewrite (SFltb_not_leb _ _ Hout). reflexivity.
Qed.

End Kernel_support.

(* X18 at a concrete input: the tent kernel of binary32 at t = 2. *)
Lemma filters_vanish_outside_support_witness :
  @tent_filter _ IEEE.binary32 (Examples.lit 2) = Examples.lit 0.
Proof.
  apply (filters_vanish_outside_support IEEE.binary32 (IEEE.libm 24 128)
           (or_introl eq_refl)
           (mkFilter "tent" (@tent_filter _ IEEE.binary32)
              (@TENT_FILTER_SUPPORT _ IEEE.binary32))
           (Examples.lit 2)).
  - right; left; reflexivity.
  - left; vm_compute; reflexivity.
Defined.

Section Readiness.

Context {R : Type} `{Real_Ops R}.

Implicit Types (e : Resampler R) (Psrc Ptmp Pdst : list R).

(* The loop of resample_y clears the present flag of a source line only
   when its reference count reaches zero. *)
Lemma resample_y_loop_flags (l : Contrib_List R) :
  forall (first : bool) Ptmp e (need : Z -> Z),
    pool_ok_at e need ->
    0 <= m_intermediate_x e <= Z.of_nat (length Ptmp) ->
    Forall (fun p => 0 <= pixel p < m_resample_src_y e) l ->
    (exists flag, m_Psrc_y_flag e = Some flag
       /\ Forall (fun p => index flag (pixel p) = Some true) l) ->
    (forall s, occ s l <= need s) ->
    forall tmp e',
      resample_y_loop first (Ptmp, e) l = Some (tmp, e') ->
      forall s flag flag',
        0 <= s -> need s - occ s l <> 0 ->
        m_Psrc_y_flag e = Some flag -> m_Psrc_y_flag e' = Some flag' ->
        index flag' s = index flag s.
Proof.
  induction l as [| p l IH];
    intros first Ptmp e need Hpool Hix Hrange Hflag Hocc tmp e' Hloop
      s flag0 flag' Hs Hne Hf0 Hf'.
  - cbn [resample_y_loop] in Hloop. injection Hloop as <- <-. congruence.
  - apply Forall_cons in Hrange as [Hp Hrange].
    destruct Hflag as (flag & Hf & Hflag).
    rewrite Hf in Hf0. injection Hf0 as <-.
    apply Forall_cons in Hflag as [Hpf Hflag].
    assert (Hneed : 1 <= need (pixel p)).
    { specialize (Hocc (pixel p)). cbn [occ] in Hocc.
      rewrite Z.eqb_refl in Hocc. pose proof (occ_nonneg (pixel p) l). lia. }
    destruct (resample_y_step_ok first Ptmp e need p Hpool Hix Hp
                ltac:(eauto) Hneed)
      as (tmp1 & e1 & Hstep & Hl1 & Hpool1 & Hflags).
    pose proof (resample_y_step_frame _ _ _ _ _ _ Hstep) as ((Hplan & _) & _).
    apply plan_fields in Hplan
      as (_ & Hsy & _ & _ & _ & _ & _ & Hixe & _ & _).
    cbn [resample_y_loop] in Hloop. rewrite Hstep in Hloop.
    cbn [mbind option_bind] in Hloop.
    pose proof Hpool1 as (count1 & flag1 & scan1 & Hc1 & Hf1 & Hs1 & Hp1).
    assert (Hocc1 : forall s0,
               occ s0 l <= need s0 - (if pixel p =? s0 then 1 else 0)).
    { intros s0. specialize (Hocc s0). cbn [occ] in Hocc.
      destruct (pixel p =? s0); lia. }
    assert (Hstay : forall s0,
               0 <= s0 ->
               need s0 - (if pixel p =? s0 then 1 else 0) - occ s0 l <> 0 ->
               index flag1 s0 = index flag s0).
    { intros s0 Hs0 Hne0. apply Hflags; auto.
      specialize (Hocc1 s0). pose proof (occ_nonneg s0 l). lia. }
    rewrite <- (Hstay s).
    + eapply (IH false tmp1 e1
                (fun s => need s - (if pixel p =? s then 1 else 0)));
        [exact Hpool1 | rewrite Hixe, Hl1; exact Hix
        | rewrite Hsy; exact Hrange | | exact Hocc1 | exact Hloop | exact Hs
        | | exact Hf1 | exact Hf'].
      * exists flag1. split; [exact Hf1 |].
        pose proof (occ_pos l) as Hpos.
        apply Forall_forall. intros q Hq.
        rewrite Forall_forall in Hflag, Hpos, Hrange.
        rewrite (Hflags (pixel q) flag flag1); auto.
        -- pose proof (Hrange q Hq). lia.
        -- specialize (Hocc1 (pixel q)). specialize (Hpos q Hq). lia.
      * cbn [occ] in Hne. cbv beta. destruct (pixel p =? s); lia.
    + exact Hs.
    + cbn [occ] in Hne. destruct (pixel p =? s); lia.
Qed.

(* The parts of a run of resample_y. *)
Lemma resample_y_inv e e' :
  resample_y e = Some e' ->
  exists lists l Pdst Ptmp tmp e1,
    m_Pclist_y e = Some lists
    /\ index lists (m_cur_dst_y e) = Some l
    /\ m_Pdst_buf e = Some Pdst
    /\ (if m_delay_x_resample e then m_Ptmp_buf e else Some Pdst) = Some Ptmp
    /\ resample_y_loop true (Ptmp, e) l = Some (tmp, e1)
    /\ m_Psrc_y_flag e' = m_Psrc_y_flag e1.
Proof.
  unfold resample_y. intros Hy.
  destruct (m_Pclist_y e) as [lists |] eqn:Hcy; cbn [mbind option_bind] in Hy;
    [| discriminate].
  destruct (index lists (m_cur_dst_y e)) as [l |] eqn:Hl;
    cbn [mbind option_bind] in Hy; [| discriminate].
  destruct (m_Pdst_buf e) as [Pdst |] eqn:HPdst;
    cbn [mbind option_bind] in Hy; [| discriminate].
  destruct (if m_delay_x_resample e then m_Ptmp_buf e else Some Pdst)
    as [Ptmp |] eqn:HPtmp; cbn [mbind option_bind] in Hy; [| discriminate].
  destruct (resample_y_loop true (Ptmp, e) l) as [[tmp e1] |] eqn:Hloop;
    cbn [mbind option_bind] in Hy; [| discriminate].
  exists lists, l, Pdst, Ptmp, tmp, e1.
  split; [reflexivity |]. split; [exact Hl |]. split; [reflexivity |].
  split; [exact HPtmp |]. split; [exact Hloop |].
  destruct (generate_line e1 Pdst tmp) as [[d e2] |] eqn:Hgen;
    cbn [mbind option_bind] in Hy; [| discriminate].
  destruct (clamp_line e2 d) as [d' |]; cbn [mbind option_bind] in Hy;
    [| discriminate].
  injection Hy as <-.
  unfold generate_line in Hgen.
  destruct (m_delay_x_resample e1).
  - destruct (resample_x e1 tmp) as [r |]; cbn [mbind option_bind] in Hgen;
      [| discriminate].
    destruct (write_buf Pdst r); cbn [mbind option_bind] in Hgen;
      [| discriminate].
    injection Hgen as _ <-. destruct e1; reflexivity.
  - injection Hgen as _ <-. destruct e1; reflexivity.
Qed.

(* resample_y leaves the present flag of every source line that a later
   destination line needs. *)
Lemma resample_y_flags e e' (lists_y : list (Contrib_List R))
  (l : Contrib_List R) (flag flag' : list bool) (s : Z) :
  wf e ->
  m_Pclist_y e = Some lists_y ->
  index lists_y (m_cur_dst_y e) = Some l ->
  m_Psrc_y_flag e = Some flag ->
  Forall (fun p => index flag (pixel p) = Some true) l ->
  resample_y e = Some e' ->
  m_Psrc_y_flag e' = Some flag' ->
  0 <= s ->
  occs s (drop (Z.to_nat (m_cur_dst_y e + 1)) lists_y) <> 0 ->
  index flag' s = index flag s.
Proof.
  intros (Hlists & Hdims & Hix & (Pdst & HPdst & HlPdst) & Htmpbuf & Hcur
          & (ly & Hly & Hpool)) Hcy Hl Hflag Hpresent Hy Hf' Hs Hne.
  rewrite Hcy in Hly. injection Hly as <-.
  destruct Hlists as (lx & ly & Hcx & Hcy' & Hlx & Hlylen & Hpx & Hpy & Htot).
  rewrite Hcy in Hcy'. injection Hcy' as <-.
  destruct (resample_y_inv e e' Hy)
    as (lists & l0 & Pdst0 & Ptmp & tmp & e1 & Hcy0 & Hl0 & HPdst0 & HPtmp
        & Hloop & Hfe).
  rewrite Hcy in Hcy0. injection Hcy0 as <-.
  rewrite Hl in Hl0. injection Hl0 as <-.
  rewrite HPdst in HPdst0. injection HPdst0 as <-.
  apply index_Some in Hl as [Hcur0 Hl].
  assert (Hlr : Forall (fun p => 0 <= pixel p < m_resample_src_y e) l).
  { unfold pixels_below in Hpy. rewrite Forall_lookup in Hpy. eapply Hpy, Hl. }
  assert (HlPtmp : Z.of_nat (length Ptmp) = m_intermediate_x e).
  { destruct (m_delay_x_resample e) eqn:Hd.
    - destruct (Htmpbuf eq_refl) as (Ptmp0 & HPtmp0 & Hlen). congruence.
    - injection HPtmp as <-. lia. }
  assert (Hixpos : 0 < m_intermediate_x e)
    by (rewrite Hix; destruct (m_delay_x_resample e); lia).
  rewrite Hfe in Hf'.
  eapply (resample_y_loop_flags l true Ptmp e _ Hpool ltac:(lia) Hlr
            ltac:(eauto)); [| exact Hloop | exact Hs | | exact Hflag | exact Hf'].
  - intros s0. rewrite (occs_drop s0 _ _ _ Hl).
    pose proof (occs_nonneg s0 (drop (S (Z.to_nat (m_cur_dst_y e))) lists_y)).
    lia.
  - cbv beta. rewrite (occs_drop s _ _ _ Hl).
    rewrite Z2Nat.inj_add in Hne by lia.
    change (Z.to_nat 1) with 1%nat in Hne. rewrite Nat.add_1_r in Hne. lia.
Qed.

Lemma get_line_flags e e' (r : option (list R)) :
  wf e -> flags_set e -> get_line e = Some (r, e') -> flags_set e'.
Proof.
  intros Hwf Hfl Hg. destruct (get_line_wf_cases e Hwf) as [Hend Hrun].
  destruct (Z.eq_dec (m_cur_dst_y e) (m_resample_dst_y e)) as [Heq | Hne].
  { rewrite (Hend Heq) in Hg. injection Hg as <- <-. exact Hfl. }
  destruct (Hrun Hne) as (ly & l & flag & Hly & Hl & Hf & Hwait & Hready).
  assert (Hdec : forall p : Contrib R,
             Decision (index flag (pixel p) = Some false)).
  { intros p. destruct (index flag (pixel p)) as [[|] |];
      [right | left | right]; congruence. }
  destruct (@Exists_dec _ (fun p => index flag (pixel p) = Some false)
              Hdec l) as [Hex | Hnex].
  { rewrite (Hwait Hex) in Hg. injection Hg as <- <-. exact Hfl. }
  destruct (Hready Hnex) as (row & e1 & Hy & Hrow & Hg' & _ & _).
  rewrite Hg' in Hg. injection Hg as <- <-.
  pose proof Hwf as (Hlists & _ & _ & _ & _ & Hcur
                     & (ly' & Hly' & (count & flag0 & scan & Hc & Hf0 & Hs
                                      & Hpool))).
  rewrite Hly in Hly'. injection Hly' as <-.
  rewrite Hf in Hf0. injection Hf0 as <-.
  destruct Hlists as (lx & ly' & _ & Hcy & _ & _ & _ & Hpy & _).
  rewrite Hly in Hcy. injection Hcy as <-.
  pose proof (pool_flag_length _ _ _ _ _ _ _ Hpool) as Hflen.
  assert (Hlr : Forall (fun p => 0 <= pixel p < m_resample_src_y e) l).
  { apply index_Some in Hl as [_ Hl]. unfold pixels_below in Hpy.
    rewrite Forall_lookup in Hpy. eapply Hpy, Hl. }
  pose proof (all_present_true e l flag Hf
                (all_present_ready e l flag Hf Hflen Hlr Hnex)) as Hall.
  pose proof (resample_y_frame _ _ Hy) as (Hplan & _ & Hcs & Hcd).
  apply plan_fields in Hplan as (_ & _ & _ & _ & _ & _ & _ & _ & _ & Hcy1).
  intros ly1 flag1 s Hly1 Hf1 Hs1 Hocc.
  assert (Hly1' : ly1 = ly) by (destruct e1; cbn in *; congruence).
  subst ly1.
  assert (Hf1' : m_Psrc_y_flag e1 = Some flag1) by (destruct e1; exact Hf1).
  assert (Hs' : 0 <= s < m_cur_src_y e)
    by (destruct e1; cbn in *; lia).
  assert (Hocc' : 0 < occs s (drop (Z.to_nat (m_cur_dst_y e + 1)) ly))
    by (destruct e1; cbn in *; exact Hocc).
  rewrite (resample_y_flags e e1 ly l flag flag1 s Hwf Hly Hl Hf Hall Hy Hf1')
    by lia.
  apply (Hfl ly flag s Hly Hf Hs').
  apply index_Some in Hl as [Hcur0 Hl].
  rewrite (occs_drop s _ _ _ Hl).
  rewrite Z2Nat.inj_add in Hocc' by lia.
  change (Z.to_nat 1) with 1%nat in Hocc'. rewrite Nat.add_1_r in Hocc'.
  pose proof (occ_nonneg s l). lia.
Qed.

(* The flag invariant of an engine with the lists and the destination
   cursor of e. *)
Lemma flags_set_intro e e' (flag' : list bool) :
  m_Pclist_y e' = m_Pclist_y e -> m_cur_dst_y e' = m_cur_dst_y e ->
  m_Psrc_y_flag e' = Some flag' ->
  (forall ly s,
     m_Pclist_y e = Some ly -> 0 <= s < m_cur_src_y e' ->
     0 < occs s (drop (Z.to_nat (m_cur_dst_y e)) ly) ->
     index flag' s = Some true) ->
  flags_set e'.
Proof.
  intros Hly Hcd Hf Hall ly1 flag1 s Hly1 Hf1 Hs1 Hocc.
  rewrite Hf in Hf1. injection Hf1 as <-.
  rewrite Hly in Hly1. rewrite Hcd in Hocc. eapply Hall; eauto.
Qed.

Lemma put_line_flags e e' Psrc (malloc_ok r : bool) :
  wf e -> flags_set e -> put_line Psrc malloc_ok e = Some (r, e') ->
  flags_set e'.
Proof.
  intros Hwf Hfl.
  pose proof Hwf as (_ & _ & _ & _ & _ & Hcur
                     & (ly & Hly & (count & flag & scan & Hc & Hf & Hs
                                    & Hpool))).
  pose proof (pool_flag_length _ _ _ _ _ _ _ Hpool) as Hflen.
  unfold put_line.
  destruct (Z.geb_spec (m_cur_src_y e) (m_resample_src_y e)) as [Hge | Hlt].
  { intros [= <- <-]. exact Hfl. }
  rewrite Hc. cbn [mbind option_bind].
  assert (Hrc : resampler_range_check (m_cur_src_y e) (m_resample_src_y e)
                = Some (m_cur_src_y e)) by (apply range_check_Some; lia).
  rewrite Hrc. cbn [mbind option_bind].
  rewrite (pool_count _ _ _ _ _ _ _ Hpool (m_cur_src_y e)) by lia.
  cbn [mbind option_bind].
  destruct (Z.eqb_spec
              (occs (m_cur_src_y e) (drop (Z.to_nat (m_cur_dst_y e)) ly)) 0)
    as [Hzero | Hnz].
  { intros [= <- <-].
    apply (flags_set_intro e _ flag); [destruct e; reflexivity ..| |].
    - destruct e; exact Hf.
    - intros ly1 s Hly1 Hs1 Hocc.
      rewrite Hly in Hly1. injection Hly1 as <-.
      assert (Hs2 : 0 <= s < m_cur_src_y e + 1) by (destruct e; exact Hs1).
      destruct (Z.eq_dec s (m_cur_src_y e)) as [-> | Hne]; [lia |].
      apply (Hfl ly flag s Hly Hf); [lia | exact Hocc]. }
  rewrite Hs. cbn [mbind option_bind].
  destruct (find_free scan) as [i |]; cycle 1.
  { intros [= <- <-].
    apply (flags_set_intro e _ flag); [destruct e; reflexivity ..| |].
    - destruct e; exact Hf.
    - intros ly1 s Hly1 Hs1 Hocc.
      assert (Hs2 : 0 <= s < m_cur_src_y e) by (destruct e; exact Hs1).
      eapply Hfl; eauto. }
  assert (Hfe : m_Psrc_y_flag e = Some flag) by exact Hf.
  rewrite Hfe. cbn [mbind option_bind].
  assert (Hset : forall ly1 s,
             m_Pclist_y e = Some ly1 ->
             0 <= s < m_cur_src_y e + 1 ->
             0 < occs s (drop (Z.to_nat (m_cur_dst_y e)) ly1) ->
             index (assign flag (m_cur_src_y e) true) s = Some true).
  { intros ly1 s Hly1 Hs1 Hocc.
    destruct (Z.eq_dec s (m_cur_src_y e)) as [-> | Hne].
    - apply index_assign_eq. lia.
    - rewrite index_assign_ne by lia.
      apply (Hfl ly1 flag s Hly1 Hf); [lia | exact Hocc]. }
  destruct (scan_buf_l scan !! i) as [slot |]; cbn [mbind option_bind];
    [| discriminate].
  assert (Hfin : forall e2,
             m_Pclist_y e2 = m_Pclist_y e -> m_cur_dst_y e2 = m_cur_dst_y e ->
             m_Psrc_y_flag e2 = Some (assign flag (m_cur_src_y e) true) ->
             m_cur_src_y e2 <= m_cur_src_y e + 1 ->
             flags_set e2).
  { intros e2 H1 H2 H3 H4.
    apply (flags_set_intro e e2 _ H1 H2 H3).
    intros ly1 s Hly1 Hs1 Hocc. apply (Hset ly1 s Hly1); [lia | exact Hocc]. }
  assert (Hok : forall b,
             (line ← (if m_delay_x_resample
                           (set_Psrc_y_flag
                              (Some (assign flag (m_cur_src_y e) true)) e)
                      then prefix
                             (m_intermediate_x
                                (set_Psrc_y_flag
                                   (Some (assign flag (m_cur_src_y e) true))
                                   e)) Psrc
                      else resample_x
                             (set_Psrc_y_flag
                                (Some (assign flag (m_cur_src_y e) true)) e)
                             Psrc);
              buf ← write_buf b line;
              Some (true,
                    set_cur_src_y
                      (m_cur_src_y
                         (set_Psrc_y_flag
                            (Some (assign flag (m_cur_src_y e) true)) e) + 1)
                      (set_Pscan_buf
                         (Some (mkScan_Buf (<[i := m_cur_src_y e]>
                                              (scan_buf_y scan))
                                  (<[i := Some buf]> (scan_buf_l scan))))
                         (set_Psrc_y_flag
                            (Some (assign flag (m_cur_src_y e) true)) e))))
             = Some (r, e') -> flags_set e').
  { intros b Hp. bind_inv Hp; try discriminate.
    injection Hp as _ <-.
    apply Hfin; destruct e; try reflexivity; cbn; lia. }
  destruct slot as [b |], malloc_ok; try apply Hok.
  intros [= <- <-]. apply Hfin; destruct e; try reflexivity; cbn; lia.
Qed.

Lemma restart_flags e e' : flags_set e -> restart e = Some e' -> flags_set e'.
Proof.
  intros Hfl. unfold restart. destruct (m_status e).
  2-4: intros [= <-]; exact Hfl.
  intros Hr. bind_inv Hr; try discriminate.
  injection Hr as <-.
  intros ly1 flag1 s Hly1 Hf1 Hs1 Hocc. exfalso.
  destruct e; members. lia.
Qed.

(* The invariant with the flags along a run. *)
Lemma run_flags (cs : list (Call R)) :
  forall e e',
    wf e -> flags_set e -> run cs e = Some e' ->
    allocations_succeed cs = true -> wf e' /\ flags_set e'.
Proof.
  induction cs as [| c cs IH]; intros e e' Hwf Hfl; cbn [run].
  - intros [= <-] _. auto.
  - destruct (call c e) as [e1 |] eqn:Hc; cbn [mbind option_bind];
      [| discriminate].
    intros Hrun Hall. cbn [allocations_succeed forallb] in Hall.
    apply andb_true_iff in Hall as [Hc' Hall].
    destruct (call_wf c e e1 Hwf Hc) as [Hwf1 | [[Psrc ->] _]];
      [| discriminate].
    apply (IH e1 e' Hwf1); [| exact Hrun | exact Hall].
    revert Hc. destruct c as [Psrc malloc_ok | |]; cbn [call].
    + destruct (put_line Psrc malloc_ok e) as [[r e2] |] eqn:Hp;
        [| discriminate].
      intros [= <-]. exact (put_line_flags e e2 Psrc malloc_ok r Hwf Hfl Hp).
    + destruct (get_line e) as [[r e2] |] eqn:Hg; [| discriminate].
      intros [= <-]. exact (get_line_flags e e2 r Hwf Hfl Hg).
    + intros Hr. exact (restart_flags e e1 Hfl Hr).
Qed.

End Readiness.

Section Readiness_cases.

Context {R : Type} `{Real_Ops R}.

Implicit Types (e : Resampler R).

(* The contributors of the current destination line, under the
   invariant. *)
Lemma current_list_facts e (lists_y : list (Contrib_List R))
  (l : Contrib_List R) :
  wf e -> m_Pclist_y e = Some lists_y ->
  index lists_y (m_cur_dst_y e) = Some l ->
  m_cur_dst_y e <> m_resample_dst_y e
  /\ Forall (fun p => 0 <= pixel p < m_resample_src_y e) l
  /\ Forall (fun p =>
               0 < occs (pixel p) (drop (Z.to_nat (m_cur_dst_y e)) lists_y)) l.
Proof.
  intros (Hlists & _) Hly Hl.
  destruct Hlists as (lx & ly & _ & Hcy & _ & Hlylen & _ & Hpy & _).
  rewrite Hly in Hcy. injection Hcy as <-.
  apply index_Some in Hl as [Hcur0 Hl].
  split; [apply lookup_lt_Some in Hl; lia |]. split.
  - unfold pixels_below in Hpy. rewrite Forall_lookup in Hpy. eapply Hpy, Hl.
  - pose proof (occ_pos l) as Hpos. rewrite Forall_forall in Hpos.
    apply Forall_forall. intros p Hp. rewrite (occs_drop _ _ _ _ Hl).
    specialize (Hpos p Hp).
    pose proof (occs_nonneg (pixel p)
                  (drop (S (Z.to_nat (m_cur_dst_y e))) lists_y)).
    lia.
Qed.

(* get_line returns a line when every contributor of the current
   destination line was put. *)
Lemma get_line_ready e (lists_y : list (Contrib_List R))
  (l : Contrib_List R) :
  wf e -> flags_set e -> m_Pclist_y e = Some lists_y ->
  index lists_y (m_cur_dst_y e) = Some l ->
  Forall (fun p => pixel p < m_cur_src_y e) l ->
  exists row e1,
    resample_y e = Some e1
    /\ get_line e = Some (Some row, set_cur_dst_y (m_cur_dst_y e + 1) e1).
Proof.
  intros Hwf Hfl Hly Hl Hput.
  destruct (current_list_facts e lists_y l Hwf Hly Hl) as (Hne & Hlr & Hocc).
  destruct (get_line_wf_cases e Hwf) as [_ Hrun].
  destruct (Hrun Hne) as (ly & l0 & flag & Hly0 & Hl0 & Hf & _ & Hready).
  rewrite Hly in Hly0. injection Hly0 as <-.
  rewrite Hl in Hl0. injection Hl0 as <-.
  destruct Hready as (row & e1 & Hy & _ & Hg & _).
  - rewrite Exists_exists. intros (p & Hp & Hfalse).
    rewrite Forall_forall in Hput, Hlr, Hocc.
    pose proof (Hfl lists_y flag (pixel p) Hly Hf) as Htrue.
    rewrite Htrue in Hfalse; [discriminate | | apply Hocc, Hp].
    specialize (Hput p Hp). specialize (Hlr p Hp). lia.
  - exists row, e1. auto.
Qed.

(* get_line returns a line only when every contributor of the current
   destination line was put. *)
Lemma get_line_ready_only e e' (lists_y : list (Contrib_List R))
  (l : Contrib_List R) (row : list R) :
  wf e -> m_Pclist_y e = Some lists_y ->
  index lists_y (m_cur_dst_y e) = Some l ->
  get_line e = Some (Some row, e') ->
  Forall (fun p => pixel p < m_cur_src_y e) l.
Proof.
  intros Hwf Hly Hl Hg.
  destruct (current_list_facts e lists_y l Hwf Hly Hl) as (Hne & Hlr & _).
  destruct (get_line_wf_cases e Hwf) as [_ Hrun].
  destruct (Hrun Hne) as (ly & l0 & flag & Hly0 & Hl0 & Hf & Hwait & _).
  rewrite Hly in Hly0. injection Hly0 as <-.
  rewrite Hl in Hl0. injection Hl0 as <-.
  pose proof Hwf as (_ & _ & _ & _ & _ & _
                     & (ly' & _ & (count & flag0 & scan & _ & Hf0 & _
                                   & Hpool))).
  rewrite Hf in Hf0. injection Hf0 as <-.
  pose proof (pool_flag_length _ _ _ _ _ _ _ Hpool) as Hflen.
  assert (Hnex : ~ Exists (fun p => index flag (pixel p) = Some false) l).
  { intros Hex. rewrite (Hwait Hex) in Hg. discriminate. }
  pose proof (all_present_true e l flag Hf
                (all_present_ready e l flag Hf Hflen Hlr Hnex)) as Hall.
  rewrite Forall_forall in Hall, Hlr. apply Forall_forall. intros p Hp.
  destruct (pool_present _ _ _ _ _ _ _ Hpool _ (Hall p Hp)) as [i Hi].
  specialize (Hlr p Hp).
  destruct (pool_tag _ _ _ _ _ _ _ Hpool i (pixel p) Hi ltac:(lia))
    as (Hlt & _).
  lia.
Qed.

End Readiness_cases.

Section Readiness_protocol.

Context {R : Type} `{Real_Ops R} `{Libm R}.

Variable MAX_SCAN_BUF_SIZE : Z.
Variable RESAMPLER_DEFAULT_FILTER : string.

Variables (src_x src_y dst_x dst_y : Z) (op : Boundary_Op) (lo hi : R).
Variables (Pfilter_name : option string).
Variables (Pclist_x Pclist_y : option (list (Contrib_List R))).
Variables (fxs fys ofx ofy : R) (heap : Heap).

(* The engine e0 is what the constructor returns, with status
   STATUS_OKAY and well formed contributor lists. *)
Variable e0 : Resampler R.
Hypothesis Hnew :
  Resampler_new MAX_SCAN_BUF_SIZE RESAMPLER_DEFAULT_FILTER src_x src_y dst_x
    dst_y op lo hi Pfilter_name Pclist_x Pclist_y fxs fys ofx ofy heap
  = Some e0.
Hypothesis Hokay : m_status e0 = STATUS_OKAY.
Hypothesis Hlists : lists_ok e0.

Lemma reachable_flags (cs : list (Call R)) (e : Resampler R) :
  run cs e0 = Some e -> allocations_succeed cs = true ->
  wf e /\ flags_set e.
Proof.
  intros Hrun Halloc.
  apply (run_flags cs e0 e); [| | exact Hrun | exact Halloc].
  - eapply Resampler_new_wf; eauto.
  - destruct (Resampler_new_okay _ _ _ _ _ _ _ _ _ _ _ _ _ _ _ _ _ _ Hnew
                Hokay)
      as (lists_x & lists_y & count & x_ops & y_ops & _ & _ & _ & _ & _ & _
          & He).
    rewrite He. intros ly flag s _ _ Hs. cbn in Hs. lia.
Qed.

(** X19: when a destination line is ready.  On a constructed engine that
    was driven by put_line, get_line and restart calls in which every
    allocation succeeded, and with destination lines left, get_line returns
    a line exactly when every source line in the contributor list of the
    current destination line has been put, that is, lies below
    cur_src_y. *)
Theorem get_line_ready_iff (cs : list (Call R)) (e : Resampler R)
    (lists_y : list (Contrib_List R)) (l : Contrib_List R) :
  run cs e0 = Some e -> allocations_succeed cs = true ->
  m_Pclist_y e = Some lists_y ->
  index lists_y (m_cur_dst_y e) = Some l ->
  (exists row e', get_line e = Some (Some row, e'))
  <-> Forall (fun p => pixel p < m_cur_src_y e) l.
Proof.
  intros Hrun Halloc Hly Hl.
  destruct (reachable_flags cs e Hrun Halloc) as [Hwf Hfl]. split.
  - intros (row & e' & Hg).
    exact (get_line_ready_only e e' lists_y l row Hwf Hly Hl Hg).
  - intros Hput.
    destruct (get_line_ready e lists_y l Hwf Hfl Hly Hl Hput)
      as (row & e1 & _ & Hg).
    eauto.
Qed.

(** X20: the end of the stream.  On a constructed engine that was driven
    by calls in which every allocation succeeded, once all src_y source
    lines have been put, get_line returns a line as long as destination
    lines are left; the line has dst_x samples, cur_dst_y advances by one
    and cur_src_y stays at src_y, so that the remaining lines follow on the
    next calls. *)
Theorem get_line_after_last_put (cs : list (Call R)) (e : Resampler R) :
  run cs e0 = Some e -> allocations_succeed cs = true ->
  m_cur_src_y e = m_resample_src_y e ->
  m_cur_dst_y e <> m_resample_dst_y e ->
  exists row e',
    get_line e = Some (Some row, e')
    /\ Z.of_nat (length row) = m_resample_dst_x e
    /\ m_cur_dst_y e' = m_cur_dst_y e + 1
    /\ m_cur_src_y e' = m_resample_src_y e'.
Proof.
  intros Hrun Halloc Hall Hne.
  destruct (reachable_flags cs e Hrun Halloc) as [Hwf Hfl].
  destruct (get_line_wf_cases e Hwf) as [_ Hmore].
  destruct (Hmore Hne) as (ly & l & flag & Hly & Hl & Hf & _ & Hready).
  destruct (current_list_facts e ly l Hwf Hly Hl) as (_ & Hlr & _).
  destruct (get_line_ready e ly l Hwf Hfl Hly Hl) as (row & e1 & Hy & Hg).
  { eapply Forall_impl; [exact Hlr |]. intros p Hp. cbv beta in Hp. lia. }
  destruct Hready as (row' & e1' & Hy' & Hrow & Hg' & Hlen & _).
  { intros Hex. apply Exists_exists in Hex as (p & Hp & Hfalse).
    rewrite Forall_forall in Hlr.
    destruct (current_list_facts e ly l Hwf Hly Hl) as (_ & _ & Hocc).
    rewrite Forall_forall in Hocc.
    rewrite (Hfl ly flag (pixel p) Hly Hf) in Hfalse;
      [discriminate | | apply Hocc, Hp].
    specialize (Hlr p Hp). lia. }
  rewrite Hg' in Hg. injection Hg as <- _.
  rewrite Hy in Hy'. injection Hy' as <-.
  exists row', (set_cur_dst_y (m_cur_dst_y e + 1) e1).
  split; [exact Hg' |]. split; [exact Hlen |].
  pose proof (resample_y_frame _ _ Hy) as (Hplan & _ & Hcs & _).
  apply plan_fields in Hplan as (_ & Hsy & _).
  split; [destruct e1; reflexivity |].
  transitivity (m_cur_src_y e1); [destruct e1; reflexivity |].
  transitivity (m_resample_src_y e1); [congruence |].
  destruct e1; reflexivity.
Qed.

End Readiness_protocol.

(* X19 at a concrete engine: after the first line of [fresh_2x2] was put,
   destination line 0, whose only contributor is source line 0, is
   returned. *)
Lemma get_line_ready_iff_witness :
  exists e0 e row e',
    Examples.fresh_2x2 = Some e0
    /\ Examples.run32 [Put [Examples.lit 1; Examples.lit 2] true] e0 = Some e
    /\ @get_line _ IEEE.binary32 e = Some (Some row, e').
Proof.
  fresh_2x2_engine e0 Hnew Hst Hl.
  pose (cs := [@Put spec_float [Examples.lit 1; Examples.lit 2] true]).
  run_engine cs e0 e Hrun.
  match eval vm_compute in (m_Pclist_y e) with
  | Some ?v => pose (ly := v)
  end.
  match eval vm_compute in (index ly (m_cur_dst_y e)) with
  | Some ?v => pose (l := v)
  end.
  assert (Hly : m_Pclist_y e = Some ly) by reflexivity.
  assert (Hidx : index ly (m_cur_dst_y e) = Some l) by reflexivity.
  assert (Hput : Forall (fun p => pixel p < m_cur_src_y e) l)
    by (repeat constructor).
  pose proof (get_line_ready_iff _ _ _ _ _ _ _ _ _ _ _ _ _ _ _ _ _ _ Hnew Hst
                Hl cs e ly l Hrun eq_refl Hly Hidx) as Hiff.
  destruct Hiff as [_ Hready].
  destruct (Hready Hput) as (row & e' & Hg).
  exists e0, e, row, e'.
  split; [vm_compute; reflexivity |]. split; [vm_compute; reflexivity |].
  exact Hg.
Defined.

(* X20 at a concrete engine: both lines of [fresh_2x2] were put and
   destination line 0 was pulled; destination line 1 follows. *)
Lemma get_line_after_last_put_witness :
  exists e0 e row e',
    Examples.fresh_2x2 = Some e0
    /\ Examples.run32
         [Put [Examples.lit 1; Examples.lit 2] true;
          Put [Examples.lit 3; Examples.lit 4] true; Get] e0 = Some e
    /\ @get_line _ IEEE.binary32 e = Some (Some row, e')
    /\ m_cur_dst_y e' = 2.
Proof.
  fresh_2x2_engine e0 Hnew Hst Hl.
  pose (cs := [Put [Examples.lit 1; Examples.lit 2] true;
               Put [Examples.lit 3; Examples.lit 4] true; @Get spec_float]).
  run_engine cs e0 e Hrun.
  assert (Hall : m_cur_src_y e = m_resample_src_y e) by reflexivity.
  assert (Hne : m_cur_dst_y e <> m_resample_dst_y e) by (cbv; discriminate).
  pose proof (get_line_after_last_put _ _ _ _ _ _ _ _ _ _ _ _ _ _ _ _ _ _ Hnew
                Hst Hl cs e Hrun eq_refl Hall Hne) as Hget.
  destruct Hget as (row & e' & Hg & _ & Hd & _).
  exists e0, e, row, e'.
  split; [vm_compute; reflexivity |]. split; [vm_compute; reflexivity |].
  split; [exact Hg | exact Hd].
Defined.
